(** * Voice-Med-Mitr: the conversation / triage core

    A shallow embedding of the TypeScript triage core (risk classifier,
    safety guardian, language analyzer, ambiguity scorer and session
    controller) together with the properties stated about it.

    Conventions of the embedding.
    - A JavaScript [number] is a rational ([Q]); the arithmetic of the
      code is written with the same operations in the same order.
    - A JavaScript string is a [string] of 8-bit characters; case
      conversion and the character classes of the regular expressions
      cover the ASCII range.
    - Enumerations are inductive types, interfaces are records, [null]
      and absent optional fields are [None].
    - A [Map] or [Set] that the code only iterates over is the list of
      its entries in insertion order; a [Map] that the code looks up by
      key is a [gmap]. The session store is a [gmap] from session
      identifiers to object references into a heap, since the code
      mutates the session record through such a reference.
    - [Math.random] and [new Date()] are explicit arguments. *)

From Stdlib Require Import QArith Qminmax Qround Lqa String Ascii.
From stdpp Require Import gmap strings list pretty.

Open Scope string_scope.

(* ================================================================== *)
(** ** JavaScript strings *)
(* ================================================================== *)

Module JS.

Definition code (c : ascii) : nat := nat_of_ascii c.

Definition isUpper (c : ascii) : bool := (65 <=? code c)%nat && (code c <=? 90)%nat.
Definition isLower (c : ascii) : bool := (97 <=? code c)%nat && (code c <=? 122)%nat.
Definition isDigit (c : ascii) : bool := (48 <=? code c)%nat && (code c <=? 57)%nat.

(** [\w] *)
Definition isWord (c : ascii) : bool :=
  isUpper c || isLower c || isDigit c || (code c =? 95)%nat.

(** [\s], and the characters removed by [trim] *)
Definition isSpace (c : ascii) : bool :=
  ((9 <=? code c)%nat && (code c <=? 13)%nat) || (code c =? 32)%nat.

(** the characters that [.] does not match *)
Definition isLineTerminator (c : ascii) : bool :=
  (code c =? 10)%nat || (code c =? 13)%nat.

Definition toLowerChar (c : ascii) : ascii :=
  if isUpper c then ascii_of_nat (code c + 32) else c.

Fixpoint toLowerCase (s : string) : string :=
  match s with
  | EmptyString => EmptyString
  | String c r => String (toLowerChar c) (toLowerCase r)
  end.

(** [s.startsWith(k)] *)
Definition startsWith (s k : string) : bool := String.prefix k s.

(** [s.includes(k)] *)
Fixpoint includes (s k : string) : bool :=
  if startsWith s k then true
  else match s with
       | EmptyString => false
       | String _ r => includes r k
       end.

(** the same test under the [i] flag *)
Definition includesCI (s k : string) : bool :=
  includes (toLowerCase s) (toLowerCase k).

(** [s.substring(0, n)] *)
Fixpoint take (n : nat) (s : string) : string :=
  match n, s with
  | S n', String c r => String c (take n' r)
  | _, _ => EmptyString
  end.

Fixpoint drop (n : nat) (s : string) : string :=
  match n, s with
  | S n', String _ r => drop n' r
  | _, _ => s
  end.

Fixpoint trimStart (s : string) : string :=
  match s with
  | String c r => if isSpace c then trimStart r else s
  | EmptyString => EmptyString
  end.

Fixpoint rev_acc (s acc : string) : string :=
  match s with
  | EmptyString => acc
  | String c r => rev_acc r (String c acc)
  end.

Definition rev (s : string) : string := rev_acc s EmptyString.

Definition trimEnd (s : string) : string := rev (trimStart (rev s)).

(** [s.trim()] *)
Definition trim (s : string) : string := trimEnd (trimStart s).

(** [s.split(' ').length]: one more than the number of spaces *)
Fixpoint countSpaces (s : string) : nat :=
  match s with
  | EmptyString => 0
  | String c r => (if (code c =? 32)%nat then 1 else 0) + countSpaces r
  end.

Definition splitSpaceLength (s : string) : nat := S (countSpaces s).

(** [xs.join(sep)] *)
Fixpoint join (sep : string) (xs : list string) : string :=
  match xs with
  | [] => EmptyString
  | [x] => x
  | x :: rest => x ++ sep ++ join sep rest
  end.

(** a string in a condition: the empty string is falsy *)
Definition truthy (s : string) : bool :=
  match s with EmptyString => false | _ => true end.

(** [s.replace(new RegExp(k, 'gi'), by)] for a pattern [k] of plain
    characters: every occurrence, from the left, without overlap. The
    fuel is the length of the text, enough for every position. *)
Fixpoint replaceAllCI_go (fuel : nat) (s k by_ : string) : string :=
  match fuel with
  | O => s
  | S fuel' =>
      match s with
      | EmptyString => EmptyString
      | String c r =>
          if startsWith (toLowerCase s) (toLowerCase k)
          then by_ ++ replaceAllCI_go fuel' (drop (String.length k) s) k by_
          else String c (replaceAllCI_go fuel' r k by_)
      end
  end.

Definition replaceAllCI (s k by_ : string) : string :=
  match k with
  | EmptyString => s
  | _ => replaceAllCI_go (String.length s) s k by_
  end.

(** the maximal run of [\w] characters at the head of a string *)
Fixpoint wordRun (s : string) : string * string :=
  match s with
  | String c r =>
      if isWord c then let '(w, rest) := wordRun r in (String c w, rest)
      else (EmptyString, s)
  | EmptyString => (EmptyString, EmptyString)
  end.

(** [s.replace(/\b<p>\b/gi, by)] where the pattern [p] matches word
    characters only: between two [\b] the match is one whole maximal
    word, so the text is cut into words and every word that [p]
    accepts is replaced. *)
Fixpoint replaceWords_go (fuel : nat) (accepts : string -> bool)
         (s by_ : string) : string :=
  match fuel with
  | O => s
  | S fuel' =>
      match s with
      | EmptyString => EmptyString
      | String c r =>
          if isWord c then
            let '(w, rest) := wordRun s in
            (if accepts w then by_ else w) ++ replaceWords_go fuel' accepts rest by_
          else String c (replaceWords_go fuel' accepts r by_)
      end
  end.

Definition replaceWords (accepts : string -> bool) (s by_ : string) : string :=
  replaceWords_go (String.length s) accepts s by_.

(** [/\b\w+<suffix>\b/i] on one word *)
Definition wordEndsWith (suffix w : string) : bool :=
  (String.length suffix <? String.length w)%nat
  && String.eqb (toLowerCase (drop (String.length w - String.length suffix) w))
                (toLowerCase suffix).

(** [/\b<k>\b/i] on one word *)
Definition wordIs (k w : string) : bool :=
  String.eqb (toLowerCase w) (toLowerCase k).

(** the text before and after the first occurrence of [k] in [s] *)
Fixpoint cutAt (s k : string) : option (string * string) :=
  if startsWith s k then Some (EmptyString, drop (String.length k) s)
  else match s with
       | EmptyString => None
       | String c r =>
           match cutAt r k with
           | Some (before, after) => Some (String c before, after)
           | None => None
           end
       end.

(** the replacement text of [replace] for a pattern that is a string:
    [$$] is a dollar sign, [$&] the matched text, [$`] the text before
    the match and [$'] the text after it; there are no groups, so a
    dollar sign before anything else stands for itself *)
Fixpoint substitution (by_ matched before after : string) : string :=
  match by_ with
  | EmptyString => EmptyString
  | String c r =>
      if (code c =? 36)%nat then
        match r with
        | String d r' =>
            if (code d =? 36)%nat then String c (substitution r' matched before after)
            else if (code d =? 38)%nat then matched ++ substitution r' matched before after
            else if (code d =? 96)%nat then before ++ substitution r' matched before after
            else if (code d =? 39)%nat then after ++ substitution r' matched before after
            else String c (substitution r matched before after)
        | EmptyString => String c EmptyString
        end
      else String c (substitution r matched before after)
  end.

(** [s.replace(k, by)] for a string [k]: the first occurrence only *)
Definition replaceFirst (s k by_ : string) : string :=
  match cutAt s k with
  | Some (before, after) => before ++ substitution by_ k before after ++ after
  | None => s
  end.

(** [xs.slice(-n)] *)
Definition lastn {A} (n : nat) (xs : list A) : list A :=
  List.skipn (length xs - n) xs.

End JS.

(* ================================================================== *)
(** ** JavaScript numbers *)
(* ================================================================== *)

Module Num.

Local Open Scope Q_scope.

(** [xs.length] as a number *)
Definition lengthQ {A} (l : list A) : Q := inject_Z (Z.of_nat (length l)).

(** [a < b] *)
Definition Qltb (a b : Q) : bool := negb (Qle_bool b a).

(** [total / xs.length] where [total] was added up over [xs]: on the
    empty list this is [0 / 0], that is [NaN], written [None] *)
Definition divLength {A} (total : Q) (l : list A) : option Q :=
  match l with
  | [] => None
  | _ => Some (total / lengthQ l)
  end.

(** [x < bound]; a comparison with [NaN] is false *)
Definition ltNaN (x : option Q) (bound : Q) : bool :=
  match x with Some a => Qltb a bound | None => false end.

(** [Math.round(x)] *)
Definition round (x : Q) : Z := Qfloor (x + 0.5).

End Num.

(* ================================================================== *)
(** ** Core data types (types/index.ts) *)
(* ================================================================== *)

Module SeverityLevel.
Inductive t := MILD | MODERATE | SEVERE.

Definition eqb (a b : t) : bool :=
  match a, b with
  | MILD, MILD | MODERATE, MODERATE | SEVERE, SEVERE => true
  | _, _ => false
  end.

(** the string value of the enum member *)
Definition value (a : t) : string :=
  match a with MILD => "mild" | MODERATE => "moderate" | SEVERE => "severe" end.
End SeverityLevel.

Module UserIntent.
Inductive t :=
  DESCRIBE_SYMPTOMS | ASK_CLARIFICATION | END_SESSION | REQUEST_HELP | UNKNOWN.
End UserIntent.

Module RiskLevel.
Inductive t := MILD | MODERATE | EMERGENCY.

Definition eqb (a b : t) : bool :=
  match a, b with
  | MILD, MILD | MODERATE, MODERATE | EMERGENCY, EMERGENCY => true
  | _, _ => false
  end.

Definition value (a : t) : string :=
  match a with MILD => "mild" | MODERATE => "moderate" | EMERGENCY => "emergency" end.
End RiskLevel.

Module SessionStatus.
Inductive t := ACTIVE | COMPLETED | EXPIRED | TERMINATED.
End SessionStatus.

Record Duration := { d_value : Q; d_unit : string }.

Record SymptomEntity := {
  symptom : string;
  bodyPart : option string;
  severity : SeverityLevel.t;
  duration : option Duration;
  confidence : Q
}.

Record RiskAssessment := {
  level : RiskLevel.t;
  ra_confidence : Q;
  reasoning : list string;
  recommendations : list string
}.

Record SessionContext := {
  sc_symptoms : list SymptomEntity;
  questionsAsked : nat;
  riskLevel : option RiskLevel.t;
  sessionDuration : Z
}.

(** [Partial<SessionContext>]: every field may be absent *)
Record PartialSessionContext := {
  pc_symptoms : option (list SymptomEntity);
  pc_questionsAsked : option nat;
  pc_riskLevel : option RiskLevel.t;
  pc_sessionDuration : option Z
}.

Inductive TurnType := user_input | system_response | clarification_question.

Record ConversationTurn := {
  timestamp : Z;
  turnType : TurnType;
  content : string;
  processedSymptoms : option (list SymptomEntity)
}.

Record HealthSession := {
  hs_id : string;
  startTime : Z;
  endTime : option Z;
  hs_symptoms : list SymptomEntity;
  riskAssessment : option RiskAssessment;
  conversationHistory : list ConversationTurn;
  status : SessionStatus.t
}.

(* ================================================================== *)
(** ** Configuration (config/constants.ts) *)
(* ================================================================== *)

Definition MAX_FOLLOW_UP_QUESTIONS : nat := 5.

Module PRIVACY_SETTINGS.
Definition sessionTimeout : Z := 1800.
End PRIVACY_SETTINGS.

Module SAFETY_CONSTRAINTS.
Definition emergencyKeywords : list string :=
  [ "chest pain"; "difficulty breathing"; "severe bleeding";
    "unconscious"; "stroke"; "heart attack"; "allergic reaction";
    "severe headache"; "can't breathe"; "choking" ].

Definition prohibitedAdvice : list string :=
  [ "take medication"; "dosage"; "prescription"; "drug";
    "medicine name"; "pills"; "tablets" ].

Definition requiredDisclaimers : list string :=
  [ "This system does not provide medical diagnosis";
    "Please consult a healthcare professional for medical advice";
    "In case of emergency, contact emergency services immediately" ].
End SAFETY_CONSTRAINTS.

(* ================================================================== *)
(** ** Risk classification engine (core/RiskClassifierImpl.ts) *)
(* ================================================================== *)

Module RiskClassifierImpl.

Local Open Scope Q_scope.

Record DurationRange := { min : Q; max : Q; dr_unit : string }.

Record SymptomCondition := {
  c_symptom : string;
  c_severity : option SeverityLevel.t;
  c_bodyPart : option string;
  c_duration : option DurationRange;
  required : bool
}.

Record RiskRule := {
  conditions : list SymptomCondition;
  r_riskLevel : RiskLevel.t;
  r_confidence : Q;
  r_reasoning : list string;
  r_recommendations : list string
}.

(** the private fields of the class *)
Record t := {
  riskRules : list RiskRule;
  emergencyKeywords : list string;
  symptomSeverityMap : gmap string RiskLevel.t
}.

Definition cond (s : string) (sev : option SeverityLevel.t)
           (dur : option DurationRange) (req : bool) : SymptomCondition :=
  {| c_symptom := s; c_severity := sev; c_bodyPart := None;
     c_duration := dur; required := req |}.

Definition initializeRiskRules : list RiskRule :=
  [ (* Emergency Rules *)
    {| conditions := [ cond "chest pain" (Some SeverityLevel.SEVERE) None true ];
       r_riskLevel := RiskLevel.EMERGENCY;
       r_confidence := 0.9;
       r_reasoning := [ "Severe chest pain can indicate heart attack or other cardiac emergency" ];
       r_recommendations := [ "Contact emergency services immediately";
                              "Do not drive yourself to hospital" ] |};
    {| conditions := [ cond "shortness of breath" (Some SeverityLevel.SEVERE) None true ];
       r_riskLevel := RiskLevel.EMERGENCY;
       r_confidence := 0.9;
       r_reasoning := [ "Severe breathing difficulty requires immediate medical attention" ];
       r_recommendations := [ "Call emergency services now";
                              "Sit upright and try to stay calm" ] |};
    {| conditions := [ cond "headache" (Some SeverityLevel.SEVERE) None true;
                       cond "fever" None None false ];
       r_riskLevel := RiskLevel.EMERGENCY;
       r_confidence := 0.8;
       r_reasoning := [ "Severe headache with fever may indicate serious infection" ];
       r_recommendations := [ "Seek immediate medical attention"; "Go to emergency room" ] |};
    (* Moderate Risk Rules *)
    {| conditions := [ cond "fever" (Some SeverityLevel.MODERATE) None true;
                       cond "cough" None None false ];
       r_riskLevel := RiskLevel.MODERATE;
       r_confidence := 0.7;
       r_reasoning := [ "Moderate fever with respiratory symptoms may indicate infection" ];
       r_recommendations := [ "Consult healthcare provider within 24 hours";
                              "Monitor temperature regularly" ] |};
    {| conditions := [ cond "stomach pain" (Some SeverityLevel.MODERATE) None true;
                       cond "nausea" None None false ];
       r_riskLevel := RiskLevel.MODERATE;
       r_confidence := 0.6;
       r_reasoning := [ "Persistent stomach pain with nausea should be evaluated" ];
       r_recommendations := [ "Schedule appointment with doctor";
                              "Avoid solid foods temporarily" ] |};
    {| conditions := [ cond "headache" (Some SeverityLevel.MODERATE) None true;
                       cond "headache" None
                            (Some {| min := 2; max := 999; dr_unit := "days" |}) false ];
       r_riskLevel := RiskLevel.MODERATE;
       r_confidence := 0.6;
       r_reasoning := [ "Persistent moderate headache may require medical evaluation" ];
       r_recommendations := [ "Consider seeing healthcare provider"; "Keep headache diary" ] |};
    (* Mild Risk Rules *)
    {| conditions := [ cond "headache" (Some SeverityLevel.MILD) None true ];
       r_riskLevel := RiskLevel.MILD;
       r_confidence := 0.7;
       r_reasoning := [ "Mild headache is usually manageable with self-care" ];
       r_recommendations := [ "Rest and hydration"; "Over-the-counter pain relief if needed" ] |};
    {| conditions := [ cond "sore throat" (Some SeverityLevel.MILD) None true ];
       r_riskLevel := RiskLevel.MILD;
       r_confidence := 0.7;
       r_reasoning := [ "Mild sore throat often resolves with home care" ];
       r_recommendations := [ "Warm salt water gargle"; "Stay hydrated"; "Rest your voice" ] |};
    {| conditions := [ cond "runny nose" None None true ];
       r_riskLevel := RiskLevel.MILD;
       r_confidence := 0.8;
       r_reasoning := [ "Runny nose typically indicates minor cold or allergies" ];
       r_recommendations := [ "Rest and fluids"; "Saline nasal rinse";
                              "Monitor for worsening" ] |} ].

Definition initializeEmergencyKeywords : list string :=
  (SAFETY_CONSTRAINTS.emergencyKeywords ++
   [ "unconscious"; "can't breathe"; "choking"; "severe bleeding";
     "stroke symptoms"; "heart attack"; "allergic reaction";
     "severe pain"; "difficulty swallowing"; "confusion";
     "loss of consciousness"; "severe dizziness"; "fainting" ])%list.

Definition initializeSymptomSeverityMap : gmap string RiskLevel.t :=
  list_to_map
    [ (* Emergency symptoms *)
      ("chest pain", RiskLevel.EMERGENCY);
      ("shortness of breath", RiskLevel.EMERGENCY);
      ("difficulty breathing", RiskLevel.EMERGENCY);
      (* Moderate symptoms *)
      ("fever", RiskLevel.MODERATE);
      ("stomach pain", RiskLevel.MODERATE);
      ("dizziness", RiskLevel.MODERATE);
      ("fatigue", RiskLevel.MODERATE);
      (* Mild symptoms *)
      ("headache", RiskLevel.MILD);
      ("sore throat", RiskLevel.MILD);
      ("runny nose", RiskLevel.MILD);
      ("cough", RiskLevel.MILD);
      ("nausea", RiskLevel.MILD) ].

(** [new RiskClassifierImpl()] *)
Definition new : t :=
  {| riskRules := initializeRiskRules;
     emergencyKeywords := initializeEmergencyKeywords;
     symptomSeverityMap := initializeSymptomSeverityMap |}.

Section Methods.
Variable this : t.

(** the inner loop of [checkEmergencyConditions]: the first keyword
    found in the symptom's name *)
Definition emergencyKeywordIn (s : SymptomEntity) : option string :=
  List.find (fun keyword =>
               JS.includes (JS.toLowerCase (symptom s)) (JS.toLowerCase keyword))
            (emergencyKeywords this).

Fixpoint emergencyKeywordScan (symptoms : list SymptomEntity) : option string :=
  match symptoms with
  | [] => None
  | s :: rest =>
      match emergencyKeywordIn s with
      | Some keyword => Some keyword
      | None => emergencyKeywordScan rest
      end
  end.

Definition isCritical (s : SymptomEntity) : bool :=
  (JS.includes (symptom s) "chest" && SeverityLevel.eqb (severity s) SeverityLevel.SEVERE)
  || (JS.includes (symptom s) "breath" && SeverityLevel.eqb (severity s) SeverityLevel.SEVERE)
  || (JS.includes (symptom s) "heart" && SeverityLevel.eqb (severity s) SeverityLevel.SEVERE).

Definition checkEmergencyConditions (symptoms : list SymptomEntity)
  : option RiskAssessment :=
  match emergencyKeywordScan symptoms with
  | Some keyword =>
      Some {| level := RiskLevel.EMERGENCY;
              ra_confidence := 0.95;
              reasoning := [ "Emergency keyword detected: " ++ keyword ];
              recommendations := [ "Contact emergency services immediately";
                                   "Do not delay seeking medical attention" ] |}
  | None =>
      let criticalSymptoms := List.filter isCritical symptoms in
      if (0 <? length criticalSymptoms)%nat then
        Some {| level := RiskLevel.EMERGENCY;
                ra_confidence := 0.9;
                reasoning := [ "Severe symptoms in critical body systems detected" ];
                recommendations :=
                  [ "Seek immediate emergency medical care";
                    "Call emergency services or go to nearest emergency room" ] |}
      else None
  end.

Definition convertToHours (d : Duration) : Q :=
  if String.eqb (d_unit d) "minutes" then d_value d / 60
  else if String.eqb (d_unit d) "hours" then d_value d
  else if String.eqb (d_unit d) "days" then d_value d * 24
  else if String.eqb (d_unit d) "weeks" then d_value d * 24 * 7
  else d_value d.

Definition checkDurationMatch (symptomDuration : Duration)
           (conditionDuration : DurationRange) : bool :=
  let symptomHours := convertToHours symptomDuration in
  let minHours := convertToHours {| d_value := min conditionDuration;
                                    d_unit := dr_unit conditionDuration |} in
  let maxHours := convertToHours {| d_value := max conditionDuration;
                                    d_unit := dr_unit conditionDuration |} in
  Qle_bool minHours symptomHours && Qle_bool symptomHours maxHours.

Definition matchingSymptoms (symptoms : list SymptomEntity)
           (condition : SymptomCondition) : list SymptomEntity :=
  List.filter (fun s => JS.includes (JS.toLowerCase (symptom s))
                                    (JS.toLowerCase (c_symptom condition)))
              symptoms.

(** the score of one condition against the first symptom matching it *)
Definition conditionScore (condition : SymptomCondition) (s : SymptomEntity) : Q :=
  let score := 0.5 in
  let score :=
    match c_severity condition with
    | Some sev => if SeverityLevel.eqb (severity s) sev then score + 0.3 else score
    | None => score
    end in
  let score :=
    match c_bodyPart condition, bodyPart s with
    | Some cb, Some sb =>
        if JS.truthy cb && String.eqb sb cb then score + 0.2 else score
    | _, _ => score
    end in
  let score :=
    match c_duration condition, duration s with
    | Some cd, Some sd => if checkDurationMatch sd cd then score + 0.2 else score
    | _, _ => score
    end in
  score.

(** the loop of [calculateRuleMatch]; [None] is the early [return 0] *)
Fixpoint ruleMatchLoop (symptoms : list SymptomEntity)
         (conds : list SymptomCondition) (totalScore : Q) (requiredMatches : nat)
  : option (Q * nat) :=
  match conds with
  | [] => Some (totalScore, requiredMatches)
  | condition :: rest =>
      match matchingSymptoms symptoms condition with
      | s :: _ =>
          ruleMatchLoop symptoms rest
            (totalScore + Qmin (conditionScore condition s) 1.0)
            (if required condition then S requiredMatches else requiredMatches)
      | [] =>
          if required condition then None
          else ruleMatchLoop symptoms rest totalScore requiredMatches
      end
  end.

(** the result is a number, [None] when it is [NaN] *)
Definition calculateRuleMatch (symptoms : list SymptomEntity) (rule : RiskRule)
  : option Q :=
  let requiredConditions := length (List.filter required (conditions rule)) in
  match ruleMatchLoop symptoms (conditions rule) 0 0 with
  | None => Some 0
  | Some (totalScore, requiredMatches) =>
      if (requiredMatches <? requiredConditions)%nat then Some 0
      else Num.divLength totalScore (conditions rule)
  end.

(** one iteration of the loop of [applyRiskRules]; the score kept in
    [bestMatch] has passed [matchScore > 0.5], so it is not [NaN] *)
Definition bestMatchStep (symptoms : list SymptomEntity)
           (bestMatch : option (RiskRule * Q)) (rule : RiskRule)
  : option (RiskRule * Q) :=
  match calculateRuleMatch symptoms rule with
  | Some matchScore =>
      if Num.Qltb 0.5 matchScore
         && match bestMatch with
            | None => true
            | Some (_, best) => Num.Qltb best matchScore
            end
      then Some (rule, matchScore)
      else bestMatch
  | None => bestMatch
  end.

Definition bestMatchOf (symptoms : list SymptomEntity) (rules : list RiskRule)
  : option (RiskRule * Q) :=
  List.fold_left (bestMatchStep symptoms) rules None.

Definition applyRiskRules (symptoms : list SymptomEntity) : option RiskAssessment :=
  match bestMatchOf symptoms (riskRules this) with
  | Some (rule, matchScore) =>
      let adjustedConfidence := r_confidence rule * matchScore in
      Some {| level := r_riskLevel rule;
              ra_confidence := adjustedConfidence;
              reasoning := r_reasoning rule;
              recommendations := r_recommendations rule |}
  | None => None
  end.

Definition escalateRiskLevel (currentLevel : RiskLevel.t) : RiskLevel.t :=
  match currentLevel with
  | RiskLevel.MILD => RiskLevel.MODERATE
  | RiskLevel.MODERATE => RiskLevel.EMERGENCY
  | RiskLevel.EMERGENCY => RiskLevel.EMERGENCY
  end.

Definition getRiskLevelPriority (l : RiskLevel.t) : nat :=
  match l with
  | RiskLevel.MILD => 1
  | RiskLevel.MODERATE => 2
  | RiskLevel.EMERGENCY => 3
  end.

(** [symptomSeverityMap.get(name) || RiskLevel.MILD] *)
Definition baseRiskOf (s : SymptomEntity) : RiskLevel.t :=
  default RiskLevel.MILD (symptomSeverityMap this !! symptom s).

Definition adjustedRiskOf (s : SymptomEntity) : RiskLevel.t :=
  let baseRisk := baseRiskOf s in
  match severity s with
  | SeverityLevel.SEVERE => escalateRiskLevel baseRisk
  | SeverityLevel.MODERATE =>
      if RiskLevel.eqb baseRisk RiskLevel.MILD then RiskLevel.MODERATE else baseRisk
  | SeverityLevel.MILD => baseRisk
  end.

(** the loop of [assessBySymptomSeverity] over
    [(maxRiskLevel, totalConfidence, reasoning)]; the method is
    private and [classifyRisk], its only caller, has returned before
    on the empty list, so [symptoms.length] is positive in the
    quotient below *)
Definition severityStep (acc : RiskLevel.t * Q * list string) (s : SymptomEntity)
  : RiskLevel.t * Q * list string :=
  let '(maxRiskLevel, totalConfidence, reasons) := acc in
  let adjustedRisk := adjustedRiskOf s in
  let maxRiskLevel :=
    if (getRiskLevelPriority maxRiskLevel <? getRiskLevelPriority adjustedRisk)%nat
    then adjustedRisk else maxRiskLevel in
  let entry := symptom s ++ " (" ++ SeverityLevel.value (severity s) ++ " severity)" in
  (maxRiskLevel, totalConfidence + confidence s, (reasons ++ [ entry ])%list).

Definition assessBySymptomSeverity (symptoms : list SymptomEntity) : RiskAssessment :=
  let '(maxRiskLevel, totalConfidence, reasons) :=
    List.fold_left severityStep symptoms (RiskLevel.MILD, 0, []) in
  let recs :=
    match maxRiskLevel with
    | RiskLevel.EMERGENCY =>
        [ "Seek immediate medical attention"; "Contact emergency services" ]
    | RiskLevel.MODERATE =>
        [ "Consult healthcare provider within 24-48 hours";
          "Monitor symptoms for changes" ]
    | RiskLevel.MILD =>
        [ "Self-care measures may be appropriate";
          "Contact healthcare provider if symptoms worsen" ]
    end in
  {| level := maxRiskLevel;
     ra_confidence := Qmin (totalConfidence / Num.lengthQ symptoms) 1.0;
     reasoning := reasons;
     recommendations := recs |}.

Definition classifyRisk (symptoms : list SymptomEntity) : RiskAssessment :=
  match symptoms with
  | [] =>
      {| level := RiskLevel.MILD;
         ra_confidence := 0.3;
         reasoning := [ "No specific symptoms identified" ];
         recommendations := [ "Please describe your symptoms in more detail" ] |}
  | _ =>
      match checkEmergencyConditions symptoms with
      | Some emergencyAssessment => emergencyAssessment
      | None =>
          match applyRiskRules symptoms with
          | Some ruleBasedAssessment => ruleBasedAssessment
          | None => assessBySymptomSeverity symptoms
          end
      end
  end.

Definition getEmergencyKeywords : list string := emergencyKeywords this.

Definition requiresImmediateAttention (symptoms : list SymptomEntity) : bool :=
  let assessment := classifyRisk symptoms in
  RiskLevel.eqb (level assessment) RiskLevel.EMERGENCY.

Definition addRiskRule (rule : RiskRule) : t :=
  {| riskRules := riskRules this ++ [ rule ];
     emergencyKeywords := emergencyKeywords this;
     symptomSeverityMap := symptomSeverityMap this |}.

Definition addEmergencyKeyword (keyword : string) : t :=
  if negb (List.existsb (String.eqb keyword) (emergencyKeywords this))
  then {| riskRules := riskRules this;
          emergencyKeywords := emergencyKeywords this ++ [ keyword ];
          symptomSeverityMap := symptomSeverityMap this |}
  else this.

Definition updateSymptomSeverityMap (symptom : string) (riskLevel : RiskLevel.t) : t :=
  {| riskRules := riskRules this;
     emergencyKeywords := emergencyKeywords this;
     symptomSeverityMap := <[symptom := riskLevel]> (symptomSeverityMap this) |}.

Record DetailedRiskAnalysis := {
  assessment : RiskAssessment;
  matchedRules : list string;
  emergencyFlags : list string;
  severityFactors : list string
}.

(** the entry of [matchedRules] for a rule, if its score passes *)
Definition matchedRule (symptoms : list SymptomEntity) (rule : RiskRule)
  : list string :=
  match calculateRuleMatch symptoms rule with
  | Some matchScore =>
      if Num.Qltb 0.5 matchScore
      then [ RiskLevel.value (r_riskLevel rule) ++ " risk rule ("
             ++ pretty (Num.round (matchScore * 100)) ++ "% match)" ]
      else []
  | None => []
  end.

Definition severityFactorsOf (s : SymptomEntity) : list string :=
  ((if SeverityLevel.eqb (severity s) SeverityLevel.SEVERE
    then [ ("Severe " ++ symptom s)%string ] else [])
   ++ match duration s with
      | Some d => if Num.Qltb 24 (convertToHours d)
                  then [ ("Prolonged " ++ symptom s)%string ] else []
      | None => []
      end)%list.

Definition getDetailedRiskAnalysis (symptoms : list SymptomEntity)
  : DetailedRiskAnalysis :=
  let assessment_ := classifyRisk symptoms in
  let matchedRules_ := List.flat_map (matchedRule symptoms) (riskRules this) in
  let emergencyFlags_ :=
    List.flat_map
      (fun s => List.filter
                  (fun keyword => JS.includes (JS.toLowerCase (symptom s))
                                              (JS.toLowerCase keyword))
                  (emergencyKeywords this))
      symptoms in
  let severityFactors_ := List.flat_map severityFactorsOf symptoms in
  {| assessment := assessment_;
     matchedRules := matchedRules_;
     emergencyFlags := emergencyFlags_;
     severityFactors := severityFactors_ |}.

End Methods.

End RiskClassifierImpl.

(* ================================================================== *)
(** ** Regular expressions used with [test] *)
(* ================================================================== *)

(** The patterns that the code only tests ([pattern.test(s)], or
    [s.match(pattern)] used as a condition) are written in a small
    abstract syntax and decided with derivatives. All of them carry the
    [i] flag, so literal characters compare up to ASCII case. *)
Module RegExp.

Inductive regex :=
| Never                          (* matches nothing *)
| Eps                            (* the empty pattern *)
| Chr (p : ascii -> bool)        (* one character of a class *)
| Seq (a b : regex)
| Alt (a b : regex)
| Star (a : regex).

(** a literal character under the [i] flag *)
Definition chr (c : ascii) : regex :=
  Chr (fun x => Ascii.eqb (JS.toLowerChar x) (JS.toLowerChar c)).

(** a literal string *)
Fixpoint lit (s : string) : regex :=
  match s with
  | EmptyString => Eps
  | String c r => Seq (chr c) (lit r)
  end.

(** [(a|b|...)] *)
Fixpoint alts (rs : list regex) : regex :=
  match rs with
  | [] => Never
  | [r] => r
  | r :: rest => Alt r (alts rest)
  end.

(** [(k1|k2|...)] for literal alternatives *)
Definition oneOf (ks : list string) : regex := alts (List.map lit ks).

(** [r1 r2 ...] *)
Fixpoint seqs (rs : list regex) : regex :=
  match rs with
  | [] => Eps
  | [r] => r
  | r :: rest => Seq r (seqs rest)
  end.

Definition opt (r : regex) : regex := Alt r Eps.                 (* [r?] *)
Definition plus (r : regex) : regex := Seq r (Star r).           (* [r+] *)
Definition dot : regex := Chr (fun c => negb (JS.isLineTerminator c)).   (* [.] *)
Definition digit : regex := Chr JS.isDigit.                  (* [\d] *)
(** [[a-z\s]] under the [i] flag *)
Definition letterOrSpace : regex :=
  Chr (fun c => JS.isLower c || JS.isUpper c || JS.isSpace c).

Fixpoint nullable (r : regex) : bool :=
  match r with
  | Never => false
  | Eps => true
  | Chr _ => false
  | Seq a b => nullable a && nullable b
  | Alt a b => nullable a || nullable b
  | Star _ => true
  end.

Definition mkSeq (a b : regex) : regex :=
  match a, b with
  | Never, _ => Never
  | _, Never => Never
  | Eps, _ => b
  | _, _ => Seq a b
  end.

Definition mkAlt (a b : regex) : regex :=
  match a, b with
  | Never, _ => b
  | _, Never => a
  | _, _ => Alt a b
  end.

Fixpoint deriv (c : ascii) (r : regex) : regex :=
  match r with
  | Never => Never
  | Eps => Never
  | Chr p => if p c then Eps else Never
  | Seq a b =>
      mkAlt (mkSeq (deriv c a) b) (if nullable a then deriv c b else Never)
  | Alt a b => mkAlt (deriv c a) (deriv c b)
  | Star a => mkSeq (deriv c a) (Star a)
  end.

Definition isNever (r : regex) : bool :=
  match r with Never => true | _ => false end.

(** does a prefix of [s] match [r]? *)
Fixpoint matchesPrefix (r : regex) (s : string) : bool :=
  if nullable r then true
  else if isNever r then false
  else match s with
       | EmptyString => false
       | String c rest => matchesPrefix (deriv c r) rest
       end.

(** [r.test(s)]: does the pattern match somewhere in [s]? *)
Fixpoint test (r : regex) (s : string) : bool :=
  if matchesPrefix r s then true
  else match s with
       | EmptyString => false
       | String _ rest => test r rest
       end.

(** [patterns.some(p => p.test(s))], also the loop
    [for (p of patterns) if (p.test(s)) ...] when only the outcome of
    the first hit matters *)
Definition anyTest (patterns : list regex) (s : string) : bool :=
  List.existsb (fun p => test p s) patterns.

End RegExp.

(* ================================================================== *)
(** ** Safety guardian (core/SafetyGuardian.ts) *)
(* ================================================================== *)

Module SafetyGuardianImpl.

Local Open Scope Q_scope.

(** [new Set(xs)] as the list of its members in insertion order *)
Fixpoint setOf (xs : list string) : list string :=
  match xs with
  | [] => []
  | x :: rest =>
      x :: List.filter (fun y => negb (String.eqb y x)) (setOf rest)
  end.

Definition initializeProhibitedTerms : list string :=
  setOf (SAFETY_CONSTRAINTS.prohibitedAdvice ++
         [ "diagnosis"; "diagnose"; "disease"; "condition";
           "prescription"; "prescribe"; "medication dosage";
           "take pills"; "drug name"; "medicine name";
           "treatment plan"; "medical treatment";
           "cure"; "heal"; "fix"; "solve";
           "definitely have"; "certainly have"; "you have";
           "suffering from"; "infected with"; "sick with" ])%list.

(** the private field [prohibitedTerms] *)
Record t := { prohibitedTerms : list string }.

Definition new : t := {| prohibitedTerms := initializeProhibitedTerms |}.

Import RegExp.

Definition diagnosisPatterns : list regex :=
  [ (* /you have [a-z\s]+ disease/i *)
    seqs [ lit "you have "; plus letterOrSpace; lit " disease" ];
    (* /you are diagnosed with/i *)
    lit "you are diagnosed with";
    (* /this is definitely/i *)
    lit "this is definitely";
    (* /you suffer from/i *)
    lit "you suffer from";
    (* /you are sick with/i *)
    lit "you are sick with" ].

Definition prescriptionPatterns : list regex :=
  [ (* /take \d+.*mg/i *)
    seqs [ lit "take "; plus digit; Star dot; lit "mg" ];
    (* /prescribed? medication/i *)
    seqs [ lit "prescribe"; opt (lit "d"); lit " medication" ];
    (* /dosage of/i *)
    lit "dosage of";
    (* /take.*pills?/i *)
    seqs [ lit "take"; Star dot; lit "pill"; opt (lit "s") ];
    (* /medication.*times? per day/i *)
    seqs [ lit "medication"; Star dot; lit "time"; opt (lit "s"); lit " per day" ] ].

(** [SAFETY_CONSTRAINTS.requiredDisclaimers.some(d =>
      lower.includes(d.toLowerCase().substring(0, 20)))] *)
Definition hasDisclaimerFragment (lower : string) : bool :=
  List.existsb (fun disclaimer =>
                  JS.includes lower (JS.take 20 (JS.toLowerCase disclaimer)))
               SAFETY_CONSTRAINTS.requiredDisclaimers.

Record Validation := { isValid : bool; violations : list string }.

Section Methods.
Variable this : t.

Definition termViolations (lowerResponse : string) : list string :=
  List.map (fun term => "Contains prohibited medical term: " ++ term)
           (List.filter (fun term => JS.includes lowerResponse (JS.toLowerCase term))
                        (prohibitedTerms this)).

Definition validateResponse (response : string) : Validation :=
  let lowerResponse := JS.toLowerCase response in
  let v1 := termViolations lowerResponse in
  let v2 := if anyTest diagnosisPatterns response
            then [ "Contains diagnostic language" ] else [] in
  let v3 := if anyTest prescriptionPatterns response
            then [ "Contains prescription advice" ] else [] in
  let hasDisclaimer := hasDisclaimerFragment lowerResponse in
  let v4 := if negb hasDisclaimer && (50 <? String.length response)%nat
            then [ "Missing required medical disclaimer" ] else [] in
  let violations := (v1 ++ v2 ++ v3 ++ v4)%list in
  {| isValid := (length violations =? 0)%nat; violations := violations |}.

(** [disclaimers[Math.floor(random * disclaimers.length)]];
    [random] is the value returned by [Math.random()] *)
Definition randomPick (random : Q) (disclaimers : list string) : string :=
  let i := Qfloor (random * Num.lengthQ disclaimers) in
  if (i <? 0)%Z then "undefined"
  else List.nth (Z.to_nat i) disclaimers "undefined".

(** the two disclaimers that [addMedicalDisclaimer] selects by the
    wording of the response *)
Definition emergencyDisclaimer : string :=
  "This guidance is for informational purposes only. In emergency situations, contact emergency services immediately.".

Definition guidanceDisclaimer : string :=
  "This system provides general guidance only and cannot replace professional medical advice.".

Definition addMedicalDisclaimer (random : Q) (response : string) : string :=
  let hasDisclaimer := hasDisclaimerFragment (JS.toLowerCase response) in
  if hasDisclaimer then response
  else
    let lowerResponse := JS.toLowerCase response in
    let selectedDisclaimer :=
      if JS.includes lowerResponse "emergency" || JS.includes lowerResponse "urgent"
      then emergencyDisclaimer
      else if JS.includes lowerResponse "recommend" || JS.includes lowerResponse "suggest"
      then guidanceDisclaimer
      else randomPick random SAFETY_CONSTRAINTS.requiredDisclaimers in
    response ++ " " ++ selectedDisclaimer.

Definition replacements : list (string * string) :=
  [ ("take medication", "consider consulting a healthcare provider about treatment options");
    ("dosage", "appropriate treatment");
    ("prescription", "medical treatment");
    ("drug", "treatment");
    ("pills", "medication");
    ("tablets", "treatment");
    ("you have", "your symptoms suggest");
    ("diagnosed with", "symptoms consistent with");
    ("definitely", "possibly");
    ("certainly", "likely") ].

(** the word tests of [medicationPatterns], in order *)
Definition medicationPatterns : list (string -> bool) :=
  [ JS.wordEndsWith "cillin";     (* /\b\w+cillin\b/gi *)
    JS.wordEndsWith "prazole";    (* /\b\w+prazole\b/gi *)
    JS.wordIs "ibuprofen";        (* /\bibuprofen\b/gi *)
    JS.wordIs "acetaminophen";    (* /\bacetaminophen\b/gi *)
    JS.wordIs "aspirin";          (* /\baspirin\b/gi *)
    JS.wordIs "tylenol";          (* /\btylenol\b/gi *)
    JS.wordIs "advil" ].          (* /\badvil\b/gi *)

Definition filterProhibitedContent (text : string) : string :=
  let filteredText :=
    List.fold_left (fun acc '(prohibited, replacement) =>
                      JS.replaceAllCI acc prohibited replacement)
                   replacements text in
  List.fold_left (fun acc pattern =>
                    JS.replaceWords pattern acc "appropriate medication")
                 medicationPatterns filteredText.

Definition hasEmergencyContact (recs : list string) : bool :=
  List.existsb (fun rec =>
                  JS.includes (JS.toLowerCase rec) "911"
                  || JS.includes (JS.toLowerCase rec) "emergency services"
                  || JS.includes (JS.toLowerCase rec) "call emergency") recs.

Definition hasUrgencyMessage (recs : list string) : bool :=
  List.existsb (fun rec =>
                  JS.includes (JS.toLowerCase rec) "immediately"
                  || JS.includes (JS.toLowerCase rec) "do not delay"
                  || JS.includes (JS.toLowerCase rec) "urgent") recs.

Definition enforceEmergencyProtocol (assessment : RiskAssessment) : RiskAssessment :=
  if negb (RiskLevel.eqb (level assessment) RiskLevel.EMERGENCY) then assessment
  else
    let enhancedRecommendations := recommendations assessment in
    let enhancedRecommendations :=
      if negb (hasEmergencyContact enhancedRecommendations)
      then "Contact emergency services immediately by calling 911"
           :: enhancedRecommendations
      else enhancedRecommendations in
    let enhancedRecommendations :=
      if negb (hasUrgencyMessage enhancedRecommendations)
      then (enhancedRecommendations ++ [ "Do not delay seeking medical attention" ])%list
      else enhancedRecommendations in
    let enhancedConfidence := Qmax (ra_confidence assessment) 0.85 in
    {| level := level assessment;
       ra_confidence := enhancedConfidence;
       recommendations := enhancedRecommendations;
       reasoning := (reasoning assessment
                     ++ [ "Emergency protocol enforced by safety guardian" ])%list |}.

(** the template chosen by the [switch] of [generateFallbackResponse] *)
Definition fallbackTemplate (l : RiskLevel.t) : string :=
  match l with
  | RiskLevel.EMERGENCY =>
      "Based on your symptoms, this appears to be a serious condition requiring immediate medical attention. Please contact emergency services right away."
  | RiskLevel.MODERATE =>
      "Your symptoms suggest you should consult with a healthcare professional for proper evaluation and guidance."
  | RiskLevel.MILD =>
      "Your symptoms appear to be mild. Consider rest and monitoring your condition, but consult a healthcare provider if symptoms worsen."
  end.

Definition generateFallbackResponse (random : Q) (assessment : RiskAssessment) : string :=
  let fallback := fallbackTemplate (level assessment) in
  addMedicalDisclaimer random fallback.

(** [random1] and [random2] are the two values that [Math.random()]
    returns when it is reached in the first and in the second call
    of [addMedicalDisclaimer] *)
Definition generateSafeResponse (random1 random2 : Q)
           (originalResponse : string) (assessment : RiskAssessment) : string :=
  let safeResponse := filterProhibitedContent originalResponse in
  let safeResponse := addMedicalDisclaimer random1 safeResponse in
  let validation := validateResponse safeResponse in
  if negb (isValid validation)
  then generateFallbackResponse random2 assessment
  else safeResponse.

(** [this.prohibitedTerms.add(term.toLowerCase())] *)
Definition addProhibitedTerm (term : string) : t :=
  let x := JS.toLowerCase term in
  if List.existsb (String.eqb x) (prohibitedTerms this) then this
  else {| prohibitedTerms := prohibitedTerms this ++ [ x ] |}.

(** [this.prohibitedTerms.delete(term.toLowerCase())] *)
Definition removeProhibitedTerm (term : string) : t :=
  {| prohibitedTerms :=
       List.filter (fun y => negb (String.eqb y (JS.toLowerCase term)))
                   (prohibitedTerms this) |}.

Definition getProhibitedTerms : list string := prohibitedTerms this.

End Methods.

End SafetyGuardianImpl.

(* ================================================================== *)
(** ** Natural language processor (core/NLProcessorImpl.ts) *)
(* ================================================================== *)

Module NLProcessorImpl.

Local Open Scope Q_scope.
Import RegExp.

(** the private tables of the class; each [Map] is the list of its
    entries in insertion order *)
Record t := {
  symptomKeywords : list (string * list string);
  bodyPartKeywords : list (string * list string);
  severityKeywords : list (SeverityLevel.t * list string);
  intentPatterns : list (UserIntent.t * list regex)
}.

Definition initialSymptomKeywords : list (string * list string) :=
  [ ("headache", [ "headache"; "head pain"; "head ache"; "migraine"; "head hurts" ]);
    ("fever", [ "fever"; "temperature"; "hot"; "burning up"; "feverish"; "chills" ]);
    ("cough", [ "cough"; "coughing"; "hacking"; "throat clearing" ]);
    ("stomach pain", [ "stomach pain"; "stomach ache"; "belly pain"; "abdominal pain";
                       "tummy ache" ]);
    ("nausea", [ "nausea"; "nauseous"; "sick to stomach"; "queasy"; "feel like vomiting" ]);
    ("dizziness", [ "dizzy"; "dizziness"; "lightheaded"; "spinning"; "vertigo" ]);
    ("fatigue", [ "tired"; "fatigue"; "exhausted"; "weak"; "no energy" ]);
    ("sore throat", [ "sore throat"; "throat pain"; "throat hurts"; "scratchy throat" ]);
    ("runny nose", [ "runny nose"; "stuffy nose"; "congestion"; "blocked nose" ]);
    ("shortness of breath", [ "shortness of breath"; "hard to breathe";
                              "difficulty breathing"; "breathless" ]) ].

Definition initialBodyPartKeywords : list (string * list string) :=
  [ ("head", [ "head"; "skull"; "forehead"; "temple" ]);
    ("chest", [ "chest"; "lung"; "heart"; "breast" ]);
    ("stomach", [ "stomach"; "belly"; "abdomen"; "tummy" ]);
    ("throat", [ "throat"; "neck" ]);
    ("back", [ "back"; "spine"; "lower back"; "upper back" ]);
    ("arm", [ "arm"; "shoulder"; "elbow"; "wrist"; "hand" ]);
    ("leg", [ "leg"; "thigh"; "knee"; "ankle"; "foot" ]) ].

Definition initialSeverityKeywords : list (SeverityLevel.t * list string) :=
  [ (SeverityLevel.MILD, [ "mild"; "slight"; "little"; "minor"; "barely"; "somewhat" ]);
    (SeverityLevel.MODERATE, [ "moderate"; "medium"; "noticeable"; "bothering";
                               "uncomfortable" ]);
    (SeverityLevel.SEVERE, [ "severe"; "intense"; "extreme"; "terrible"; "unbearable";
                             "excruciating"; "sharp"; "stabbing" ]) ].

Definition describeSymptomsPatterns : list regex :=
  [ (* /i (have|feel|am experiencing|got)/i *)
    seqs [ lit "i "; oneOf [ "have"; "feel"; "am experiencing"; "got" ] ];
    (* /my (head|chest|stomach|throat|back) (hurts|aches|feels)/i *)
    seqs [ lit "my "; oneOf [ "head"; "chest"; "stomach"; "throat"; "back" ];
           lit " "; oneOf [ "hurts"; "aches"; "feels" ] ];
    (* /i've been (feeling|having|experiencing)/i *)
    seqs [ lit "i've been "; oneOf [ "feeling"; "having"; "experiencing" ] ];
    (* /there's (pain|ache|discomfort)/i *)
    seqs [ lit "there's "; oneOf [ "pain"; "ache"; "discomfort" ] ] ].

Definition endSessionPatterns : list regex :=
  [ (* /(goodbye|bye|end|stop|quit|exit|done|finished)/i *)
    oneOf [ "goodbye"; "bye"; "end"; "stop"; "quit"; "exit"; "done"; "finished" ];
    (* /that's all/i *)
    lit "that's all";
    (* /thank you/i *)
    lit "thank you" ].

Definition requestHelpPatterns : list regex :=
  [ (* /(help|assist|what should i do|what do you recommend)/i *)
    oneOf [ "help"; "assist"; "what should i do"; "what do you recommend" ];
    (* /(can you help|need help|don't know)/i *)
    oneOf [ "can you help"; "need help"; "don't know" ] ].

Definition askClarificationPatterns : list regex :=
  [ (* /(what do you mean|can you repeat|i don't understand)/i *)
    oneOf [ "what do you mean"; "can you repeat"; "i don't understand" ];
    (* /(clarify|explain|what)/i *)
    oneOf [ "clarify"; "explain"; "what" ] ].

Definition initializePatterns : list (UserIntent.t * list regex) :=
  [ (UserIntent.DESCRIBE_SYMPTOMS, describeSymptomsPatterns);
    (UserIntent.END_SESSION, endSessionPatterns);
    (UserIntent.REQUEST_HELP, requestHelpPatterns);
    (UserIntent.ASK_CLARIFICATION, askClarificationPatterns) ].

(** [new NLProcessorImpl()] *)
Definition new : t :=
  {| symptomKeywords := initialSymptomKeywords;
     bodyPartKeywords := initialBodyPartKeywords;
     severityKeywords := initialSeverityKeywords;
     intentPatterns := initializePatterns |}.

(** the local [unknownPatterns] of [detectIntent] *)
Definition unknownPatterns : list regex :=
  [ lit "i don't know"; lit "not sure"; lit "don't understand"; lit "confused";
    lit "unclear"; lit "can't tell"; lit "hard to say"; lit "not certain";
    lit "maybe"; lit "i think"; lit "possibly"; lit "unsure" ].

(** *** Durations *)

(** a row of the local [patterns] table of [extractDuration]: either
    [/(\d+)\s*(u1|u2)s?/i] with a unit, or a phrase with a fixed
    value and unit *)
Inductive DurationPattern :=
| Counted (units : list string) (unit_ : string)
| Phrase (re : regex) (value_ : Q) (unit_ : string).

Definition durationPatterns : list DurationPattern :=
  [ Counted [ "minute"; "min" ] "minutes";     (* /(\d+)\s*(minute|min)s?/i *)
    Counted [ "hour"; "hr" ] "hours";          (* /(\d+)\s*(hour|hr)s?/i *)
    Counted [ "day" ] "days";                  (* /(\d+)\s*(day)s?/i *)
    Counted [ "week" ] "weeks";                (* /(\d+)\s*(week)s?/i *)
    Phrase (oneOf [ "yesterday"; "1 day" ]) 1 "days";
    Phrase (oneOf [ "this morning"; "today" ]) 1 "hours";
    Phrase (lit "last night") 8 "hours";
    Phrase (lit "few days") 3 "days";
    Phrase (lit "couple days") 2 "days";
    Phrase (lit "few hours") 3 "hours";
    Phrase (lit "all day") 12 "hours";
    Phrase (lit "since morning") 6 "hours" ].

(** the maximal run of digits at the head of a string *)
Fixpoint digitsRun (s : string) : string * string :=
  match s with
  | String c r =>
      if JS.isDigit c then let '(ds, rest) := digitsRun r in (String c ds, rest)
      else (EmptyString, s)
  | EmptyString => (EmptyString, EmptyString)
  end.

(** [s.match(/(\d+)\s*(u1|u2)s?/i)]: group 1 of the leftmost match.
    At a digit the group takes the whole run of digits, since what
    follows it is white space or the first letter of a unit. *)
Fixpoint matchCounted (units : list string) (s : string) : option string :=
  match s with
  | EmptyString => None
  | String c r =>
      if JS.isDigit c then
        let '(ds, rest) := digitsRun s in
        if List.existsb (fun u => JS.startsWith (JS.toLowerCase (JS.trimStart rest))
                                                (JS.toLowerCase u)) units
        then Some ds
        else matchCounted units r
      else matchCounted units r
  end.

(** [parseInt] of a string of digits *)
Fixpoint parseDigits (s : string) (acc : N) : N :=
  match s with
  | EmptyString => acc
  | String c r => parseDigits r (acc * 10 + (N.of_nat (JS.code c) - 48))%N
  end.

Definition parseInt (s : string) : Q := inject_Z (Z.of_N (parseDigits s 0%N)).

Fixpoint extractDurationLoop (patterns : list DurationPattern) (normalizedText : string)
  : option Duration :=
  match patterns with
  | [] => None
  | Phrase re v u :: rest =>
      if test re normalizedText then Some {| d_value := v; d_unit := u |}
      else extractDurationLoop rest normalizedText
  | Counted units u :: rest =>
      match matchCounted units normalizedText with
      | Some group1 =>
          let v := parseInt group1 in
          if Num.Qltb 0 v then Some {| d_value := v; d_unit := u |}
          else extractDurationLoop rest normalizedText
      | None => extractDurationLoop rest normalizedText
      end
  end.

Definition extractDuration (text : string) : option Duration :=
  let normalizedText := JS.toLowerCase text in
  extractDurationLoop durationPatterns normalizedText.

Section Methods.
Variable this : t.

Definition extractSeverity (text : string) : SeverityLevel.t :=
  let normalizedText := JS.toLowerCase text in
  match List.find (fun '(_, keywords) =>
                     List.existsb (fun keyword => JS.includes normalizedText keyword)
                                  keywords)
                  (severityKeywords this) with
  | Some (sev, _) => sev
  | None => SeverityLevel.MILD
  end.

(** the record literal [symptomBodyPartMap] *)
Definition symptomBodyPartMap : list (string * string) :=
  [ ("headache", "head"); ("sore throat", "throat");
    ("stomach pain", "stomach"); ("shortness of breath", "chest") ].

Definition extractBodyPart (text symptom_ : string) : option string :=
  match List.find (fun '(_, keywords) =>
                     List.existsb (fun keyword => JS.includes text keyword) keywords)
                  (bodyPartKeywords this) with
  | Some (part, _) => Some part
  | None =>
      match List.find (fun '(k, _) => String.eqb k symptom_) symptomBodyPartMap with
      | Some (_, part) => Some part
      | None => None
      end
  end.

(** [symptomKeywords.get(symptom) || []] *)
Definition keywordsOf (symptom_ : string) : list string :=
  match List.find (fun '(k, _) => String.eqb k symptom_) (symptomKeywords this) with
  | Some (_, keywords) => keywords
  | None => []
  end.

Definition calculateConfidence (text keyword symptom_ : string) : Q :=
  let c := 0.5 in
  let c := if JS.includes text symptom_ then c + 0.3 else c in
  let relatedKeywords := keywordsOf symptom_ in
  let matchCount := length (List.filter (fun k => JS.includes text k) relatedKeywords) in
  let c := c + Qmin (inject_Z (Z.of_nat matchCount) * 0.1) 0.3 in
  let c := if negb (SeverityLevel.eqb (extractSeverity text) SeverityLevel.MILD)
           then c + 0.1 else c in
  let c := match extractDuration text with Some _ => c + 0.1 | None => c end in
  Qmin c 1.0.

Definition generalHealthTerms : list string :=
  [ "pain"; "ache"; "hurt"; "discomfort"; "problem"; "issue";
    "sick"; "unwell"; "not feeling good"; "feel bad" ].

Definition extractGeneralSymptom (text : string) : option SymptomEntity :=
  if List.existsb (fun term => JS.includes text term) generalHealthTerms
  then Some {| symptom := "general discomfort";
               bodyPart := None;
               severity := extractSeverity text;
               duration := extractDuration text;
               confidence := 0.3 |}
  else None.

(** the outer loop of [extractSymptoms] *)
Fixpoint extractSymptomsLoop (table : list (string * list string))
         (normalizedText : string) (symptoms : list SymptomEntity)
  : list SymptomEntity :=
  match table with
  | [] => symptoms
  | (symptom_, keywords) :: rest =>
      match List.find (fun keyword => JS.includes normalizedText keyword) keywords with
      | Some keyword =>
          let entity :=
            {| symptom := symptom_;
               bodyPart := extractBodyPart normalizedText symptom_;
               severity := extractSeverity normalizedText;
               duration := extractDuration normalizedText;
               confidence := calculateConfidence normalizedText keyword symptom_ |} in
          if negb (List.existsb (fun s => String.eqb (symptom s) symptom_) symptoms)
          then extractSymptomsLoop rest normalizedText (symptoms ++ [ entity ])%list
          else extractSymptomsLoop rest normalizedText symptoms
      | None => extractSymptomsLoop rest normalizedText symptoms
      end
  end.

Definition extractSymptoms (text : string) : list SymptomEntity :=
  let normalizedText := JS.trim (JS.toLowerCase text) in
  let symptoms := extractSymptomsLoop (symptomKeywords this) normalizedText [] in
  match symptoms with
  | [] =>
      match extractGeneralSymptom normalizedText with
      | Some generalSymptom => [ generalSymptom ]
      | None => []
      end
  | _ => symptoms
  end.

Definition containsSymptomKeywords (text : string) : bool :=
  List.existsb (fun '(_, keywords) =>
                  List.existsb (fun keyword => JS.includes text keyword) keywords)
               (symptomKeywords this).

(** the loop of [detectIntent] over the groups of [intentPatterns] *)
Fixpoint firstIntent (groups : list (UserIntent.t * list regex))
         (normalizedText : string) : option UserIntent.t :=
  match groups with
  | [] => None
  | (intent, patterns) :: rest =>
      if anyTest patterns normalizedText then Some intent
      else firstIntent rest normalizedText
  end.

Definition detectIntent (text : string) : UserIntent.t :=
  let normalizedText := JS.trim (JS.toLowerCase text) in
  if anyTest unknownPatterns normalizedText then UserIntent.UNKNOWN
  else
    match firstIntent (intentPatterns this) normalizedText with
    | Some intent => intent
    | None =>
        if containsSymptomKeywords normalizedText
        then UserIntent.DESCRIBE_SYMPTOMS
        else UserIntent.REQUEST_HELP
    end.

Record TextComplexity := {
  hasSymptoms : bool;
  hasBodyPart : bool;
  hasSeverity : bool;
  hasDuration : bool;
  isAmbiguous : bool
}.

Definition analyzeTextComplexity (text : string) : TextComplexity :=
  let symptoms := extractSymptoms text in
  let hasSymptoms_ := (0 <? length symptoms)%nat in
  let hasBodyPart_ :=
    List.existsb (fun s => match bodyPart s with Some _ => true | None => false end)
                 symptoms in
  let hasSeverity_ := negb (SeverityLevel.eqb (extractSeverity text) SeverityLevel.MILD) in
  let hasDuration_ := match extractDuration text with Some _ => true | None => false end in
  let isAmbiguous_ :=
    hasSymptoms_ && (negb hasBodyPart_ && negb hasSeverity_ && negb hasDuration_) in
  {| hasSymptoms := hasSymptoms_;
     hasBodyPart := hasBodyPart_;
     hasSeverity := hasSeverity_;
     hasDuration := hasDuration_;
     isAmbiguous := isAmbiguous_ |}.

(** [symptoms.reduce((sum, s) => sum + s.confidence, 0) / symptoms.length]
    on a list that is not empty *)
Definition avgSymptomConfidence (symptoms : list SymptomEntity) : Q :=
  List.fold_left (fun sum s => sum + confidence s) symptoms 0 / Num.lengthQ symptoms.

Definition calculateOverallConfidence (text : string) (symptoms : list SymptomEntity)
           (complexity : TextComplexity) : Q :=
  let c := 0.5 in
  let c := if (0 <? length symptoms)%nat
           then c + avgSymptomConfidence symptoms * 0.3 else c in
  let c := if hasBodyPart complexity then c + 0.1 else c in
  let c := if hasSeverity complexity then c + 0.1 else c in
  let c := if hasDuration complexity then c + 0.1 else c in
  let wordCount := JS.splitSpaceLength (JS.trim text) in
  let c := if (wordCount <? 3)%nat then c - 0.2
           else if (10 <? wordCount)%nat then c + 0.1 else c in
  Qmax 0.1 (Qmin 1.0 c).

Record SymptomAnalysis := {
  sa_symptoms : list SymptomEntity;
  sa_intent : UserIntent.t;
  sa_complexity : TextComplexity;
  sa_confidence : Q
}.

Definition analyzeSymptomDescription (text : string) : SymptomAnalysis :=
  let symptoms := extractSymptoms text in
  let intent := detectIntent text in
  let complexity := analyzeTextComplexity text in
  let confidence_ := calculateOverallConfidence text symptoms complexity in
  {| sa_symptoms := symptoms; sa_intent := intent;
     sa_complexity := complexity; sa_confidence := confidence_ |}.

Definition needsClarification (text : string) : bool :=
  let analysis := analyzeSymptomDescription text in
  isAmbiguous (sa_complexity analysis) || Num.Qltb (sa_confidence analysis) 0.6.

Definition getMissingInformation (text : string) : list string :=
  let complexity := analyzeTextComplexity text in
  let symptoms := extractSymptoms text in
  let missing :=
    if negb (hasSymptoms complexity) || (length symptoms =? 0)%nat
    then [ "symptom description" ] else [] in
  match symptoms with
  | [] => missing
  | first :: _ =>
      let missing :=
        if negb (hasBodyPart complexity)
           && negb (match bodyPart first with Some b => JS.truthy b | None => false end)
        then (missing ++ [ "location" ])%list else missing in
      let missing :=
        if negb (hasSeverity complexity) then (missing ++ [ "severity" ])%list
        else missing in
      if negb (hasDuration complexity) then (missing ++ [ "duration" ])%list
      else missing
  end.

(** [map.set(key, value)] on the entries of a [Map]: the value of an
    existing key is replaced where it stands, a new key goes last *)
Fixpoint mapSet {A} (key : string) (value : A) (entries : list (string * A))
  : list (string * A) :=
  match entries with
  | [] => [ (key, value) ]
  | (k, v) :: rest =>
      if String.eqb k key then (k, value) :: rest
      else (k, v) :: mapSet key value rest
  end.

Definition addSymptomKeywords (symptom_ : string) (keywords : list string) : t :=
  let existing := keywordsOf symptom_ in
  {| symptomKeywords := mapSet symptom_ (existing ++ keywords)%list (symptomKeywords this);
     bodyPartKeywords := bodyPartKeywords this;
     severityKeywords := severityKeywords this;
     intentPatterns := intentPatterns this |}.

End Methods.

End NLProcessorImpl.

(* ================================================================== *)
(** ** Ambiguity detection (core/AmbiguityDetector.ts) *)
(* ================================================================== *)

Module AmbiguityDetectorImpl.

Local Open Scope Q_scope.

(** the private field [nlProcessor] *)
Record t := { nlProcessor : NLProcessorImpl.t }.

Definition new (nlProcessor : NLProcessorImpl.t) : t := {| nlProcessor := nlProcessor |}.

Definition uncertaintyMarkers : list string :=
  [ "maybe"; "might"; "could be"; "not sure"; "think"; "possibly" ].

(** [symptoms.reduce((sum, s) => sum + s.confidence, 0) / symptoms.length] *)
Definition averageConfidence (symptoms : list SymptomEntity) : option Q :=
  let sum := List.fold_left (fun sum s => sum + confidence s) symptoms 0 in
  Num.divLength sum symptoms.

Section Methods.
Variable this : t.

Definition getAmbiguityScore (text : string) (symptoms : list SymptomEntity) : Q :=
  let ambiguityScore := 0 in
  let ambiguityScore :=
    if (length symptoms =? 0)%nat then ambiguityScore + 0.8 else ambiguityScore in
  let avgConfidence := averageConfidence symptoms in
  let ambiguityScore :=
    if Num.ltNaN avgConfidence 0.5 then ambiguityScore + 0.4 else ambiguityScore in
  let analysis := NLProcessorImpl.analyzeTextComplexity (nlProcessor this) text in
  let ambiguityScore :=
    if negb (NLProcessorImpl.hasBodyPart analysis)
    then ambiguityScore + 0.2 else ambiguityScore in
  let ambiguityScore :=
    if negb (NLProcessorImpl.hasSeverity analysis)
    then ambiguityScore + 0.2 else ambiguityScore in
  let ambiguityScore :=
    if negb (NLProcessorImpl.hasDuration analysis)
    then ambiguityScore + 0.1 else ambiguityScore in
  let ambiguityScore :=
    if (JS.splitSpaceLength (JS.trim text) <? 3)%nat
    then ambiguityScore + 0.3 else ambiguityScore in
  let ambiguityScore :=
    if List.existsb (fun marker => JS.includes (JS.toLowerCase text) marker)
                    uncertaintyMarkers
    then ambiguityScore + 0.2 else ambiguityScore in
  Qmin ambiguityScore 1.0.

Definition isAmbiguous (text : string) (symptoms : list SymptomEntity) : bool :=
  Num.Qltb 0.5 (getAmbiguityScore text symptoms).

End Methods.

(** The clarification questions. The class keeps the templates in the
    private field [clarificationTemplates]; here they are an argument
    next to [this]. [None] stands for the [TypeError] raised when a
    template is picked outside the list. *)
Definition initializeClarificationTemplates : list (string * list string) :=
  [ ("bodyPart",
     [ "Where exactly do you feel the {symptom}?";
       "Can you tell me which part of your body has the {symptom}?";
       "Is the {symptom} in a specific area?" ]);
    ("severity",
     [ "How would you rate the {symptom} - mild, moderate, or severe?";
       "On a scale of mild to severe, how bad is the {symptom}?";
       "Is the {symptom} bothering you a lot or just a little?" ]);
    ("duration",
     [ "How long have you had this {symptom}?";
       "When did the {symptom} start?";
       "Has the {symptom} been going on for hours, days, or longer?" ]);
    ("specificity",
     [ "Can you describe the {symptom} in more detail?";
       "What does the {symptom} feel like exactly?";
       "Is there anything specific about how the {symptom} feels?" ]) ].

Section Clarification.
Variable this : t.
Variable clarificationTemplates : list (string * list string).

(** [this.clarificationTemplates.get(category) || []] *)
Definition templatesOf (category : string) : list string :=
  match List.find (fun '(k, _) => String.eqb k category) clarificationTemplates with
  | Some (_, templates) => templates
  | None => []
  end.

(** the common body of [getBodyPartQuestion], [getSeverityQuestion],
    [getDurationQuestion] and [getSpecificityQuestion]; [random] is the
    value of [Math.random()] *)
Definition getQuestion (category : string) (random : Q) (symptom_ : string)
  : option string :=
  let templates := templatesOf category in
  let i := Qfloor (random * Num.lengthQ templates) in
  if (i <? 0)%Z then None
  else match List.nth_error templates (Z.to_nat i) with
       | Some template => Some (JS.replaceFirst template "{symptom}" symptom_)
       | None => None
       end.

Definition getBodyPartQuestion := getQuestion "bodyPart".
Definition getSeverityQuestion := getQuestion "severity".
Definition getDurationQuestion := getQuestion "duration".
Definition getSpecificityQuestion := getQuestion "specificity".

(** [if (test) questions.push(question)], where the question may throw *)
Definition pushWhen (test : bool) (question : option string)
           (questions : option (list string)) : option (list string) :=
  match questions with
  | None => None
  | Some qs =>
      if test
      then match question with
           | Some q => Some (qs ++ [ q ])%list
           | None => None
           end
      else Some qs
  end.

(** [random1] to [random4] are the values of [Math.random()] for the
    question about the body part, the severity, the duration and the
    specificity, each read only when its question is asked *)
Definition generateClarificationQuestions (random1 random2 random3 random4 : Q)
           (text : string) (symptoms : list SymptomEntity) : option (list string) :=
  let analysis := NLProcessorImpl.analyzeTextComplexity (nlProcessor this) text in
  match symptoms with
  | [] => Some [ "Could you describe what you're feeling or experiencing?" ]
  | mainSymptom :: _ =>
      if negb (NLProcessorImpl.hasSymptoms analysis)
      then Some [ "Could you describe what you're feeling or experiencing?" ]
      else
        let questions := Some [] in
        let questions :=
          pushWhen (negb (NLProcessorImpl.hasBodyPart analysis)
                    && negb (match bodyPart mainSymptom with
                             | Some b => JS.truthy b
                             | None => false
                             end))
                   (getBodyPartQuestion random1 (symptom mainSymptom)) questions in
        let questions :=
          pushWhen (negb (NLProcessorImpl.hasSeverity analysis)
                    && SeverityLevel.eqb (severity mainSymptom) SeverityLevel.MILD)
                   (getSeverityQuestion random2 (symptom mainSymptom)) questions in
        let questions :=
          pushWhen (negb (NLProcessorImpl.hasDuration analysis)
                    && negb (match duration mainSymptom with
                             | Some _ => true
                             | None => false
                             end))
                   (getDurationQuestion random3 (symptom mainSymptom)) questions in
        let questions :=
          pushWhen (Num.Qltb (confidence mainSymptom) 0.6)
                   (getSpecificityQuestion random4 (symptom mainSymptom)) questions in
        let questions :=
          pushWhen (2 <? length symptoms)%nat
                   (Some "Which of these symptoms is bothering you the most?")
                   questions in
        List.firstn 2 <$> questions
  end.

Definition addClarificationTemplate (category : string) (templates : list string)
  : list (string * list string) :=
  let existing := templatesOf category in
  NLProcessorImpl.mapSet category (existing ++ templates)%list clarificationTemplates.

End Clarification.

End AmbiguityDetectorImpl.

(* ================================================================== *)
(** ** Intent detection with context (core/AmbiguityDetector.ts) *)
(* ================================================================== *)

Module IntentDetectorImpl.

Import RegExp.

(** the private fields of the class *)
Record t := {
  nlProcessor : NLProcessorImpl.t;
  contextHistory : list string
}.

Definition new (nlProcessor : NLProcessorImpl.t) : t :=
  {| nlProcessor := nlProcessor; contextHistory := [] |}.

(** the patterns of [isAnsweringQuestion]; each starts with [^] *)
Definition answerPatterns : list regex :=
  [ (* /^(yes|no|maybe|i think|probably)/i *)
    oneOf [ "yes"; "no"; "maybe"; "i think"; "probably" ];
    (* /^(it's|it is|the pain is|it feels)/i *)
    oneOf [ "it's"; "it is"; "the pain is"; "it feels" ];
    (* /^(since|for|about|around)/i *)
    oneOf [ "since"; "for"; "about"; "around" ];
    (* /^(mild|moderate|severe|bad|terrible)/i *)
    oneOf [ "mild"; "moderate"; "severe"; "bad"; "terrible" ] ].

Definition confirmationPatterns : list regex :=
  [ (* /(yes|yeah|correct|right|exactly)/i *)
    oneOf [ "yes"; "yeah"; "correct"; "right"; "exactly" ];
    (* /(no|not really|that's not right)/i *)
    oneOf [ "no"; "not really"; "that's not right" ];
    (* /(can you repeat|what do you mean|i don't understand)/i *)
    oneOf [ "can you repeat"; "what do you mean"; "i don't understand" ] ].

Definition helpPatterns : list regex :=
  [ (* /(what should i do|what do you recommend|help me)/i *)
    oneOf [ "what should i do"; "what do you recommend"; "help me" ];
    (* /(is this serious|should i be worried|do i need)/i *)
    oneOf [ "is this serious"; "should i be worried"; "do i need" ];
    (* /(what could this be|what might cause)/i *)
    oneOf [ "what could this be"; "what might cause" ] ].

(** a pattern that starts with [^] matches at the start of the text *)
Definition isAnsweringQuestion (text : string) : bool :=
  List.existsb (fun pattern => matchesPrefix pattern text) answerPatterns.

Definition isConfirmationResponse (text : string) : bool :=
  anyTest confirmationPatterns text.

Definition isSeekingHelp (text : string) : bool :=
  anyTest helpPatterns text.

Definition refineIntentWithContext (this : t) (baseIntent : UserIntent.t) (text : string)
  : UserIntent.t :=
  if List.existsb (fun msg => JS.includes msg "?") (contextHistory this)
     && isAnsweringQuestion text
  then UserIntent.DESCRIBE_SYMPTOMS
  else if isConfirmationResponse text then UserIntent.ASK_CLARIFICATION
  else if isSeekingHelp text then UserIntent.REQUEST_HELP
  else baseIntent.

(** [conversationContext] is [None] when the argument is left out; the
    result is the detector after the call and the intent *)
Definition detectIntent (this : t) (text : string)
           (conversationContext : option (list string)) : t * UserIntent.t :=
  let this :=
    match conversationContext with
    | Some context => {| nlProcessor := nlProcessor this; contextHistory := context |}
    | None => this
    end in
  let normalizedText := JS.trim (JS.toLowerCase text) in
  let baseIntent := NLProcessorImpl.detectIntent (nlProcessor this) text in
  (this, refineIntentWithContext this baseIntent normalizedText).

Definition updateContext (this : t) (message : string) : t :=
  let history := (contextHistory this ++ [ message ])%list in
  {| nlProcessor := nlProcessor this;
     contextHistory := if (5 <? length history)%nat then JS.lastn 5 history else history |}.

Definition clearContext (this : t) : t :=
  {| nlProcessor := nlProcessor this; contextHistory := [] |}.

Definition getContext (this : t) : list string := contextHistory this.

End IntentDetectorImpl.

(* ================================================================== *)
(** ** Conversation manager (core/ConversationManagerImpl.ts) *)
(* ================================================================== *)

Module ConversationManagerImpl.

Local Open Scope Q_scope.

(** the fields that the methods below use; [detectorTemplates] is the
    field [clarificationTemplates] of the ambiguity detector *)
Record t := {
  nlProcessor : NLProcessorImpl.t;
  ambiguityDetector : AmbiguityDetectorImpl.t;
  detectorTemplates : list (string * list string)
}.

Definition new (nlProcessor : NLProcessorImpl.t) : t :=
  {| nlProcessor := nlProcessor;
     ambiguityDetector := AmbiguityDetectorImpl.new nlProcessor;
     detectorTemplates := AmbiguityDetectorImpl.initializeClarificationTemplates |}.

Definition getSymptomSpecificQuestions (s : SymptomEntity) : list string :=
  let symptomType := JS.toLowerCase (symptom s) in
  let questions := [] in
  let questions :=
    if JS.includes symptomType "headache" || JS.includes symptomType "head"
    then (questions
          ++ [ "Is the headache throbbing, sharp, or more of a dull ache?" ]
          ++ match duration s with
             | None => [ "Did the headache come on suddenly or gradually?" ]
             | Some _ => []
             end)%list
    else questions in
  let questions :=
    if JS.includes symptomType "chest" || JS.includes symptomType "heart"
    then (questions ++ [ "Does the pain get worse when you breathe or move?";
                         "Are you experiencing any shortness of breath?" ])%list
    else questions in
  let questions :=
    if JS.includes symptomType "stomach" || JS.includes symptomType "abdominal"
    then (questions ++ [ "Is the pain cramping, sharp, or burning?";
                         "Have you had any nausea or vomiting?" ])%list
    else questions in
  let questions :=
    if JS.includes symptomType "fever" || JS.includes symptomType "temperature"
    then (questions ++ [ "Have you taken your temperature? What was it?";
                         "Are you experiencing chills or sweating?" ])%list
    else questions in
  let questions :=
    if JS.includes symptomType "cough"
    then (questions ++ [ "Is it a dry cough or are you bringing up mucus?";
                         "Does coughing make your chest hurt?" ])%list
    else questions in
  questions.

Section Methods.
Variable this : t.

(** [None] stands for the [TypeError] of the ambiguity detector *)
Definition generateFollowUpQuestions (random1 random2 random3 random4 : Q)
           (symptoms : list SymptomEntity) : option (list string) :=
  match symptoms with
  | [] => Some [ "Could you please describe what you're feeling or experiencing?" ]
  | mainSymptom :: _ =>
      match AmbiguityDetectorImpl.generateClarificationQuestions
              (ambiguityDetector this) (detectorTemplates this)
              random1 random2 random3 random4 (symptom mainSymptom) symptoms with
      | None => None
      | Some ambiguityQuestions =>
          let specificQuestions := getSymptomSpecificQuestions mainSymptom in
          let questions := (ambiguityQuestions ++ specificQuestions)%list in
          let uniqueQuestions := SafetyGuardianImpl.setOf questions in
          Some (List.firstn 2 uniqueQuestions)
      end
  end.

Definition shouldAskFollowUp (context : SessionContext) : bool :=
  if (MAX_FOLLOW_UP_QUESTIONS <=? questionsAsked context)%nat then false
  else
    match riskLevel context with
    | Some RiskLevel.EMERGENCY => false
    | _ =>
        match sc_symptoms context with
        | [] => true
        | mainSymptom :: _ =>
            AmbiguityDetectorImpl.isAmbiguous (ambiguityDetector this)
              (symptom mainSymptom) (sc_symptoms context)
        end
    end.

Record ConversationState := {
  needsMoreInfo : bool;
  canProceed : bool;
  suggestedAction : string;
  cs_confidence : Q
}.

Definition analyzeConversationState (context : SessionContext) : ConversationState :=
  let needsMoreInfo_ := shouldAskFollowUp context in
  let canProceed_ :=
    negb needsMoreInfo_ || (MAX_FOLLOW_UP_QUESTIONS <=? questionsAsked context)%nat in
  let suggestedAction_ :=
    match riskLevel context with
    | Some RiskLevel.EMERGENCY => "provide_emergency_guidance"
    | _ => if canProceed_ then "provide_assessment" else "ask_follow_up"
    end in
  let c := 0.5 in
  let c :=
    if (0 <? length (sc_symptoms context))%nat
    then c + NLProcessorImpl.avgSymptomConfidence (sc_symptoms context) * 0.3 else c in
  let c :=
    if (0 <? questionsAsked context)%nat
    then c + Qmin (inject_Z (Z.of_nat (questionsAsked context)) * 0.1) 0.2 else c in
  {| needsMoreInfo := needsMoreInfo_;
     canProceed := canProceed_;
     suggestedAction := suggestedAction_;
     cs_confidence := Qmin c 1.0 |}.

End Methods.

End ConversationManagerImpl.

(* ================================================================== *)
(** ** Response generator (core/ResponseGenerator.ts) *)
(* ================================================================== *)

Module ResponseGeneratorImpl.

Local Open Scope Q_scope.

(** the private fields of the class; each [Map] is the list of its
    entries *)
Record t := {
  selfCareTemplates : list (string * list string);
  consultationTemplates : list (string * list string);
  emergencyTemplates : list (string * list string);
  medicalDisclaimers : list string
}.

Definition initialSelfCareTemplates : list (string * list string) :=
  [ ("general",
     [ "Rest and get adequate sleep to help your body recover.";
       "Stay well hydrated by drinking plenty of fluids.";
       "Monitor your symptoms and note any changes.";
       "Avoid strenuous activities until you feel better." ]);
    ("headache",
     [ "Apply a cold or warm compress to your head or neck.";
       "Rest in a quiet, dark room.";
       "Gentle neck and shoulder stretches may help.";
       "Ensure you are getting enough sleep and staying hydrated." ]);
    ("fever",
     [ "Rest and drink plenty of fluids to prevent dehydration.";
       "Dress lightly and keep your environment cool.";
       "Monitor your temperature regularly.";
       "Get plenty of sleep to help your immune system." ]);
    ("cough",
     [ "Stay hydrated to help thin mucus.";
       "Use a humidifier or breathe steam from a hot shower.";
       "Avoid irritants like smoke or strong odors.";
       "Honey may help soothe throat irritation." ]) ].

Definition initialConsultationTemplates : list (string * list string) :=
  [ ("general",
     [ "I recommend scheduling an appointment with your healthcare provider.";
       "A medical professional can properly evaluate your symptoms.";
       "Consider contacting your doctor's office for guidance.";
       "Keep track of your symptoms to discuss with your healthcare provider." ]);
    ("urgent",
     [ "You should contact your healthcare provider within the next 24 hours.";
       "Consider calling your doctor's office today for advice.";
       "If symptoms worsen, seek medical attention promptly.";
       "This condition may require professional medical evaluation soon." ]);
    ("routine",
     [ "Schedule a routine appointment with your healthcare provider.";
       "This can typically be addressed during a regular office visit.";
       "Consider discussing this at your next scheduled appointment.";
       "A non-urgent consultation would be appropriate." ]) ].

Definition initialEmergencyTemplates : list (string * list string) :=
  [ ("general",
     [ "Contact emergency services immediately by calling 911.";
       "Seek immediate medical attention at the nearest emergency room.";
       "Do not drive yourself - call for emergency transportation.";
       "Time is critical - do not delay seeking help." ]);
    ("cardiac",
     [ "Call 911 immediately for suspected heart problems.";
       "Sit down and try to remain calm while waiting for help.";
       "Do not drive yourself to the hospital.";
       "If you have prescribed heart medication, take it as directed." ]);
    ("respiratory",
     [ "Call emergency services immediately for severe breathing problems.";
       "Sit upright and try to stay calm.";
       "Loosen any tight clothing around your neck or chest.";
       "If you have a rescue inhaler, use it as prescribed." ]);
    ("neurological",
     [ "Severe headache requires immediate emergency evaluation.";
       "Call 911 or go to the emergency room immediately.";
       "Note the time symptoms started for medical personnel.";
       "Do not take any medication unless prescribed by a doctor." ]) ].

Definition initializeDisclaimers : list string :=
  [ "Please remember that this guidance is not a substitute for professional medical advice.";
    "This assessment is for informational purposes only and does not replace medical consultation.";
    "Always consult with a qualified healthcare professional for medical concerns.";
    "This system provides general guidance only and cannot diagnose medical conditions.";
    "When in doubt about your health, always seek professional medical advice." ].

Definition new : t :=
  {| selfCareTemplates := initialSelfCareTemplates;
     consultationTemplates := initialConsultationTemplates;
     emergencyTemplates := initialEmergencyTemplates;
     medicalDisclaimers := initializeDisclaimers |}.

(** [templates.get(category) || []] *)
Definition get (templates : list (string * list string)) (category : string)
  : list string :=
  match List.find (fun '(k, _) => String.eqb k category) templates with
  | Some (_, entries) => entries
  | None => []
  end.

(** [Array.from(new Set(items))] *)
Definition removeDuplicates (items : list string) : list string :=
  SafetyGuardianImpl.setOf items.

Section Methods.
Variable this : t.

Definition generateSelfCareGuidance (assessment : RiskAssessment) : list string :=
  let guidance := get (selfCareTemplates this) "general" in
  let guidance :=
    (guidance
     ++ List.filter (fun rec =>
                       JS.includes (JS.toLowerCase rec) "rest"
                       || JS.includes (JS.toLowerCase rec) "hydration"
                       || JS.includes (JS.toLowerCase rec) "home"
                       || JS.includes (JS.toLowerCase rec) "self-care")
                    (recommendations assessment))%list in
  let reasoning_ := JS.toLowerCase (JS.join " " (reasoning assessment)) in
  let guidance :=
    if JS.includes reasoning_ "headache"
    then (guidance ++ get (selfCareTemplates this) "headache")%list else guidance in
  let guidance :=
    if JS.includes reasoning_ "fever"
    then (guidance ++ get (selfCareTemplates this) "fever")%list else guidance in
  let guidance :=
    if JS.includes reasoning_ "cough"
    then (guidance ++ get (selfCareTemplates this) "cough")%list else guidance in
  removeDuplicates guidance.

Definition generateProfessionalConsultationAdvice (assessment : RiskAssessment)
  : list string :=
  let advice := get (consultationTemplates this) "general" in
  let advice :=
    (advice
     ++ List.filter (fun rec =>
                       JS.includes (JS.toLowerCase rec) "doctor"
                       || JS.includes (JS.toLowerCase rec) "healthcare"
                       || JS.includes (JS.toLowerCase rec) "professional"
                       || JS.includes (JS.toLowerCase rec) "consult")
                    (recommendations assessment))%list in
  let advice :=
    if Num.Qltb 0.7 (ra_confidence assessment)
    then (advice ++ get (consultationTemplates this) "urgent")%list
    else (advice ++ get (consultationTemplates this) "routine")%list in
  removeDuplicates advice.

Definition generateEmergencyAdvice (assessment : RiskAssessment) : list string :=
  let advice := get (emergencyTemplates this) "general" in
  let advice :=
    (advice
     ++ List.filter (fun rec =>
                       JS.includes (JS.toLowerCase rec) "emergency"
                       || JS.includes (JS.toLowerCase rec) "immediate"
                       || JS.includes (JS.toLowerCase rec) "call"
                       || JS.includes (JS.toLowerCase rec) "911")
                    (recommendations assessment))%list in
  let reasoning_ := JS.toLowerCase (JS.join " " (reasoning assessment)) in
  let advice :=
    if JS.includes reasoning_ "chest" || JS.includes reasoning_ "heart"
    then (advice ++ get (emergencyTemplates this) "cardiac")%list else advice in
  let advice :=
    if JS.includes reasoning_ "breath" || JS.includes reasoning_ "breathing"
    then (advice ++ get (emergencyTemplates this) "respiratory")%list else advice in
  let advice :=
    if JS.includes reasoning_ "severe" && JS.includes reasoning_ "headache"
    then (advice ++ get (emergencyTemplates this) "neurological")%list else advice in
  removeDuplicates advice.

Definition confidenceLevel (assessment : RiskAssessment) : string :=
  if Num.Qltb 0.8 (ra_confidence assessment) then "high"
  else if Num.Qltb 0.5 (ra_confidence assessment) then "moderate"
  else "low".

Definition generateAssessmentSummary (assessment : RiskAssessment) : string :=
  match level assessment with
  | RiskLevel.MILD =>
      "Based on your symptoms, this appears to be a mild condition with "
      ++ confidenceLevel assessment ++ " confidence."
  | RiskLevel.MODERATE =>
      "Your symptoms suggest a moderate health concern that should be evaluated with "
      ++ confidenceLevel assessment ++ " confidence."
  | RiskLevel.EMERGENCY =>
      "Your symptoms indicate a potentially serious condition requiring immediate attention with "
      ++ confidenceLevel assessment ++ " confidence."
  end.

Definition generateMildRiskResponse (assessment : RiskAssessment) : string :=
  let selfCareGuidance := generateSelfCareGuidance assessment in
  let mainGuidance := JS.join " " (List.firstn 2 selfCareGuidance) in
  mainGuidance
  ++ " However, if your symptoms worsen or persist for more than a few days, please consider consulting a healthcare professional.".

Definition generateModerateRiskResponse (assessment : RiskAssessment) : string :=
  let consultationAdvice := generateProfessionalConsultationAdvice assessment in
  let mainAdvice := JS.join " " (List.firstn 2 consultationAdvice) in
  mainAdvice
  ++ " In the meantime, monitor your symptoms closely and seek immediate care if they worsen significantly.".

Definition generateEmergencyResponse (assessment : RiskAssessment) : string :=
  let emergencyAdvice := generateEmergencyAdvice assessment in
  let mainAdvice := JS.join " " (List.firstn 2 emergencyAdvice) in
  mainAdvice
  ++ " Do not delay seeking medical attention. Time is critical in emergency situations.".

(** [random] is the value of [Math.random()]; outside the list the
    entry is [undefined], which the caller turns into a string *)
Definition getRandomDisclaimer (random : Q) : string :=
  SafetyGuardianImpl.randomPick random (medicalDisclaimers this).

Definition generateResponse (random : Q) (assessment : RiskAssessment) : string :=
  let response := "" in
  let response := response ++ generateAssessmentSummary assessment in
  let response := response ++ " " in
  let response :=
    match level assessment with
    | RiskLevel.MILD => response ++ generateMildRiskResponse assessment
    | RiskLevel.MODERATE => response ++ generateModerateRiskResponse assessment
    | RiskLevel.EMERGENCY => response ++ generateEmergencyResponse assessment
    end in
  let response := response ++ (" " ++ getRandomDisclaimer random) in
  response.

End Methods.

End ResponseGeneratorImpl.

(* ================================================================== *)
(** ** Session controller (core/SessionControllerImpl.ts) *)
(* ================================================================== *)

Module SessionControllerImpl.

(** A session record is a mutable object: the map [sessions] holds a
    reference to it and the methods update it in place, so the state
    has a heap of session objects next to the two maps of the class.
    Timers are handles; [pendingTimers] are those that [setTimeout]
    has scheduled and [clearTimeout] has not cancelled. Console output
    is not part of the state. *)
Record State := {
  heap : gmap nat HealthSession;
  sessions : gmap string nat;
  sessionTimeouts : gmap string nat;
  pendingTimers : gset nat;
  nextRef : nat;
  nextTimer : nat
}.

(** how a method call ends: it returns a value or throws an [Error] *)
Inductive Result (A : Type) :=
| Return (a : A)
| Throw (message : string).
Arguments Return {A} a.
Arguments Throw {A} message.

(** [new SessionControllerImpl()] *)
Definition new : State :=
  {| heap := ∅; sessions := ∅; sessionTimeouts := ∅; pendingTimers := ∅;
     nextRef := 0; nextTimer := 0 |}.

(** [this.sessions.get(sessionId)]: the reference and the object *)
Definition getSession (st : State) (sessionId : string) : option (nat * HealthSession) :=
  match sessions st !! sessionId with
  | Some ref =>
      match heap st !! ref with
      | Some session => Some (ref, session)
      | None => None
      end
  | None => None
  end.

(** assignment to fields of the object behind [ref] *)
Definition store (ref : nat) (session : HealthSession) (st : State) : State :=
  {| heap := <[ref := session]> (heap st);
     sessions := sessions st;
     sessionTimeouts := sessionTimeouts st;
     pendingTimers := pendingTimers st;
     nextRef := nextRef st;
     nextTimer := nextTimer st |}.

Definition setupSessionTimeout (sessionId : string) (st : State) : State :=
  let timeout := nextTimer st in
  {| heap := heap st;
     sessions := sessions st;
     sessionTimeouts := <[sessionId := timeout]> (sessionTimeouts st);
     pendingTimers := {[timeout]} ∪ pendingTimers st;
     nextRef := nextRef st;
     nextTimer := S timeout |}.

Definition clearTimeout (timeout : nat) (st : State) : State :=
  {| heap := heap st;
     sessions := sessions st;
     sessionTimeouts := sessionTimeouts st;
     pendingTimers := pendingTimers st ∖ {[timeout]};
     nextRef := nextRef st;
     nextTimer := nextTimer st |}.

Definition resetSessionTimeout (sessionId : string) (st : State) : State :=
  let st :=
    match sessionTimeouts st !! sessionId with
    | Some existingTimeout => clearTimeout existingTimeout st
    | None => st
    end in
  setupSessionTimeout sessionId st.

(** [uuid] is the value of [uuidv4()], [now] that of [new Date()] *)
Definition startSession (uuid : string) (now : Z) (st : State) : State * string :=
  let sessionId := uuid in
  let session :=
    {| hs_id := sessionId;
       startTime := now;
       endTime := None;
       hs_symptoms := [];
       riskAssessment := None;
       conversationHistory :=
         [ {| timestamp := now; turnType := system_response;
              content := "Session started"; processedSymptoms := None |} ];
       status := SessionStatus.ACTIVE |} in
  let ref := nextRef st in
  let st :=
    {| heap := <[ref := session]> (heap st);
       sessions := <[sessionId := ref]> (sessions st);
       sessionTimeouts := sessionTimeouts st;
       pendingTimers := pendingTimers st;
       nextRef := S ref;
       nextTimer := nextTimer st |} in
  (setupSessionTimeout sessionId st, sessionId).

Definition deleteSessionData (sessionId : string) (st : State) : State * Result unit :=
  match getSession st sessionId with
  | Some (ref, session) =>
      (* Clear sensitive data *)
      let cleared :=
        {| hs_id := hs_id session;
           startTime := startTime session;
           endTime := endTime session;
           hs_symptoms := [];
           riskAssessment := None;
           conversationHistory := [];
           status := status session |} in
      let st := store ref cleared st in
      (* Remove from active sessions *)
      let st :=
        {| heap := heap st;
           sessions := delete sessionId (sessions st);
           sessionTimeouts := sessionTimeouts st;
           pendingTimers := pendingTimers st;
           nextRef := nextRef st;
           nextTimer := nextTimer st |} in
      (* Clear any timeouts *)
      let st :=
        match sessionTimeouts st !! sessionId with
        | Some timeout =>
            let st := clearTimeout timeout st in
            {| heap := heap st;
               sessions := sessions st;
               sessionTimeouts := delete sessionId (sessionTimeouts st);
               pendingTimers := pendingTimers st;
               nextRef := nextRef st;
               nextTimer := nextTimer st |}
        | None => st
        end in
      (st, Return tt)
  | None => (st, Return tt)
  end.

(** [now1] and [now2] are the two readings of [new Date()] *)
Definition endSession (sessionId : string) (now1 now2 : Z) (st : State)
  : State * Result unit :=
  match getSession st sessionId with
  | None => (st, Return tt)
  | Some (ref, session) =>
      let ended :=
        {| hs_id := hs_id session;
           startTime := startTime session;
           endTime := Some now1;
           hs_symptoms := hs_symptoms session;
           riskAssessment := riskAssessment session;
           conversationHistory :=
             conversationHistory session
             ++ [ {| timestamp := now2; turnType := system_response;
                     content := "Session ended"; processedSymptoms := None |} ];
           status := SessionStatus.COMPLETED |} in
      deleteSessionData sessionId (store ref ended st)
  end.

Definition isClarificationQuestion (turn : ConversationTurn) : bool :=
  match turnType turn with clarification_question => true | _ => false end.

Definition getSessionContext (sessionId : string) (now : Z) (st : State)
  : State * Result SessionContext :=
  match getSession st sessionId with
  | None => (st, Throw ("Session not found: " +:+ sessionId))
  | Some (_, session) =>
      let duration_ := (now - startTime session)%Z in
      let asked := length (List.filter isClarificationQuestion
                                       (conversationHistory session)) in
      (st, Return {| sc_symptoms := hs_symptoms session;
                     questionsAsked := asked;
                     riskLevel := level <$> riskAssessment session;
                     sessionDuration := (duration_ / 1000)%Z |})
  end.

Definition symptomNames (symptoms : list SymptomEntity) : string :=
  JS.join ", " (List.map symptom symptoms).

Definition updateSessionContext (sessionId : string) (context : PartialSessionContext)
           (now : Z) (st : State) : State * Result unit :=
  match getSession st sessionId with
  | None => (st, Throw ("Session not found: " +:+ sessionId))
  | Some (ref, session) =>
      (* Update symptoms if provided *)
      let session :=
        match pc_symptoms context with
        | Some symptoms =>
            {| hs_id := hs_id session;
               startTime := startTime session;
               endTime := endTime session;
               hs_symptoms := symptoms;
               riskAssessment := riskAssessment session;
               conversationHistory :=
                 conversationHistory session
                 ++ [ {| timestamp := now; turnType := user_input;
                         content := "Symptoms updated: " +:+ symptomNames symptoms;
                         processedSymptoms := Some symptoms |} ];
               status := status session |}
        | None => session
        end in
      (* Update risk assessment if risk level is provided *)
      let session :=
        match pc_riskLevel context, riskAssessment session with
        | Some l, None =>
            {| hs_id := hs_id session;
               startTime := startTime session;
               endTime := endTime session;
               hs_symptoms := hs_symptoms session;
               riskAssessment :=
                 Some {| level := l;
                         ra_confidence := 0.7%Q;
                         reasoning := [ "Updated from session context" ];
                         recommendations := [ "See conversation for details" ] |};
               conversationHistory := conversationHistory session;
               status := status session |}
        | _, _ => session
        end in
      (store ref session st, Return tt)
  end.

Definition addConversationTurn (sessionId : string) (turn : ConversationTurn)
           (st : State) : State * Result unit :=
  match getSession st sessionId with
  | None => (st, Throw ("Session not found: " +:+ sessionId))
  | Some (ref, session) =>
      let session :=
        {| hs_id := hs_id session;
           startTime := startTime session;
           endTime := endTime session;
           hs_symptoms := hs_symptoms session;
           riskAssessment := riskAssessment session;
           conversationHistory := conversationHistory session ++ [ turn ];
           status := status session |} in
      (resetSessionTimeout sessionId (store ref session st), Return tt)
  end.

Definition sameSymptom (a b : SymptomEntity) : bool :=
  String.eqb (symptom a) (symptom b)
  && match bodyPart a, bodyPart b with
     | Some x, Some y => String.eqb x y
     | None, None => true
     | _, _ => false
     end.

(** the body of [symptoms.forEach] in [addSymptoms] *)
Definition pushIfNew (existing : list SymptomEntity) (newSymptom : SymptomEntity)
  : list SymptomEntity :=
  if List.existsb (fun e => sameSymptom e newSymptom) existing
  then existing
  else existing ++ [ newSymptom ].

Definition addSymptoms (sessionId : string) (symptoms : list SymptomEntity)
           (now : Z) (st : State) : State * Result unit :=
  match getSession st sessionId with
  | None => (st, Throw ("Session not found: " +:+ sessionId))
  | Some (ref, session) =>
      let session :=
        {| hs_id := hs_id session;
           startTime := startTime session;
           endTime := endTime session;
           hs_symptoms := List.fold_left pushIfNew symptoms (hs_symptoms session);
           riskAssessment := riskAssessment session;
           conversationHistory := conversationHistory session;
           status := status session |} in
      addConversationTurn sessionId
        {| timestamp := now; turnType := user_input;
           content := "Added symptoms: " +:+ symptomNames symptoms;
           processedSymptoms := Some symptoms |}
        (store ref session st)
  end.

(** [Math.round(x)] *)
Definition round (x : Q) : Z := Qfloor (x + 0.5)%Q.

Definition setRiskAssessment (sessionId : string) (assessment : RiskAssessment)
           (now : Z) (st : State) : State * Result unit :=
  match getSession st sessionId with
  | None => (st, Throw ("Session not found: " +:+ sessionId))
  | Some (ref, session) =>
      let session :=
        {| hs_id := hs_id session;
           startTime := startTime session;
           endTime := endTime session;
           hs_symptoms := hs_symptoms session;
           riskAssessment := Some assessment;
           conversationHistory := conversationHistory session;
           status := status session |} in
      addConversationTurn sessionId
        {| timestamp := now; turnType := system_response;
           content := "Risk assessment: " +:+ RiskLevel.value (level assessment)
                      +:+ " (confidence: "
                      +:+ pretty (round (ra_confidence assessment * 100)%Q) +:+ "%)";
           processedSymptoms := None |}
        (store ref session st)
  end.

(** [this.sessions.get(sessionId) || null] *)
Definition getSessionById (sessionId : string) (st : State) : option HealthSession :=
  snd <$> getSession st sessionId.

(** [session.status = x] *)
Definition setStatus (session : HealthSession) (x : SessionStatus.t) : HealthSession :=
  {| hs_id := hs_id session;
     startTime := startTime session;
     endTime := endTime session;
     hs_symptoms := hs_symptoms session;
     riskAssessment := riskAssessment session;
     conversationHistory := conversationHistory session;
     status := x |}.

(** [sessionAge > PRIVACY_SETTINGS.sessionTimeout * 1000] *)
Definition isExpired (now : Z) (session : HealthSession) : bool :=
  (PRIVACY_SETTINGS.sessionTimeout * 1000 <? now - startTime session)%Z.

(** one iteration of the first loop of [cleanupExpiredSessions], over
    [(state, expiredSessions)] *)
Definition markExpired (now : Z) (acc : State * list string) (entry : string * nat)
  : State * list string :=
  match heap (fst acc) !! snd entry with
  | Some session =>
      if isExpired now session
      then (store (snd entry) (setStatus session SessionStatus.EXPIRED) (fst acc),
            (snd acc ++ [ fst entry ])%list)
      else acc
  | None => acc
  end.

(** [expiredSessions.forEach(id => this.deleteSessionData(id))], and the
    same loop over all identifiers in [shutdown] *)
Definition deleteAll (sessionIds : list string) (st : State) : State :=
  List.fold_left (fun st sessionId => fst (deleteSessionData sessionId st)) sessionIds st.

(** The first loop runs over the entries of the map, here in the order
    of [map_to_list]; it updates the status of session objects only,
    and the deletions that follow are of different identifiers. *)
Definition cleanupExpiredSessions (now : Z) (st : State) : State :=
  let marked := List.fold_left (markExpired now) (map_to_list (sessions st)) (st, []) in
  deleteAll (snd marked) (fst marked).

(** [shutdown]: every timer is cleared, the map of timers is emptied
    and the data of every session is deleted. The interval timer of the
    periodic cleanup is not part of the state. *)
Definition shutdown (st : State) : State :=
  let st :=
    List.fold_left (fun st entry => clearTimeout (snd entry) st)
                   (map_to_list (sessionTimeouts st)) st in
  let st :=
    {| heap := heap st;
       sessions := sessions st;
       sessionTimeouts := ∅;
       pendingTimers := pendingTimers st;
       nextRef := nextRef st;
       nextTimer := nextTimer st |} in
  deleteAll (List.map fst (map_to_list (sessions st))) st.

Definition isActive (session : HealthSession) : bool :=
  match status session with SessionStatus.ACTIVE => true | _ => false end.

Definition isSessionActive (sessionId : string) (st : State) : bool :=
  match getSession st sessionId with
  | Some (_, session) => isActive session
  | None => false
  end.

(** [now] is read only when the session has no end time *)
Definition getSessionDuration (sessionId : string) (now : Z) (st : State) : Z :=
  match getSession st sessionId with
  | None => 0
  | Some (_, session) =>
      (match endTime session with Some e => e | None => now end - startTime session)%Z
  end.

(** the key by which [addSymptoms] tells symptoms apart *)
Definition symptomKey (s : SymptomEntity) : string * option string :=
  (symptom s, bodyPart s).

(** the session data that [deleteSessionData] clears *)
Definition erased (session : HealthSession) : Prop :=
  hs_symptoms session = [] /\ conversationHistory session = []
  /\ riskAssessment session = None.

(** between two states, at a time [now]: the heap has the same
    references, every session object keeps its start time, and the
    objects that are not expired at [now] are the same *)
Definition heapKept (now : Z) (a b : State) : Prop :=
  (forall ref, heap b !! ref = None <-> heap a !! ref = None)
  /\ (forall ref s0,
         heap a !! ref = Some s0 ->
         exists s, heap b !! ref = Some s /\ startTime s = startTime s0
                   /\ (isExpired now s0 = false -> s = s0)).

(** The state is well formed: every identifier of the store refers to a
    session object, different identifiers refer to different objects,
    references and timers are below the next free ones, the timer
    recorded for a session is pending, and different sessions have
    different timers. *)
Definition wellFormed (st : State) : Prop :=
  (forall sessionId ref, sessions st !! sessionId = Some ref -> is_Some (heap st !! ref))
  /\ (forall ref, is_Some (heap st !! ref) -> (ref < nextRef st)%nat)
  /\ (forall id1 id2 ref,
         sessions st !! id1 = Some ref -> sessions st !! id2 = Some ref -> id1 = id2)
  /\ (forall sessionId timeout,
         sessionTimeouts st !! sessionId = Some timeout -> timeout ∈ pendingTimers st)
  /\ (forall timeout, timeout ∈ pendingTimers st -> (timeout < nextTimer st)%nat)
  /\ (forall id1 id2 timeout,
         sessionTimeouts st !! id1 = Some timeout ->
         sessionTimeouts st !! id2 = Some timeout -> id1 = id2).

End SessionControllerImpl.

(* ================================================================== *)
(** ** The statements of the specification, as definitions *)
(* ================================================================== *)

(** What the specification says in words about the rule score and the
    severity fallback, written down independently of the loops of the
    code so that the two can be compared. *)
Module Spec.

Local Open Scope Q_scope.
Import RiskClassifierImpl.

(** a condition is satisfied by a symptom whose name contains the
    condition's name, compared without regard to case *)
Definition satisfies (c : SymptomCondition) (s : SymptomEntity) : bool :=
  JS.includes (JS.toLowerCase (symptom s)) (JS.toLowerCase (c_symptom c)).

Definition satisfied (symptoms : list SymptomEntity) (c : SymptomCondition) : bool :=
  List.existsb (satisfies c) symptoms.

Definition severityMatch (c : SymptomCondition) (s : SymptomEntity) : bool :=
  match c_severity c with
  | Some sev => SeverityLevel.eqb (severity s) sev
  | None => false
  end.

Definition bodyPartMatch (c : SymptomCondition) (s : SymptomEntity) : bool :=
  match c_bodyPart c, bodyPart s with
  | Some cb, Some sb => JS.truthy cb && String.eqb sb cb
  | _, _ => false
  end.

(** how many hours one unit of time has: a minute is the sixtieth part
    of an hour, a day has 24 hours and a week 7 days *)
Definition hoursPerUnit : list (string * Q) :=
  [ ("minutes", 1 # 60); ("hours", 1); ("days", 24); ("weeks", 168) ].

(** a length of time in hours; a number with any other unit counts as
    a number of hours *)
Definition inHours (value : Q) (unit_ : string) : Q :=
  match List.find (fun '(u, _) => String.eqb u unit_) hoursPerUnit with
  | Some (_, hours) => value * hours
  | None => value
  end.

(** the duration of the symptom lies in the range of the condition,
    both bounds included, all three lengths measured in hours *)
Definition inRange (range : DurationRange) (d : Duration) : bool :=
  let hours := inHours (d_value d) (d_unit d) in
  Qle_bool (inHours (min range) (dr_unit range)) hours
  && Qle_bool hours (inHours (max range) (dr_unit range)).

Definition durationMatch (c : SymptomCondition) (s : SymptomEntity) : bool :=
  match c_duration c, duration s with
  | Some range, Some d => inRange range d
  | _, _ => false
  end.

(** 0.5 base + 0.3 severity + 0.2 body part + 0.2 duration range,
    capped at 1.0; the symptom is the first one satisfying the
    condition, and a condition that no symptom satisfies scores 0 *)
Definition perConditionScore (symptoms : list SymptomEntity) (c : SymptomCondition) : Q :=
  match List.find (satisfies c) symptoms with
  | Some s =>
      Qmin (0.5 + (if severityMatch c s then 0.3 else 0)
                + (if bodyPartMatch c s then 0.2 else 0)
                + (if durationMatch c s then 0.2 else 0)) 1
  | None => 0
  end.

Definition sum (xs : list Q) : Q := List.fold_right Qplus 0 xs.

(** the average of no numbers is not a number *)
Definition average (xs : list Q) : option Q :=
  match xs with
  | [] => None
  | _ => Some (sum xs / Num.lengthQ xs)
  end.

Definition ruleScore (symptoms : list SymptomEntity) (rule : RiskRule) : option Q :=
  if List.existsb (fun c => required c && negb (satisfied symptoms c)) (conditions rule)
  then Some 0
  else average (List.map (perConditionScore symptoms) (conditions rule)).

(** two numbers are the same: both [NaN], or equal rationals *)
Definition sameNumber (a b : option Q) : Prop :=
  match a, b with
  | Some x, Some y => x == y
  | None, None => True
  | _, _ => False
  end.

(** the higher of two tiers *)
Definition higher (a b : RiskLevel.t) : RiskLevel.t :=
  match a, b with
  | RiskLevel.EMERGENCY, _ | _, RiskLevel.EMERGENCY => RiskLevel.EMERGENCY
  | RiskLevel.MODERATE, _ | _, RiskLevel.MODERATE => RiskLevel.MODERATE
  | RiskLevel.MILD, RiskLevel.MILD => RiskLevel.MILD
  end.

(** the maximum tier of a list; [mild] is the lowest tier *)
Definition maxTier (tiers : list RiskLevel.t) : RiskLevel.t :=
  List.fold_right higher RiskLevel.MILD tiers.

(** one step up, saturating at [emergency] *)
Definition oneStepUp (l : RiskLevel.t) : RiskLevel.t :=
  match l with
  | RiskLevel.MILD => RiskLevel.MODERATE
  | _ => RiskLevel.EMERGENCY
  end.

Section Tiers.
Variable table : gmap string RiskLevel.t.

(** the tier of the static table, [mild] when the symptom is not in it *)
Definition baseTier (s : SymptomEntity) : RiskLevel.t :=
  match table !! symptom s with
  | Some l => l
  | None => RiskLevel.MILD
  end.

(** the claim as worded: a step up only when the severity is [severe] *)
Definition tierEscalatedOnlyWhenSevere (s : SymptomEntity) : RiskLevel.t :=
  match severity s with
  | SeverityLevel.SEVERE => oneStepUp (baseTier s)
  | _ => baseTier s
  end.

(** what the fallback does: a step up when the severity is [severe],
    and a [mild] base tier becomes [moderate] when the severity is
    [moderate] *)
Definition tierOfFallback (s : SymptomEntity) : RiskLevel.t :=
  match severity s, baseTier s with
  | SeverityLevel.SEVERE, b => oneStepUp b
  | SeverityLevel.MODERATE, RiskLevel.MILD => RiskLevel.MODERATE
  | _, b => b
  end.
End Tiers.

(** the mean of the confidences of a non-empty list *)
Definition meanConfidence (symptoms : list SymptomEntity) : Q :=
  sum (List.map confidence symptoms) / Num.lengthQ symptoms.

End Spec.

(* ================================================================== *)
(** ** Loop invariants *)
(* ================================================================== *)

Module Inv.

Local Open Scope Q_scope.
Import RiskClassifierImpl.

(** the candidate kept by the loop of [applyRiskRules] carries the
    score of its rule, and that score exceeds 0.5 *)
Definition wellScored (symptoms : list SymptomEntity)
           (best : option (RiskRule * Q)) : Prop :=
  match best with
  | Some (rule, score) =>
      calculateRuleMatch symptoms rule = Some score /\ 0.5 < score
  | None => True
  end.

(** the candidate accounts for a score [x]: [x] does not exceed the
    candidate's score, or the threshold when there is no candidate *)
Definition covers (best : option (RiskRule * Q)) (x : Q) : Prop :=
  match best with
  | Some (_, score) => x <= score
  | None => x <= 0.5
  end.

(** a rule of the table can be delivered: its base confidence lies in
    (0,1] and it has reasoning and recommendations *)
Definition deliverable (rule : RiskRule) : Prop :=
  0 < r_confidence rule <= 1 /\ r_reasoning rule <> [] /\ r_recommendations rule <> [].

End Inv.

(* ================================================================== *)
(** ** Texts that a replacement leaves alone *)
(* ================================================================== *)

Module Scan.

(** two strings differ at a position that both have *)
Fixpoint clash (a b : string) : bool :=
  match a, b with
  | String x a', String y b' => if Ascii.eqb x y then clash a' b' else true
  | _, _ => false
  end.

(** no occurrence of [k], up to case, starts inside [s], whatever
    follows [s] *)
Fixpoint untouchedBy (k s : string) : bool :=
  match s with
  | EmptyString => true
  | String _ r => clash (JS.toLowerCase s) (JS.toLowerCase k) && untouchedBy k r
  end.

(** every word of [s] ends inside [s] and is not accepted *)
Fixpoint wordsKept (fuel : nat) (accepts : string -> bool) (s : string) : bool :=
  match fuel with
  | O => false
  | S fuel' =>
      match s with
      | EmptyString => true
      | String c r =>
          if JS.isWord c then
            let '(w, rest) := JS.wordRun s in
            negb (accepts w)
            && match rest with EmptyString => false | String _ _ => true end
            && wordsKept fuel' accepts rest
          else wordsKept fuel' accepts r
      end
  end.

End Scan.

(* ================================================================== *)
(** ** Sample data *)
(* ================================================================== *)

Module Sample.

Definition mildCough : SymptomEntity :=
  {| symptom := "cough"; bodyPart := None; severity := SeverityLevel.MILD;
     duration := None; confidence := 0.6%Q |}.

Definition chestPainUpper : SymptomEntity :=
  {| symptom := "Sudden CHEST PAIN"; bodyPart := Some "chest";
     severity := SeverityLevel.MILD; duration := None; confidence := 0.4%Q |}.

(** a symptom whose confidence is 0, the lower end of the range *)
Definition unsureCough : SymptomEntity :=
  {| symptom := "cough"; bodyPart := None; severity := SeverityLevel.MILD;
     duration := None; confidence := 0%Q |}.

Definition moderateCough : SymptomEntity :=
  {| symptom := "cough"; bodyPart := None; severity := SeverityLevel.MODERATE;
     duration := None; confidence := 0.5%Q |}.

Definition severeHeadache : SymptomEntity :=
  {| symptom := "headache"; bodyPart := Some "head"; severity := SeverityLevel.SEVERE;
     duration := Some {| d_value := 3%Q; d_unit := "days" |}; confidence := 0.9%Q |}.

Definition mildFever : SymptomEntity :=
  {| symptom := "fever"; bodyPart := None; severity := SeverityLevel.MILD;
     duration := None; confidence := 0.7%Q |}.

Definition emergencyAssessment : RiskAssessment :=
  {| level := RiskLevel.EMERGENCY; ra_confidence := 0.9%Q;
     reasoning := [ "Severe symptoms in critical body systems detected" ];
     recommendations := [ "Seek immediate emergency medical care" ] |}.

(** a controller with one live session that has a symptom *)
Definition liveState : SessionControllerImpl.State :=
  fst (SessionControllerImpl.addSymptoms "session-1" [ mildCough ] 2000
         (fst (SessionControllerImpl.startSession "session-1" 1000
                 SessionControllerImpl.new))).

(** the same controller after the session has been deleted *)
Definition deletedState : SessionControllerImpl.State :=
  fst (SessionControllerImpl.deleteSessionData "session-1" liveState).

End Sample.

(* ================================================================== *)
(** * Properties *)
(* ================================================================== *)

(** ** Numbers and strings *)

Lemma Qltb_lt (a b : Q) : Num.Qltb a b = true <-> (a < b)%Q.
Proof.
  unfold Num.Qltb. rewrite negb_true_iff. split.
  - intros H. apply Qnot_le_lt. intros Hle.
    apply Qle_bool_iff in Hle. congruence.
  - intros H. destruct (Qle_bool b a) eqn:E; [|reflexivity].
    apply Qle_bool_iff in E. exfalso. exact (Qlt_not_le _ _ H E).
Qed.

Lemma Qltb_ge (a b : Q) : Num.Qltb a b = false <-> (b <= a)%Q.
Proof.
  unfold Num.Qltb. rewrite negb_false_iff. apply Qle_bool_iff.
Qed.

Lemma lengthQ_cons {A} (x : A) (l : list A) :
  (Num.lengthQ (x :: l) == Num.lengthQ l + 1)%Q.
Proof.
  unfold Num.lengthQ. cbn [length]. rewrite Nat2Z.inj_succ.
  unfold Z.succ. rewrite inject_Z_plus. reflexivity.
Qed.

Lemma lengthQ_nonneg {A} (l : list A) : (0 <= Num.lengthQ l)%Q.
Proof.
  unfold Num.lengthQ. change 0%Q with (inject_Z 0).
  rewrite <- Zle_Qle. lia.
Qed.

Lemma lengthQ_pos {A} (l : list A) : l <> [] -> (0 < Num.lengthQ l)%Q.
Proof.
  destruct l as [|x l]; [congruence|]. intros _.
  rewrite lengthQ_cons. pose proof (lengthQ_nonneg l). lra.
Qed.

Lemma find_hit {A} (f : A -> bool) (l : list A) (x : A) :
  In x l -> f x = true -> exists y, List.find f l = Some y.
Proof.
  intros Hin Hf. destruct (List.find f l) as [y|] eqn:E; [eauto|].
  pose proof (List.find_none f l E x Hin). congruence.
Qed.

(** ** The risk classifier *)

Section Classifier.
Import RiskClassifierImpl.
Variable this : RiskClassifierImpl.t.

Lemma emergencyKeywordScan_hit (symptoms : list SymptomEntity) s keyword :
  In s symptoms ->
  In keyword (emergencyKeywords this) ->
  JS.includes (JS.toLowerCase (symptom s)) (JS.toLowerCase keyword) = true ->
  exists k, emergencyKeywordScan this symptoms = Some k.
Proof.
  intros Hs Hk Hinc. induction symptoms as [|x rest IH]; [destruct Hs|].
  cbn [emergencyKeywordScan].
  destruct (emergencyKeywordIn this x) as [k|] eqn:E; [eauto|].
  destruct Hs as [->|Hs]; [|auto].
  unfold emergencyKeywordIn in E.
  destruct (find_hit (fun kw => JS.includes (JS.toLowerCase (symptom s))
                                            (JS.toLowerCase kw))
                     _ keyword Hk Hinc) as [y Hy].
  congruence.
Qed.

Lemma emergencyKeywordScan_classify (symptoms : list SymptomEntity) k :
  emergencyKeywordScan this symptoms = Some k ->
  classifyRisk this symptoms =
    {| level := RiskLevel.EMERGENCY;
       ra_confidence := 0.95%Q;
       reasoning := [ "Emergency keyword detected: " ++ k ];
       recommendations := [ "Contact emergency services immediately";
                            "Do not delay seeking medical attention" ] |}.
Proof.
  intros E. destruct symptoms as [|x rest]; [discriminate|].
  unfold classifyRisk, checkEmergencyConditions. rewrite E. reflexivity.
Qed.

(** on a list that is not empty the three stages run in order *)
Lemma classifyRisk_stages (symptoms : list SymptomEntity) :
  symptoms <> [] ->
  classifyRisk this symptoms
  = match checkEmergencyConditions this symptoms with
    | Some emergencyAssessment => emergencyAssessment
    | None =>
        match applyRiskRules this symptoms with
        | Some ruleBasedAssessment => ruleBasedAssessment
        | None => assessBySymptomSeverity this symptoms
        end
    end.
Proof. destruct symptoms; [congruence|reflexivity]. Qed.

End Classifier.

Lemma enforceEmergencyProtocol_floor (a : RiskAssessment) :
  level a = RiskLevel.EMERGENCY ->
  (0.85 <= ra_confidence (SafetyGuardianImpl.enforceEmergencyProtocol a))%Q.
Proof.
  intros H. unfold SafetyGuardianImpl.enforceEmergencyProtocol.
  rewrite H. cbn. apply Q.le_max_r.
Qed.

(** C1 (emergency keyword dominance). Whatever keywords the classifier
    is configured with: when the name of some symptom of the list
    contains one of them, compared without regard to case, [classifyRisk]
    answers [emergency], whichever other symptoms the list has, and the
    assessment that [enforceEmergencyProtocol] makes of the answer has
    confidence at least 0.85. *)
Theorem emergency_keyword_dominance
        (this : RiskClassifierImpl.t) (symptoms : list SymptomEntity) :
  (exists s keyword,
      In s symptoms /\ In keyword (RiskClassifierImpl.emergencyKeywords this) /\
      JS.includes (JS.toLowerCase (symptom s)) (JS.toLowerCase keyword) = true) ->
  level (RiskClassifierImpl.classifyRisk this symptoms) = RiskLevel.EMERGENCY /\
  (0.85 <= ra_confidence
             (SafetyGuardianImpl.enforceEmergencyProtocol
                (RiskClassifierImpl.classifyRisk this symptoms)))%Q.
Proof.
  intros (s & keyword & Hs & Hk & Hinc).
  destruct (emergencyKeywordScan_hit this symptoms s keyword Hs Hk Hinc) as [k E].
  pose proof (emergencyKeywordScan_classify this symptoms k E) as Hc.
  assert (Hl : level (RiskClassifierImpl.classifyRisk this symptoms)
               = RiskLevel.EMERGENCY) by (rewrite Hc; reflexivity).
  split; [exact Hl|]. apply enforceEmergencyProtocol_floor. exact Hl.
Qed.

Lemma emergency_keyword_dominance_witness :
  level (RiskClassifierImpl.classifyRisk RiskClassifierImpl.new
           [ Sample.mildCough; Sample.chestPainUpper; Sample.mildCough ]) = RiskLevel.EMERGENCY /\
  (0.85 <= ra_confidence
             (SafetyGuardianImpl.enforceEmergencyProtocol
                (RiskClassifierImpl.classifyRisk RiskClassifierImpl.new
                   [ Sample.mildCough; Sample.chestPainUpper; Sample.mildCough ])))%Q.
Proof.
  apply (emergency_keyword_dominance RiskClassifierImpl.new
           [ Sample.mildCough; Sample.chestPainUpper; Sample.mildCough ]).
  exists Sample.chestPainUpper, "chest pain".
  split; [right; left; reflexivity|].
  split; [left; reflexivity|]. vm_compute. reflexivity.
Defined.

(** ** The score of a rule *)

Section RuleMatch.
Import RiskClassifierImpl.
Local Open Scope Q_scope.
Variable symptoms : list SymptomEntity.

Lemma matchingSymptoms_find (c : SymptomCondition) :
  match matchingSymptoms symptoms c with
  | s :: _ => List.find (Spec.satisfies c) symptoms = Some s
  | [] => List.find (Spec.satisfies c) symptoms = None
          /\ Spec.satisfied symptoms c = false
  end.
Proof.
  unfold matchingSymptoms, Spec.satisfied.
  induction symptoms as [|x rest IH]; cbn; [split; reflexivity|].
  change (JS.includes (JS.toLowerCase (symptom x)) (JS.toLowerCase (c_symptom c)))
    with (Spec.satisfies c x).
  destruct (Spec.satisfies c x); cbn; [reflexivity|exact IH].
Qed.

Lemma find_satisfied (c : SymptomCondition) s :
  List.find (Spec.satisfies c) symptoms = Some s -> Spec.satisfied symptoms c = true.
Proof.
  intros H. apply List.find_some in H. destruct H as [Hin Hs].
  unfold Spec.satisfied. apply List.existsb_exists. eauto.
Qed.

(** [convertToHours] gives the length of the duration in hours *)
Lemma convertToHours_inHours (d : Duration) :
  convertToHours d == Spec.inHours (d_value d) (d_unit d).
Proof.
  unfold convertToHours, Spec.inHours, Spec.hoursPerUnit. cbn [List.find].
  rewrite (String.eqb_sym "minutes"), (String.eqb_sym "hours"),
    (String.eqb_sym "days"), (String.eqb_sym "weeks").
  destruct (String.eqb (d_unit d) "minutes"); [unfold Qdiv; reflexivity|].
  destruct (String.eqb (d_unit d) "hours"); [ring|].
  destruct (String.eqb (d_unit d) "days"); [reflexivity|].
  destruct (String.eqb (d_unit d) "weeks"); [ring|reflexivity].
Qed.

(** [checkDurationMatch] says whether the duration lies in the range *)
Lemma checkDurationMatch_inRange (sd : Duration) (cd : DurationRange) :
  checkDurationMatch sd cd = Spec.inRange cd sd.
Proof.
  unfold checkDurationMatch, Spec.inRange. cbv zeta.
  rewrite !convertToHours_inHours. reflexivity.
Qed.

Lemma durationMatch_check (c : SymptomCondition) (s : SymptomEntity) :
  Spec.durationMatch c s
  = match c_duration c, duration s with
    | Some cd, Some sd => checkDurationMatch sd cd
    | _, _ => false
    end.
Proof.
  unfold Spec.durationMatch.
  destruct (c_duration c) as [cd|], (duration s) as [sd|]; try reflexivity.
  symmetry. apply checkDurationMatch_inRange.
Qed.

Lemma conditionScore_sum (c : SymptomCondition) (s : SymptomEntity) :
  conditionScore c s ==
    0.5 + (if Spec.severityMatch c s then 0.3 else 0)
        + (if Spec.bodyPartMatch c s then 0.2 else 0)
        + (if Spec.durationMatch c s then 0.2 else 0).
Proof.
  rewrite durationMatch_check.
  unfold conditionScore, Spec.severityMatch, Spec.bodyPartMatch.
  destruct (c_severity c) as [sev|]; [destruct (SeverityLevel.eqb (severity s) sev)|];
    (destruct (c_bodyPart c) as [cb|], (bodyPart s) as [sb|];
     [destruct (JS.truthy cb && String.eqb sb cb)| | |]);
    (destruct (c_duration c) as [cd|], (duration s) as [sd|];
     [destruct (checkDurationMatch sd cd)| | |]);
    ring.
Qed.

Lemma conditionScore_bounds (c : SymptomCondition) (s : SymptomEntity) :
  0 <= Qmin (conditionScore c s) 1.0 <= 1.
Proof.
  split.
  - apply Q.min_glb; [|lra]. rewrite conditionScore_sum.
    destruct (Spec.severityMatch c s), (Spec.bodyPartMatch c s),
      (Spec.durationMatch c s); lra.
  - pose proof (Q.le_min_r (conditionScore c s) 1.0). lra.
Qed.

(** the loop either stops at a required condition that no symptom
    satisfies, or adds up the scores of all conditions *)
Lemma ruleMatchLoop_spec (conds : list SymptomCondition) (total : Q) (m : nat) :
  if List.existsb (fun c => required c && negb (Spec.satisfied symptoms c)) conds
  then ruleMatchLoop symptoms conds total m = None
  else exists t,
      ruleMatchLoop symptoms conds total m
      = Some (t, (m + length (List.filter required conds))%nat)
      /\ t == total + Spec.sum (List.map (Spec.perConditionScore symptoms) conds).
Proof.
  revert total m. induction conds as [|c rest IH]; intros total m.
  - cbn. exists total. split; [f_equal; f_equal; lia|ring].
  - cbn [List.existsb ruleMatchLoop List.filter List.map Spec.sum List.fold_right].
    pose proof (matchingSymptoms_find c) as Hm.
    destruct (matchingSymptoms symptoms c) as [|s others].
    + destruct Hm as [Hfind Hsat]. rewrite Hsat.
      destruct (required c); cbn [andb negb orb]; [reflexivity|].
      specialize (IH total m).
      destruct (List.existsb _ rest); [exact IH|].
      destruct IH as (t & Ht & Hsum). exists t. split; [exact Ht|].
      unfold Spec.perConditionScore at 1. rewrite Hfind.
      fold (Spec.sum (List.map (Spec.perConditionScore symptoms) rest)).
      rewrite Hsum. ring.
    + rewrite (find_satisfied c s Hm). rewrite andb_false_r. cbn [orb].
      specialize (IH (total + Qmin (conditionScore c s) 1.0)
                     (if required c then S m else m)).
      destruct (List.existsb _ rest); [exact IH|].
      destruct IH as (t & Ht & Hsum). exists t. split.
      * rewrite Ht. f_equal. f_equal. destruct (required c); cbn [length]; lia.
      * unfold Spec.perConditionScore at 1. rewrite Hm.
        fold (Spec.sum (List.map (Spec.perConditionScore symptoms) rest)).
        rewrite Hsum.
        assert (E : Qmin (conditionScore c s) 1.0
                    == Qmin (0.5 + (if Spec.severityMatch c s then 0.3 else 0)
                                 + (if Spec.bodyPartMatch c s then 0.2 else 0)
                                 + (if Spec.durationMatch c s then 0.2 else 0)) 1).
        { rewrite conditionScore_sum. assert (E1 : 1.0 == 1) by reflexivity.
          rewrite E1. reflexivity. }
        rewrite E. ring.
Qed.

Lemma calculateRuleMatch_ruleScore (rule : RiskRule) :
  Spec.sameNumber (calculateRuleMatch symptoms rule) (Spec.ruleScore symptoms rule).
Proof.
  unfold calculateRuleMatch, Spec.ruleScore.
  pose proof (ruleMatchLoop_spec (conditions rule) 0 0%nat) as H.
  destruct (List.existsb _ (conditions rule)).
  - rewrite H. cbn. reflexivity.
  - destruct H as (t & Ht & Hsum). rewrite Ht.
    cbn [Nat.add]. rewrite Nat.ltb_irrefl.
    unfold Num.divLength, Spec.average.
    destruct (conditions rule) as [|c rest] eqn:E; [exact I|].
    cbn [List.map Spec.sameNumber].
    assert (Hl : Num.lengthQ (Spec.perConditionScore symptoms c
                                :: List.map (Spec.perConditionScore symptoms) rest)
                 = Num.lengthQ (c :: rest)).
    { unfold Num.lengthQ. cbn [length]. rewrite List.length_map. reflexivity. }
    rewrite Hl. rewrite Hsum. cbn [List.map]. field.
    intros Hz.
    assert (Hp : 0 < Num.lengthQ (c :: rest)) by (apply lengthQ_pos; congruence).
    rewrite Hz in Hp. exact (Qlt_irrefl _ Hp).
Qed.

(** a score is at most 1 *)
Lemma ruleMatchLoop_le (conds : list SymptomCondition) (total : Q) (m : nat) t m' :
  ruleMatchLoop symptoms conds total m = Some (t, m') ->
  total <= t <= total + Num.lengthQ conds.
Proof.
  revert total m. induction conds as [|c rest IH]; intros total m.
  - cbn [ruleMatchLoop]. intros [= <- <-].
    pose proof (lengthQ_nonneg (@nil SymptomCondition)). lra.
  - cbn [ruleMatchLoop]. rewrite lengthQ_cons.
    pose proof (lengthQ_nonneg rest).
    destruct (matchingSymptoms symptoms c) as [|s others].
    + destruct (required c); [discriminate|].
      intros Hl. apply IH in Hl. lra.
    + intros Hl. apply IH in Hl.
      pose proof (conditionScore_bounds c s). lra.
Qed.

Lemma calculateRuleMatch_bounds (rule : RiskRule) sc :
  calculateRuleMatch symptoms rule = Some sc -> 0 <= sc <= 1.
Proof.
  unfold calculateRuleMatch.
  destruct (ruleMatchLoop symptoms (conditions rule) 0 0%nat) as [[t m']|] eqn:E.
  - destruct (m' <? _)%nat; [intros [= <-]; lra|].
    apply ruleMatchLoop_le in E. unfold Num.divLength.
    destruct (conditions rule) as [|c rest] eqn:Ec; [discriminate|].
    intros [= <-].
    assert (Hp : 0 < Num.lengthQ (c :: rest)) by (apply lengthQ_pos; congruence).
    split.
    + apply Qle_shift_div_l; [exact Hp|]. lra.
    + apply Qle_shift_div_r; [exact Hp|]. lra.
  - intros [= <-]. lra.
Qed.

End RuleMatch.

(** ** The rule-matching stage *)

Section ApplyRules.
Import RiskClassifierImpl.
Local Open Scope Q_scope.
Variable symptoms : list SymptomEntity.

Lemma bestMatchStep_inv (best : option (RiskRule * Q)) (rule : RiskRule) :
  Inv.wellScored symptoms best ->
  Inv.wellScored symptoms (bestMatchStep symptoms best rule)
  /\ (forall x, Inv.covers best x -> Inv.covers (bestMatchStep symptoms best rule) x)
  /\ (forall sc, calculateRuleMatch symptoms rule = Some sc ->
                 Inv.covers (bestMatchStep symptoms best rule) sc)
  /\ (bestMatchStep symptoms best rule = best
      \/ exists m, bestMatchStep symptoms best rule = Some (rule, m)).
Proof.
  intros Hwf. unfold bestMatchStep.
  destruct (calculateRuleMatch symptoms rule) as [m|] eqn:Em.
  2:{ split; [exact Hwf|]. split; [auto|]. split; [discriminate|left; reflexivity]. }
  destruct (Num.Qltb 0.5 m) eqn:E1; cbn [andb].
  - apply Qltb_lt in E1. destruct best as [[r0 s0]|].
    + destruct (Num.Qltb s0 m) eqn:E2.
      * apply Qltb_lt in E2.
        split; [split; [exact Em|exact E1]|].
        split; [intros x Hx; cbn in *; lra|].
        split; [intros sc [= <-]; cbn; lra|right; eauto].
      * apply Qltb_ge in E2.
        split; [exact Hwf|]. split; [auto|].
        split; [intros sc [= <-]; exact E2|left; reflexivity].
    + split; [split; [exact Em|exact E1]|].
      split; [intros x Hx; cbn in *; lra|].
      split; [intros sc [= <-]; cbn; lra|right; eauto].
  - apply Qltb_ge in E1.
    split; [exact Hwf|]. split; [auto|].
    split; [|left; reflexivity].
    intros sc [= <-]. destruct best as [[r0 s0]|]; cbn in *; lra.
Qed.

Lemma bestMatch_fold (rules : list RiskRule) (best : option (RiskRule * Q)) :
  Inv.wellScored symptoms best ->
  Inv.wellScored symptoms (List.fold_left (bestMatchStep symptoms) rules best)
  /\ (forall x, Inv.covers best x ->
                Inv.covers (List.fold_left (bestMatchStep symptoms) rules best) x)
  /\ (forall rule sc, In rule rules -> calculateRuleMatch symptoms rule = Some sc ->
                      Inv.covers (List.fold_left (bestMatchStep symptoms) rules best) sc)
  /\ (List.fold_left (bestMatchStep symptoms) rules best = best
      \/ exists rule m, In rule rules /\
           List.fold_left (bestMatchStep symptoms) rules best = Some (rule, m)).
Proof.
  revert best. induction rules as [|r rest IH]; intros best Hwf.
  - cbn. repeat split; auto. intros ? ? [].
  - cbn [List.fold_left].
    destruct (bestMatchStep_inv best r Hwf) as (Hwf' & Hcov & Hr & Hsel).
    destruct (IH _ Hwf') as (Hwf'' & Hcov' & Hall & Hsel').
    split; [exact Hwf''|]. split; [auto|]. split.
    + intros rule sc [<-|Hin] Hsc; eauto.
    + destruct Hsel' as [E|(rule & m & Hin & E)].
      * rewrite E. destruct Hsel as [E'|(m & E')]; [left; exact E'|].
        right. exists r, m. split; [left; reflexivity|exact E'].
      * right. exists rule, m. split; [right; exact Hin|exact E].
Qed.

End ApplyRules.

(** C5 (rule score and rule selection). The score that
    [calculateRuleMatch] gives a rule is 0 when some condition marked
    required is satisfied by no symptom, and otherwise the average, over
    all conditions of the rule, of the per-condition scores (0.5 base,
    +0.3 severity, +0.2 body part, +0.2 duration range, capped at 1.0).
    The duration range matches when the duration of the symptom,
    measured in hours, lies between the two bounds of the range, the
    bounds included. [applyRiskRules] delivers a rule of the table whose score exceeds
    0.5 and is the highest of all rules, with the rule's level and the
    confidence [rule.confidence * score]; it delivers nothing exactly
    when no rule scores above 0.5. *)
Theorem rule_score_and_selection
        (this : RiskClassifierImpl.t) (symptoms : list SymptomEntity) :
  (forall rule,
      Spec.sameNumber (RiskClassifierImpl.calculateRuleMatch symptoms rule)
                      (Spec.ruleScore symptoms rule))
  /\ match RiskClassifierImpl.applyRiskRules this symptoms with
     | Some a =>
         exists rule score,
           In rule (RiskClassifierImpl.riskRules this)
           /\ RiskClassifierImpl.calculateRuleMatch symptoms rule = Some score
           /\ (0.5 < score)%Q
           /\ (forall rule' score',
                  In rule' (RiskClassifierImpl.riskRules this) ->
                  RiskClassifierImpl.calculateRuleMatch symptoms rule' = Some score' ->
                  (score' <= score)%Q)
           /\ level a = RiskClassifierImpl.r_riskLevel rule
           /\ ra_confidence a = (RiskClassifierImpl.r_confidence rule * score)%Q
     | None =>
         forall rule' score',
           In rule' (RiskClassifierImpl.riskRules this) ->
           RiskClassifierImpl.calculateRuleMatch symptoms rule' = Some score' ->
           (score' <= 0.5)%Q
     end.
Proof.
  split; [apply calculateRuleMatch_ruleScore|].
  unfold RiskClassifierImpl.applyRiskRules, RiskClassifierImpl.bestMatchOf.
  destruct (bestMatch_fold symptoms (RiskClassifierImpl.riskRules this) None I)
    as (Hwf & _ & Hall & Hsel).
  destruct (List.fold_left _ _ None) as [[rule score]|] eqn:E.
  - destruct Hsel as [?|(rule0 & m & Hin & [= <- <-])]; [discriminate|].
    destruct Hwf as [Hsc Hgt]. exists rule, score.
    repeat split; auto.
  - exact Hall.
Qed.

(** a severe headache with a mild fever: the third rule scores
    (0.8 + 0.5) / 2 = 0.65, the highest score above 0.5, and the
    assessment is an emergency of confidence 0.8 * 0.65 *)
Example rule_score_example :
  (exists score,
      RiskClassifierImpl.calculateRuleMatch
        [ Sample.severeHeadache; Sample.mildFever ]
        (List.nth 2 RiskClassifierImpl.initializeRiskRules
                  (List.hd {| RiskClassifierImpl.conditions := [];
                              RiskClassifierImpl.r_riskLevel := RiskLevel.MILD;
                              RiskClassifierImpl.r_confidence := 0;
                              RiskClassifierImpl.r_reasoning := [];
                              RiskClassifierImpl.r_recommendations := [] |}
                           RiskClassifierImpl.initializeRiskRules))
      = Some score /\ (score == 0.65)%Q)
  /\ (exists a,
        RiskClassifierImpl.applyRiskRules RiskClassifierImpl.new
          [ Sample.severeHeadache; Sample.mildFever ] = Some a
        /\ level a = RiskLevel.EMERGENCY /\ (ra_confidence a == 0.52)%Q).
Proof.
  split; eexists; (split; [vm_compute; reflexivity|]).
  - vm_compute. reflexivity.
  - split; vm_compute; reflexivity.
Qed.

(** a cough of two days against a rule that asks for a cough of one to
    three days scores 0.5 + 0.2; a cough of four days, or of ninety
    minutes, is outside the range and scores the base 0.5 *)
Example rule_score_duration_example :
  let rule :=
    {| RiskClassifierImpl.conditions :=
         [ {| RiskClassifierImpl.c_symptom := "cough";
              RiskClassifierImpl.c_severity := None;
              RiskClassifierImpl.c_bodyPart := None;
              RiskClassifierImpl.c_duration :=
                Some {| RiskClassifierImpl.min := 1%Q;
                        RiskClassifierImpl.max := 3%Q;
                        RiskClassifierImpl.dr_unit := "days" |};
              RiskClassifierImpl.required := true |} ];
       RiskClassifierImpl.r_riskLevel := RiskLevel.MODERATE;
       RiskClassifierImpl.r_confidence := 0.7%Q;
       RiskClassifierImpl.r_reasoning := [];
       RiskClassifierImpl.r_recommendations := [] |} in
  let cough (value : Q) unit_ :=
    {| symptom := "cough"; bodyPart := None; severity := SeverityLevel.MILD;
       duration := Some {| d_value := value; d_unit := unit_ |};
       confidence := 0.8%Q |} in
  Spec.sameNumber (RiskClassifierImpl.calculateRuleMatch [ cough 2%Q "days" ] rule)
                  (Some 0.7%Q)
  /\ Spec.sameNumber (RiskClassifierImpl.calculateRuleMatch [ cough 72%Q "hours" ] rule)
                     (Some 0.7%Q)
  /\ Spec.sameNumber (RiskClassifierImpl.calculateRuleMatch [ cough 4%Q "days" ] rule)
                     (Some 0.5%Q)
  /\ Spec.sameNumber (RiskClassifierImpl.calculateRuleMatch [ cough 90%Q "minutes" ] rule)
                     (Some 0.5%Q).
Proof. repeat split; vm_compute; reflexivity. Qed.

(** ** The severity fallback *)

Section Fallback.
Import RiskClassifierImpl.
Local Open Scope Q_scope.
Variable this : RiskClassifierImpl.t.

Lemma adjustedRiskOf_tier (s : SymptomEntity) :
  adjustedRiskOf this s = Spec.tierOfFallback (symptomSeverityMap this) s.
Proof.
  unfold adjustedRiskOf, Spec.tierOfFallback, baseRiskOf, Spec.baseTier.
  destruct (symptomSeverityMap this !! symptom s) as [[]|], (severity s); reflexivity.
Qed.

Lemma higher_step (m a : RiskLevel.t) :
  (if (getRiskLevelPriority m <? getRiskLevelPriority a)%nat then a else m)
  = Spec.higher m a.
Proof. destruct m, a; reflexivity. Qed.

Lemma higher_assoc (a b c : RiskLevel.t) :
  Spec.higher (Spec.higher a b) c = Spec.higher a (Spec.higher b c).
Proof. destruct a, b, c; reflexivity. Qed.

Lemma higher_mild_r (a : RiskLevel.t) : Spec.higher a RiskLevel.MILD = a.
Proof. destruct a; reflexivity. Qed.

Lemma higher_mild_l (a : RiskLevel.t) : Spec.higher RiskLevel.MILD a = a.
Proof. destruct a; reflexivity. Qed.

(** what the loop of [assessBySymptomSeverity] has computed at its end *)
Lemma severity_fold (symptoms : list SymptomEntity) m t (rs : list string) :
  List.fold_left (severityStep this) symptoms (m, t, rs)
  = (Spec.higher m (Spec.maxTier
                      (List.map (Spec.tierOfFallback (symptomSeverityMap this)) symptoms)),
     List.fold_left (fun t s => t + confidence s) symptoms t,
     (rs ++ List.map (fun s => (symptom s ++ " ("
                                ++ SeverityLevel.value (severity s) ++ " severity)")%string)
                     symptoms)%list).
Proof.
  revert m t rs. induction symptoms as [|s rest IH]; intros m t rs.
  - cbn. rewrite higher_mild_r, app_nil_r. reflexivity.
  - cbn [List.fold_left List.map Spec.maxTier List.fold_right].
    unfold severityStep at 2. rewrite IH.
    rewrite higher_step, adjustedRiskOf_tier, higher_assoc.
    rewrite <- List.app_assoc. reflexivity.
Qed.

Lemma confidence_fold (symptoms : list SymptomEntity) (t : Q) :
  List.fold_left (fun t s => t + confidence s) symptoms t
  == t + Spec.sum (List.map confidence symptoms).
Proof.
  revert t. induction symptoms as [|s rest IH]; intros t.
  - cbn. ring.
  - cbn [List.fold_left List.map Spec.sum List.fold_right]. rewrite IH.
    fold (Spec.sum (List.map confidence rest)). ring.
Qed.

Lemma sum_confidence_pos (symptoms : list SymptomEntity) :
  symptoms <> [] ->
  (forall s, In s symptoms -> 0 < confidence s) ->
  0 < Spec.sum (List.map confidence symptoms).
Proof.
  induction symptoms as [|s rest IH]; [congruence|]. intros _ Hpos.
  cbn [List.map Spec.sum List.fold_right].
  fold (Spec.sum (List.map confidence rest)).
  assert (Hs : 0 < confidence s) by (apply Hpos; left; reflexivity).
  destruct rest as [|s' rest'].
  - cbn. lra.
  - assert (0 < Spec.sum (List.map confidence (s' :: rest'))).
    { apply IH; [congruence|]. intros x Hx. apply Hpos. right. exact Hx. }
    lra.
Qed.

Lemma assessBySymptomSeverity_level (symptoms : list SymptomEntity) :
  level (assessBySymptomSeverity this symptoms)
  = Spec.maxTier (List.map (Spec.tierOfFallback (symptomSeverityMap this)) symptoms).
Proof.
  unfold assessBySymptomSeverity. rewrite severity_fold.
  cbn [level]. apply higher_mild_l.
Qed.

Lemma assessBySymptomSeverity_confidence (symptoms : list SymptomEntity) :
  ra_confidence (assessBySymptomSeverity this symptoms)
  == Qmin (Spec.meanConfidence symptoms) 1.
Proof.
  unfold assessBySymptomSeverity. rewrite severity_fold.
  cbn [ra_confidence]. unfold Spec.meanConfidence.
  assert (E1 : 1.0 == 1) by reflexivity. rewrite E1.
  rewrite confidence_fold.
  assert (E0 : 0 + Spec.sum (List.map confidence symptoms)
               == Spec.sum (List.map confidence symptoms)) by ring.
  rewrite E0. reflexivity.
Qed.

Lemma assessBySymptomSeverity_lists (symptoms : list SymptomEntity) :
  symptoms <> [] ->
  reasoning (assessBySymptomSeverity this symptoms) <> []
  /\ recommendations (assessBySymptomSeverity this symptoms) <> [].
Proof.
  intros Hne. unfold assessBySymptomSeverity. rewrite severity_fold.
  split.
  - cbn [reasoning]. destruct symptoms as [|s rest]; [congruence|]. discriminate.
  - cbn [recommendations]. destruct (Spec.higher _ _); discriminate.
Qed.

Lemma checkEmergencyConditions_some (symptoms : list SymptomEntity) a :
  checkEmergencyConditions this symptoms = Some a ->
  level a = RiskLevel.EMERGENCY
  /\ 0 < ra_confidence a <= 1
  /\ reasoning a <> [] /\ recommendations a <> [].
Proof.
  unfold checkEmergencyConditions.
  destruct (emergencyKeywordScan this symptoms) as [k|].
  - intros [= <-]. cbn. repeat split; try discriminate; lra.
  - destruct (0 <? _)%nat; [|discriminate].
    intros [= <-]. cbn. repeat split; try discriminate; lra.
Qed.

Lemma applyRiskRules_some (symptoms : list SymptomEntity) a :
  List.Forall Inv.deliverable (riskRules this) ->
  applyRiskRules this symptoms = Some a ->
  0 < ra_confidence a <= 1 /\ reasoning a <> [] /\ recommendations a <> [].
Proof.
  intros Hrules. unfold applyRiskRules, bestMatchOf.
  destruct (bestMatch_fold symptoms (riskRules this) None I)
    as (Hwf & _ & _ & Hsel).
  destruct (List.fold_left _ _ None) as [[rule score]|] eqn:E; [|discriminate].
  destruct Hsel as [?|(rule0 & m & Hin & [= <- <-])]; [discriminate|].
  destruct Hwf as [Hsc Hgt]. apply calculateRuleMatch_bounds in Hsc.
  rewrite List.Forall_forall in Hrules.
  destruct (Hrules rule Hin) as (Hc & Hr1 & Hr2).
  intros [= <-]. cbn [ra_confidence reasoning recommendations].
  split; [|split; assumption]. nra.
Qed.

End Fallback.

Lemma initial_rules_deliverable :
  List.Forall Inv.deliverable (RiskClassifierImpl.riskRules RiskClassifierImpl.new).
Proof.
  unfold RiskClassifierImpl.new, RiskClassifierImpl.initializeRiskRules.
  cbn [RiskClassifierImpl.riskRules].
  repeat constructor; cbn; try lra; discriminate.
Qed.

(** C3 (total classification), as the claim states it, fails: a list
    whose only symptom has confidence 0 reaches the severity fallback,
    and the assessment then has confidence 0, outside (0,1]. *)
Lemma total_classification_counterexample :
  ~ ((level (RiskClassifierImpl.classifyRisk RiskClassifierImpl.new
               [ Sample.unsureCough ]) = RiskLevel.MILD
      \/ level (RiskClassifierImpl.classifyRisk RiskClassifierImpl.new
                  [ Sample.unsureCough ]) = RiskLevel.MODERATE
      \/ level (RiskClassifierImpl.classifyRisk RiskClassifierImpl.new
                  [ Sample.unsureCough ]) = RiskLevel.EMERGENCY)
     /\ (0 < ra_confidence (RiskClassifierImpl.classifyRisk RiskClassifierImpl.new
                              [ Sample.unsureCough ]) <= 1)%Q
     /\ reasoning (RiskClassifierImpl.classifyRisk RiskClassifierImpl.new
                     [ Sample.unsureCough ]) <> []
     /\ recommendations (RiskClassifierImpl.classifyRisk RiskClassifierImpl.new
                           [ Sample.unsureCough ]) <> []).
Proof.
  intros (_ & [Hpos _] & _).
  assert (E : ra_confidence (RiskClassifierImpl.classifyRisk RiskClassifierImpl.new
                               [ Sample.unsureCough ]) = 0%Q) by (vm_compute; reflexivity).
  rewrite E in Hpos. exact (Qlt_irrefl _ Hpos).
Qed.

(** C3 (total classification), amended. For every symptom list,
    including the empty one, whose symptoms all have a positive
    confidence, [classifyRisk] returns an assessment whose level is one
    of mild, moderate and emergency, whose confidence lies in (0,1], and
    whose reasoning and recommendations are not empty. *)
Theorem total_classification (symptoms : list SymptomEntity) :
  (forall s, In s symptoms -> (0 < confidence s)%Q) ->
  (level (RiskClassifierImpl.classifyRisk RiskClassifierImpl.new symptoms) = RiskLevel.MILD
   \/ level (RiskClassifierImpl.classifyRisk RiskClassifierImpl.new symptoms)
      = RiskLevel.MODERATE
   \/ level (RiskClassifierImpl.classifyRisk RiskClassifierImpl.new symptoms)
      = RiskLevel.EMERGENCY)
  /\ (0 < ra_confidence (RiskClassifierImpl.classifyRisk RiskClassifierImpl.new symptoms)
      <= 1)%Q
  /\ reasoning (RiskClassifierImpl.classifyRisk RiskClassifierImpl.new symptoms) <> []
  /\ recommendations (RiskClassifierImpl.classifyRisk RiskClassifierImpl.new symptoms) <> [].
Proof.
  intros Hpos. split.
  { destruct (level _); auto. }
  destruct (list_eq_nil_dec symptoms) as [->|Hne].
  { cbn. repeat split; try discriminate; lra. }
  rewrite (classifyRisk_stages _ symptoms Hne).
  destruct (RiskClassifierImpl.checkEmergencyConditions _ symptoms) as [a|] eqn:Ee.
  { apply checkEmergencyConditions_some in Ee. tauto. }
  destruct (RiskClassifierImpl.applyRiskRules _ symptoms) as [a|] eqn:Er.
  { apply (applyRiskRules_some _ _ _ initial_rules_deliverable) in Er. exact Er. }
  split; [|apply assessBySymptomSeverity_lists; exact Hne].
  rewrite assessBySymptomSeverity_confidence. unfold Spec.meanConfidence.
  pose proof (sum_confidence_pos symptoms Hne Hpos) as Hs.
  pose proof (lengthQ_pos symptoms Hne) as Hl.
  split.
  - apply Q.min_glb_lt; [|lra]. apply Qlt_shift_div_l; [exact Hl|lra].
  - apply Q.le_min_r.
Qed.

Lemma total_classification_witness :
  (0 < ra_confidence (RiskClassifierImpl.classifyRisk RiskClassifierImpl.new
                        [ Sample.mildCough; Sample.mildFever ]) <= 1)%Q.
Proof.
  apply (total_classification [ Sample.mildCough; Sample.mildFever ]).
  intros s [<-|[<-|[]]]; vm_compute; reflexivity.
Defined.

(** C4 (severity fallback), as the claim states it, fails: on a cough of
    moderate severity neither the emergency override nor a rule fires,
    the tier of a cough is mild and the severity is not severe, yet the
    level returned is moderate. *)
Lemma severity_fallback_counterexample :
  RiskClassifierImpl.checkEmergencyConditions RiskClassifierImpl.new
    [ Sample.moderateCough ] = None
  /\ RiskClassifierImpl.applyRiskRules RiskClassifierImpl.new [ Sample.moderateCough ] = None
  /\ severity Sample.moderateCough <> SeverityLevel.SEVERE
  /\ Spec.maxTier
       (List.map (Spec.tierEscalatedOnlyWhenSevere
                    (RiskClassifierImpl.symptomSeverityMap RiskClassifierImpl.new))
                 [ Sample.moderateCough ]) = RiskLevel.MILD
  /\ level (RiskClassifierImpl.classifyRisk RiskClassifierImpl.new [ Sample.moderateCough ])
     = RiskLevel.MODERATE.
Proof.
  repeat split; try (vm_compute; reflexivity). discriminate.
Qed.

(** C4 (severity fallback), amended. For every non-empty symptom list
    on which neither the emergency override nor any rule fires,
    [classifyRisk] maps each symptom to its tier in the static table
    (mild when absent), moves that tier one step up when the severity is
    severe (saturating at emergency) and moves a mild tier to moderate
    when the severity is moderate, never below the tier of the table;
    the level is the maximum tier over all symptoms and the confidence
    is the mean of the symptoms' confidences, capped at 1.0. *)
Theorem severity_fallback (this : RiskClassifierImpl.t) (symptoms : list SymptomEntity) :
  symptoms <> [] ->
  RiskClassifierImpl.checkEmergencyConditions this symptoms = None ->
  RiskClassifierImpl.applyRiskRules this symptoms = None ->
  level (RiskClassifierImpl.classifyRisk this symptoms)
  = Spec.maxTier
      (List.map (Spec.tierOfFallback (RiskClassifierImpl.symptomSeverityMap this)) symptoms)
  /\ (ra_confidence (RiskClassifierImpl.classifyRisk this symptoms)
      == Qmin (Spec.meanConfidence symptoms) 1)%Q
  /\ (forall s,
         Spec.higher (Spec.baseTier (RiskClassifierImpl.symptomSeverityMap this) s)
                     (Spec.tierOfFallback (RiskClassifierImpl.symptomSeverityMap this) s)
         = Spec.tierOfFallback (RiskClassifierImpl.symptomSeverityMap this) s).
Proof.
  intros Hne He Hr.
  assert (E : RiskClassifierImpl.classifyRisk this symptoms
              = RiskClassifierImpl.assessBySymptomSeverity this symptoms).
  { rewrite (classifyRisk_stages _ symptoms Hne), He, Hr. reflexivity. }
  rewrite E. split; [apply assessBySymptomSeverity_level|].
  split; [apply assessBySymptomSeverity_confidence|].
  intros s. unfold Spec.tierOfFallback.
  destruct (severity s), (Spec.baseTier _ s); reflexivity.
Qed.

Lemma severity_fallback_witness :
  level (RiskClassifierImpl.classifyRisk RiskClassifierImpl.new
           [ Sample.moderateCough; Sample.mildCough ])
  = Spec.maxTier
      (List.map (Spec.tierOfFallback
                   (RiskClassifierImpl.symptomSeverityMap RiskClassifierImpl.new))
                [ Sample.moderateCough; Sample.mildCough ]).
Proof.
  apply (severity_fallback RiskClassifierImpl.new
           [ Sample.moderateCough; Sample.mildCough ]).
  - discriminate.
  - vm_compute. reflexivity.
  - vm_compute. reflexivity.
Defined.

(** ** Intent detection *)

Section Literals.
Import RegExp.

Lemma matchesPrefix_Never (s : string) : matchesPrefix Never s = false.
Proof. destruct s; reflexivity. Qed.

Lemma mkSeq_Eps_lit (k : string) : mkSeq Eps (lit k) = lit k.
Proof. destruct k; reflexivity. Qed.

Lemma mkAlt_lit_Never (k : string) : mkAlt (lit k) Never = lit k.
Proof. destruct k; reflexivity. Qed.

(** a literal pattern matches at the head of a text exactly when the
    text starts with the literal, up to case *)
Lemma matchesPrefix_lit (k s : string) :
  matchesPrefix (lit k) s = JS.startsWith (JS.toLowerCase s) (JS.toLowerCase k).
Proof.
  unfold JS.startsWith. revert s. induction k as [|c k IH]; intros s.
  - destruct s; reflexivity.
  - destruct s as [|x rest]; [reflexivity|].
    cbn [lit JS.toLowerCase String.prefix].
    change (matchesPrefix (Seq (chr c) (lit k)) (String x rest))
      with (matchesPrefix (deriv x (Seq (chr c) (lit k))) rest).
    cbn [deriv chr nullable].
    destruct (Ascii.eqb (JS.toLowerChar x) (JS.toLowerChar c)) eqn:E.
    + rewrite mkSeq_Eps_lit, mkAlt_lit_Never, IH.
      apply Ascii.eqb_eq in E. rewrite E.
      destruct (ascii_dec (JS.toLowerChar c) (JS.toLowerChar c)); [reflexivity|congruence].
    + cbn [mkSeq mkAlt]. rewrite matchesPrefix_Never.
      apply Ascii.eqb_neq in E.
      destruct (ascii_dec (JS.toLowerChar c) (JS.toLowerChar x)); [congruence|reflexivity].
Qed.

(** [/k/i.test(s)] is [s.toLowerCase().includes(k.toLowerCase())] *)
Lemma test_lit (k s : string) : test (lit k) s = JS.includesCI s k.
Proof.
  unfold JS.includesCI. induction s as [|x rest IH].
  - cbn [test JS.toLowerCase JS.includes]. rewrite matchesPrefix_lit. reflexivity.
  - cbn [test JS.includes JS.toLowerCase]. rewrite matchesPrefix_lit, IH. reflexivity.
Qed.

Lemma anyTest_lits (ks : list string) (s : string) :
  anyTest (List.map lit ks) s = List.existsb (JS.includesCI s) ks.
Proof.
  unfold anyTest. induction ks as [|k ks IH]; [reflexivity|].
  cbn [List.map List.existsb]. rewrite test_lit, IH. reflexivity.
Qed.

End Literals.

(** a text contains a symptom keyword when some keyword of the table
    occurs in it *)
Lemma containsSymptomKeywords_occurs (this : NLProcessorImpl.t) (text : string) :
  NLProcessorImpl.containsSymptomKeywords this text = true
  <-> exists name keywords keyword,
      In (name, keywords) (NLProcessorImpl.symptomKeywords this)
      /\ In keyword keywords
      /\ JS.includes text keyword = true.
Proof.
  unfold NLProcessorImpl.containsSymptomKeywords. rewrite List.existsb_exists. split.
  - intros ([name keywords] & Hin & Hhit).
    apply List.existsb_exists in Hhit. destruct Hhit as (keyword & Hk & Hinc).
    exists name, keywords, keyword. auto.
  - intros (name & keywords & keyword & Hin & Hk & Hinc).
    exists (name, keywords). split; [exact Hin|].
    apply List.existsb_exists. eauto.
Qed.

(** C6 (intent priority). [detectIntent] answers [unknown] as soon as
    the normalized text matches one of the "I don't know / not sure /
    unclear / maybe" patterns, before any other pattern is looked at,
    so also when the text describes a symptom; otherwise the groups are
    tried in the order describe_symptoms, end_session, request_help,
    ask_clarification, and when no pattern matches the answer is
    describe_symptoms if the text contains a symptom keyword and
    request_help if not. A text matches one of the [unknown] patterns
    exactly when it contains one of their twelve phrases, up to case.
    A text contains a symptom keyword exactly when one of the keywords
    that the table lists for some symptom occurs in it. *)
Theorem intent_priority (text : string) :
  NLProcessorImpl.detectIntent NLProcessorImpl.new text =
    (let normalizedText := JS.trim (JS.toLowerCase text) in
     if RegExp.anyTest NLProcessorImpl.unknownPatterns normalizedText
     then UserIntent.UNKNOWN
     else if RegExp.anyTest NLProcessorImpl.describeSymptomsPatterns normalizedText
     then UserIntent.DESCRIBE_SYMPTOMS
     else if RegExp.anyTest NLProcessorImpl.endSessionPatterns normalizedText
     then UserIntent.END_SESSION
     else if RegExp.anyTest NLProcessorImpl.requestHelpPatterns normalizedText
     then UserIntent.REQUEST_HELP
     else if RegExp.anyTest NLProcessorImpl.askClarificationPatterns normalizedText
     then UserIntent.ASK_CLARIFICATION
     else if NLProcessorImpl.containsSymptomKeywords NLProcessorImpl.new normalizedText
     then UserIntent.DESCRIBE_SYMPTOMS
     else UserIntent.REQUEST_HELP)
  /\ RegExp.anyTest NLProcessorImpl.unknownPatterns (JS.trim (JS.toLowerCase text))
     = List.existsb (JS.includesCI (JS.trim (JS.toLowerCase text)))
         [ "i don't know"; "not sure"; "don't understand"; "confused";
           "unclear"; "can't tell"; "hard to say"; "not certain";
           "maybe"; "i think"; "possibly"; "unsure" ]
  /\ (NLProcessorImpl.containsSymptomKeywords NLProcessorImpl.new
        (JS.trim (JS.toLowerCase text)) = true
      <-> exists name keywords keyword,
          In (name, keywords) NLProcessorImpl.initialSymptomKeywords
          /\ In keyword keywords
          /\ JS.includes (JS.trim (JS.toLowerCase text)) keyword = true).
Proof.
  split; [|split;
           [apply (anyTest_lits
                     [ "i don't know"; "not sure"; "don't understand"; "confused";
                       "unclear"; "can't tell"; "hard to say"; "not certain";
                       "maybe"; "i think"; "possibly"; "unsure" ])
           |apply containsSymptomKeywords_occurs]].
  unfold NLProcessorImpl.detectIntent.
  cbv zeta.
  destruct (RegExp.anyTest NLProcessorImpl.unknownPatterns _); [reflexivity|].
  unfold NLProcessorImpl.new at 1.
  cbn [NLProcessorImpl.intentPatterns NLProcessorImpl.initializePatterns
       NLProcessorImpl.firstIntent].
  unfold NLProcessorImpl.initializePatterns.
  cbn [NLProcessorImpl.firstIntent].
  destruct (RegExp.anyTest NLProcessorImpl.describeSymptomsPatterns _); [reflexivity|].
  destruct (RegExp.anyTest NLProcessorImpl.endSessionPatterns _); [reflexivity|].
  destruct (RegExp.anyTest NLProcessorImpl.requestHelpPatterns _); [reflexivity|].
  destruct (RegExp.anyTest NLProcessorImpl.askClarificationPatterns _); reflexivity.
Qed.

(** the check for [unknown] comes first: a text that describes a symptom
    and says "maybe" is [unknown], without the "maybe" it is a
    description *)
Example intent_unknown_before_describe :
  NLProcessorImpl.detectIntent NLProcessorImpl.new "I have a headache, maybe"
  = UserIntent.UNKNOWN
  /\ NLProcessorImpl.detectIntent NLProcessorImpl.new "I have a headache"
     = UserIntent.DESCRIBE_SYMPTOMS.
Proof. split; vm_compute; reflexivity. Qed.

(** no pattern matches either text: the keyword "headache" of the table
    makes the first a description, the second has no keyword *)
Example intent_keyword_fallback :
  NLProcessorImpl.detectIntent NLProcessorImpl.new "Headache"
  = UserIntent.DESCRIBE_SYMPTOMS
  /\ NLProcessorImpl.detectIntent NLProcessorImpl.new "Good morning"
     = UserIntent.REQUEST_HELP
  /\ NLProcessorImpl.firstIntent
       (NLProcessorImpl.intentPatterns NLProcessorImpl.new) "headache" = None.
Proof. repeat split; vm_compute; reflexivity. Qed.

(** ** Ambiguity score *)

(** C7 (ambiguity monotonicity). Take two texts scored with the same
    symptom list that agree on the length test and on the uncertainty
    markers, where every signal (body part, severity cue, duration cue)
    that the analysis detects in the first is also detected in the
    second. Then the score of the second is not greater than the score
    of the first. *)
Theorem ambiguity_monotone
        (this : AmbiguityDetectorImpl.t) (text1 text2 : string)
        (symptoms : list SymptomEntity) :
  let a1 := NLProcessorImpl.analyzeTextComplexity
              (AmbiguityDetectorImpl.nlProcessor this) text1 in
  let a2 := NLProcessorImpl.analyzeTextComplexity
              (AmbiguityDetectorImpl.nlProcessor this) text2 in
  (NLProcessorImpl.hasBodyPart a1 = true -> NLProcessorImpl.hasBodyPart a2 = true) ->
  (NLProcessorImpl.hasSeverity a1 = true -> NLProcessorImpl.hasSeverity a2 = true) ->
  (NLProcessorImpl.hasDuration a1 = true -> NLProcessorImpl.hasDuration a2 = true) ->
  (JS.splitSpaceLength (JS.trim text1) <? 3)%nat
  = (JS.splitSpaceLength (JS.trim text2) <? 3)%nat ->
  List.existsb (fun marker => JS.includes (JS.toLowerCase text1) marker)
               AmbiguityDetectorImpl.uncertaintyMarkers
  = List.existsb (fun marker => JS.includes (JS.toLowerCase text2) marker)
                 AmbiguityDetectorImpl.uncertaintyMarkers ->
  (AmbiguityDetectorImpl.getAmbiguityScore this text2 symptoms
   <= AmbiguityDetectorImpl.getAmbiguityScore this text1 symptoms)%Q.
Proof.
  intros a1 a2 Hb Hs Hd Hshort Hunc.
  unfold AmbiguityDetectorImpl.getAmbiguityScore.
  fold a1. fold a2. rewrite <- Hshort, <- Hunc.
  destruct (NLProcessorImpl.hasBodyPart a1), (NLProcessorImpl.hasBodyPart a2);
    try discriminate (Hb eq_refl);
    destruct (NLProcessorImpl.hasSeverity a1), (NLProcessorImpl.hasSeverity a2);
    try discriminate (Hs eq_refl);
    destruct (NLProcessorImpl.hasDuration a1), (NLProcessorImpl.hasDuration a2);
    try discriminate (Hd eq_refl);
    cbn [negb];
    destruct (length symptoms =? 0)%nat,
      (Num.ltNaN (AmbiguityDetectorImpl.averageConfidence symptoms) 0.5),
      (JS.splitSpaceLength (JS.trim text1) <? 3)%nat,
      (List.existsb _ AmbiguityDetectorImpl.uncertaintyMarkers);
    apply Q.min_le_compat_r; lra.
Qed.

Lemma ambiguity_monotone_witness :
  (AmbiguityDetectorImpl.getAmbiguityScore
     (AmbiguityDetectorImpl.new NLProcessorImpl.new)
     "i have a severe headache since yesterday" [ Sample.mildCough ]
   <= AmbiguityDetectorImpl.getAmbiguityScore
        (AmbiguityDetectorImpl.new NLProcessorImpl.new)
        "i have a headache" [ Sample.mildCough ])%Q.
Proof.
  apply (ambiguity_monotone (AmbiguityDetectorImpl.new NLProcessorImpl.new)
           "i have a headache" "i have a severe headache since yesterday"
           [ Sample.mildCough ]); vm_compute; try reflexivity; intros H; exact H.
Defined.

(** adding the cue "slight" to a text that has the cue "severe" is not
    an instance of C7: the table of severity keywords is scanned with
    the mild tier first, so the analysis of the longer text detects no
    severity cue, and its score is the higher one *)
Example ambiguity_mild_keyword_first :
  NLProcessorImpl.hasSeverity
    (NLProcessorImpl.analyzeTextComplexity NLProcessorImpl.new "i have a severe headache")
  = true
  /\ NLProcessorImpl.hasSeverity
       (NLProcessorImpl.analyzeTextComplexity NLProcessorImpl.new
          "i have a slight severe headache")
     = false
  /\ (AmbiguityDetectorImpl.getAmbiguityScore
        (AmbiguityDetectorImpl.new NLProcessorImpl.new)
        "i have a severe headache" [ Sample.mildCough ]
      < AmbiguityDetectorImpl.getAmbiguityScore
          (AmbiguityDetectorImpl.new NLProcessorImpl.new)
          "i have a slight severe headache" [ Sample.mildCough ])%Q.
Proof. repeat split; vm_compute; reflexivity. Qed.

(** ** Session store *)

Section Sessions.
Import SessionControllerImpl.

Lemma getSession_absent (st : State) (sessionId : string) :
  sessions st !! sessionId = None -> getSession st sessionId = None.
Proof. intros H. unfold getSession. rewrite H. reflexivity. Qed.

(** what [deleteSessionData] leaves of a live session *)
Lemma deleteSessionData_live (st : State) (sessionId : string) ref session :
  sessions st !! sessionId = Some ref ->
  heap st !! ref = Some session ->
  snd (deleteSessionData sessionId st) = Return tt
  /\ sessions (fst (deleteSessionData sessionId st)) = delete sessionId (sessions st)
  /\ heap (fst (deleteSessionData sessionId st))
     = <[ref := {| hs_id := hs_id session;
                   startTime := startTime session;
                   endTime := endTime session;
                   hs_symptoms := [];
                   riskAssessment := None;
                   conversationHistory := [];
                   status := status session |}]> (heap st).
Proof.
  intros Hs Hh. unfold deleteSessionData, getSession. rewrite Hs, Hh.
  cbn [sessionTimeouts store].
  destruct (sessionTimeouts st !! sessionId); cbn; auto.
Qed.

End Sessions.

(** C8 (session erasure). When [endSession] is called on the identifier
    of a live session, it returns normally; afterwards the session
    record has no symptoms, no conversation history and no assessment,
    [getSessionById] returns [null] for the identifier and the store has
    no entry for it. *)
Theorem session_erasure
        (st : SessionControllerImpl.State) (sessionId : string) (now1 now2 : Z)
        (ref : nat) (session : HealthSession) :
  SessionControllerImpl.sessions st !! sessionId = Some ref ->
  SessionControllerImpl.heap st !! ref = Some session ->
  snd (SessionControllerImpl.endSession sessionId now1 now2 st)
  = SessionControllerImpl.Return tt
  /\ (exists erased,
         SessionControllerImpl.heap
           (fst (SessionControllerImpl.endSession sessionId now1 now2 st)) !! ref
         = Some erased
         /\ hs_symptoms erased = []
         /\ conversationHistory erased = []
         /\ riskAssessment erased = None)
  /\ SessionControllerImpl.getSessionById sessionId
       (fst (SessionControllerImpl.endSession sessionId now1 now2 st)) = None
  /\ SessionControllerImpl.sessions
       (fst (SessionControllerImpl.endSession sessionId now1 now2 st)) !! sessionId = None.
Proof.
  intros Hs Hh. unfold SessionControllerImpl.endSession, SessionControllerImpl.getSession.
  rewrite Hs, Hh.
  match goal with
  | |- context [SessionControllerImpl.store ref ?e st] => set (ended := e)
  end.
  assert (Hs' : SessionControllerImpl.sessions (SessionControllerImpl.store ref ended st)
                !! sessionId = Some ref) by exact Hs.
  assert (Hh' : SessionControllerImpl.heap (SessionControllerImpl.store ref ended st)
                !! ref = Some ended) by apply lookup_insert_eq.
  destruct (deleteSessionData_live _ sessionId ref ended Hs' Hh') as (Hr & Hss & Hhp).
  split; [exact Hr|].
  assert (Hgone : SessionControllerImpl.sessions
                    (fst (SessionControllerImpl.deleteSessionData sessionId
                            (SessionControllerImpl.store ref ended st))) !! sessionId = None).
  { rewrite Hss. apply lookup_delete_eq. }
  split; [|split].
  - rewrite Hhp. eexists. split; [apply lookup_insert_eq|]. cbn. auto.
  - unfold SessionControllerImpl.getSessionById.
    rewrite (getSession_absent _ _ Hgone). reflexivity.
  - exact Hgone.
Qed.

Lemma session_erasure_witness :
  SessionControllerImpl.getSessionById "session-1"
    (fst (SessionControllerImpl.endSession "session-1" 3000 3001 Sample.liveState)) = None.
Proof.
  refine (proj1 (proj2 (proj2
            (session_erasure Sample.liveState "session-1" 3000 3001 0
               {| hs_id := "session-1"; startTime := 1000; endTime := None;
                  hs_symptoms := [ Sample.mildCough ];
                  riskAssessment := None;
                  conversationHistory :=
                    [ {| timestamp := 1000; turnType := system_response;
                         content := "Session started"; processedSymptoms := None |};
                      {| timestamp := 2000; turnType := user_input;
                         content := "Added symptoms: cough";
                         processedSymptoms := Some [ Sample.mildCough ] |} ];
                  status := SessionStatus.ACTIVE |} _ _)))).
  - vm_compute. reflexivity.
  - vm_compute. reflexivity.
Defined.

Lemma getSession_deleted (st : SessionControllerImpl.State) (sessionId : string) :
  SessionControllerImpl.getSession
    (fst (SessionControllerImpl.deleteSessionData sessionId st)) sessionId = None.
Proof.
  destruct (SessionControllerImpl.getSession st sessionId) as [[ref session]|] eqn:E.
  - unfold SessionControllerImpl.getSession in E.
    destruct (SessionControllerImpl.sessions st !! sessionId) as [ref'|] eqn:Hs;
      [|discriminate].
    destruct (SessionControllerImpl.heap st !! ref') as [session'|] eqn:Hh;
      [|discriminate].
    destruct (deleteSessionData_live st sessionId ref' session' Hs Hh) as (_ & Hss & _).
    apply getSession_absent. rewrite Hss. apply lookup_delete_eq.
  - unfold SessionControllerImpl.deleteSessionData. rewrite E. exact E.
Qed.

Lemma getSession_ended (st : SessionControllerImpl.State) (sessionId : string)
      (now1 now2 : Z) :
  SessionControllerImpl.getSession
    (fst (SessionControllerImpl.endSession sessionId now1 now2 st)) sessionId = None.
Proof.
  unfold SessionControllerImpl.endSession.
  destruct (SessionControllerImpl.getSession st sessionId) as [[ref session]|] eqn:E.
  - apply getSession_deleted.
  - exact E.
Qed.

(** C9 (deletion is idempotent). On an identifier that has no session
    in the store, in particular on the identifier of a session that
    [deleteSessionData] or [endSession] has already deleted,
    [deleteSessionData] and [endSession] return normally and leave the
    whole state of the controller, the session store included, as it
    was. *)
Theorem delete_absent_noop
        (st : SessionControllerImpl.State) (sessionId : string) (now1 now2 : Z) :
  SessionControllerImpl.sessions st !! sessionId = None
  \/ (exists st0, st = fst (SessionControllerImpl.deleteSessionData sessionId st0))
  \/ (exists st0 t1 t2, st = fst (SessionControllerImpl.endSession sessionId t1 t2 st0)) ->
  SessionControllerImpl.deleteSessionData sessionId st
  = (st, SessionControllerImpl.Return tt)
  /\ SessionControllerImpl.endSession sessionId now1 now2 st
     = (st, SessionControllerImpl.Return tt).
Proof.
  intros H.
  assert (E : SessionControllerImpl.getSession st sessionId = None).
  { destruct H as [H|[(st0 & ->)|(st0 & t1 & t2 & ->)]].
    - apply getSession_absent, H.
    - apply getSession_deleted.
    - apply getSession_ended. }
  unfold SessionControllerImpl.deleteSessionData, SessionControllerImpl.endSession.
  rewrite E. split; reflexivity.
Qed.

Lemma delete_absent_noop_witness :
  SessionControllerImpl.deleteSessionData "session-1" Sample.deletedState
  = (Sample.deletedState, SessionControllerImpl.Return tt)
  /\ SessionControllerImpl.endSession "session-1" 4000 4001 Sample.deletedState
     = (Sample.deletedState, SessionControllerImpl.Return tt).
Proof.
  apply (delete_absent_noop Sample.deletedState "session-1" 4000 4001).
  left. vm_compute. reflexivity.
Defined.

(** C10 (absent sessions throw). On an identifier that has no session
    in the store, [getSessionContext], [updateSessionContext],
    [addSymptoms] and [setRiskAssessment] each throw the error
    "Session not found: <id>" and leave the state of the controller, the
    session store included, as it was. *)
Theorem absent_session_throws
        (st : SessionControllerImpl.State) (sessionId : string) (now : Z)
        (context : PartialSessionContext) (symptoms : list SymptomEntity)
        (assessment : RiskAssessment) :
  SessionControllerImpl.sessions st !! sessionId = None ->
  SessionControllerImpl.getSessionContext sessionId now st
  = (st, SessionControllerImpl.Throw ("Session not found: " +:+ sessionId))
  /\ SessionControllerImpl.updateSessionContext sessionId context now st
     = (st, SessionControllerImpl.Throw ("Session not found: " +:+ sessionId))
  /\ SessionControllerImpl.addSymptoms sessionId symptoms now st
     = (st, SessionControllerImpl.Throw ("Session not found: " +:+ sessionId))
  /\ SessionControllerImpl.setRiskAssessment sessionId assessment now st
     = (st, SessionControllerImpl.Throw ("Session not found: " +:+ sessionId)).
Proof.
  intros H.
  unfold SessionControllerImpl.getSessionContext,
    SessionControllerImpl.updateSessionContext,
    SessionControllerImpl.addSymptoms, SessionControllerImpl.setRiskAssessment.
  rewrite (getSession_absent _ _ H). repeat split; reflexivity.
Qed.

Lemma absent_session_throws_witness :
  SessionControllerImpl.addSymptoms "session-1" [ Sample.mildFever ] 5000
    Sample.deletedState
  = (Sample.deletedState, SessionControllerImpl.Throw "Session not found: session-1").
Proof.
  refine (proj1 (proj2 (proj2
            (absent_session_throws Sample.deletedState "session-1" 5000
               {| pc_symptoms := None; pc_questionsAsked := None;
                  pc_riskLevel := None; pc_sessionDuration := None |}
               [ Sample.mildFever ] Sample.emergencyAssessment _)))).
  vm_compute. reflexivity.
Defined.

(** ** The safety guardian *)

Lemma append_cons (c : ascii) (a b : string) :
  String c a ++ b = String c (a ++ b).
Proof. reflexivity. Qed.

Lemma length_append (a b : string) :
  String.length (a ++ b) = (String.length a + String.length b)%nat.
Proof.
  induction a as [|c a IH]; [reflexivity|].
  rewrite append_cons. cbn [String.length Nat.add]. f_equal. exact IH.
Qed.

Lemma toLowerCase_append (a b : string) :
  JS.toLowerCase (a ++ b) = JS.toLowerCase a ++ JS.toLowerCase b.
Proof.
  induction a as [|c a IH]; [reflexivity|].
  rewrite append_cons. cbn [JS.toLowerCase]. rewrite append_cons.
  f_equal. exact IH.
Qed.

Lemma includes_append_r (a b k : string) :
  JS.includes b k = true -> JS.includes (a ++ b) k = true.
Proof.
  intros H. induction a as [|c a IH]; [exact H|].
  rewrite append_cons. cbn [JS.includes].
  destruct (JS.startsWith _ k); [reflexivity|exact IH].
Qed.

Lemma startsWith_toLowerCase (s k : string) :
  JS.startsWith s k = true ->
  JS.startsWith (JS.toLowerCase s) (JS.toLowerCase k) = true.
Proof.
  unfold JS.startsWith. revert s.
  induction k as [|c k IH]; intros s; [intros _; destruct s; reflexivity|].
  destruct s as [|d s]; cbn; [discriminate|].
  destruct (ascii_dec c d) as [->|]; [|discriminate].
  intros H. destruct (ascii_dec _ _); [auto|congruence].
Qed.

Lemma includes_toLowerCase (s k : string) :
  JS.includes s k = true -> JS.includes (JS.toLowerCase s) (JS.toLowerCase k) = true.
Proof.
  induction s as [|c s IH]; cbn [JS.includes JS.toLowerCase].
  - destruct (JS.startsWith "" k) eqn:E; [|discriminate]. intros _.
    pose proof (startsWith_toLowerCase "" k E) as E'.
    change (JS.toLowerCase "") with "" in E'. rewrite E'. reflexivity.
  - destruct (JS.startsWith (String c s) k) eqn:E.
    + intros _. pose proof (startsWith_toLowerCase (String c s) k E) as E'.
      change (JS.toLowerCase (String c s))
        with (String (JS.toLowerChar c) (JS.toLowerCase s)) in E'.
      rewrite E'. reflexivity.
    + intros H.
      destruct (JS.startsWith (String (JS.toLowerChar c) (JS.toLowerCase s))
                              (JS.toLowerCase k)); [reflexivity|auto].
Qed.

Section Guardian.
Import SafetyGuardianImpl.
Variable this : SafetyGuardianImpl.t.

(** a response that the validator accepts has none of the prohibited
    terms, whatever the case, and has a disclaimer fragment unless it
    is at most 50 characters long *)
Lemma validateResponse_valid (response : string) :
  isValid (validateResponse this response) = true ->
  (forall term, In term (prohibitedTerms this) ->
                JS.includes (JS.toLowerCase response) (JS.toLowerCase term) = false)
  /\ (hasDisclaimerFragment (JS.toLowerCase response) = true
      \/ (String.length response <= 50)%nat).
Proof.
  unfold validateResponse. cbn [isValid]. intros H.
  apply Nat.eqb_eq in H. apply List.length_zero_iff_nil in H.
  apply List.app_eq_nil in H. destruct H as [H1 H].
  apply List.app_eq_nil in H. destruct H as [_ H].
  apply List.app_eq_nil in H. destruct H as [_ H4].
  split.
  - intros term Hin.
    destruct (JS.includes (JS.toLowerCase response) (JS.toLowerCase term)) eqn:E;
      [|reflexivity].
    unfold termViolations in H1. apply List.map_eq_nil in H1.
    assert (Hf : In term (List.filter
                            (fun term => JS.includes (JS.toLowerCase response)
                                                     (JS.toLowerCase term))
                            (prohibitedTerms this))).
    { apply List.filter_In. split; assumption. }
    rewrite H1 in Hf. destruct Hf.
  - destruct (hasDisclaimerFragment (JS.toLowerCase response)); [left; reflexivity|].
    right. cbn [negb andb] in H4.
    destruct (50 <? String.length response)%nat eqn:E; [discriminate|].
    apply Nat.ltb_ge in E. exact E.
Qed.

Lemma randomPick_required (random : Q) :
  (0 <= random < 1)%Q ->
  In (randomPick random SAFETY_CONSTRAINTS.requiredDisclaimers)
     SAFETY_CONSTRAINTS.requiredDisclaimers.
Proof.
  intros [H0 H1]. unfold randomPick.
  set (x := (random * Num.lengthQ SAFETY_CONSTRAINTS.requiredDisclaimers)%Q).
  assert (Hx : (0 <= x < 3)%Q).
  { unfold x. change (Num.lengthQ SAFETY_CONSTRAINTS.requiredDisclaimers)
      with (inject_Z 3). change (inject_Z 3) with 3%Q. lra. }
  assert (Hlo : (0 <= Qfloor x)%Z).
  { change 0%Z with (Qfloor 0). apply Qfloor_resp_le. tauto. }
  assert (Hhi : (Qfloor x < 3)%Z).
  { rewrite Zlt_Qlt. pose proof (Qfloor_le x). change (inject_Z 3) with 3%Q. lra. }
  destruct (Qfloor x <? 0)%Z eqn:E; [apply Z.ltb_lt in E; lia|].
  assert (Hn : (Z.to_nat (Qfloor x) < 3)%nat) by lia.
  destruct (Z.to_nat (Qfloor x)) as [|[|[|n]]]; cbn; auto. lia.
Qed.

Lemma required_fragment (a disclaimer : string) :
  In disclaimer SAFETY_CONSTRAINTS.requiredDisclaimers ->
  hasDisclaimerFragment (JS.toLowerCase (a ++ " " ++ disclaimer)) = true.
Proof.
  intros Hin. unfold hasDisclaimerFragment. apply List.existsb_exists.
  exists disclaimer. split; [exact Hin|].
  rewrite !toLowerCase_append. apply includes_append_r. apply includes_append_r.
  destruct Hin as [<-|[<-|[<-|[]]]]; vm_compute; reflexivity.
Qed.

(** after [addMedicalDisclaimer] a response has a disclaimer fragment
    or is longer than 50 characters *)
Lemma addMedicalDisclaimer_fragment (random : Q) (response : string) :
  (0 <= random < 1)%Q ->
  hasDisclaimerFragment (JS.toLowerCase (addMedicalDisclaimer random response)) = true
  \/ (50 < String.length (addMedicalDisclaimer random response))%nat.
Proof.
  intros Hr. unfold addMedicalDisclaimer.
  destruct (hasDisclaimerFragment (JS.toLowerCase response)) eqn:E; [left; exact E|].
  destruct (JS.includes (JS.toLowerCase response) "emergency"
            || JS.includes (JS.toLowerCase response) "urgent").
  { right. rewrite !length_append. cbn. lia. }
  destruct (JS.includes (JS.toLowerCase response) "recommend"
            || JS.includes (JS.toLowerCase response) "suggest").
  { right. rewrite !length_append. cbn. lia. }
  left. apply required_fragment. apply randomPick_required. exact Hr.
Qed.

End Guardian.

(** the patterns of the validator on sample responses *)
Example validator_patterns_example :
  RegExp.anyTest SafetyGuardianImpl.diagnosisPatterns "I think You Have a rare disease." = true
  /\ RegExp.anyTest SafetyGuardianImpl.diagnosisPatterns "you have 2 disease" = false
  /\ RegExp.anyTest SafetyGuardianImpl.prescriptionPatterns "Take 2 doses of 500 MG" = true
  /\ RegExp.anyTest SafetyGuardianImpl.prescriptionPatterns "take some mg" = false
  /\ RegExp.anyTest SafetyGuardianImpl.prescriptionPatterns "a prescribed medication" = true
  /\ RegExp.anyTest SafetyGuardianImpl.prescriptionPatterns
       "this medication three time per day" = true
  /\ SafetyGuardianImpl.filterProhibitedContent
       "You have a cold, take Ibuprofen and amoxicillin tablets"
     = "your symptoms suggest a cold, take appropriate medication and appropriate medication treatment".
Proof. repeat split; vm_compute; reflexivity. Qed.

(** C2 (safety net), as the claim states it, fails. The text "You have
    a cold" is filtered and disclaimed into a text that the validator
    rejects, so the fallback of the risk level is returned; for an
    emergency assessment that text contains the prohibited term
    "condition", contains none of the disclaimer fragments, and is not
    the fallback template itself. *)
Lemma safe_response_counterexample :
  SafetyGuardianImpl.isValid
    (SafetyGuardianImpl.validateResponse SafetyGuardianImpl.new
       (SafetyGuardianImpl.addMedicalDisclaimer 0
          (SafetyGuardianImpl.filterProhibitedContent "You have a cold"))) = false
  /\ In "condition" (SafetyGuardianImpl.prohibitedTerms SafetyGuardianImpl.new)
  /\ JS.includes
       (SafetyGuardianImpl.generateSafeResponse SafetyGuardianImpl.new 0 0
          "You have a cold" Sample.emergencyAssessment) "condition" = true
  /\ SafetyGuardianImpl.hasDisclaimerFragment
       (JS.toLowerCase
          (SafetyGuardianImpl.generateSafeResponse SafetyGuardianImpl.new 0 0
             "You have a cold" Sample.emergencyAssessment)) = false
  /\ SafetyGuardianImpl.generateSafeResponse SafetyGuardianImpl.new 0 0
       "You have a cold" Sample.emergencyAssessment
     <> SafetyGuardianImpl.fallbackTemplate (level Sample.emergencyAssessment).
Proof.
  split; [vm_compute; reflexivity|].
  split; [vm_compute; tauto|].
  split; [vm_compute; reflexivity|].
  split; [vm_compute; reflexivity|].
  intros H. apply (f_equal String.length) in H. vm_compute in H. discriminate H.
Qed.

(** the fallback of a risk level is its template, a space, and a
    disclaimer: the emergency one for [emergency], the guidance one for
    [moderate], one picked at random from the required ones for [mild] *)
Lemma fallback_shape (random : Q) (l : RiskLevel.t) :
  SafetyGuardianImpl.addMedicalDisclaimer random (SafetyGuardianImpl.fallbackTemplate l)
  = SafetyGuardianImpl.fallbackTemplate l ++ " "
    ++ match l with
       | RiskLevel.EMERGENCY => SafetyGuardianImpl.emergencyDisclaimer
       | RiskLevel.MODERATE => SafetyGuardianImpl.guidanceDisclaimer
       | RiskLevel.MILD =>
           SafetyGuardianImpl.randomPick random SAFETY_CONSTRAINTS.requiredDisclaimers
       end.
Proof.
  unfold SafetyGuardianImpl.addMedicalDisclaimer.
  destruct l.
  - replace (SafetyGuardianImpl.hasDisclaimerFragment
               (JS.toLowerCase (SafetyGuardianImpl.fallbackTemplate RiskLevel.MILD)))
      with false by (vm_compute; reflexivity).
    replace (JS.includes (JS.toLowerCase (SafetyGuardianImpl.fallbackTemplate RiskLevel.MILD))
                         "emergency") with false by (vm_compute; reflexivity).
    replace (JS.includes (JS.toLowerCase (SafetyGuardianImpl.fallbackTemplate RiskLevel.MILD))
                         "urgent") with false by (vm_compute; reflexivity).
    replace (JS.includes (JS.toLowerCase (SafetyGuardianImpl.fallbackTemplate RiskLevel.MILD))
                         "recommend") with false by (vm_compute; reflexivity).
    replace (JS.includes (JS.toLowerCase (SafetyGuardianImpl.fallbackTemplate RiskLevel.MILD))
                         "suggest") with false by (vm_compute; reflexivity).
    reflexivity.
  - replace (SafetyGuardianImpl.hasDisclaimerFragment
               (JS.toLowerCase (SafetyGuardianImpl.fallbackTemplate RiskLevel.MODERATE)))
      with false by (vm_compute; reflexivity).
    replace (JS.includes
               (JS.toLowerCase (SafetyGuardianImpl.fallbackTemplate RiskLevel.MODERATE))
               "emergency") with false by (vm_compute; reflexivity).
    replace (JS.includes
               (JS.toLowerCase (SafetyGuardianImpl.fallbackTemplate RiskLevel.MODERATE))
               "urgent") with false by (vm_compute; reflexivity).
    replace (JS.includes
               (JS.toLowerCase (SafetyGuardianImpl.fallbackTemplate RiskLevel.MODERATE))
               "suggest") with true by (vm_compute; reflexivity).
    rewrite orb_true_r. reflexivity.
  - replace (SafetyGuardianImpl.hasDisclaimerFragment
               (JS.toLowerCase (SafetyGuardianImpl.fallbackTemplate RiskLevel.EMERGENCY)))
      with false by (vm_compute; reflexivity).
    replace (JS.includes
               (JS.toLowerCase (SafetyGuardianImpl.fallbackTemplate RiskLevel.EMERGENCY))
               "emergency") with true by (vm_compute; reflexivity).
    reflexivity.
Qed.

Lemma randomPick_cases (random : Q) (disclaimers : list string) :
  SafetyGuardianImpl.randomPick random disclaimers = "undefined"
  \/ In (SafetyGuardianImpl.randomPick random disclaimers) disclaimers.
Proof.
  unfold SafetyGuardianImpl.randomPick.
  destruct (Qfloor _ <? 0)%Z; [left; reflexivity|].
  destruct (List.nth_in_or_default (Z.to_nat (Qfloor (random * Num.lengthQ disclaimers)))
              disclaimers "undefined"); auto.
Qed.

(** no fallback contains a term of the configured prohibited advice *)
Lemma fallback_without_advice (random : Q) (l : RiskLevel.t) (term : string) :
  In term SAFETY_CONSTRAINTS.prohibitedAdvice ->
  JS.includes
    (JS.toLowerCase
       (SafetyGuardianImpl.addMedicalDisclaimer random
          (SafetyGuardianImpl.fallbackTemplate l)))
    (JS.toLowerCase term) = false.
Proof.
  intros Hin. rewrite fallback_shape. destruct l.
  - destruct (randomPick_cases random SAFETY_CONSTRAINTS.requiredDisclaimers) as [E|E].
    + rewrite E. repeat (destruct Hin as [<-|Hin]; [vm_compute; reflexivity|]).
      destruct Hin.
    + destruct E as [<-|[<-|[<-|[]]]];
        repeat (destruct Hin as [<-|Hin]; [vm_compute; reflexivity|]);
        destruct Hin.
  - repeat (destruct Hin as [<-|Hin]; [vm_compute; reflexivity|]). destruct Hin.
  - repeat (destruct Hin as [<-|Hin]; [vm_compute; reflexivity|]). destruct Hin.
Qed.

(** C2 (safety net), amended. For every guardian whose prohibited terms
    include the configured prohibited advice, every input text, every
    assessment and every outcome of the random choices: the text
    returned by [generateSafeResponse] contains no term of the
    configured prohibited advice, verbatim or in another case. When the
    filtered and disclaimed text passes [validateResponse], it is the
    text returned, it contains none of the guardian's prohibited terms
    and it contains a disclaimer fragment. When it fails
    [validateResponse], the text returned is the fixed fallback template
    of the assessment's risk level followed by a space and a disclaimer,
    as [addMedicalDisclaimer] completes it. *)
Theorem safe_response
        (this : SafetyGuardianImpl.t) (random1 random2 : Q)
        (text : string) (assessment : RiskAssessment) :
  (forall term, In term SAFETY_CONSTRAINTS.prohibitedAdvice ->
                In term (SafetyGuardianImpl.prohibitedTerms this)) ->
  (0 <= random1 < 1)%Q ->
  (forall term,
      In term SAFETY_CONSTRAINTS.prohibitedAdvice ->
      JS.includes
        (SafetyGuardianImpl.generateSafeResponse this random1 random2 text assessment)
        term = false
      /\ JS.includes
           (JS.toLowerCase
              (SafetyGuardianImpl.generateSafeResponse this random1 random2
                 text assessment))
           (JS.toLowerCase term) = false)
  /\ (SafetyGuardianImpl.isValid
        (SafetyGuardianImpl.validateResponse this
           (SafetyGuardianImpl.addMedicalDisclaimer random1
              (SafetyGuardianImpl.filterProhibitedContent text))) = true ->
      SafetyGuardianImpl.generateSafeResponse this random1 random2 text assessment
      = SafetyGuardianImpl.addMedicalDisclaimer random1
          (SafetyGuardianImpl.filterProhibitedContent text)
      /\ (forall term,
             In term (SafetyGuardianImpl.prohibitedTerms this) ->
             JS.includes
               (SafetyGuardianImpl.generateSafeResponse this random1 random2
                  text assessment)
               term = false
             /\ JS.includes
                  (JS.toLowerCase
                     (SafetyGuardianImpl.generateSafeResponse this random1 random2
                        text assessment))
                  (JS.toLowerCase term) = false)
      /\ SafetyGuardianImpl.hasDisclaimerFragment
           (JS.toLowerCase
              (SafetyGuardianImpl.generateSafeResponse this random1 random2
                 text assessment)) = true)
  /\ (SafetyGuardianImpl.isValid
        (SafetyGuardianImpl.validateResponse this
           (SafetyGuardianImpl.addMedicalDisclaimer random1
              (SafetyGuardianImpl.filterProhibitedContent text))) = false ->
      SafetyGuardianImpl.generateSafeResponse this random1 random2 text assessment
      = SafetyGuardianImpl.addMedicalDisclaimer random2
          (SafetyGuardianImpl.fallbackTemplate (level assessment))
      /\ SafetyGuardianImpl.generateSafeResponse this random1 random2 text assessment
         = SafetyGuardianImpl.fallbackTemplate (level assessment) ++ " "
           ++ match level assessment with
              | RiskLevel.EMERGENCY => SafetyGuardianImpl.emergencyDisclaimer
              | RiskLevel.MODERATE => SafetyGuardianImpl.guidanceDisclaimer
              | RiskLevel.MILD =>
                  SafetyGuardianImpl.randomPick random2
                    SAFETY_CONSTRAINTS.requiredDisclaimers
              end).
Proof.
  intros Hadvice Hr. unfold SafetyGuardianImpl.generateSafeResponse.
  set (candidate := SafetyGuardianImpl.addMedicalDisclaimer random1
                      (SafetyGuardianImpl.filterProhibitedContent text)).
  assert (Hverbatim : forall out term,
             JS.includes (JS.toLowerCase out) (JS.toLowerCase term) = false ->
             JS.includes out term = false).
  { intros out term H. destruct (JS.includes out term) eqn:E; [|reflexivity].
    apply includes_toLowerCase in E. congruence. }
  destruct (SafetyGuardianImpl.isValid
              (SafetyGuardianImpl.validateResponse this candidate)) eqn:Hv; cbn [negb].
  - destruct (validateResponse_valid this candidate Hv) as [Hterms Hfrag].
    split; [|split; [|discriminate]].
    + intros term Hin. split; [apply Hverbatim|]; apply Hterms, Hadvice, Hin.
    + intros _. split; [reflexivity|]. split.
      * intros term Hin. split; [apply Hverbatim|]; apply Hterms, Hin.
      * destruct Hfrag as [Hf|Hlen]; [exact Hf|].
        destruct (addMedicalDisclaimer_fragment random1
                    (SafetyGuardianImpl.filterProhibitedContent text) Hr) as [Hf|Hlong];
          [exact Hf|].
        fold candidate in Hlong. lia.
  - unfold SafetyGuardianImpl.generateFallbackResponse.
    split; [|split; [discriminate|]].
    + intros term Hin. split; [apply Hverbatim|]; apply fallback_without_advice, Hin.
    + intros _. split; [reflexivity|apply fallback_shape].
Qed.

Lemma safe_response_witness :
  SafetyGuardianImpl.generateSafeResponse SafetyGuardianImpl.new 0.9 0
    "Rest well." Sample.emergencyAssessment
  = "Rest well. In case of emergency, contact emergency services immediately".
Proof.
  refine (proj1 (proj1 (proj2 (safe_response SafetyGuardianImpl.new 0.9 0 "Rest well."
                                 Sample.emergencyAssessment _ _)) _)).
  - intros term Hin. vm_compute in Hin. vm_compute. tauto.
  - vm_compute. split; [discriminate|reflexivity].
  - vm_compute. reflexivity.
Defined.


(** ** Further properties of the session store *)

Section SessionInvariant.
Import SessionControllerImpl.

Lemma getSession_Some (st : State) (sessionId : string) ref session :
  getSession st sessionId = Some (ref, session) <->
  sessions st !! sessionId = Some ref /\ heap st !! ref = Some session.
Proof.
  unfold getSession. split.
  - destruct (sessions st !! sessionId) as [r|]; [|discriminate].
    destruct (heap st !! r) as [s|] eqn:E; [|discriminate].
    intros [= <- <-]. auto.
  - intros [-> ->]. reflexivity.
Qed.

Lemma wellFormed_new : wellFormed new.
Proof.
  unfold wellFormed, new. cbn.
  repeat split; intros *; rewrite ?lookup_empty;
    try discriminate; try (intros [x Hx]; discriminate); set_solver.
Qed.

Lemma wellFormed_store (st : State) ref session :
  is_Some (heap st !! ref) -> wellFormed st -> wellFormed (store ref session st).
Proof.
  intros Hex (H1 & H2 & H3 & H4 & H5 & H6). unfold wellFormed, store. cbn.
  repeat split; auto.
  - intros sessionId r Hs. destruct (decide (ref = r)) as [->|Hne].
    + rewrite lookup_insert_eq. eauto.
    + rewrite lookup_insert_ne by done. eauto.
  - intros r Hr. destruct (decide (ref = r)) as [->|Hne]; [auto|].
    rewrite lookup_insert_ne in Hr by done. auto.
Qed.

Lemma wellFormed_setupSessionTimeout (st : State) (sessionId : string) :
  wellFormed st -> wellFormed (setupSessionTimeout sessionId st).
Proof.
  intros (H1 & H2 & H3 & H4 & H5 & H6). unfold wellFormed, setupSessionTimeout. cbn.
  repeat split; auto.
  - intros i t Ht. destruct (decide (sessionId = i)) as [->|Hne].
    + rewrite lookup_insert_eq in Ht. injection Ht as <-. set_solver.
    + rewrite lookup_insert_ne in Ht by done. apply H4 in Ht. set_solver.
  - intros t Ht. apply elem_of_union in Ht. destruct Ht as [Ht|Ht].
    + apply elem_of_singleton in Ht. lia.
    + apply H5 in Ht. lia.
  - intros i1 i2 t Ht1 Ht2.
    destruct (decide (sessionId = i1)) as [E1|Hn1];
      destruct (decide (sessionId = i2)) as [E2|Hn2]; simplify_map_eq; try done;
      try (exfalso;
           match goal with
           | H : sessionTimeouts st !! _ = Some (nextTimer st) |- _ =>
               apply H4, H5 in H; lia
           end).
    eauto.
Qed.

Lemma wellFormed_resetSessionTimeout (st : State) (sessionId : string) :
  wellFormed st -> wellFormed (resetSessionTimeout sessionId st).
Proof.
  intros Hwf. unfold resetSessionTimeout.
  destruct (sessionTimeouts st !! sessionId) as [t|] eqn:E;
    [|apply wellFormed_setupSessionTimeout, Hwf].
  destruct Hwf as (H1 & H2 & H3 & H4 & H5 & H6).
  unfold wellFormed, setupSessionTimeout, clearTimeout. cbn.
  repeat split; auto.
  - intros i t' Ht. destruct (decide (sessionId = i)) as [->|Hne].
    + rewrite lookup_insert_eq in Ht. injection Ht as <-. set_solver.
    + rewrite lookup_insert_ne in Ht by done.
      assert (t' <> t) by (intros ->; apply Hne; eauto).
      apply H4 in Ht. set_solver.
  - intros t' Ht. apply elem_of_union in Ht. destruct Ht as [Ht|Ht].
    + apply elem_of_singleton in Ht. lia.
    + apply elem_of_difference in Ht. destruct Ht as [Ht _]. apply H5 in Ht. lia.
  - intros i1 i2 t' Ht1 Ht2.
    destruct (decide (sessionId = i1)) as [E1|Hn1];
      destruct (decide (sessionId = i2)) as [E2|Hn2]; simplify_map_eq; try done;
      try (exfalso;
           match goal with
           | H : sessionTimeouts st !! _ = Some (nextTimer st) |- _ =>
               apply H4, H5 in H; lia
           end).
    eauto.
Qed.

Lemma wellFormed_startSession (st : State) (uuid : string) (now : Z) :
  wellFormed st -> wellFormed (fst (startSession uuid now st)).
Proof.
  intros (H1 & H2 & H3 & H4 & H5 & H6). unfold startSession. cbn [fst].
  apply wellFormed_setupSessionTimeout. unfold wellFormed. cbn.
  assert (Hfresh : heap st !! nextRef st = None).
  { destruct (heap st !! nextRef st) eqn:E; [|reflexivity].
    assert (nextRef st < nextRef st)%nat by (apply H2; eauto). lia. }
  repeat split; auto.
  - intros i r Hs. destruct (decide (uuid = i)) as [->|Hne].
    + rewrite lookup_insert_eq in Hs. injection Hs as <-.
      rewrite lookup_insert_eq. eauto.
    + rewrite lookup_insert_ne in Hs by done.
      destruct (decide (nextRef st = r)) as [<-|Hr].
      * rewrite lookup_insert_eq. eauto.
      * rewrite lookup_insert_ne by done. eauto.
  - intros r Hr. destruct (decide (nextRef st = r)) as [<-|Hne]; [lia|].
    rewrite lookup_insert_ne in Hr by done. apply H2 in Hr. lia.
  - intros i1 i2 r Hs1 Hs2.
    destruct (decide (uuid = i1)) as [E1|Hn1];
      destruct (decide (uuid = i2)) as [E2|Hn2]; simplify_map_eq; try done;
      try (exfalso;
           match goal with
           | H : sessions st !! _ = Some (nextRef st) |- _ =>
               apply H1 in H; rewrite Hfresh in H; destruct H; discriminate
           end).
    eauto.
Qed.

Lemma wellFormed_deleteSessionData (st : State) (sessionId : string) :
  wellFormed st -> wellFormed (fst (deleteSessionData sessionId st)).
Proof.
  intros Hwf. unfold deleteSessionData.
  destruct (getSession st sessionId) as [[ref session]|] eqn:E; [|exact Hwf].
  apply getSession_Some in E. destruct E as [Hs Hh].
  destruct Hwf as (H1 & H2 & H3 & H4 & H5 & H6).
  cbn [sessionTimeouts store].
  destruct (sessionTimeouts st !! sessionId) as [t|] eqn:Et;
    unfold wellFormed; cbn; repeat split; auto.
  all: try (intros i r Hi; apply lookup_delete_Some in Hi; destruct Hi as [Hne Hi];
            destruct (decide (ref = r)) as [->|Hr];
            [rewrite lookup_insert_eq|rewrite lookup_insert_ne by done]; eauto).
  all: try (intros r Hr; destruct (decide (ref = r)) as [<-|Hne];
            [apply H2; eauto|rewrite lookup_insert_ne in Hr by done; auto]).
  all: try (intros i1 i2 r Hi1 Hi2; apply lookup_delete_Some in Hi1, Hi2;
            destruct Hi1 as [_ Hi1], Hi2 as [_ Hi2]; eauto).
  - intros i t' Hi. apply lookup_delete_Some in Hi. destruct Hi as [Hne Hi].
    assert (t' <> t) by (intros ->; apply Hne; eauto).
    apply H4 in Hi. set_solver.
  - intros t' Ht. apply elem_of_difference in Ht. destruct Ht as [Ht _]. auto.
Qed.


Lemma wellFormed_updateSessionContext (st : State) (sessionId : string)
      (context : PartialSessionContext) (now : Z) :
  wellFormed st -> wellFormed (fst (updateSessionContext sessionId context now st)).
Proof.
  intros Hwf. unfold updateSessionContext.
  destruct (getSession st sessionId) as [[ref session]|] eqn:E; [|exact Hwf].
  apply getSession_Some in E. destruct E as [Hs Hh].
  apply wellFormed_store; [rewrite Hh; eauto|exact Hwf].
Qed.

Lemma wellFormed_addConversationTurn (st : State) (sessionId : string)
      (turn : ConversationTurn) :
  wellFormed st -> wellFormed (fst (addConversationTurn sessionId turn st)).
Proof.
  intros Hwf. unfold addConversationTurn.
  destruct (getSession st sessionId) as [[ref session]|] eqn:E; [|exact Hwf].
  apply getSession_Some in E. destruct E as [Hs Hh].
  apply wellFormed_resetSessionTimeout, wellFormed_store; [rewrite Hh; eauto|exact Hwf].
Qed.

Lemma wellFormed_addSymptoms (st : State) (sessionId : string)
      (symptoms : list SymptomEntity) (now : Z) :
  wellFormed st -> wellFormed (fst (addSymptoms sessionId symptoms now st)).
Proof.
  intros Hwf. unfold addSymptoms.
  destruct (getSession st sessionId) as [[ref session]|] eqn:E; [|exact Hwf].
  apply getSession_Some in E. destruct E as [Hs Hh].
  apply wellFormed_addConversationTurn, wellFormed_store; [rewrite Hh; eauto|exact Hwf].
Qed.

Lemma wellFormed_setRiskAssessment (st : State) (sessionId : string)
      (assessment : RiskAssessment) (now : Z) :
  wellFormed st -> wellFormed (fst (setRiskAssessment sessionId assessment now st)).
Proof.
  intros Hwf. unfold setRiskAssessment.
  destruct (getSession st sessionId) as [[ref session]|] eqn:E; [|exact Hwf].
  apply getSession_Some in E. destruct E as [Hs Hh].
  apply wellFormed_addConversationTurn, wellFormed_store; [rewrite Hh; eauto|exact Hwf].
Qed.

Lemma wellFormed_endSession (st : State) (sessionId : string) (now1 now2 : Z) :
  wellFormed st -> wellFormed (fst (endSession sessionId now1 now2 st)).
Proof.
  intros Hwf. unfold endSession.
  destruct (getSession st sessionId) as [[ref session]|] eqn:E; [|exact Hwf].
  apply getSession_Some in E. destruct E as [Hs Hh].
  apply wellFormed_deleteSessionData, wellFormed_store; [rewrite Hh; eauto|exact Hwf].
Qed.

Lemma wellFormed_deleteAll (sessionIds : list string) (st : State) :
  wellFormed st -> wellFormed (deleteAll sessionIds st).
Proof.
  revert st. induction sessionIds as [|i rest IH]; intros st Hwf; [exact Hwf|].
  cbn. apply IH, wellFormed_deleteSessionData, Hwf.
Qed.

Lemma wellFormed_markExpired (now : Z) (entries : list (string * nat))
      (acc : State * list string) :
  wellFormed (fst acc) ->
  wellFormed (fst (List.fold_left (markExpired now) entries acc)).
Proof.
  revert acc. induction entries as [|e rest IH]; intros acc Hwf; [exact Hwf|].
  cbn [List.fold_left]. apply IH. unfold markExpired.
  destruct (heap (fst acc) !! snd e) as [s|] eqn:E; [|exact Hwf].
  destruct (isExpired now s); [|exact Hwf].
  cbn [fst]. apply wellFormed_store; [rewrite E; eauto|exact Hwf].
Qed.

Lemma wellFormed_cleanupExpiredSessions (st : State) (now : Z) :
  wellFormed st -> wellFormed (cleanupExpiredSessions now st).
Proof.
  intros Hwf. unfold cleanupExpiredSessions.
  apply wellFormed_deleteAll, wellFormed_markExpired. exact Hwf.
Qed.

Lemma clearAll_fields (entries : list (string * nat)) (st : State) :
  heap (List.fold_left (fun st entry => clearTimeout (snd entry) st) entries st) = heap st
  /\ sessions (List.fold_left (fun st entry => clearTimeout (snd entry) st) entries st)
     = sessions st
  /\ nextRef (List.fold_left (fun st entry => clearTimeout (snd entry) st) entries st)
     = nextRef st
  /\ nextTimer (List.fold_left (fun st entry => clearTimeout (snd entry) st) entries st)
     = nextTimer st
  /\ pendingTimers (List.fold_left (fun st entry => clearTimeout (snd entry) st) entries st)
     ⊆ pendingTimers st.
Proof.
  revert st. induction entries as [|e rest IH]; intros st; [cbn; auto|].
  cbn [List.fold_left]. destruct (IH (clearTimeout (snd e) st)) as (A & B & C & D & E).
  rewrite A, B, C, D. repeat split; try reflexivity.
  intros x Hx. apply E in Hx. unfold clearTimeout in Hx. cbn in Hx.
  apply elem_of_difference in Hx. tauto.
Qed.

Lemma wellFormed_shutdown (st : State) : wellFormed st -> wellFormed (shutdown st).
Proof.
  intros (H1 & H2 & H3 & H4 & H5 & H6). unfold shutdown.
  apply wellFormed_deleteAll.
  destruct (clearAll_fields (map_to_list (sessionTimeouts st)) st) as (A & B & C & D & E).
  unfold wellFormed. cbn. rewrite A, B, C, D.
  repeat split; auto; intros *; rewrite ?lookup_empty; try discriminate.
Qed.

End SessionInvariant.

Section SessionEffects.
Import SessionControllerImpl.

Lemma getSession_store_other (st : State) ref session (other : string) :
  sessions st !! other <> Some ref ->
  getSession (store ref session st) other = getSession st other.
Proof.
  intros Hne. unfold getSession, store. cbn.
  destruct (sessions st !! other) as [r|]; [|reflexivity].
  rewrite lookup_insert_ne; [reflexivity|congruence].
Qed.

Lemma getSession_store_same (st : State) ref session (sessionId : string) :
  sessions st !! sessionId = Some ref ->
  getSession (store ref session st) sessionId = Some (ref, session).
Proof.
  intros H. unfold getSession, store. cbn. rewrite H, lookup_insert_eq. reflexivity.
Qed.

Lemma getSession_resetSessionTimeout (st : State) (sessionId other : string) :
  getSession (resetSessionTimeout sessionId st) other = getSession st other.
Proof.
  unfold resetSessionTimeout. destruct (sessionTimeouts st !! sessionId); reflexivity.
Qed.

Lemma other_ref (st : State) (sessionId other : string) ref :
  wellFormed st -> sessionId <> other ->
  sessions st !! sessionId = Some ref -> sessions st !! other <> Some ref.
Proof.
  intros (_ & _ & H3 & _) Hne Hs Ho. apply Hne. eauto.
Qed.

(** what the mutators do to a live session *)
Lemma addConversationTurn_live (st : State) (sessionId : string) turn ref session :
  getSession st sessionId = Some (ref, session) ->
  snd (addConversationTurn sessionId turn st) = Return tt
  /\ getSession (fst (addConversationTurn sessionId turn st)) sessionId
     = Some (ref, {| hs_id := hs_id session;
                     startTime := startTime session;
                     endTime := endTime session;
                     hs_symptoms := hs_symptoms session;
                     riskAssessment := riskAssessment session;
                     conversationHistory := conversationHistory session ++ [ turn ];
                     status := status session |}).
Proof.
  intros E. unfold addConversationTurn. rewrite E. cbn [fst snd].
  split; [reflexivity|]. rewrite getSession_resetSessionTimeout.
  apply getSession_store_same. apply getSession_Some in E. tauto.
Qed.

Lemma addConversationTurn_other (st : State) (sessionId other : string) turn :
  wellFormed st -> sessionId <> other ->
  getSession (fst (addConversationTurn sessionId turn st)) other = getSession st other.
Proof.
  intros Hwf Hne. unfold addConversationTurn.
  destruct (getSession st sessionId) as [[ref session]|] eqn:E; [|reflexivity].
  cbn [fst]. rewrite getSession_resetSessionTimeout.
  apply getSession_store_other. apply getSession_Some in E.
  apply (other_ref st sessionId); tauto.
Qed.

Lemma deleteSessionData_other (st : State) (sessionId other : string) :
  wellFormed st -> sessionId <> other ->
  getSession (fst (deleteSessionData sessionId st)) other = getSession st other.
Proof.
  intros Hwf Hne. unfold deleteSessionData.
  destruct (getSession st sessionId) as [[ref session]|] eqn:E; [|reflexivity].
  apply getSession_Some in E. destruct E as [Hs Hh].
  pose proof (other_ref st sessionId other ref Hwf Hne Hs) as Ho.
  cbn [sessionTimeouts store].
  destruct (sessionTimeouts st !! sessionId); cbn [fst];
    unfold getSession; cbn; rewrite lookup_delete_ne by done;
    (destruct (sessions st !! other) as [r|]; [|reflexivity]);
    rewrite lookup_insert_ne by congruence; reflexivity.
Qed.

End SessionEffects.

(** X1 (the store stays well formed). The state of a new controller is
    well formed, and every operation of the controller keeps it so:
    identifiers of the store always refer to session objects, two
    identifiers never share an object or a timer, and the timer recorded
    for a session is pending. *)
Theorem session_store_well_formed (st : SessionControllerImpl.State) :
  SessionControllerImpl.wellFormed st ->
  (forall uuid now,
      SessionControllerImpl.wellFormed
        (fst (SessionControllerImpl.startSession uuid now st)))
  /\ (forall sessionId now1 now2,
         SessionControllerImpl.wellFormed
           (fst (SessionControllerImpl.endSession sessionId now1 now2 st)))
  /\ (forall sessionId,
         SessionControllerImpl.wellFormed
           (fst (SessionControllerImpl.deleteSessionData sessionId st)))
  /\ (forall sessionId context now,
         SessionControllerImpl.wellFormed
           (fst (SessionControllerImpl.updateSessionContext sessionId context now st)))
  /\ (forall sessionId turn,
         SessionControllerImpl.wellFormed
           (fst (SessionControllerImpl.addConversationTurn sessionId turn st)))
  /\ (forall sessionId symptoms now,
         SessionControllerImpl.wellFormed
           (fst (SessionControllerImpl.addSymptoms sessionId symptoms now st)))
  /\ (forall sessionId assessment now,
         SessionControllerImpl.wellFormed
           (fst (SessionControllerImpl.setRiskAssessment sessionId assessment now st)))
  /\ (forall now,
         SessionControllerImpl.wellFormed
           (SessionControllerImpl.cleanupExpiredSessions now st))
  /\ SessionControllerImpl.wellFormed (SessionControllerImpl.shutdown st).
Proof.
  intros Hwf.
  split; [intros; apply wellFormed_startSession, Hwf|].
  split; [intros; apply wellFormed_endSession, Hwf|].
  split; [intros; apply wellFormed_deleteSessionData, Hwf|].
  split; [intros; apply wellFormed_updateSessionContext, Hwf|].
  split; [intros; apply wellFormed_addConversationTurn, Hwf|].
  split; [intros; apply wellFormed_addSymptoms, Hwf|].
  split; [intros; apply wellFormed_setRiskAssessment, Hwf|].
  split; [intros; apply wellFormed_cleanupExpiredSessions, Hwf|].
  apply wellFormed_shutdown, Hwf.
Qed.

Lemma session_store_well_formed_witness :
  SessionControllerImpl.wellFormed
    (fst (SessionControllerImpl.startSession "session-1" 1000 SessionControllerImpl.new)).
Proof.
  apply (proj1 (session_store_well_formed SessionControllerImpl.new wellFormed_new)).
Defined.

(** X2 (sessions are isolated). In a well-formed state, an operation on
    one session identifier leaves every other session as it was: the
    record that [getSessionById] returns for another identifier is the
    same before and after. *)
Theorem sessions_isolated
        (st : SessionControllerImpl.State) (sessionId other : string) :
  SessionControllerImpl.wellFormed st ->
  sessionId <> other ->
  (forall now,
      SessionControllerImpl.getSessionById other
        (fst (SessionControllerImpl.startSession sessionId now st))
      = SessionControllerImpl.getSessionById other st)
  /\ (forall now1 now2,
         SessionControllerImpl.getSessionById other
           (fst (SessionControllerImpl.endSession sessionId now1 now2 st))
         = SessionControllerImpl.getSessionById other st)
  /\ SessionControllerImpl.getSessionById other
       (fst (SessionControllerImpl.deleteSessionData sessionId st))
     = SessionControllerImpl.getSessionById other st
  /\ (forall context now,
         SessionControllerImpl.getSessionById other
           (fst (SessionControllerImpl.updateSessionContext sessionId context now st))
         = SessionControllerImpl.getSessionById other st)
  /\ (forall turn,
         SessionControllerImpl.getSessionById other
           (fst (SessionControllerImpl.addConversationTurn sessionId turn st))
         = SessionControllerImpl.getSessionById other st)
  /\ (forall symptoms now,
         SessionControllerImpl.getSessionById other
           (fst (SessionControllerImpl.addSymptoms sessionId symptoms now st))
         = SessionControllerImpl.getSessionById other st)
  /\ (forall assessment now,
         SessionControllerImpl.getSessionById other
           (fst (SessionControllerImpl.setRiskAssessment sessionId assessment now st))
         = SessionControllerImpl.getSessionById other st).
Proof.
  intros Hwf Hne. unfold SessionControllerImpl.getSessionById.
  assert (Hstore : forall ref session s',
             SessionControllerImpl.getSession st sessionId = Some (ref, session) ->
             SessionControllerImpl.getSession
               (SessionControllerImpl.store ref s' st) other
             = SessionControllerImpl.getSession st other).
  { intros ref session s' E. apply getSession_store_other.
    apply getSession_Some in E. apply (other_ref st sessionId); tauto. }
  assert (Hwfs : forall ref session s',
             SessionControllerImpl.getSession st sessionId = Some (ref, session) ->
             SessionControllerImpl.wellFormed (SessionControllerImpl.store ref s' st)).
  { intros ref session s' E. apply getSession_Some in E. destruct E as [_ Hh].
    apply wellFormed_store; [rewrite Hh; eauto|exact Hwf]. }
  split; [|split; [|split; [|split; [|split; [|split]]]]].
  - intros now. f_equal. unfold SessionControllerImpl.startSession. cbn [fst].
    unfold SessionControllerImpl.getSession, SessionControllerImpl.setupSessionTimeout.
    cbn. rewrite lookup_insert_ne by done.
    destruct (SessionControllerImpl.sessions st !! other) as [r|] eqn:Hs; [|reflexivity].
    destruct Hwf as (H1 & H2 & _).
    assert (r <> SessionControllerImpl.nextRef st).
    { intros ->. assert (SessionControllerImpl.nextRef st
                         < SessionControllerImpl.nextRef st)%nat by eauto. lia. }
    rewrite lookup_insert_ne by done. reflexivity.
  - intros now1 now2. f_equal. unfold SessionControllerImpl.endSession.
    destruct (SessionControllerImpl.getSession st sessionId) as [[ref session]|] eqn:E;
      [|reflexivity].
    rewrite deleteSessionData_other by eauto. eauto.
  - f_equal. apply deleteSessionData_other; assumption.
  - intros context now. f_equal. unfold SessionControllerImpl.updateSessionContext.
    destruct (SessionControllerImpl.getSession st sessionId) as [[ref session]|] eqn:E;
      [|reflexivity].
    cbn [fst]. eauto.
  - intros turn. f_equal. apply addConversationTurn_other; assumption.
  - intros symptoms now. f_equal. unfold SessionControllerImpl.addSymptoms.
    destruct (SessionControllerImpl.getSession st sessionId) as [[ref session]|] eqn:E;
      [|reflexivity].
    rewrite addConversationTurn_other by eauto. eauto.
  - intros assessment now. f_equal. unfold SessionControllerImpl.setRiskAssessment.
    destruct (SessionControllerImpl.getSession st sessionId) as [[ref session]|] eqn:E;
      [|reflexivity].
    rewrite addConversationTurn_other by eauto. eauto.
Qed.

Lemma sessions_isolated_witness :
  SessionControllerImpl.getSessionById "session-1"
    (fst (SessionControllerImpl.deleteSessionData "session-2"
            (fst (SessionControllerImpl.startSession "session-2" 1500 Sample.liveState))))
  = SessionControllerImpl.getSessionById "session-1"
      (fst (SessionControllerImpl.startSession "session-2" 1500 Sample.liveState)).
Proof.
  refine (proj1 (proj2 (proj2
            (sessions_isolated
               (fst (SessionControllerImpl.startSession "session-2" 1500 Sample.liveState))
               "session-2" "session-1" _ _)))).
  - apply wellFormed_startSession. unfold Sample.liveState.
    apply wellFormed_addSymptoms, wellFormed_startSession, wellFormed_new.
  - discriminate.
Defined.

(** X3 (a started session can be read back). After [startSession] the
    new identifier resolves to an active session that started at the
    given time, with no symptoms, no assessment and the single turn
    "Session started"; its context has no symptoms, no question asked
    and no risk level, and its duration is the elapsed time in whole
    seconds. *)
Theorem startSession_read_back
        (st : SessionControllerImpl.State) (uuid : string) (now later : Z) :
  snd (SessionControllerImpl.startSession uuid now st) = uuid
  /\ SessionControllerImpl.getSessionById uuid
       (fst (SessionControllerImpl.startSession uuid now st))
     = Some {| hs_id := uuid; startTime := now; endTime := None;
               hs_symptoms := []; riskAssessment := None;
               conversationHistory :=
                 [ {| timestamp := now; turnType := system_response;
                      content := "Session started"; processedSymptoms := None |} ];
               status := SessionStatus.ACTIVE |}
  /\ snd (SessionControllerImpl.getSessionContext uuid later
            (fst (SessionControllerImpl.startSession uuid now st)))
     = SessionControllerImpl.Return
         {| sc_symptoms := []; questionsAsked := 0; riskLevel := None;
            sessionDuration := ((later - now) / 1000)%Z |}
  /\ SessionControllerImpl.isSessionActive uuid
       (fst (SessionControllerImpl.startSession uuid now st)) = true.
Proof.
  assert (E : SessionControllerImpl.getSession
                (fst (SessionControllerImpl.startSession uuid now st)) uuid
              = Some (SessionControllerImpl.nextRef st,
                      {| hs_id := uuid; startTime := now; endTime := None;
                         hs_symptoms := []; riskAssessment := None;
                         conversationHistory :=
                           [ {| timestamp := now; turnType := system_response;
                                content := "Session started";
                                processedSymptoms := None |} ];
                         status := SessionStatus.ACTIVE |})).
  { unfold SessionControllerImpl.startSession, SessionControllerImpl.getSession,
      SessionControllerImpl.setupSessionTimeout. cbn.
    rewrite !lookup_insert_eq. reflexivity. }
  split; [reflexivity|].
  unfold SessionControllerImpl.getSessionById, SessionControllerImpl.getSessionContext,
    SessionControllerImpl.isSessionActive.
  rewrite E. repeat split; reflexivity.
Qed.

Section SymptomMerge.
Import SessionControllerImpl.

Lemma sameSymptom_key (a b : SymptomEntity) :
  sameSymptom a b = true <-> symptomKey a = symptomKey b.
Proof.
  unfold sameSymptom, symptomKey. rewrite andb_true_iff, String.eqb_eq.
  destruct (bodyPart a) as [x|], (bodyPart b) as [y|]; rewrite ?String.eqb_eq;
    split; intros H; try (destruct H; congruence); try (injection H; intros; subst; auto);
    try discriminate; try (destruct H; discriminate).
Qed.

Lemma pushIfNew_spec (existing : list SymptomEntity) (n : SymptomEntity) :
  (In (symptomKey n) (List.map symptomKey existing) /\ pushIfNew existing n = existing)
  \/ (~ In (symptomKey n) (List.map symptomKey existing)
      /\ pushIfNew existing n = (existing ++ [ n ])%list).
Proof.
  unfold pushIfNew.
  destruct (List.existsb (fun e => sameSymptom e n) existing) eqn:E.
  - left. split; [|reflexivity]. apply List.existsb_exists in E.
    destruct E as (e & Hin & He). apply sameSymptom_key in He.
    rewrite <- He. apply List.in_map, Hin.
  - right. split; [|reflexivity]. intros Hin. apply List.in_map_iff in Hin.
    destruct Hin as (e & He & Hin).
    assert (List.existsb (fun e => sameSymptom e n) existing = true).
    { apply List.existsb_exists. exists e. split; [exact Hin|].
      apply sameSymptom_key. exact He. }
    congruence.
Qed.

(** the loop of [addSymptoms]: the symptoms already recorded stay in
    front, what is added comes from the new symptoms, every new symptom
    has its key recorded, and no key is recorded twice *)
Lemma pushIfNew_fold (symptoms existing : list SymptomEntity) :
  exists added,
    List.fold_left pushIfNew symptoms existing = (existing ++ added)%list
    /\ (forall a, In a added -> In a symptoms)
    /\ (forall n, In n symptoms ->
                  In (symptomKey n)
                     (List.map symptomKey (List.fold_left pushIfNew symptoms existing)))
    /\ (NoDup (List.map symptomKey existing) ->
        NoDup (List.map symptomKey (List.fold_left pushIfNew symptoms existing))).
Proof.
  revert existing. induction symptoms as [|n rest IH]; intros existing.
  - exists []. cbn. rewrite List.app_nil_r. repeat split; auto. intros ? [].
  - cbn [List.fold_left].
    destruct (IH (pushIfNew existing n)) as (added & Hfold & Hfrom & Hkeys & Hnodup).
    destruct (pushIfNew_spec existing n) as [[Hin Hp]|[Hnin Hp]]; rewrite Hp in *.
    + exists added. split; [exact Hfold|]. split; [intros a Ha; right; auto|].
      split; [|exact Hnodup].
      intros m [<-|Hm]; [|auto]. rewrite Hfold, List.map_app.
      apply List.in_or_app. left. exact Hin.
    + exists (n :: added). split; [rewrite Hfold, <- List.app_assoc; reflexivity|].
      split; [intros a [<-|Ha]; [left; reflexivity|right; auto]|].
      split.
      * intros m [<-|Hm]; [|auto]. rewrite Hfold, !List.map_app.
        apply List.in_or_app. left. apply List.in_or_app. right. left. reflexivity.
      * intros Hnd. apply Hnodup. rewrite List.map_app. cbn [List.map].
        apply NoDup_app. split; [exact Hnd|]. split; [|apply NoDup_singleton].
        intros k Hk Hk'. apply list_elem_of_singleton in Hk'. subst k.
        apply list_elem_of_In in Hk. contradiction.
Qed.

End SymptomMerge.

Section LiveSession.
Import SessionControllerImpl.

Lemma addSymptoms_live (st : State) (sessionId : string) symptoms now ref session :
  getSession st sessionId = Some (ref, session) ->
  snd (addSymptoms sessionId symptoms now st) = Return tt
  /\ getSession (fst (addSymptoms sessionId symptoms now st)) sessionId
     = Some (ref, {| hs_id := hs_id session;
                     startTime := startTime session;
                     endTime := endTime session;
                     hs_symptoms := List.fold_left pushIfNew symptoms (hs_symptoms session);
                     riskAssessment := riskAssessment session;
                     conversationHistory :=
                       conversationHistory session
                       ++ [ {| timestamp := now; turnType := user_input;
                               content := "Added symptoms: " +:+ symptomNames symptoms;
                               processedSymptoms := Some symptoms |} ];
                     status := status session |}).
Proof.
  intros E. unfold addSymptoms. rewrite E.
  apply getSession_Some in E. destruct E as [Hs Hh].
  match goal with
  | |- context [store ref ?s st] =>
      pose proof (addConversationTurn_live (store ref s st) sessionId
                    {| timestamp := now; turnType := user_input;
                       content := "Added symptoms: " +:+ symptomNames symptoms;
                       processedSymptoms := Some symptoms |}
                    ref s (getSession_store_same st ref s sessionId Hs)) as [A B]
  end.
  split; [exact A|exact B].
Qed.

Lemma setRiskAssessment_live (st : State) (sessionId : string) assessment now ref session :
  getSession st sessionId = Some (ref, session) ->
  snd (setRiskAssessment sessionId assessment now st) = Return tt
  /\ exists turn,
      turnType turn = system_response
      /\ getSession (fst (setRiskAssessment sessionId assessment now st)) sessionId
         = Some (ref, {| hs_id := hs_id session;
                         startTime := startTime session;
                         endTime := endTime session;
                         hs_symptoms := hs_symptoms session;
                         riskAssessment := Some assessment;
                         conversationHistory := conversationHistory session ++ [ turn ];
                         status := status session |}).
Proof.
  intros E. unfold setRiskAssessment. rewrite E.
  apply getSession_Some in E. destruct E as [Hs Hh].
  match goal with
  | |- context [addConversationTurn sessionId ?t (store ref ?s st)] =>
      pose proof (addConversationTurn_live (store ref s st) sessionId t
                    ref s (getSession_store_same st ref s sessionId Hs)) as [A B];
      split; [exact A|exists t; split; [reflexivity|exact B]]
  end.
Qed.

Lemma updateSessionContext_live (st : State) (sessionId : string) context now ref session :
  getSession st sessionId = Some (ref, session) ->
  snd (updateSessionContext sessionId context now st) = Return tt
  /\ exists session',
      getSession (fst (updateSessionContext sessionId context now st)) sessionId
      = Some (ref, session')
      /\ startTime session' = startTime session
      /\ hs_symptoms session'
         = match pc_symptoms context with
           | Some symptoms => symptoms
           | None => hs_symptoms session
           end
      /\ riskAssessment session'
         = match riskAssessment session, pc_riskLevel context with
           | Some a, _ => Some a
           | None, Some l =>
               Some {| level := l; ra_confidence := 0.7%Q;
                       reasoning := [ "Updated from session context" ];
                       recommendations := [ "See conversation for details" ] |}
           | None, None => None
           end
      /\ List.filter isClarificationQuestion (conversationHistory session')
         = List.filter isClarificationQuestion (conversationHistory session).
Proof.
  intros E. unfold updateSessionContext. rewrite E. cbn [fst snd].
  apply getSession_Some in E. destruct E as [Hs Hh].
  split; [reflexivity|]. eexists. split; [apply getSession_store_same, Hs|].
  destruct (pc_symptoms context) as [symptoms|], (pc_riskLevel context) as [l|],
    (riskAssessment session) as [a|] eqn:Ea; cbn; rewrite ?Ea;
    repeat split; try reflexivity;
    rewrite List.filter_app; cbn; rewrite List.app_nil_r; reflexivity.
Qed.

End LiveSession.

(** X4 (symptoms are merged, not replaced). On a live session
    [addSymptoms] returns normally; the symptoms already recorded stay
    in front and in order, every symptom appended is one of the new
    ones, every new symptom has its (name, body part) pair recorded
    afterwards, no pair is recorded twice if none was before, and one
    [user_input] turn is appended to the history. *)
Theorem addSymptoms_merges
        (st : SessionControllerImpl.State) (sessionId : string)
        (symptoms : list SymptomEntity) (now : Z) (ref : nat) (session : HealthSession) :
  SessionControllerImpl.getSession st sessionId = Some (ref, session) ->
  snd (SessionControllerImpl.addSymptoms sessionId symptoms now st)
  = SessionControllerImpl.Return tt
  /\ exists session' added turn,
      SessionControllerImpl.getSessionById sessionId
        (fst (SessionControllerImpl.addSymptoms sessionId symptoms now st)) = Some session'
      /\ hs_symptoms session' = (hs_symptoms session ++ added)%list
      /\ (forall a, In a added -> In a symptoms)
      /\ (forall n, In n symptoms ->
                    In (SessionControllerImpl.symptomKey n)
                       (List.map SessionControllerImpl.symptomKey (hs_symptoms session')))
      /\ (NoDup (List.map SessionControllerImpl.symptomKey (hs_symptoms session)) ->
          NoDup (List.map SessionControllerImpl.symptomKey (hs_symptoms session')))
      /\ conversationHistory session' = (conversationHistory session ++ [ turn ])%list
      /\ turnType turn = user_input
      /\ riskAssessment session' = riskAssessment session.
Proof.
  intros E.
  destruct (addSymptoms_live st sessionId symptoms now ref session E) as [Hr Hs].
  split; [exact Hr|].
  destruct (pushIfNew_fold symptoms (hs_symptoms session))
    as (added & Hfold & Hfrom & Hkeys & Hnodup).
  eexists _, added, _. unfold SessionControllerImpl.getSessionById. rewrite Hs.
  cbn [fmap option_fmap option_map snd hs_symptoms conversationHistory riskAssessment].
  split; [reflexivity|]. split; [exact Hfold|]. split; [exact Hfrom|].
  split; [exact Hkeys|]. split; [exact Hnodup|]. repeat split; reflexivity.
Qed.

Lemma addSymptoms_merges_witness :
  snd (SessionControllerImpl.addSymptoms "session-1"
         [ Sample.mildCough; Sample.mildFever ] 2500 Sample.liveState)
  = SessionControllerImpl.Return tt.
Proof.
  refine (proj1 (addSymptoms_merges Sample.liveState "session-1"
                   [ Sample.mildCough; Sample.mildFever ] 2500 0
                   {| hs_id := "session-1"; startTime := 1000; endTime := None;
                      hs_symptoms := [ Sample.mildCough ];
                      riskAssessment := None;
                      conversationHistory :=
                        [ {| timestamp := 1000; turnType := system_response;
                             content := "Session started"; processedSymptoms := None |};
                          {| timestamp := 2000; turnType := user_input;
                             content := "Added symptoms: cough";
                             processedSymptoms := Some [ Sample.mildCough ] |} ];
                      status := SessionStatus.ACTIVE |} _)).
  vm_compute. reflexivity.
Defined.

(** X5 (the assessment is read back and not overwritten). After
    [setRiskAssessment] on a live session, [getSessionContext] returns
    the symptoms and the number of questions as before and the level of
    the assessment as risk level; a later [updateSessionContext] that
    carries another risk level leaves that risk level as it is. *)
Theorem risk_assessment_read_back
        (st : SessionControllerImpl.State) (sessionId : string)
        (assessment : RiskAssessment) (now later : Z)
        (ref : nat) (session : HealthSession) :
  SessionControllerImpl.getSession st sessionId = Some (ref, session) ->
  snd (SessionControllerImpl.getSessionContext sessionId later
         (fst (SessionControllerImpl.setRiskAssessment sessionId assessment now st)))
  = SessionControllerImpl.Return
      {| sc_symptoms := hs_symptoms session;
         questionsAsked :=
           length (List.filter SessionControllerImpl.isClarificationQuestion
                               (conversationHistory session));
         riskLevel := Some (level assessment);
         sessionDuration := ((later - startTime session) / 1000)%Z |}
  /\ (forall context now2,
         exists c,
           snd (SessionControllerImpl.getSessionContext sessionId later
                  (fst (SessionControllerImpl.updateSessionContext sessionId context now2
                          (fst (SessionControllerImpl.setRiskAssessment
                                  sessionId assessment now st)))))
           = SessionControllerImpl.Return c
           /\ riskLevel c = Some (level assessment)).
Proof.
  intros E.
  destruct (setRiskAssessment_live st sessionId assessment now ref session E)
    as (_ & turn & Hturn & Hs).
  split.
  - unfold SessionControllerImpl.getSessionContext. rewrite Hs. cbn.
    rewrite List.filter_app. cbn.
    unfold SessionControllerImpl.isClarificationQuestion at 2. rewrite Hturn.
    rewrite List.app_nil_r. reflexivity.
  - intros context now2.
    destruct (updateSessionContext_live _ sessionId context now2 _ _ Hs)
      as (_ & session' & Hs' & _ & _ & Hrisk & _).
    unfold SessionControllerImpl.getSessionContext. rewrite Hs'. cbn [snd].
    eexists. split; [reflexivity|]. cbn [riskLevel]. rewrite Hrisk. reflexivity.
Qed.

Lemma risk_assessment_read_back_witness :
  snd (SessionControllerImpl.getSessionContext "session-1" 9000
         (fst (SessionControllerImpl.setRiskAssessment "session-1"
                 Sample.emergencyAssessment 3000 Sample.liveState)))
  = SessionControllerImpl.Return
      {| sc_symptoms := [ Sample.mildCough ];
         questionsAsked := 0;
         riskLevel := Some RiskLevel.EMERGENCY;
         sessionDuration := 8 |}.
Proof.
  refine (proj1 (risk_assessment_read_back Sample.liveState "session-1"
                   Sample.emergencyAssessment 3000 9000 0
                   {| hs_id := "session-1"; startTime := 1000; endTime := None;
                      hs_symptoms := [ Sample.mildCough ];
                      riskAssessment := None;
                      conversationHistory :=
                        [ {| timestamp := 1000; turnType := system_response;
                             content := "Session started"; processedSymptoms := None |};
                          {| timestamp := 2000; turnType := user_input;
                             content := "Added symptoms: cough";
                             processedSymptoms := Some [ Sample.mildCough ] |} ];
                      status := SessionStatus.ACTIVE |} _)).
  vm_compute. reflexivity.
Defined.

(** X6 (the count of questions). The number [questionsAsked] that
    [getSessionContext] reports grows by one when [addConversationTurn]
    records a turn of type [clarification_question], and stays the same
    when it records a turn of another type and under [addSymptoms],
    [setRiskAssessment] and [updateSessionContext]. *)
Theorem questions_asked_counts
        (st : SessionControllerImpl.State) (sessionId : string) (later : Z)
        (ref : nat) (session : HealthSession) :
  SessionControllerImpl.getSession st sessionId = Some (ref, session) ->
  let asked (st' : SessionControllerImpl.State) : option nat :=
    match snd (SessionControllerImpl.getSessionContext sessionId later st') with
    | SessionControllerImpl.Return c => Some (questionsAsked c)
    | SessionControllerImpl.Throw _ => None
    end in
  let before :=
    length (List.filter SessionControllerImpl.isClarificationQuestion
                        (conversationHistory session)) in
  asked st = Some before
  /\ (forall turn,
         asked (fst (SessionControllerImpl.addConversationTurn sessionId turn st))
         = Some (if SessionControllerImpl.isClarificationQuestion turn
                 then S before else before))
  /\ (forall symptoms now,
         asked (fst (SessionControllerImpl.addSymptoms sessionId symptoms now st))
         = Some before)
  /\ (forall assessment now,
         asked (fst (SessionControllerImpl.setRiskAssessment sessionId assessment now st))
         = Some before)
  /\ (forall context now,
         asked (fst (SessionControllerImpl.updateSessionContext sessionId context now st))
         = Some before).
Proof.
  intros E asked before. unfold asked, SessionControllerImpl.getSessionContext.
  split; [rewrite E; reflexivity|].
  split; [|split; [|split]].
  - intros turn.
    destruct (addConversationTurn_live st sessionId turn ref session E) as [_ Hs].
    rewrite Hs. cbn. rewrite List.filter_app, List.length_app. cbn.
    destruct (SessionControllerImpl.isClarificationQuestion turn); cbn;
      unfold before; f_equal; lia.
  - intros symptoms now.
    destruct (addSymptoms_live st sessionId symptoms now ref session E) as [_ Hs].
    rewrite Hs. cbn. rewrite List.filter_app, List.length_app. cbn.
    unfold before. f_equal. lia.
  - intros assessment now.
    destruct (setRiskAssessment_live st sessionId assessment now ref session E)
      as (_ & turn & Hturn & Hs).
    rewrite Hs. cbn. rewrite List.filter_app, List.length_app. cbn.
    unfold SessionControllerImpl.isClarificationQuestion at 2. rewrite Hturn.
    cbn. unfold before. f_equal. lia.
  - intros context now.
    destruct (updateSessionContext_live st sessionId context now ref session E)
      as (_ & session' & Hs' & _ & _ & _ & Hq).
    rewrite Hs'. cbn. rewrite Hq. reflexivity.
Qed.

Lemma questions_asked_counts_witness :
  match snd (SessionControllerImpl.getSessionContext "session-1" 9000
               (fst (SessionControllerImpl.addConversationTurn "session-1"
                       {| timestamp := 2500; turnType := clarification_question;
                          content := "How long have you had this cough?";
                          processedSymptoms := None |} Sample.liveState))) with
  | SessionControllerImpl.Return c => Some (questionsAsked c)
  | SessionControllerImpl.Throw _ => None
  end = Some 1%nat.
Proof.
  refine (proj1 (proj2
            (questions_asked_counts Sample.liveState "session-1" 9000 0
               {| hs_id := "session-1"; startTime := 1000; endTime := None;
                  hs_symptoms := [ Sample.mildCough ];
                  riskAssessment := None;
                  conversationHistory :=
                    [ {| timestamp := 1000; turnType := system_response;
                         content := "Session started"; processedSymptoms := None |};
                      {| timestamp := 2000; turnType := user_input;
                         content := "Added symptoms: cough";
                         processedSymptoms := Some [ Sample.mildCough ] |} ];
                  status := SessionStatus.ACTIVE |} _))
            {| timestamp := 2500; turnType := clarification_question;
               content := "How long have you had this cough?";
               processedSymptoms := None |}).
  vm_compute. reflexivity.
Defined.

Section Cleanup.
Import SessionControllerImpl.

Lemma heapKept_refl (now : Z) (st : State) : heapKept now st st.
Proof.
  split; [tauto|]. intros ref s0 H. exists s0. auto.
Qed.

Lemma markExpired_fold (now : Z) (st : State) (entries : list (string * nat))
      (acc : State * list string) :
  sessions (fst acc) = sessions st ->
  sessionTimeouts (fst acc) = sessionTimeouts st ->
  heapKept now st (fst acc) ->
  let marked := List.fold_left (markExpired now) entries acc in
  sessions (fst marked) = sessions st
  /\ sessionTimeouts (fst marked) = sessionTimeouts st
  /\ heapKept now st (fst marked)
  /\ snd marked
     = (snd acc
        ++ List.map fst
             (List.filter
                (fun entry => match heap st !! snd entry with
                              | Some session => isExpired now session
                              | None => false
                              end) entries))%list
  /\ (forall entry session,
         In entry entries -> heap st !! snd entry = Some session ->
         isExpired now session = true ->
         exists session', heap (fst marked) !! snd entry = Some session'
                          /\ status session' = SessionStatus.EXPIRED)
  /\ (forall ref session,
         heap (fst acc) !! ref = Some session -> status session = SessionStatus.EXPIRED ->
         exists session', heap (fst marked) !! ref = Some session'
                          /\ status session' = SessionStatus.EXPIRED).
Proof.
  revert acc. induction entries as [|e rest IH]; intros acc Hs Ht Hk.
  - cbn. rewrite List.app_nil_r. repeat split; try tauto; try apply Hk.
    intros ref session H1 H2. eauto.
  - cbn [List.fold_left].
    assert (Hstep : sessions (fst (markExpired now acc e)) = sessions st
                    /\ sessionTimeouts (fst (markExpired now acc e)) = sessionTimeouts st
                    /\ heapKept now st (fst (markExpired now acc e))
                    /\ snd (markExpired now acc e)
                       = (snd acc
                          ++ (if match heap st !! snd e with
                                 | Some session => isExpired now session
                                 | None => false
                                 end
                              then [ fst e ] else []))%list
                    /\ (forall session, heap st !! snd e = Some session ->
                           isExpired now session = true ->
                           exists session',
                             heap (fst (markExpired now acc e)) !! snd e = Some session'
                             /\ status session' = SessionStatus.EXPIRED)
                    /\ (forall ref session,
                           heap (fst acc) !! ref = Some session ->
                           status session = SessionStatus.EXPIRED ->
                           exists session',
                             heap (fst (markExpired now acc e)) !! ref = Some session'
                             /\ status session' = SessionStatus.EXPIRED)).
    { destruct Hk as [Hn Hk]. unfold markExpired.
      destruct (heap (fst acc) !! snd e) as [s|] eqn:E.
      - destruct (heap st !! snd e) as [s0|] eqn:E0;
          [|apply Hn in E0; congruence].
        destruct (Hk _ _ E0) as (s' & Hs' & Hst & Hsame).
        assert (s' = s) as -> by congruence.
        assert (Hx : isExpired now s = isExpired now s0)
          by (unfold isExpired; rewrite Hst; reflexivity).
        rewrite Hx. destruct (isExpired now s0) eqn:Hexp.
        + cbn [fst snd store heap sessions sessionTimeouts].
          split; [exact Hs|]. split; [exact Ht|]. split; [split|].
          * intros ref. cbn [store heap]. destruct (decide (ref = snd e)) as [->|Hne].
            -- rewrite lookup_insert_eq, E0. split; discriminate.
            -- rewrite lookup_insert_ne by congruence. apply Hn.
          * intros ref s1 H1. cbn [store heap].
            destruct (decide (ref = snd e)) as [->|Hne].
            -- rewrite lookup_insert_eq. eexists. split; [reflexivity|].
               assert (s1 = s0) as -> by congruence.
               split; [exact Hst|]. congruence.
            -- rewrite lookup_insert_ne by congruence. apply Hk, H1.
          * split; [reflexivity|]. split.
            -- intros session H1 _. rewrite lookup_insert_eq. eauto.
            -- intros ref session H1 H2. destruct (decide (ref = snd e)) as [->|Hne].
               ++ rewrite lookup_insert_eq. eauto.
               ++ rewrite lookup_insert_ne by congruence. eauto.
        + rewrite List.app_nil_r. repeat split; try tauto; try apply Hn; try apply Hk.
          * intros session H1 H2. congruence.
          * intros ref session H1 H2. eauto.
      - destruct (heap st !! snd e) as [s0|] eqn:E0.
        + apply Hn in E. congruence.
        + rewrite List.app_nil_r. repeat split; try tauto; try apply Hn; try apply Hk.
          * intros session H1. discriminate.
          * intros ref session H1 H2. eauto. }
    destruct Hstep as (A & B & C & D & F & G).
    destruct (IH (markExpired now acc e) A B C) as (A' & B' & C' & D' & F' & G').
    split; [exact A'|]. split; [exact B'|]. split; [exact C'|]. split; [|split].
    + rewrite D', D. cbn [List.filter].
      destruct (match heap st !! snd e with
                | Some session => isExpired now session
                | None => false
                end); cbn;
        rewrite <- ?List.app_assoc, ?List.app_nil_r; reflexivity.
    + intros entry session [<-|Hin] H1 H2.
      * destruct (F _ H1 H2) as (s' & Hs' & Hst). eapply G'; eauto.
      * eapply F'; eauto.
    + intros ref session H1 H2. destruct (G _ _ H1 H2) as (s' & Hs' & Hst).
      eapply G'; eauto.
Qed.

Lemma deleteAll_getSession (sessionIds : list string) (st : State) (sessionId : string) :
  wellFormed st ->
  getSession (deleteAll sessionIds st) sessionId
  = if bool_decide (sessionId ∈ sessionIds) then None else getSession st sessionId.
Proof.
  revert st. induction sessionIds as [|i rest IH]; intros st Hwf.
  - rewrite bool_decide_eq_false_2 by apply not_elem_of_nil. reflexivity.
  - cbn [deleteAll List.fold_left]. fold (deleteAll rest (fst (deleteSessionData i st))).
    rewrite IH by (apply wellFormed_deleteSessionData, Hwf).
    destruct (decide (i = sessionId)) as [->|Hne].
    + rewrite getSession_deleted.
      rewrite (bool_decide_eq_true_2 (sessionId ∈ sessionId :: rest))
        by (apply elem_of_cons; left; reflexivity).
      destruct (bool_decide (sessionId ∈ rest)); reflexivity.
    + rewrite deleteSessionData_other by assumption.
      destruct (bool_decide (sessionId ∈ rest)) eqn:E.
      * apply bool_decide_eq_true_1 in E.
        rewrite bool_decide_eq_true_2 by (apply elem_of_cons; right; exact E). reflexivity.
      * apply bool_decide_eq_false_1 in E.
        rewrite bool_decide_eq_false_2; [reflexivity|].
        intros H. apply elem_of_cons in H. destruct H; [congruence|tauto].
Qed.

(** [deleteSessionData] keeps the status of every session object, and
    keeps an object erased *)
Lemma deleteSessionData_heap (st : State) (sessionId : string) ref session :
  heap st !! ref = Some session ->
  exists session',
    heap (fst (deleteSessionData sessionId st)) !! ref = Some session'
    /\ status session' = status session
    /\ (erased session -> erased session')
    /\ (sessions st !! sessionId = Some ref -> erased session').
Proof.
  intros H. destruct (getSession st sessionId) as [[r s]|] eqn:E.
  - apply getSession_Some in E. destruct E as [Hs Hh].
    destruct (deleteSessionData_live st sessionId r s Hs Hh) as (_ & _ & Hheap).
    rewrite Hheap. destruct (decide (ref = r)) as [->|Hne].
    + rewrite lookup_insert_eq. eexists. split; [reflexivity|].
      assert (s = session) as -> by congruence.
      split; [reflexivity|]. split; intros _; repeat split; reflexivity.
    + rewrite lookup_insert_ne by congruence. exists session.
      split; [exact H|]. split; [reflexivity|]. split; [tauto|]. intros Hs'. congruence.
  - unfold deleteSessionData. rewrite E. cbn. exists session.
    split; [exact H|]. split; [reflexivity|]. split; [tauto|].
    intros Hs. unfold getSession in E. rewrite Hs, H in E. discriminate.
Qed.

Lemma deleteAll_heap (sessionIds : list string) (st : State) ref session :
  heap st !! ref = Some session ->
  exists session',
    heap (deleteAll sessionIds st) !! ref = Some session'
    /\ status session' = status session
    /\ (erased session -> erased session').
Proof.
  revert st session. induction sessionIds as [|i rest IH]; intros st session H.
  - exists session. auto.
  - cbn [deleteAll List.fold_left]. fold (deleteAll rest (fst (deleteSessionData i st))).
    destruct (deleteSessionData_heap st i ref session H) as (s1 & H1 & St1 & Er1 & _).
    destruct (IH _ _ H1) as (s2 & H2 & St2 & Er2).
    exists s2. split; [exact H2|]. split; [congruence|]. auto.
Qed.

Lemma deleteAll_erases (sessionIds : list string) (st : State)
      (sessionId : string) ref session :
  sessions st !! sessionId = Some ref ->
  heap st !! ref = Some session ->
  In sessionId sessionIds ->
  exists session',
    heap (deleteAll sessionIds st) !! ref = Some session'
    /\ status session' = status session
    /\ erased session'.
Proof.
  revert st session. induction sessionIds as [|i rest IH]; intros st session Hs Hh Hin;
    [destruct Hin|].
  cbn [deleteAll List.fold_left]. fold (deleteAll rest (fst (deleteSessionData i st))).
  destruct (deleteSessionData_heap st i ref session Hh) as (s1 & H1 & St1 & _ & Er1).
  destruct (decide (i = sessionId)) as [->|Hne].
  - destruct (deleteAll_heap rest _ ref s1 H1) as (s2 & H2 & St2 & Er2).
    exists s2. split; [exact H2|]. split; [congruence|]. auto.
  - destruct Hin as [?|Hin]; [congruence|].
    assert (Hs1 : sessions (fst (deleteSessionData i st)) !! sessionId = Some ref).
    { destruct (getSession st i) as [[r s]|] eqn:E.
      - apply getSession_Some in E. destruct E as [Hsi Hhi].
        destruct (deleteSessionData_live st i r s Hsi Hhi) as (_ & Hss & _).
        rewrite Hss, lookup_delete_ne by congruence. exact Hs.
      - unfold deleteSessionData. rewrite E. exact Hs. }
    destruct (IH _ _ Hs1 H1 Hin) as (s2 & H2 & St2 & Er2).
    exists s2. split; [exact H2|]. split; [congruence|exact Er2].
Qed.

(** the entries of the timer map after [deleteSessionData] *)
Lemma deleteSessionData_timeouts (st : State) (sessionId other : string) :
  sessionTimeouts (fst (deleteSessionData sessionId st)) !! other
  = if bool_decide (other = sessionId /\ is_Some (getSession st sessionId))
    then None else sessionTimeouts st !! other.
Proof.
  unfold deleteSessionData.
  destruct (getSession st sessionId) as [[r s]|] eqn:E.
  - cbn [sessionTimeouts store].
    destruct (sessionTimeouts st !! sessionId) as [t|] eqn:Et; cbn [fst sessionTimeouts clearTimeout].
    + destruct (decide (other = sessionId)) as [->|Hne].
      * rewrite bool_decide_eq_true_2 by eauto. apply lookup_delete_eq.
      * rewrite bool_decide_eq_false_2 by tauto. apply lookup_delete_ne. congruence.
    + destruct (decide (other = sessionId)) as [->|Hne].
      * rewrite bool_decide_eq_true_2 by eauto. exact Et.
      * rewrite bool_decide_eq_false_2 by tauto. reflexivity.
  - rewrite bool_decide_eq_false_2; [reflexivity|]. intros [_ [x Hx]]. discriminate.
Qed.

Lemma deleteAll_timeouts_other (sessionIds : list string) (st : State) (other : string) :
  ~ In other sessionIds ->
  sessionTimeouts (deleteAll sessionIds st) !! other = sessionTimeouts st !! other.
Proof.
  revert st. induction sessionIds as [|i rest IH]; intros st Hin; [reflexivity|].
  cbn [deleteAll List.fold_left]. fold (deleteAll rest (fst (deleteSessionData i st))).
  rewrite IH by (intros ?; apply Hin; right; assumption).
  rewrite deleteSessionData_timeouts. rewrite bool_decide_eq_false_2; [reflexivity|].
  intros [-> _]. apply Hin. left. reflexivity.
Qed.

Lemma deleteAll_timeouts_none (sessionIds : list string) (st : State) (other : string) :
  sessionTimeouts st !! other = None ->
  sessionTimeouts (deleteAll sessionIds st) !! other = None.
Proof.
  revert st. induction sessionIds as [|i rest IH]; intros st H; [exact H|].
  cbn [deleteAll List.fold_left]. fold (deleteAll rest (fst (deleteSessionData i st))).
  apply IH. rewrite deleteSessionData_timeouts.
  destruct (bool_decide _); [reflexivity|exact H].
Qed.

Lemma deleteAll_timeouts_in (sessionIds : list string) (st : State) (sessionId : string) :
  is_Some (getSession st sessionId) ->
  In sessionId sessionIds ->
  sessionTimeouts (deleteAll sessionIds st) !! sessionId = None.
Proof.
  revert st. induction sessionIds as [|i rest IH]; intros st Hlive Hin; [destruct Hin|].
  cbn [deleteAll List.fold_left]. fold (deleteAll rest (fst (deleteSessionData i st))).
  destruct (decide (i = sessionId)) as [->|Hne].
  - apply deleteAll_timeouts_none. rewrite deleteSessionData_timeouts.
    rewrite bool_decide_eq_true_2 by tauto. reflexivity.
  - destruct Hin as [?|Hin]; [congruence|]. apply IH; [|exact Hin].
    destruct Hlive as [[r s] Hlive]. apply getSession_Some in Hlive.
    destruct Hlive as [Hs Hh].
    destruct (deleteSessionData_heap st i r s Hh) as (s1 & H1 & _).
    assert (Hs1 : sessions (fst (deleteSessionData i st)) !! sessionId = Some r).
    { destruct (getSession st i) as [[r' s']|] eqn:E.
      - apply getSession_Some in E. destruct E as [Hsi Hhi].
        destruct (deleteSessionData_live st i r' s' Hsi Hhi) as (_ & Hss & _).
        rewrite Hss, lookup_delete_ne by congruence. exact Hs.
      - unfold deleteSessionData. rewrite E. exact Hs. }
    exists (r, s1). unfold getSession. rewrite Hs1, H1. reflexivity.
Qed.

Lemma cleanup_marked (now : Z) (st : State) :
  let marked := List.fold_left (markExpired now) (map_to_list (sessions st)) (st, []) in
  sessions (fst marked) = sessions st
  /\ sessionTimeouts (fst marked) = sessionTimeouts st
  /\ heapKept now st (fst marked)
  /\ (forall sessionId,
         In sessionId (snd marked)
         <-> exists ref session, getSession st sessionId = Some (ref, session)
                                 /\ isExpired now session = true)
  /\ (forall sessionId ref session,
         getSession st sessionId = Some (ref, session) ->
         isExpired now session = true ->
         exists session', heap (fst marked) !! ref = Some session'
                          /\ status session' = SessionStatus.EXPIRED).
Proof.
  intros marked.
  destruct (markExpired_fold now st (map_to_list (sessions st)) (st, [])
              eq_refl eq_refl (heapKept_refl now st)) as (A & B & C & D & F & _).
  fold marked in A, B, C, D, F.
  split; [exact A|]. split; [exact B|]. split; [exact C|]. split.
  - intros sessionId. rewrite D. cbn [snd List.app]. rewrite List.in_map_iff. split.
    + intros ([i r] & <- & Hin). apply List.filter_In in Hin. destruct Hin as [Hin Hexp].
      apply list_elem_of_In, elem_of_map_to_list in Hin. cbn [fst].
      cbn [snd] in Hexp.
      destruct (heap st !! r) as [s|] eqn:E; [|discriminate].
      exists r, s. split; [|exact Hexp]. unfold getSession. rewrite Hin, E. reflexivity.
    + intros (ref & session & Hg & Hexp). apply getSession_Some in Hg.
      destruct Hg as [Hs Hh]. exists (sessionId, ref). split; [reflexivity|].
      apply List.filter_In. split.
      * apply list_elem_of_In, elem_of_map_to_list. exact Hs.
      * cbn [snd]. rewrite Hh. exact Hexp.
  - intros sessionId ref session Hg Hexp. apply getSession_Some in Hg.
    destruct Hg as [Hs Hh].
    apply (F (sessionId, ref) session); [|exact Hh|exact Hexp].
    apply list_elem_of_In, elem_of_map_to_list. exact Hs.
Qed.

End Cleanup.

(** X7 (the periodic cleanup removes the expired sessions and nothing
    else). In a well-formed store, after [cleanupExpiredSessions] at
    time [now] an identifier resolves to its session exactly when it
    did before and the session is not older than the timeout, and that
    session is unchanged and keeps its timer; the object of an expired
    session has status [EXPIRED], has lost its symptoms, history and
    assessment, and its timer entry is gone. *)
Theorem cleanup_removes_expired
        (st : SessionControllerImpl.State) (now : Z) (sessionId : string) :
  SessionControllerImpl.wellFormed st ->
  let st' := SessionControllerImpl.cleanupExpiredSessions now st in
  SessionControllerImpl.getSessionById sessionId st'
  = match SessionControllerImpl.getSessionById sessionId st with
    | Some session =>
        if SessionControllerImpl.isExpired now session then None else Some session
    | None => None
    end
  /\ (forall ref session,
         SessionControllerImpl.getSession st sessionId = Some (ref, session) ->
         SessionControllerImpl.isExpired now session = false ->
         SessionControllerImpl.sessionTimeouts st' !! sessionId
         = SessionControllerImpl.sessionTimeouts st !! sessionId)
  /\ (forall ref session,
         SessionControllerImpl.getSession st sessionId = Some (ref, session) ->
         SessionControllerImpl.isExpired now session = true ->
         SessionControllerImpl.sessionTimeouts st' !! sessionId = None
         /\ exists session',
             SessionControllerImpl.heap st' !! ref = Some session'
             /\ status session' = SessionStatus.EXPIRED
             /\ SessionControllerImpl.erased session').
Proof.
  intros Hwf st'. unfold st', SessionControllerImpl.cleanupExpiredSessions.
  pose proof (wellFormed_markExpired now (map_to_list (SessionControllerImpl.sessions st))
                (st, []) Hwf) as Hwf'.
  destruct (cleanup_marked now st) as (A & B & C & D & F).
  cbv zeta in A, B, C, D, F.
  set (marked := List.fold_left (SessionControllerImpl.markExpired now)
                   (map_to_list (SessionControllerImpl.sessions st)) (st, [])) in *.
  split; [|split].
  - unfold SessionControllerImpl.getSessionById.
    rewrite deleteAll_getSession by exact Hwf'.
    destruct (SessionControllerImpl.getSession st sessionId) as [[ref session]|] eqn:E.
    + cbn [fmap option_fmap option_map snd].
      destruct (SessionControllerImpl.isExpired now session) eqn:Hexp.
      * rewrite bool_decide_eq_true_2; [reflexivity|]. apply list_elem_of_In, D. eauto.
      * rewrite bool_decide_eq_false_2.
        -- apply getSession_Some in E. destruct E as [Hs Hh].
           destruct C as [_ Hk]. destruct (Hk _ _ Hh) as (s & Hs' & _ & Hsame).
           unfold SessionControllerImpl.getSession. rewrite A, Hs, Hs'.
           rewrite (Hsame Hexp). reflexivity.
        -- intros Hin. apply list_elem_of_In, D in Hin.
           destruct Hin as (r & s & Hg & Hx). congruence.
    + cbn [fmap option_fmap option_map].
      destruct (bool_decide _); [reflexivity|].
      destruct C as [Hn _]. unfold SessionControllerImpl.getSession in *. rewrite A.
      destruct (SessionControllerImpl.sessions st !! sessionId) as [r|]; [|reflexivity].
      destruct (SessionControllerImpl.heap st !! r) as [s|] eqn:Eh; [discriminate|].
      apply Hn in Eh. rewrite Eh. reflexivity.
  - intros ref session Hg Hexp. rewrite deleteAll_timeouts_other; [rewrite B; reflexivity|].
    intros Hin. apply D in Hin. destruct Hin as (r & s & Hg' & Hx). congruence.
  - intros ref session Hg Hexp.
    assert (Hin : In sessionId (snd marked)) by (apply D; eauto).
    destruct (F _ _ _ Hg Hexp) as (s1 & H1 & St1).
    apply getSession_Some in Hg. destruct Hg as [Hs Hh].
    split.
    + apply deleteAll_timeouts_in; [|exact Hin].
      exists (ref, s1). unfold SessionControllerImpl.getSession. rewrite A, Hs, H1. reflexivity.
    + destruct (deleteAll_erases (snd marked) (fst marked) sessionId ref s1)
        as (s2 & H2 & St2 & Er2); [rewrite A; exact Hs|exact H1|exact Hin|].
      exists s2. split; [exact H2|]. split; [congruence|exact Er2].
Qed.

Lemma cleanup_removes_expired_witness :
  SessionControllerImpl.getSessionById "session-1"
    (SessionControllerImpl.cleanupExpiredSessions 1801001 Sample.liveState) = None
  /\ SessionControllerImpl.getSessionById "session-1"
       (SessionControllerImpl.cleanupExpiredSessions 1801000 Sample.liveState)
     = SessionControllerImpl.getSessionById "session-1" Sample.liveState.
Proof.
  assert (Hwf : SessionControllerImpl.wellFormed Sample.liveState).
  { apply wellFormed_addSymptoms, wellFormed_startSession, wellFormed_new. }
  split.
  - exact (proj1 (cleanup_removes_expired Sample.liveState 1801001 "session-1" Hwf)).
  - exact (proj1 (cleanup_removes_expired Sample.liveState 1801000 "session-1" Hwf)).
Defined.

Section Shutdown.
Import SessionControllerImpl.

Lemma clearAll_pending (entries : list (string * nat)) (st : State) (timeout : nat) :
  timeout ∈ pendingTimers
              (List.fold_left (fun st entry => clearTimeout (snd entry) st) entries st)
  <-> timeout ∈ pendingTimers st /\ ~ In timeout (List.map snd entries).
Proof.
  revert st. induction entries as [|e rest IH]; intros st; [cbn; tauto|].
  cbn [List.fold_left List.map]. rewrite IH. unfold clearTimeout. cbn [pendingTimers].
  rewrite elem_of_difference, elem_of_singleton. cbn [In]. intuition congruence.
Qed.

Lemma deleteSessionData_pending (st : State) (sessionId : string) :
  pendingTimers (fst (deleteSessionData sessionId st)) ⊆ pendingTimers st.
Proof.
  unfold deleteSessionData.
  destruct (getSession st sessionId) as [[r s]|]; [|reflexivity].
  cbn [sessionTimeouts store]. destruct (sessionTimeouts st !! sessionId); cbn.
  - intros x Hx. apply elem_of_difference in Hx. tauto.
  - reflexivity.
Qed.

Lemma deleteAll_pending (sessionIds : list string) (st : State) :
  pendingTimers (deleteAll sessionIds st) ⊆ pendingTimers st.
Proof.
  revert st. induction sessionIds as [|i rest IH]; intros st; [reflexivity|].
  cbn [deleteAll List.fold_left]. fold (deleteAll rest (fst (deleteSessionData i st))).
  etransitivity; [apply IH|apply deleteSessionData_pending].
Qed.

End Shutdown.

(** X8 (shutdown leaves no session data). In a well-formed store, after
    [shutdown] no identifier resolves to a session, the map of timers
    is empty, no timer that was recorded for a session is still
    pending, and every session object that was in the store has lost
    its symptoms, history and assessment, its status being as before. *)
Theorem shutdown_erases_all (st : SessionControllerImpl.State) :
  SessionControllerImpl.wellFormed st ->
  let st' := SessionControllerImpl.shutdown st in
  (forall sessionId, SessionControllerImpl.getSessionById sessionId st' = None)
  /\ SessionControllerImpl.sessionTimeouts st' = ∅
  /\ (forall sessionId timeout,
         SessionControllerImpl.sessionTimeouts st !! sessionId = Some timeout ->
         timeout ∉ SessionControllerImpl.pendingTimers st')
  /\ (forall sessionId ref session,
         SessionControllerImpl.getSession st sessionId = Some (ref, session) ->
         exists session',
           SessionControllerImpl.heap st' !! ref = Some session'
           /\ SessionControllerImpl.erased session'
           /\ status session' = status session).
Proof.
  intros Hwf st'. unfold st', SessionControllerImpl.shutdown.
  destruct (clearAll_fields (map_to_list (SessionControllerImpl.sessionTimeouts st)) st)
    as (A & B & C & D & E).
  set (cleared := List.fold_left
                    (fun st entry => SessionControllerImpl.clearTimeout (snd entry) st)
                    (map_to_list (SessionControllerImpl.sessionTimeouts st)) st) in *.
  cbn [SessionControllerImpl.sessions].
  set (emptied := {| SessionControllerImpl.heap := SessionControllerImpl.heap cleared;
                     SessionControllerImpl.sessions := SessionControllerImpl.sessions cleared;
                     SessionControllerImpl.sessionTimeouts := ∅;
                     SessionControllerImpl.pendingTimers :=
                       SessionControllerImpl.pendingTimers cleared;
                     SessionControllerImpl.nextRef := SessionControllerImpl.nextRef cleared;
                     SessionControllerImpl.nextTimer :=
                       SessionControllerImpl.nextTimer cleared |}).
  assert (Hwf' : SessionControllerImpl.wellFormed emptied).
  { destruct Hwf as (H1 & H2 & H3 & H4 & H5 & H6).
    unfold SessionControllerImpl.wellFormed, emptied. cbn. rewrite A, B, C, D.
    repeat split; auto; intros *; rewrite ?lookup_empty; try discriminate. }
  split; [|split; [|split]].
  - intros sessionId. unfold SessionControllerImpl.getSessionById.
    rewrite deleteAll_getSession by exact Hwf'.
    destruct (bool_decide _) eqn:Hin; [reflexivity|].
    apply bool_decide_eq_false_1 in Hin.
    rewrite getSession_absent; [reflexivity|].
    cbn [emptied SessionControllerImpl.sessions].
    destruct (SessionControllerImpl.sessions cleared !! sessionId) as [r|] eqn:Hs;
      [|reflexivity].
    exfalso. apply Hin. apply list_elem_of_In, List.in_map_iff.
    exists (sessionId, r). split; [reflexivity|].
    apply list_elem_of_In, elem_of_map_to_list. exact Hs.
  - apply map_eq. intros i. rewrite lookup_empty.
    apply deleteAll_timeouts_none. apply lookup_empty.
  - intros sessionId timeout Ht Hin.
    apply deleteAll_pending in Hin. cbn [emptied SessionControllerImpl.pendingTimers] in Hin.
    apply clearAll_pending in Hin. destruct Hin as [_ Hn]. apply Hn.
    apply List.in_map_iff. exists (sessionId, timeout). split; [reflexivity|].
    apply list_elem_of_In, elem_of_map_to_list. exact Ht.
  - intros sessionId ref session Hg. apply getSession_Some in Hg. destruct Hg as [Hs Hh].
    destruct (deleteAll_erases
                (List.map fst (map_to_list (SessionControllerImpl.sessions cleared)))
                emptied sessionId ref session) as (s' & H1 & H2 & H3).
    + cbn. rewrite B. exact Hs.
    + cbn. rewrite A. exact Hh.
    + apply List.in_map_iff. exists (sessionId, ref). split; [reflexivity|].
      apply list_elem_of_In, elem_of_map_to_list. rewrite B. exact Hs.
    + exists s'. auto.
Qed.

Lemma shutdown_erases_all_witness :
  SessionControllerImpl.sessionTimeouts (SessionControllerImpl.shutdown Sample.liveState) = ∅.
Proof.
  refine (proj1 (proj2 (shutdown_erases_all Sample.liveState _))).
  apply wellFormed_addSymptoms, wellFormed_startSession, wellFormed_new.
Defined.

(** X9 (nothing is left of an ended session). After [endSession] on a
    live session the session object has status [COMPLETED], the end
    time that was read and no data; the timer recorded for the session
    is cancelled and its entry removed; [isSessionActive] is false and
    [getSessionDuration] is 0 for the identifier; and ending the
    session a second time changes nothing. *)
Theorem ended_session_leaves_nothing
        (st : SessionControllerImpl.State) (sessionId : string)
        (now1 now2 : Z) (ref : nat) (session : HealthSession) :
  SessionControllerImpl.getSession st sessionId = Some (ref, session) ->
  let st' := fst (SessionControllerImpl.endSession sessionId now1 now2 st) in
  (exists session',
      SessionControllerImpl.heap st' !! ref = Some session'
      /\ status session' = SessionStatus.COMPLETED
      /\ endTime session' = Some now1
      /\ SessionControllerImpl.erased session')
  /\ SessionControllerImpl.sessionTimeouts st' !! sessionId = None
  /\ (forall timeout,
         SessionControllerImpl.sessionTimeouts st !! sessionId = Some timeout ->
         timeout ∉ SessionControllerImpl.pendingTimers st')
  /\ SessionControllerImpl.isSessionActive sessionId st' = false
  /\ (forall later, SessionControllerImpl.getSessionDuration sessionId later st' = 0%Z)
  /\ (forall now3 now4,
         SessionControllerImpl.endSession sessionId now3 now4 st'
         = (st', SessionControllerImpl.Return tt)).
Proof.
  intros E st'.
  assert (Habsent : SessionControllerImpl.getSession st' sessionId = None).
  { unfold st', SessionControllerImpl.endSession. rewrite E. apply getSession_deleted. }
  pose proof E as E'. apply getSession_Some in E'. destruct E' as [Hs Hh].
  split; [|split; [|split; [|split; [|split]]]].
  - unfold st', SessionControllerImpl.endSession. rewrite E.
    match goal with
    | |- context [SessionControllerImpl.store ref ?ended st] =>
        destruct (deleteSessionData_live (SessionControllerImpl.store ref ended st)
                    sessionId ref ended Hs (lookup_insert_eq _ _ _)) as (_ & _ & Hheap)
    end.
    rewrite Hheap, lookup_insert_eq. eexists. split; [reflexivity|].
    cbn. repeat split; reflexivity.
  - unfold st', SessionControllerImpl.endSession. rewrite E.
    rewrite deleteSessionData_timeouts. rewrite bool_decide_eq_true_2; [reflexivity|].
    split; [reflexivity|]. rewrite (getSession_store_same _ _ _ _ Hs). eauto.
  - intros timeout Ht. unfold st', SessionControllerImpl.endSession. rewrite E.
    unfold SessionControllerImpl.deleteSessionData.
    rewrite (getSession_store_same _ _ _ _ Hs).
    cbn [SessionControllerImpl.sessionTimeouts SessionControllerImpl.store].
    rewrite Ht. cbn. intros Hin. apply elem_of_difference in Hin.
    destruct Hin as [_ Hn]. apply Hn, elem_of_singleton. reflexivity.
  - unfold SessionControllerImpl.isSessionActive. rewrite Habsent. reflexivity.
  - intros later. unfold SessionControllerImpl.getSessionDuration. rewrite Habsent.
    reflexivity.
  - intros now3 now4. unfold SessionControllerImpl.endSession. rewrite Habsent.
    reflexivity.
Qed.

Lemma ended_session_leaves_nothing_witness :
  SessionControllerImpl.isSessionActive "session-1"
    (fst (SessionControllerImpl.endSession "session-1" 3000 3001 Sample.liveState)) = false.
Proof.
  refine (proj1 (proj2 (proj2 (proj2
            (ended_session_leaves_nothing Sample.liveState "session-1" 3000 3001 0
               {| hs_id := "session-1"; startTime := 1000; endTime := None;
                  hs_symptoms := [ Sample.mildCough ];
                  riskAssessment := None;
                  conversationHistory :=
                    [ {| timestamp := 1000; turnType := system_response;
                         content := "Session started"; processedSymptoms := None |};
                      {| timestamp := 2000; turnType := user_input;
                         content := "Added symptoms: cough";
                         processedSymptoms := Some [ Sample.mildCough ] |} ];
                  status := SessionStatus.ACTIVE |} _))))).
  vm_compute. reflexivity.
Defined.

(** X10 (activity restarts the timeout). In a well-formed store, a
    conversation turn recorded for a live session cancels the timer the
    session had and schedules a new one: the new timer is pending and
    recorded for the session, the old one is no longer pending, and the
    timers recorded for other sessions stay recorded and pending. *)
Theorem activity_restarts_timeout
        (st : SessionControllerImpl.State) (sessionId : string)
        (turn : ConversationTurn) (ref : nat) (session : HealthSession) (old : nat) :
  SessionControllerImpl.wellFormed st ->
  SessionControllerImpl.getSession st sessionId = Some (ref, session) ->
  SessionControllerImpl.sessionTimeouts st !! sessionId = Some old ->
  let st' := fst (SessionControllerImpl.addConversationTurn sessionId turn st) in
  exists new,
    SessionControllerImpl.sessionTimeouts st' !! sessionId = Some new
    /\ new <> old
    /\ new ∈ SessionControllerImpl.pendingTimers st'
    /\ (old ∉ SessionControllerImpl.pendingTimers st')
    /\ (forall other timeout,
           other <> sessionId ->
           SessionControllerImpl.sessionTimeouts st !! other = Some timeout ->
           SessionControllerImpl.sessionTimeouts st' !! other = Some timeout
           /\ timeout ∈ SessionControllerImpl.pendingTimers st').
Proof.
  intros (H1 & H2 & H3 & H4 & H5 & H6) E Ht st'.
  exists (SessionControllerImpl.nextTimer st).
  pose proof (H5 _ (H4 _ _ Ht)) as Hlt.
  unfold st', SessionControllerImpl.addConversationTurn. rewrite E.
  cbn [fst]. unfold SessionControllerImpl.resetSessionTimeout.
  cbn [SessionControllerImpl.sessionTimeouts SessionControllerImpl.store].
  rewrite Ht. cbn.
  split; [apply lookup_insert_eq|]. split; [lia|]. split; [|split].
  - apply elem_of_union. left. apply elem_of_singleton. reflexivity.
  - intros Hin. apply elem_of_union in Hin. destruct Hin as [Hin|Hin].
    + apply elem_of_singleton in Hin. lia.
    + apply elem_of_difference in Hin. destruct Hin as [_ Hn].
      apply Hn, elem_of_singleton. reflexivity.
  - intros other timeout Hne Ho. split.
    + rewrite lookup_insert_ne by congruence. exact Ho.
    + apply elem_of_union. right. apply elem_of_difference. split; [eauto|].
      intros Heq. apply elem_of_singleton in Heq. subst timeout.
      apply Hne. eapply H6; eauto.
Qed.

Lemma activity_restarts_timeout_witness :
  exists new,
    SessionControllerImpl.sessionTimeouts
      (fst (SessionControllerImpl.addConversationTurn "session-1"
              {| timestamp := 2500; turnType := clarification_question;
                 content := "How long have you had this cough?";
                 processedSymptoms := None |} Sample.liveState)) !! "session-1" = Some new
    /\ new <> 1%nat.
Proof.
  destruct (activity_restarts_timeout Sample.liveState "session-1"
              {| timestamp := 2500; turnType := clarification_question;
                 content := "How long have you had this cough?";
                 processedSymptoms := None |} 0
              {| hs_id := "session-1"; startTime := 1000; endTime := None;
                 hs_symptoms := [ Sample.mildCough ];
                 riskAssessment := None;
                 conversationHistory :=
                   [ {| timestamp := 1000; turnType := system_response;
                        content := "Session started"; processedSymptoms := None |};
                     {| timestamp := 2000; turnType := user_input;
                        content := "Added symptoms: cough";
                        processedSymptoms := Some [ Sample.mildCough ] |} ];
                 status := SessionStatus.ACTIVE |} 1%nat
              (wellFormed_addSymptoms _ _ _ _
                 (wellFormed_startSession _ _ _ wellFormed_new))
              ltac:(vm_compute; reflexivity) ltac:(vm_compute; reflexivity))
    as (new & A & B & _).
  exists new. split; [exact A|exact B].
Defined.

(** ** Further properties of the risk classifier *)

Section ClassifierMore.
Import RiskClassifierImpl.
Local Open Scope Q_scope.

Lemma sum_le_half (xs : list Q) :
  (forall x, In x xs -> x <= 0.5) -> Spec.sum xs <= 0.5 * Num.lengthQ xs.
Proof.
  induction xs as [|x xs IH]; intros H.
  - vm_compute. discriminate.
  - cbn [Spec.sum List.fold_right]. fold (Spec.sum xs).
    pose proof (H x (or_introl eq_refl)) as Hx.
    assert (IH' : Spec.sum xs <= 0.5 * Num.lengthQ xs)
      by (apply IH; intros y Hy; apply H; right; exact Hy).
    rewrite lengthQ_cons. lra.
Qed.

(** a condition scores more than the base 0.5 only when one of its
    qualifiers matches the first symptom that satisfies it *)
Lemma perConditionScore_qualified (symptoms : list SymptomEntity) (c : SymptomCondition) :
  0.5 < Spec.perConditionScore symptoms c ->
  exists s, In s symptoms
            /\ Spec.satisfies c s = true
            /\ (Spec.severityMatch c s || Spec.bodyPartMatch c s
                || Spec.durationMatch c s) = true.
Proof.
  unfold Spec.perConditionScore.
  destruct (List.find (Spec.satisfies c) symptoms) as [s|] eqn:E; [|intros H; lra].
  apply List.find_some in E. destruct E as [Hin Hsat].
  intros H. exists s. split; [exact Hin|]. split; [exact Hsat|].
  destruct (Spec.severityMatch c s); [reflexivity|].
  destruct (Spec.bodyPartMatch c s); [reflexivity|].
  destruct (Spec.durationMatch c s); [reflexivity|].
  exfalso. revert H. apply Qle_not_lt. apply Q.min_le_iff. left. lra.
Qed.

Lemma ruleScore_qualified (symptoms : list SymptomEntity) (rule : RiskRule) (score : Q) :
  calculateRuleMatch symptoms rule = Some score ->
  0.5 < score ->
  exists c s, In c (conditions rule) /\ In s symptoms
              /\ Spec.satisfies c s = true
              /\ (Spec.severityMatch c s || Spec.bodyPartMatch c s
                  || Spec.durationMatch c s) = true.
Proof.
  intros E Hs.
  pose proof (calculateRuleMatch_ruleScore symptoms rule) as Hsame.
  rewrite E in Hsame. unfold Spec.sameNumber in Hsame.
  destruct (Spec.ruleScore symptoms rule) as [y|] eqn:Ey; [|destruct Hsame].
  unfold Spec.ruleScore in Ey.
  destruct (List.existsb _ (conditions rule)).
  { inversion Ey; subst y. rewrite Hsame in Hs. lra. }
  unfold Spec.average in Ey.
  destruct (List.map (Spec.perConditionScore symptoms) (conditions rule)) as [|x xs] eqn:Em;
    [discriminate|].
  inversion Ey; subst y. clear Ey.
  destruct (List.existsb (fun c => Num.Qltb 0.5 (Spec.perConditionScore symptoms c))
                         (conditions rule)) eqn:Ex.
  - apply List.existsb_exists in Ex. destruct Ex as (c & Hc & Hq).
    apply Qltb_lt in Hq.
    destruct (perConditionScore_qualified symptoms c Hq) as (s & A & B & C).
    exists c, s. auto.
  - exfalso.
    assert (Hall : forall v, In v (x :: xs) -> v <= 0.5).
    { intros v Hv. rewrite <- Em in Hv. apply List.in_map_iff in Hv.
      destruct Hv as (c & <- & Hc).
      apply Qltb_ge. destruct (Num.Qltb 0.5 (Spec.perConditionScore symptoms c)) eqn:Eq;
        [|reflexivity].
      assert (List.existsb (fun c => Num.Qltb 0.5 (Spec.perConditionScore symptoms c))
                           (conditions rule) = true)
        by (apply List.existsb_exists; eauto).
      congruence. }
    pose proof (sum_le_half (x :: xs) Hall) as Hsum.
    assert (Hpos : 0 < Num.lengthQ (x :: xs)) by (apply lengthQ_pos; discriminate).
    rewrite Hsame in Hs.
    assert (Hdiv : Spec.sum (x :: xs) / Num.lengthQ (x :: xs) <= 0.5).
    { apply Qle_shift_div_r; [exact Hpos|exact Hsum]. }
    exact (Qlt_not_le _ _ Hs Hdiv).
Qed.

End ClassifierMore.

(** X11 (severe symptoms of the chest, the breath or the heart are
    always an emergency). If some symptom has severity [severe] and a
    name that contains "chest", "breath" or "heart", the assessment is
    [emergency] with a confidence of at least 0.9, whatever the rules,
    the keywords and the severity table of the classifier are, and
    [requiresImmediateAttention] is true. *)
Theorem critical_severe_override
        (this : RiskClassifierImpl.t) (symptoms : list SymptomEntity) (s : SymptomEntity) :
  In s symptoms ->
  severity s = SeverityLevel.SEVERE ->
  (JS.includes (symptom s) "chest" || JS.includes (symptom s) "breath"
   || JS.includes (symptom s) "heart") = true ->
  level (RiskClassifierImpl.classifyRisk this symptoms) = RiskLevel.EMERGENCY
  /\ (0.9 <= ra_confidence (RiskClassifierImpl.classifyRisk this symptoms))%Q
  /\ RiskClassifierImpl.requiresImmediateAttention this symptoms = true.
Proof.
  intros Hin Hsev Hname.
  assert (Hne : symptoms <> []) by (intros ->; destruct Hin).
  assert (Hcrit : RiskClassifierImpl.isCritical s = true).
  { unfold RiskClassifierImpl.isCritical. rewrite Hsev. cbn [SeverityLevel.eqb].
    rewrite !andb_true_r. exact Hname. }
  assert (H : level (RiskClassifierImpl.classifyRisk this symptoms) = RiskLevel.EMERGENCY
              /\ (0.9 <= ra_confidence (RiskClassifierImpl.classifyRisk this symptoms))%Q).
  { rewrite (classifyRisk_stages this symptoms Hne).
    unfold RiskClassifierImpl.checkEmergencyConditions.
    destruct (RiskClassifierImpl.emergencyKeywordScan this symptoms) as [k|].
    - cbn. split; [reflexivity|]. apply Qle_bool_iff. reflexivity.
    - destruct (List.filter (RiskClassifierImpl.isCritical) symptoms) as [|c cs] eqn:Ef.
      + exfalso.
        assert (Hs : In s (List.filter RiskClassifierImpl.isCritical symptoms))
          by (apply List.filter_In; split; assumption).
        rewrite Ef in Hs. destruct Hs.
      + cbn. split; [reflexivity|]. apply Qle_bool_iff. reflexivity. }
  destruct H as [Hl Hc]. split; [exact Hl|]. split; [exact Hc|].
  unfold RiskClassifierImpl.requiresImmediateAttention. rewrite Hl. reflexivity.
Qed.

Lemma critical_severe_override_witness :
  level (RiskClassifierImpl.classifyRisk RiskClassifierImpl.new
           [ Sample.mildCough;
             {| symptom := "tightness in the chest"; bodyPart := None;
                severity := SeverityLevel.SEVERE; duration := None;
                confidence := 0.2%Q |} ]) = RiskLevel.EMERGENCY.
Proof.
  refine (proj1 (critical_severe_override RiskClassifierImpl.new _
                   {| symptom := "tightness in the chest"; bodyPart := None;
                      severity := SeverityLevel.SEVERE; duration := None;
                      confidence := 0.2%Q |} _ _ _)).
  - right. left. reflexivity.
  - reflexivity.
  - vm_compute. reflexivity.
Defined.

(** X12 (a rule is applied only on a matching qualifier). When the
    rule stage returns an assessment, it comes from a rule of the table
    that has a condition and a symptom such that the symptom's name
    contains the condition's name and the severity, the body part or
    the duration range of the condition matches the symptom. A rule
    whose conditions name symptoms only, without severity, body part
    or duration, never scores above the threshold 0.5, so it is never
    applied. *)
Theorem rule_applied_only_on_qualifier
        (this : RiskClassifierImpl.t) (symptoms : list SymptomEntity) :
  match RiskClassifierImpl.applyRiskRules this symptoms with
  | Some a =>
      exists rule c s,
        In rule (RiskClassifierImpl.riskRules this)
        /\ level a = RiskClassifierImpl.r_riskLevel rule
        /\ reasoning a = RiskClassifierImpl.r_reasoning rule
        /\ recommendations a = RiskClassifierImpl.r_recommendations rule
        /\ In c (RiskClassifierImpl.conditions rule)
        /\ In s symptoms
        /\ JS.includes (JS.toLowerCase (symptom s))
                       (JS.toLowerCase (RiskClassifierImpl.c_symptom c)) = true
        /\ (RiskClassifierImpl.c_severity c = Some (severity s)
            \/ (exists b, RiskClassifierImpl.c_bodyPart c = Some b /\ bodyPart s = Some b)
            \/ (exists cd sd,
                   RiskClassifierImpl.c_duration c = Some cd /\ duration s = Some sd
                   /\ RiskClassifierImpl.checkDurationMatch sd cd = true))
  | None => True
  end
  /\ (forall rule score,
         (forall c, In c (RiskClassifierImpl.conditions rule) ->
                    RiskClassifierImpl.c_severity c = None
                    /\ RiskClassifierImpl.c_bodyPart c = None
                    /\ RiskClassifierImpl.c_duration c = None) ->
         RiskClassifierImpl.calculateRuleMatch symptoms rule = Some score ->
         (score <= 0.5)%Q).
Proof.
  assert (Hq : forall rule score,
             RiskClassifierImpl.calculateRuleMatch symptoms rule = Some score ->
             (0.5 < score)%Q ->
             exists c s,
               In c (RiskClassifierImpl.conditions rule) /\ In s symptoms
               /\ JS.includes (JS.toLowerCase (symptom s))
                              (JS.toLowerCase (RiskClassifierImpl.c_symptom c)) = true
               /\ (RiskClassifierImpl.c_severity c = Some (severity s)
                   \/ (exists b, RiskClassifierImpl.c_bodyPart c = Some b
                                 /\ bodyPart s = Some b)
                   \/ (exists cd sd,
                          RiskClassifierImpl.c_duration c = Some cd /\ duration s = Some sd
                          /\ RiskClassifierImpl.checkDurationMatch sd cd = true))).
  { intros rule score E Hs.
    destruct (ruleScore_qualified symptoms rule score E Hs) as (c & s & Hc & Hin & Hsat & Hm).
    exists c, s. split; [exact Hc|]. split; [exact Hin|]. split; [exact Hsat|].
    rewrite durationMatch_check in Hm.
    unfold Spec.severityMatch, Spec.bodyPartMatch in Hm.
    destruct (RiskClassifierImpl.c_severity c) as [sev|] eqn:Esev.
    - destruct (SeverityLevel.eqb (severity s) sev) eqn:Eeq.
      + left. destruct (severity s), sev; try discriminate; reflexivity.
      + cbn [orb] in Hm. clear Eeq.
        destruct (RiskClassifierImpl.c_bodyPart c) as [cb|], (bodyPart s) as [sb|];
          cbn [orb] in Hm.
        * destruct (JS.truthy cb && String.eqb sb cb) eqn:Eb.
          -- right. left. apply andb_true_iff in Eb. destruct Eb as [_ Eb].
             apply String.eqb_eq in Eb. subst sb. eauto.
          -- cbn [orb] in Hm.
             destruct (RiskClassifierImpl.c_duration c) as [cd|], (duration s) as [sd|];
               try discriminate. right. right. eauto.
        * destruct (RiskClassifierImpl.c_duration c) as [cd|], (duration s) as [sd|];
            try discriminate. right. right. eauto.
        * destruct (RiskClassifierImpl.c_duration c) as [cd|], (duration s) as [sd|];
            try discriminate. right. right. eauto.
        * destruct (RiskClassifierImpl.c_duration c) as [cd|], (duration s) as [sd|];
            try discriminate. right. right. eauto.
    - cbn [orb] in Hm.
      destruct (RiskClassifierImpl.c_bodyPart c) as [cb|], (bodyPart s) as [sb|];
        cbn [orb] in Hm.
      + destruct (JS.truthy cb && String.eqb sb cb) eqn:Eb.
        * right. left. apply andb_true_iff in Eb. destruct Eb as [_ Eb].
          apply String.eqb_eq in Eb. subst sb. eauto.
        * cbn [orb] in Hm.
          destruct (RiskClassifierImpl.c_duration c) as [cd|], (duration s) as [sd|];
            try discriminate. right. right. eauto.
      + destruct (RiskClassifierImpl.c_duration c) as [cd|], (duration s) as [sd|];
          try discriminate. right. right. eauto.
      + destruct (RiskClassifierImpl.c_duration c) as [cd|], (duration s) as [sd|];
          try discriminate. right. right. eauto.
      + destruct (RiskClassifierImpl.c_duration c) as [cd|], (duration s) as [sd|];
          try discriminate. right. right. eauto. }
  split.
  - unfold RiskClassifierImpl.applyRiskRules, RiskClassifierImpl.bestMatchOf.
    destruct (bestMatch_fold symptoms (RiskClassifierImpl.riskRules this) None I)
      as (Hw & _ & _ & Hfrom).
    destruct (List.fold_left (RiskClassifierImpl.bestMatchStep symptoms)
                             (RiskClassifierImpl.riskRules this) None)
      as [[rule m]|] eqn:E; [|exact I].
    destruct Hfrom as [?|(rule' & m' & Hin & Heq)]; [discriminate|].
    inversion Heq; subst rule' m'. destruct Hw as [Hscore Hgt].
    destruct (Hq rule m Hscore Hgt) as (c & s & Hc & Hs & Hsat & Hm).
    exists rule, c, s. cbn. repeat (split; [first [assumption|reflexivity]|]). exact Hm.
  - intros rule score Hplain E.
    destruct (Qlt_le_dec 0.5 score) as [Hgt|Hle]; [|exact Hle]. exfalso.
    destruct (Hq rule score E Hgt) as (c & s & Hc & _ & _ & Hm).
    destruct (Hplain c Hc) as (A & B & C).
    destruct Hm as [Hm|[(b & Hm & _)|(cd & sd & Hm & _)]]; congruence.
Qed.

Lemma rule_applied_only_on_qualifier_witness :
  match RiskClassifierImpl.calculateRuleMatch
          [ {| symptom := "runny nose"; bodyPart := Some "nose";
               severity := SeverityLevel.MILD; duration := None; confidence := 0.9%Q |} ]
          {| RiskClassifierImpl.conditions :=
               [ RiskClassifierImpl.cond "runny nose" None None true ];
             RiskClassifierImpl.r_riskLevel := RiskLevel.MILD;
             RiskClassifierImpl.r_confidence := 0.8%Q;
             RiskClassifierImpl.r_reasoning :=
               [ "Runny nose typically indicates minor cold or allergies" ];
             RiskClassifierImpl.r_recommendations :=
               [ "Rest and fluids"; "Saline nasal rinse"; "Monitor for worsening" ] |} with
  | Some score => (score <= 0.5)%Q
  | None => True
  end.
Proof.
  destruct (RiskClassifierImpl.calculateRuleMatch _ _) as [score|] eqn:E; [|exact I].
  refine (proj2 (rule_applied_only_on_qualifier RiskClassifierImpl.new _) _ score _ E).
  intros c [<-|[]]. repeat split; reflexivity.
Defined.

Section Keywords.
Import RiskClassifierImpl.

Lemma find_app_none {A} (f : A -> bool) (l1 l2 : list A) :
  List.find f (l1 ++ l2)%list = None -> List.find f l1 = None.
Proof.
  induction l1 as [|x l1 IH]; [reflexivity|]. cbn.
  destruct (f x); [discriminate|exact IH].
Qed.

Lemma emergencyKeywordScan_fewer (this this' : t) (symptoms : list SymptomEntity) extra :
  emergencyKeywords this' = (emergencyKeywords this ++ extra)%list ->
  emergencyKeywordScan this' symptoms = None ->
  emergencyKeywordScan this symptoms = None.
Proof.
  intros Hk. induction symptoms as [|s rest IH]; [reflexivity|].
  cbn [emergencyKeywordScan]. unfold emergencyKeywordIn. rewrite Hk.
  destruct (List.find _ (emergencyKeywords this ++ extra)%list) eqn:E; [discriminate|].
  apply find_app_none in E. rewrite E. exact IH.
Qed.

End Keywords.

(** X13 (an added emergency keyword is enforced). After
    [addEmergencyKeyword], symptoms one of which contains the keyword
    in its name, in any letter case, are classified [emergency] with
    confidence 0.95; adding the keyword again changes nothing; the
    keywords that were there are kept, and so are the rules and the
    severity table; and every other list of symptoms is classified as
    before, or as an emergency of confidence 0.95. *)
Theorem added_keyword_is_enforced
        (this : RiskClassifierImpl.t) (keyword : string)
        (symptoms : list SymptomEntity) (s : SymptomEntity) :
  In s symptoms ->
  JS.includes (JS.toLowerCase (symptom s)) (JS.toLowerCase keyword) = true ->
  let this' := RiskClassifierImpl.addEmergencyKeyword this keyword in
  level (RiskClassifierImpl.classifyRisk this' symptoms) = RiskLevel.EMERGENCY
  /\ ra_confidence (RiskClassifierImpl.classifyRisk this' symptoms) = 0.95%Q
  /\ RiskClassifierImpl.addEmergencyKeyword this' keyword = this'
  /\ (forall k, In k (RiskClassifierImpl.emergencyKeywords this) ->
                In k (RiskClassifierImpl.emergencyKeywords this'))
  /\ RiskClassifierImpl.riskRules this' = RiskClassifierImpl.riskRules this
  /\ RiskClassifierImpl.symptomSeverityMap this'
     = RiskClassifierImpl.symptomSeverityMap this
  /\ (forall others,
         RiskClassifierImpl.classifyRisk this' others
         = RiskClassifierImpl.classifyRisk this others
         \/ (level (RiskClassifierImpl.classifyRisk this' others) = RiskLevel.EMERGENCY
             /\ ra_confidence (RiskClassifierImpl.classifyRisk this' others) = 0.95%Q)).
Proof.
  intros Hin Hinc this'.
  assert (Hkw : exists extra,
             RiskClassifierImpl.emergencyKeywords this'
             = (RiskClassifierImpl.emergencyKeywords this ++ extra)%list
             /\ RiskClassifierImpl.riskRules this' = RiskClassifierImpl.riskRules this
             /\ RiskClassifierImpl.symptomSeverityMap this'
                = RiskClassifierImpl.symptomSeverityMap this
             /\ In keyword (RiskClassifierImpl.emergencyKeywords this')).
  { unfold this', RiskClassifierImpl.addEmergencyKeyword.
    destruct (List.existsb (String.eqb keyword) (RiskClassifierImpl.emergencyKeywords this))
      eqn:E; cbn [negb].
    - exists []. rewrite List.app_nil_r. repeat split; try reflexivity.
      apply List.existsb_exists in E. destruct E as (k & Hk & Heq).
      apply String.eqb_eq in Heq. subst k. exact Hk.
    - exists [ keyword ]. cbn. repeat split; try reflexivity.
      apply List.in_or_app. right. left. reflexivity. }
  destruct Hkw as (extra & Hk & Hr & Hm & Hmem).
  assert (Hall : forall others,
             RiskClassifierImpl.classifyRisk this' others
             = RiskClassifierImpl.classifyRisk this others
             \/ (level (RiskClassifierImpl.classifyRisk this' others) = RiskLevel.EMERGENCY
                 /\ ra_confidence (RiskClassifierImpl.classifyRisk this' others) = 0.95%Q)).
  { intros others.
    destruct (RiskClassifierImpl.emergencyKeywordScan this' others) as [k|] eqn:E.
    - right. rewrite (emergencyKeywordScan_classify this' others k E). split; reflexivity.
    - left. pose proof (emergencyKeywordScan_fewer this this' others extra Hk E) as E0.
      destruct others as [|o os]; [reflexivity|].
      rewrite !classifyRisk_stages by discriminate.
      unfold RiskClassifierImpl.checkEmergencyConditions. rewrite E, E0.
      unfold RiskClassifierImpl.applyRiskRules, RiskClassifierImpl.assessBySymptomSeverity,
        RiskClassifierImpl.severityStep, RiskClassifierImpl.adjustedRiskOf,
        RiskClassifierImpl.baseRiskOf.
      rewrite Hr, Hm. reflexivity. }
  destruct (emergencyKeywordScan_hit this' symptoms s keyword Hin Hmem Hinc) as [k Hscan].
  rewrite (emergencyKeywordScan_classify this' symptoms k Hscan).
  split; [reflexivity|]. split; [reflexivity|]. split; [|split; [|split; [|split]]].
  - unfold RiskClassifierImpl.addEmergencyKeyword at 1.
    assert (List.existsb (String.eqb keyword) (RiskClassifierImpl.emergencyKeywords this')
            = true) as ->; [|reflexivity].
    apply List.existsb_exists. exists keyword. split; [exact Hmem|apply String.eqb_refl].
  - intros k0 Hk0. rewrite Hk. apply List.in_or_app. left. exact Hk0.
  - exact Hr.
  - exact Hm.
  - exact Hall.
Qed.

Lemma added_keyword_is_enforced_witness :
  level (RiskClassifierImpl.classifyRisk
           (RiskClassifierImpl.addEmergencyKeyword RiskClassifierImpl.new "Seizure")
           [ {| symptom := "seizure"; bodyPart := None; severity := SeverityLevel.MILD;
                duration := None; confidence := 0.5%Q |} ]) = RiskLevel.EMERGENCY
  /\ level (RiskClassifierImpl.classifyRisk RiskClassifierImpl.new
              [ {| symptom := "seizure"; bodyPart := None; severity := SeverityLevel.MILD;
                   duration := None; confidence := 0.5%Q |} ]) = RiskLevel.MILD.
Proof.
  split.
  - refine (proj1 (added_keyword_is_enforced RiskClassifierImpl.new "Seizure" _
                     {| symptom := "seizure"; bodyPart := None;
                        severity := SeverityLevel.MILD;
                        duration := None; confidence := 0.5%Q |} _ _)).
    + left. reflexivity.
    + vm_compute. reflexivity.
  - vm_compute. reflexivity.
Defined.

(** ** Further properties of the safety guardian *)

Section StringsMore.

Lemma toLowerChar_idem (c : ascii) : JS.toLowerChar (JS.toLowerChar c) = JS.toLowerChar c.
Proof. destruct c as [[] [] [] [] [] [] [] []]; reflexivity. Qed.

Lemma toLowerCase_idem (s : string) : JS.toLowerCase (JS.toLowerCase s) = JS.toLowerCase s.
Proof.
  induction s as [|c s IH]; [reflexivity|].
  cbn [JS.toLowerCase]. rewrite toLowerChar_idem, IH. reflexivity.
Qed.

Lemma length_toLowerCase (s : string) : String.length (JS.toLowerCase s) = String.length s.
Proof. induction s as [|c s IH]; [reflexivity|]. cbn. f_equal. exact IH. Qed.

Lemma startsWith_nil (s : string) : JS.startsWith s "" = true.
Proof. destruct s; reflexivity. Qed.

Lemma startsWith_cons (c d : ascii) (s k : string) :
  JS.startsWith (String c s) (String d k) = true <-> c = d /\ JS.startsWith s k = true.
Proof.
  unfold JS.startsWith. cbn. destruct (ascii_dec d c) as [->|Hne].
  - tauto.
  - split; [discriminate|]. intros [-> _]. congruence.
Qed.

(** a prefix of [a ++ b] is a prefix of [a], or all of [a] followed by
    a prefix of [b] *)
Lemma startsWith_append (a b f : string) :
  JS.startsWith (a ++ b) f = true ->
  JS.startsWith a f = true
  \/ ((String.length a < String.length f)%nat
      /\ JS.startsWith b (JS.drop (String.length a) f) = true).
Proof.
  revert f. induction a as [|c a IH]; intros f H.
  - destruct f as [|d f]; [left; reflexivity|].
    right. split; [cbn; lia|exact H].
  - destruct f as [|d f]; [left; reflexivity|].
    rewrite append_cons in H. apply startsWith_cons in H. destruct H as [-> H].
    destruct (IH f H) as [Hp|[Hl Hp]].
    + left. apply startsWith_cons. auto.
    + right. split; [cbn; lia|exact Hp].
Qed.

Lemma includes_cons (c : ascii) (s k : string) :
  JS.includes s k = true -> JS.includes (String c s) k = true.
Proof.
  intros H. cbn [JS.includes]. destruct (JS.startsWith (String c s) k); [reflexivity|exact H].
Qed.

Lemma includes_startsWith (s k : string) :
  JS.startsWith s k = true -> JS.includes s k = true.
Proof. intros H. destruct s; cbn [JS.includes]; rewrite H; reflexivity. Qed.

(** an occurrence in [a ++ b] lies in [a], lies in [b], or starts in
    [a] and ends in [b] *)
Lemma includes_append_cases (a b f : string) :
  JS.includes (a ++ b) f = true ->
  JS.includes a f = true
  \/ JS.includes b f = true
  \/ List.existsb (fun k => JS.startsWith b (JS.drop k f))
                  (List.seq 1 (String.length f - 1)) = true.
Proof.
  induction a as [|c a IH]; intros H.
  - right. left. exact H.
  - rewrite append_cons in H. cbn [JS.includes] in H.
    destruct (JS.startsWith (String c (a ++ b)) f) eqn:E.
    + rewrite <- append_cons in E. apply startsWith_append in E.
      destruct E as [Hp|[Hl Hp]].
      * left. apply includes_startsWith, Hp.
      * right. right. apply List.existsb_exists.
        exists (String.length (String c a)). split; [|exact Hp].
        apply List.in_seq. cbn [String.length] in *. lia.
    + destruct (IH H) as [Ha|[Hb|Hx]].
      * left. apply includes_cons, Ha.
      * right. left. exact Hb.
      * right. right. exact Hx.
Qed.

Lemma includes_append_l (a b k : string) :
  JS.includes a k = true -> JS.includes (a ++ b) k = true.
Proof.
  induction a as [|c a IH]; intros H.
  - cbn [JS.includes] in H. destruct (JS.startsWith "" k) eqn:E; [|discriminate].
    destruct k; [|discriminate]. apply includes_startsWith, startsWith_nil.
  - cbn [JS.includes] in H. rewrite append_cons.
    destruct (JS.startsWith (String c a) k) eqn:E.
    + apply includes_startsWith. clear H IH. rewrite <- append_cons.
      revert E. generalize (String c a). intros s. revert k.
      induction s as [|d s IHs]; intros k E.
      * destruct k; [apply startsWith_nil|discriminate].
      * destruct k as [|e k]; [reflexivity|].
        rewrite append_cons. apply startsWith_cons in E. destruct E as [-> E].
        apply startsWith_cons. auto.
    + apply includes_cons, IH, H.
Qed.

End StringsMore.

Section GuardianMore.
Import SafetyGuardianImpl.
Local Open Scope Q_scope.

Lemma Qmax_floor_twice (c : Q) : Qmax (Qmax c 0.85) 0.85 = Qmax c 0.85.
Proof.
  unfold Qmax, GenericMinMax.gmax.
  destruct (c ?= 0.85) eqn:E; rewrite ?E; reflexivity.
Qed.

(** the recommendations after [enforceEmergencyProtocol] *)
Lemma enforced_recommendations (recs : list string) :
  let withContact :=
    if negb (hasEmergencyContact recs)
    then "Contact emergency services immediately by calling 911" :: recs else recs in
  let enhanced :=
    if negb (hasUrgencyMessage withContact)
    then (withContact ++ [ "Do not delay seeking medical attention" ])%list
    else withContact in
  hasEmergencyContact enhanced = true
  /\ hasUrgencyMessage enhanced = true
  /\ exists pre post,
      enhanced = (pre ++ recs ++ post)%list /\ (length pre + length post <= 1)%nat.
Proof.
  cbv zeta.
  destruct (hasEmergencyContact recs) eqn:Ec; cbn [negb].
  - destruct (hasUrgencyMessage recs) eqn:Eu; cbn [negb].
    + split; [exact Ec|]. split; [exact Eu|]. exists [], [].
      rewrite List.app_nil_r. split; [reflexivity|cbn; lia].
    + split; [|split].
      * unfold hasEmergencyContact in *. rewrite List.existsb_app, Ec. reflexivity.
      * unfold hasUrgencyMessage. rewrite List.existsb_app.
        apply orb_true_iff. right. vm_compute. reflexivity.
      * exists [], [ "Do not delay seeking medical attention" ].
        split; [reflexivity|cbn; lia].
  - assert (Hu : hasUrgencyMessage
                   ("Contact emergency services immediately by calling 911" :: recs) = true).
    { unfold hasUrgencyMessage. cbn [List.existsb]. apply orb_true_iff. left.
      vm_compute. reflexivity. }
    rewrite Hu. cbn [negb]. split; [|split; [exact Hu|]].
    + unfold hasEmergencyContact. cbn [List.existsb]. apply orb_true_iff. left.
      vm_compute. reflexivity.
    + exists [ "Contact emergency services immediately by calling 911" ], [].
      rewrite List.app_nil_r. split; [reflexivity|cbn; lia].
Qed.

End GuardianMore.

(** X14 (the emergency protocol). [enforceEmergencyProtocol] returns an
    assessment that is not an emergency as it is. For an emergency the
    level stays, the recommendations contain an emergency contact and
    an urgency message, the recommendations given are kept in order
    and at most one is added, the confidence becomes the greater of
    the given one and 0.85, and the reasoning gains one line. Applied
    a second time it leaves recommendations and confidence as they
    are and adds the line to the reasoning once more. *)
Theorem emergency_protocol_guarantees (a : RiskAssessment) :
  (level a <> RiskLevel.EMERGENCY -> SafetyGuardianImpl.enforceEmergencyProtocol a = a)
  /\ (level a = RiskLevel.EMERGENCY ->
      let e := SafetyGuardianImpl.enforceEmergencyProtocol a in
      level e = RiskLevel.EMERGENCY
      /\ SafetyGuardianImpl.hasEmergencyContact (recommendations e) = true
      /\ SafetyGuardianImpl.hasUrgencyMessage (recommendations e) = true
      /\ (exists pre post,
             recommendations e = (pre ++ recommendations a ++ post)%list
             /\ (length pre + length post <= 1)%nat)
      /\ ra_confidence e = Qmax (ra_confidence a) 0.85
      /\ reasoning e
         = (reasoning a ++ [ "Emergency protocol enforced by safety guardian" ])%list
      /\ SafetyGuardianImpl.enforceEmergencyProtocol e
         = {| level := level e;
              ra_confidence := ra_confidence e;
              reasoning :=
                (reasoning e ++ [ "Emergency protocol enforced by safety guardian" ])%list;
              recommendations := recommendations e |}).
Proof.
  split.
  - intros Hne. unfold SafetyGuardianImpl.enforceEmergencyProtocol.
    destruct (level a); try reflexivity. congruence.
  - intros Hl e.
    pose proof (enforced_recommendations (recommendations a)) as Hrec. cbv zeta in Hrec.
    assert (He : e = {| level := RiskLevel.EMERGENCY;
                        ra_confidence := Qmax (ra_confidence a) 0.85;
                        reasoning :=
                          (reasoning a
                           ++ [ "Emergency protocol enforced by safety guardian" ])%list;
                        recommendations :=
                          if negb (SafetyGuardianImpl.hasUrgencyMessage
                                     (if negb (SafetyGuardianImpl.hasEmergencyContact
                                                 (recommendations a))
                                      then "Contact emergency services immediately by calling 911"
                                           :: recommendations a
                                      else recommendations a))
                          then ((if negb (SafetyGuardianImpl.hasEmergencyContact
                                            (recommendations a))
                                 then "Contact emergency services immediately by calling 911"
                                      :: recommendations a
                                 else recommendations a)
                                ++ [ "Do not delay seeking medical attention" ])%list
                          else (if negb (SafetyGuardianImpl.hasEmergencyContact
                                           (recommendations a))
                                then "Contact emergency services immediately by calling 911"
                                     :: recommendations a
                                else recommendations a) |}).
    { unfold e, SafetyGuardianImpl.enforceEmergencyProtocol. rewrite Hl. reflexivity. }
    destruct Hrec as (Hc & Hu & Hshape).
    rewrite He. cbn [level recommendations ra_confidence reasoning].
    split; [reflexivity|]. split; [exact Hc|]. split; [exact Hu|]. split; [exact Hshape|].
    split; [reflexivity|]. split; [reflexivity|].
    unfold SafetyGuardianImpl.enforceEmergencyProtocol at 1.
    cbn [level recommendations ra_confidence reasoning RiskLevel.eqb negb].
    rewrite Hc. cbn [negb]. rewrite Hu. cbn [negb].
    rewrite Qmax_floor_twice. reflexivity.
Qed.

Lemma emergency_protocol_guarantees_witness :
  SafetyGuardianImpl.hasEmergencyContact
    (recommendations (SafetyGuardianImpl.enforceEmergencyProtocol Sample.emergencyAssessment))
  = true
  /\ SafetyGuardianImpl.hasUrgencyMessage
       (recommendations
          (SafetyGuardianImpl.enforceEmergencyProtocol Sample.emergencyAssessment))
     = true.
Proof.
  pose proof (proj2 (emergency_protocol_guarantees Sample.emergencyAssessment) eq_refl)
    as (_ & Hc & Hu & _).
  split; [exact Hc|exact Hu].
Defined.

Section Disclaimers.
Import SafetyGuardianImpl.

(** the two disclaimers chosen by the wording of the response do not
    carry the opening of a required disclaimer, and no such opening
    arises where they are attached *)
Lemma worded_disclaimer_without_fragment (lower disclaimer : string) :
  disclaimer = emergencyDisclaimer \/ disclaimer = guidanceDisclaimer ->
  hasDisclaimerFragment lower = false ->
  hasDisclaimerFragment (lower ++ JS.toLowerCase (" " ++ disclaimer)) = false.
Proof.
  intros Hd H. unfold hasDisclaimerFragment in *.
  apply not_true_is_false. intros Hex.
  apply List.existsb_exists in Hex. destruct Hex as (d & Hin & Hinc).
  assert (Hno : JS.includes lower (JS.take 20 (JS.toLowerCase d)) = false).
  { destruct (JS.includes lower (JS.take 20 (JS.toLowerCase d))) eqn:E; [|reflexivity].
    assert (List.existsb (fun disclaimer0 =>
                            JS.includes lower (JS.take 20 (JS.toLowerCase disclaimer0)))
                         SAFETY_CONSTRAINTS.requiredDisclaimers = true)
      by (apply List.existsb_exists; eauto).
    congruence. }
  apply includes_append_cases in Hinc. rewrite Hno in Hinc.
  destruct Hinc as [?|Hinc]; [discriminate|].
  destruct Hd as [-> | ->];
    (destruct Hin as [<-|[<-|[<-|[]]]]; vm_compute in Hinc;
     destruct Hinc; discriminate).
Qed.

Lemma validateResponse_isValid (this : t) (response : string) :
  isValid (validateResponse this response)
  = (length (violations (validateResponse this response)) =? 0)%nat.
Proof. reflexivity. Qed.

End Disclaimers.

(** X15 (a response worded as advice or as an emergency is replaced).
    If the filtered text does not already carry the opening of a
    required disclaimer and mentions "emergency", "urgent", "recommend"
    or "suggest", then the disclaimer that [addMedicalDisclaimer]
    attaches is not one that [validateResponse] recognises: the
    validation reports a missing disclaimer and [generateSafeResponse]
    returns the fallback text instead of the response. *)
Theorem worded_response_falls_back
        (this : SafetyGuardianImpl.t) (random1 random2 : Q)
        (text : string) (assessment : RiskAssessment) :
  let filtered := SafetyGuardianImpl.filterProhibitedContent text in
  SafetyGuardianImpl.hasDisclaimerFragment (JS.toLowerCase filtered) = false ->
  (JS.includes (JS.toLowerCase filtered) "emergency"
   || JS.includes (JS.toLowerCase filtered) "urgent"
   || JS.includes (JS.toLowerCase filtered) "recommend"
   || JS.includes (JS.toLowerCase filtered) "suggest") = true ->
  In "Missing required medical disclaimer"
     (SafetyGuardianImpl.violations
        (SafetyGuardianImpl.validateResponse this
           (SafetyGuardianImpl.addMedicalDisclaimer random1 filtered)))
  /\ SafetyGuardianImpl.generateSafeResponse this random1 random2 text assessment
     = SafetyGuardianImpl.addMedicalDisclaimer random2
         (SafetyGuardianImpl.fallbackTemplate (level assessment)).
Proof.
  intros filtered Hfrag Hword.
  assert (Hadd : exists disclaimer,
             (disclaimer = SafetyGuardianImpl.emergencyDisclaimer
              \/ disclaimer = SafetyGuardianImpl.guidanceDisclaimer)
             /\ SafetyGuardianImpl.addMedicalDisclaimer random1 filtered
                = filtered ++ " " ++ disclaimer).
  { unfold SafetyGuardianImpl.addMedicalDisclaimer. rewrite Hfrag.
    destruct (JS.includes (JS.toLowerCase filtered) "emergency"
              || JS.includes (JS.toLowerCase filtered) "urgent") eqn:E1.
    - exists SafetyGuardianImpl.emergencyDisclaimer. auto.
    - destruct (JS.includes (JS.toLowerCase filtered) "recommend"
                || JS.includes (JS.toLowerCase filtered) "suggest") eqn:E2.
      + exists SafetyGuardianImpl.guidanceDisclaimer. auto.
      + exfalso. apply orb_true_iff in Hword. destruct Hword as [Hword|Hs].
        * apply orb_true_iff in Hword. destruct Hword as [Hword|Hr]; [congruence|].
          rewrite Hr in E2. discriminate.
        * rewrite Hs, orb_true_r in E2. discriminate. }
  destruct Hadd as (disclaimer & Hd & Hadd).
  assert (Hviol : In "Missing required medical disclaimer"
                     (SafetyGuardianImpl.violations
                        (SafetyGuardianImpl.validateResponse this
                           (SafetyGuardianImpl.addMedicalDisclaimer random1 filtered)))).
  { rewrite Hadd. unfold SafetyGuardianImpl.validateResponse.
    cbn [SafetyGuardianImpl.violations].
    rewrite toLowerCase_append.
    rewrite (worded_disclaimer_without_fragment _ disclaimer Hd Hfrag).
    assert (Hlen : (50 <? String.length (filtered ++ " " ++ disclaimer))%nat = true).
    { assert (Hd50 : (50 <? String.length (" " ++ disclaimer))%nat = true)
        by (destruct Hd as [-> | ->]; vm_compute; reflexivity).
      apply Nat.ltb_lt in Hd50. apply Nat.ltb_lt. rewrite length_append. lia. }
    rewrite Hlen. cbn [negb andb].
    apply List.in_or_app. right. apply List.in_or_app. right.
    apply List.in_or_app. right. left. reflexivity. }
  split; [exact Hviol|].
  unfold SafetyGuardianImpl.generateSafeResponse, SafetyGuardianImpl.generateFallbackResponse.
  fold filtered.
  rewrite validateResponse_isValid.
  remember (SafetyGuardianImpl.violations
              (SafetyGuardianImpl.validateResponse this
                 (SafetyGuardianImpl.addMedicalDisclaimer random1 filtered))) as vs.
  destruct vs as [|v vs]; [destruct Hviol|]. reflexivity.
Qed.

Lemma worded_response_falls_back_witness :
  SafetyGuardianImpl.generateSafeResponse SafetyGuardianImpl.new 0 0
    "We recommend rest." Sample.emergencyAssessment
  = SafetyGuardianImpl.addMedicalDisclaimer 0
      (SafetyGuardianImpl.fallbackTemplate RiskLevel.EMERGENCY).
Proof.
  refine (proj2 (worded_response_falls_back SafetyGuardianImpl.new 0 0
                   "We recommend rest." Sample.emergencyAssessment _ _));
    vm_compute; reflexivity.
Defined.

Section Terms.
Import SafetyGuardianImpl.

Lemma append_inj_l (p a b : string) : p ++ a = p ++ b -> a = b.
Proof.
  induction p as [|c p IH]; [auto|].
  rewrite !append_cons. intros H. inversion H. auto.
Qed.

Lemma violations_eq (this : t) (response : string) :
  violations (validateResponse this response)
  = (termViolations this (JS.toLowerCase response)
     ++ (if RegExp.anyTest diagnosisPatterns response
         then [ "Contains diagnostic language" ] else [])
     ++ (if RegExp.anyTest prescriptionPatterns response
         then [ "Contains prescription advice" ] else [])
     ++ (if negb (hasDisclaimerFragment (JS.toLowerCase response))
            && (50 <? String.length response)%nat
         then [ "Missing required medical disclaimer" ] else []))%list.
Proof. reflexivity. Qed.

Lemma termViolations_In (this : t) (lower message : string) :
  In message (termViolations this lower)
  <-> exists term, In term (prohibitedTerms this)
                   /\ JS.includes lower (JS.toLowerCase term) = true
                   /\ message = "Contains prohibited medical term: " ++ term.
Proof.
  unfold termViolations. rewrite List.in_map_iff. split.
  - intros (term & <- & Hin). apply List.filter_In in Hin. exists term. tauto.
  - intros (term & Hin & Hinc & ->). exists term. split; [reflexivity|].
    apply List.filter_In. tauto.
Qed.

Lemma addProhibitedTerm_terms (this : t) (term : string) :
  In (JS.toLowerCase term) (prohibitedTerms (addProhibitedTerm this term))
  /\ exists extra,
      prohibitedTerms (addProhibitedTerm this term) = (prohibitedTerms this ++ extra)%list.
Proof.
  unfold addProhibitedTerm. cbv zeta.
  destruct (List.existsb (String.eqb (JS.toLowerCase term)) (prohibitedTerms this)) eqn:E.
  - split; [|exists []; rewrite List.app_nil_r; reflexivity].
    apply List.existsb_exists in E. destruct E as (k & Hk & Heq).
    apply String.eqb_eq in Heq. subst k. exact Hk.
  - cbn. split; [|eauto]. apply List.in_or_app. right. left. reflexivity.
Qed.

Lemma filter_absent (x : string) (l : list string) :
  ~ In x l -> List.filter (fun y => negb (String.eqb y x)) l = l.
Proof.
  induction l as [|y l IH]; intros Hnot; [reflexivity|].
  cbn [List.filter]. destruct (String.eqb y x) eqn:E.
  - exfalso. apply Hnot. left. apply String.eqb_eq. exact E.
  - cbn [negb]. f_equal. apply IH. intros Hin. apply Hnot. right. exact Hin.
Qed.

End Terms.

(** X16 (prohibited terms can be added and removed). After
    [addProhibitedTerm], a response that contains the term in any
    letter case is invalid and the violation names the term in lower
    case; adding the term again changes nothing; no response becomes
    valid by the addition; [removeProhibitedTerm] undoes the addition
    of a term that was not there; and after [removeProhibitedTerm] no
    violation names the term. *)
Theorem prohibited_terms_configurable (this : SafetyGuardianImpl.t) (term : string) :
  let added := SafetyGuardianImpl.addProhibitedTerm this term in
  (forall response,
      JS.includes (JS.toLowerCase response) (JS.toLowerCase term) = true ->
      SafetyGuardianImpl.isValid (SafetyGuardianImpl.validateResponse added response) = false
      /\ In ("Contains prohibited medical term: " ++ JS.toLowerCase term)
            (SafetyGuardianImpl.violations
               (SafetyGuardianImpl.validateResponse added response)))
  /\ SafetyGuardianImpl.addProhibitedTerm added term = added
  /\ (forall response,
         SafetyGuardianImpl.isValid (SafetyGuardianImpl.validateResponse added response)
         = true ->
         SafetyGuardianImpl.isValid (SafetyGuardianImpl.validateResponse this response)
         = true)
  /\ (~ In (JS.toLowerCase term) (SafetyGuardianImpl.prohibitedTerms this) ->
      SafetyGuardianImpl.removeProhibitedTerm added term = this)
  /\ (forall response,
         ~ In ("Contains prohibited medical term: " ++ JS.toLowerCase term)
              (SafetyGuardianImpl.violations
                 (SafetyGuardianImpl.validateResponse
                    (SafetyGuardianImpl.removeProhibitedTerm this term) response))).
Proof.
  intros added.
  destruct (addProhibitedTerm_terms this term) as (Hmem & extra & Hext).
  fold added in Hmem, Hext.
  split; [|split; [|split; [|split]]].
  - intros response Hinc.
    assert (Hv : In ("Contains prohibited medical term: " ++ JS.toLowerCase term)
                    (SafetyGuardianImpl.violations
                       (SafetyGuardianImpl.validateResponse added response))).
    { rewrite violations_eq. apply List.in_or_app. left. apply termViolations_In.
      exists (JS.toLowerCase term). rewrite toLowerCase_idem. auto. }
    split; [|exact Hv]. rewrite validateResponse_isValid.
    destruct (SafetyGuardianImpl.violations
                (SafetyGuardianImpl.validateResponse added response));
      [destruct Hv|reflexivity].
  - unfold SafetyGuardianImpl.addProhibitedTerm at 1. cbv zeta.
    assert (List.existsb (String.eqb (JS.toLowerCase term))
                         (SafetyGuardianImpl.prohibitedTerms added) = true) as ->;
      [|reflexivity].
    apply List.existsb_exists. exists (JS.toLowerCase term).
    split; [exact Hmem|apply String.eqb_refl].
  - intros response. rewrite !validateResponse_isValid, !violations_eq.
    unfold SafetyGuardianImpl.termViolations. rewrite Hext.
    rewrite List.filter_app, List.map_app, !List.length_app.
    intros H. apply Nat.eqb_eq in H. apply Nat.eqb_eq. lia.
  - intros Hnot. unfold added, SafetyGuardianImpl.addProhibitedTerm. cbv zeta.
    destruct (List.existsb (String.eqb (JS.toLowerCase term))
                           (SafetyGuardianImpl.prohibitedTerms this)) eqn:E.
    + exfalso. apply Hnot. apply List.existsb_exists in E. destruct E as (k & Hk & Heq).
      apply String.eqb_eq in Heq. subst k. exact Hk.
    + unfold SafetyGuardianImpl.removeProhibitedTerm.
      cbn [SafetyGuardianImpl.prohibitedTerms].
      destruct this as [terms]. cbn [SafetyGuardianImpl.prohibitedTerms] in *. f_equal.
      rewrite List.filter_app. cbn [List.filter]. rewrite String.eqb_refl. cbn [negb].
      rewrite List.app_nil_r. apply filter_absent, Hnot.
  - intros response Hin. rewrite violations_eq in Hin.
    apply List.in_app_or in Hin. destruct Hin as [Hin|Hin].
    + apply termViolations_In in Hin. destruct Hin as (t0 & Ht0 & _ & Heq).
      apply append_inj_l in Heq. subst t0.
      unfold SafetyGuardianImpl.removeProhibitedTerm in Ht0.
      cbn [SafetyGuardianImpl.prohibitedTerms] in Ht0.
      apply List.filter_In in Ht0. destruct Ht0 as [_ Ht0].
      rewrite String.eqb_refl in Ht0. discriminate.
    + repeat (apply List.in_app_or in Hin; destruct Hin as [Hin|Hin]);
        match type of Hin with
        | In _ (if ?b then _ else _) => destruct b
        end;
        cbn [In] in Hin; repeat (destruct Hin as [Hin|Hin]); try discriminate; try exact Hin.
Qed.

Lemma prohibited_terms_configurable_witness :
  SafetyGuardianImpl.isValid
    (SafetyGuardianImpl.validateResponse
       (SafetyGuardianImpl.addProhibitedTerm SafetyGuardianImpl.new "Antibiotic")
       "An antibiotic may help.") = false
  /\ SafetyGuardianImpl.isValid
       (SafetyGuardianImpl.validateResponse SafetyGuardianImpl.new
          "An antibiotic may help.") = true.
Proof.
  split.
  - refine (proj1 (proj1 (prohibited_terms_configurable SafetyGuardianImpl.new "Antibiotic")
                     "An antibiotic may help." _)).
    vm_compute. reflexivity.
  - vm_compute. reflexivity.
Defined.

(** ** Further properties of the language processor *)

Section Extraction.
Import NLProcessorImpl.
Local Open Scope Q_scope.

Variable this : t.

Lemma calculateConfidence_bounds (text keyword symptom_ : string) :
  0.5 <= calculateConfidence this text keyword symptom_ <= 1.
Proof.
  unfold calculateConfidence.
  set (m := Qmin (inject_Z (Z.of_nat (length (List.filter (fun k => JS.includes text k)
                                                         (keywordsOf this symptom_)))) * 0.1)
                 0.3).
  assert (Hm : 0 <= m).
  { apply Q.min_glb; [|lra].
    pose proof (lengthQ_nonneg (List.filter (fun k => JS.includes text k)
                                            (keywordsOf this symptom_))) as H.
    unfold Num.lengthQ in H. lra. }
  split; [|eapply Qle_trans; [apply Q.le_min_r|apply Qle_bool_iff; reflexivity]].
  apply Q.min_glb; [|apply Qle_bool_iff; reflexivity].
  destruct (JS.includes text symptom_),
    (negb (SeverityLevel.eqb (extractSeverity this text) SeverityLevel.MILD)),
    (extractDuration text); lra.
Qed.

(** what the loop of [extractSymptoms] adds to the symptoms found so far *)
Lemma extractSymptomsLoop_spec (table : list (string * list string))
      (normalizedText : string) (acc : list SymptomEntity) :
  exists added,
    extractSymptomsLoop this table normalizedText acc = (acc ++ added)%list
    /\ (forall s, In s added ->
          (exists keywords keyword,
              In (symptom s, keywords) table /\ In keyword keywords
              /\ JS.includes normalizedText keyword = true)
          /\ severity s = extractSeverity this normalizedText
          /\ duration s = extractDuration normalizedText
          /\ 0.5 <= confidence s <= 1)
    /\ (NoDup (List.map symptom acc) -> NoDup (List.map symptom (acc ++ added)%list))
    /\ (forall name keywords,
          In (name, keywords) table ->
          List.existsb (fun keyword => JS.includes normalizedText keyword) keywords = true ->
          In name (List.map symptom (acc ++ added)%list)).
Proof.
  revert acc. induction table as [|[name keywords] rest IH]; intros acc.
  - exists []. rewrite List.app_nil_r. cbn. repeat split; try tauto.
  - cbn [extractSymptomsLoop].
    destruct (List.find (fun keyword => JS.includes normalizedText keyword) keywords)
      as [keyword|] eqn:Ef.
    + apply List.find_some in Ef. destruct Ef as [Hk Hinc].
      destruct (List.existsb (fun s => String.eqb (symptom s) name) acc) eqn:Ex; cbn [negb].
      * destruct (IH acc) as (added & Heq & Hadd & Hnd & Hall).
        exists added. split; [exact Heq|]. split; [|split; [exact Hnd|]].
        -- intros s Hs. destruct (Hadd s Hs) as ((kws & kw & A & B & C) & D).
           split; [|exact D]. exists kws, kw. split; [right; exact A|tauto].
        -- intros name' keywords' [Heq'|Hin] Hhit.
           ++ inversion Heq'; subst name' keywords'.
              apply List.existsb_exists in Ex. destruct Ex as (s & Hs & Hn).
              apply String.eqb_eq in Hn. subst name.
              apply List.in_map_iff. exists s. split; [reflexivity|].
              apply List.in_or_app. left. exact Hs.
           ++ eapply Hall; eauto.
      * match goal with
        | |- context [extractSymptomsLoop this rest normalizedText (acc ++ [ ?e ])%list] =>
            set (entity := e) in *
        end.
        destruct (IH (acc ++ [ entity ])%list) as (added & Heq & Hadd & Hnd & Hall).
        exists (entity :: added).
        rewrite <- List.app_assoc in Heq, Hnd, Hall. cbn [List.app] in Heq, Hnd, Hall.
        split; [exact Heq|]. split; [|split].
        -- intros s [<-|Hs].
           ++ split; [exists keywords, keyword; split; [left; reflexivity|tauto]|].
              cbn. split; [reflexivity|]. split; [reflexivity|].
              apply calculateConfidence_bounds.
           ++ destruct (Hadd s Hs) as ((kws & kw & A & B & C) & D).
              split; [|exact D]. exists kws, kw. split; [right; exact A|tauto].
        -- intros Hacc. apply Hnd. rewrite List.map_app. cbn [List.map].
           apply NoDup_app. split; [exact Hacc|]. split; [|apply NoDup_singleton].
           intros x Hx Hx'. apply list_elem_of_singleton in Hx'. subst x.
           apply list_elem_of_In, List.in_map_iff in Hx. destruct Hx as (s & Hn & Hs).
           assert (List.existsb (fun s => String.eqb (symptom s) name) acc = true).
           { apply List.existsb_exists. exists s. split; [exact Hs|].
             apply String.eqb_eq. exact Hn. }
           congruence.
        -- intros name' keywords' [Heq'|Hin] Hhit.
           ++ inversion Heq'; subst name' keywords'.
              apply List.in_map_iff. exists entity. split; [reflexivity|].
              apply List.in_or_app. right. left. reflexivity.
           ++ eapply Hall; eauto.
    + destruct (IH acc) as (added & Heq & Hadd & Hnd & Hall).
      exists added. split; [exact Heq|]. split; [|split; [exact Hnd|]].
      * intros s Hs. destruct (Hadd s Hs) as ((kws & kw & A & B & C) & D).
        split; [|exact D]. exists kws, kw. split; [right; exact A|tauto].
      * intros name' keywords' [Heq'|Hin] Hhit.
        -- inversion Heq'; subst name' keywords'. exfalso.
           apply List.existsb_exists in Hhit. destruct Hhit as (k & Hk & Hinc).
           pose proof (List.find_none _ _ Ef k Hk) as Hno. cbn in Hno. congruence.
        -- eapply Hall; eauto.
Qed.

Lemma containsSymptomKeywords_iff (text : string) :
  containsSymptomKeywords this text = true
  <-> exists name keywords,
      In (name, keywords) (symptomKeywords this)
      /\ List.existsb (fun keyword => JS.includes text keyword) keywords = true.
Proof.
  unfold containsSymptomKeywords. rewrite List.existsb_exists. split.
  - intros ([name keywords] & Hin & Hhit). eauto.
  - intros (name & keywords & Hin & Hhit). exists (name, keywords). auto.
Qed.

Lemma extracted_symptoms_bounds (text : string) (s : SymptomEntity) :
  In s (extractSymptoms this text) -> 0.3 <= confidence s <= 1.
Proof.
  unfold extractSymptoms. cbv zeta.
  destruct (extractSymptomsLoop_spec (symptomKeywords this)
              (JS.trim (JS.toLowerCase text)) []) as (added & Heq & Hadd & _).
  rewrite Heq. cbn [List.app]. destruct added as [|first rest].
  - unfold extractGeneralSymptom.
    destruct (List.existsb _ generalHealthTerms); [|intros []].
    intros [<-|[]]. cbn. lra.
  - intros Hs. destruct (Hadd s Hs) as (_ & _ & _ & D). lra.
Qed.

Lemma extractSymptoms_complete (text name : string) (keywords : list string) :
  In (name, keywords) (symptomKeywords this) ->
  List.existsb (fun keyword => JS.includes (JS.trim (JS.toLowerCase text)) keyword) keywords
  = true ->
  In name (List.map symptom (extractSymptoms this text)).
Proof.
  intros Hin Hhit. unfold extractSymptoms. cbv zeta.
  destruct (extractSymptomsLoop_spec (symptomKeywords this)
              (JS.trim (JS.toLowerCase text)) []) as (added & Heq & _ & _ & Hall).
  rewrite Heq. cbn [List.app] in *. pose proof (Hall name keywords Hin Hhit) as H.
  destruct added as [|first rest]; [destruct H|exact H].
Qed.

End Extraction.

(** X17 (what [extractSymptoms] returns). The symptoms extracted from a
    text have different names; all carry the severity and the duration
    found in the normalized text and a confidence between 0.3 and 1;
    each is named by an entry of the keyword table one of whose
    keywords occurs in the normalized text, or it is the single
    "general discomfort" symptom of confidence 0.3, returned when no
    keyword of the table occurs but a general health term does; every
    entry of the table with a keyword in the text is represented; and
    the result is empty exactly when neither a keyword nor a general
    term occurs. *)
Theorem extracted_symptoms_well_formed (this : NLProcessorImpl.t) (text : string) :
  let normalizedText := JS.trim (JS.toLowerCase text) in
  let symptoms := NLProcessorImpl.extractSymptoms this text in
  NoDup (List.map symptom symptoms)
  /\ (forall s, In s symptoms ->
        severity s = NLProcessorImpl.extractSeverity this normalizedText
        /\ duration s = NLProcessorImpl.extractDuration normalizedText
        /\ (0.3 <= confidence s <= 1)%Q)
  /\ (forall s, In s symptoms ->
        (exists keywords keyword,
            In (symptom s, keywords) (NLProcessorImpl.symptomKeywords this)
            /\ In keyword keywords
            /\ JS.includes normalizedText keyword = true
            /\ (0.5 <= confidence s)%Q)
        \/ (symptoms = [ s ]
            /\ symptom s = "general discomfort"
            /\ bodyPart s = None
            /\ confidence s = 0.3%Q
            /\ NLProcessorImpl.containsSymptomKeywords this normalizedText = false))
  /\ (forall name keywords,
        In (name, keywords) (NLProcessorImpl.symptomKeywords this) ->
        List.existsb (fun keyword => JS.includes normalizedText keyword) keywords = true ->
        In name (List.map symptom symptoms))
  /\ (symptoms = []
      <-> NLProcessorImpl.containsSymptomKeywords this normalizedText = false
          /\ List.existsb (fun term => JS.includes normalizedText term)
                          NLProcessorImpl.generalHealthTerms = false).
Proof.
  intros normalizedText symptoms.
  destruct (extractSymptomsLoop_spec this (NLProcessorImpl.symptomKeywords this)
              normalizedText []) as (added & Heq & Hadd & Hnd & Hall).
  cbn [List.app] in Heq, Hnd, Hall.
  assert (Hsym : symptoms
                 = match added with
                   | [] =>
                       match NLProcessorImpl.extractGeneralSymptom this normalizedText with
                       | Some generalSymptom => [ generalSymptom ]
                       | None => []
                       end
                   | _ => added
                   end).
  { unfold symptoms, NLProcessorImpl.extractSymptoms. fold normalizedText.
    cbv zeta. rewrite Heq. reflexivity. }
  assert (Hcontains : NLProcessorImpl.containsSymptomKeywords this normalizedText = true
                      <-> added <> []).
  { rewrite containsSymptomKeywords_iff. split.
    - intros (name & keywords & Hin & Hhit) ->. exact (Hall name keywords Hin Hhit).
    - intros Hne. destruct added as [|s rest]; [congruence|].
      destruct (Hadd s (or_introl eq_refl)) as ((kws & kw & A & B & C) & _).
      exists (symptom s), kws. split; [exact A|].
      apply List.existsb_exists. eauto. }
  destruct added as [|first rest].
  - assert (Hno : NLProcessorImpl.containsSymptomKeywords this normalizedText = false).
    { destruct (NLProcessorImpl.containsSymptomKeywords this normalizedText); [|reflexivity].
      exfalso. apply (proj1 Hcontains); reflexivity. }
    unfold NLProcessorImpl.extractGeneralSymptom in Hsym.
    destruct (List.existsb (fun term => JS.includes normalizedText term)
                           NLProcessorImpl.generalHealthTerms) eqn:Eg.
    + rewrite Hsym. split; [cbn; apply NoDup_singleton|]. split; [|split; [|split]].
      * intros s [<-|[]]. cbn. split; [reflexivity|]. split; [reflexivity|]. lra.
      * intros s [<-|[]]. right. cbn. auto.
      * intros name keywords Hin Hhit. exfalso.
        assert (NLProcessorImpl.containsSymptomKeywords this normalizedText = true)
          by (apply containsSymptomKeywords_iff; eauto).
        congruence.
      * split; [discriminate|]. intros [_ ?]. discriminate.
    + rewrite Hsym. split; [cbn; apply NoDup_nil_2|]. split; [|split; [|split]].
      * intros s [].
      * intros s [].
      * intros name keywords Hin Hhit. exact (Hall name keywords Hin Hhit).
      * split; auto.
  - rewrite Hsym. split; [apply Hnd; apply NoDup_nil_2|]. split; [|split; [|split]].
    + intros s Hs. destruct (Hadd s Hs) as (_ & A & B & C & D).
      split; [exact A|]. split; [exact B|]. lra.
    + intros s Hs. left. destruct (Hadd s Hs) as ((kws & kw & A & B & C) & _ & _ & D & _).
      exists kws, kw. auto.
    + exact Hall.
    + split; [discriminate|]. intros [Hno _]. exfalso.
      assert (NLProcessorImpl.containsSymptomKeywords this normalizedText = true)
        by (apply Hcontains; discriminate).
      congruence.
Qed.

(** X18 (extracted symptoms can always be classified). For symptoms
    each of which was extracted from some text, by any processor, the
    assessment of the classifier has a confidence in (0, 1] and has
    reasoning and recommendations; no condition on the confidences is
    left to the caller. *)
Theorem extracted_symptoms_classified
        (nlp : NLProcessorImpl.t) (symptoms : list SymptomEntity) :
  (forall s, In s symptoms ->
             exists text, In s (NLProcessorImpl.extractSymptoms nlp text)) ->
  (0 < ra_confidence (RiskClassifierImpl.classifyRisk RiskClassifierImpl.new symptoms) <= 1)%Q
  /\ reasoning (RiskClassifierImpl.classifyRisk RiskClassifierImpl.new symptoms) <> []
  /\ recommendations (RiskClassifierImpl.classifyRisk RiskClassifierImpl.new symptoms) <> [].
Proof.
  intros Hfrom.
  assert (Hpos : forall s, In s symptoms -> (0 < confidence s)%Q).
  { intros s Hs. destruct (Hfrom s Hs) as (text & Hin).
    destruct (extracted_symptoms_bounds nlp text s Hin) as [Hlo _]. lra. }
  destruct (list_eq_nil_dec symptoms) as [->|Hne].
  { cbn. repeat split; try discriminate; lra. }
  rewrite (classifyRisk_stages _ symptoms Hne).
  destruct (RiskClassifierImpl.checkEmergencyConditions _ symptoms) as [a|] eqn:Ee.
  { apply checkEmergencyConditions_some in Ee. tauto. }
  destruct (RiskClassifierImpl.applyRiskRules _ symptoms) as [a|] eqn:Er.
  { apply (applyRiskRules_some _ _ _ initial_rules_deliverable) in Er. exact Er. }
  split; [|apply assessBySymptomSeverity_lists; exact Hne].
  rewrite assessBySymptomSeverity_confidence. unfold Spec.meanConfidence.
  pose proof (sum_confidence_pos symptoms Hne Hpos) as Hs.
  pose proof (lengthQ_pos symptoms Hne) as Hl.
  split.
  - apply Q.min_glb_lt; [|lra]. apply Qlt_shift_div_l; [exact Hl|lra].
  - apply Q.le_min_r.
Qed.

Lemma extracted_symptoms_classified_witness :
  (0 < ra_confidence
         (RiskClassifierImpl.classifyRisk RiskClassifierImpl.new
            (NLProcessorImpl.extractSymptoms NLProcessorImpl.new
               "I feel unwell and have a bad cough")) <= 1)%Q.
Proof.
  refine (proj1 (extracted_symptoms_classified NLProcessorImpl.new _ _)).
  intros s Hs. exists "I feel unwell and have a bad cough". exact Hs.
Defined.

Section Durations.
Import NLProcessorImpl.
Local Open Scope Q_scope.

Lemma extractDurationLoop_sound (patterns : list DurationPattern) (text : string) d :
  List.Forall (fun pattern =>
                 match pattern with
                 | Counted _ u => In u [ "minutes"; "hours"; "days"; "weeks" ]
                 | Phrase _ v u => 0 < v /\ In u [ "minutes"; "hours"; "days"; "weeks" ]
                 end) patterns ->
  extractDurationLoop patterns text = Some d ->
  0 < d_value d /\ In (d_unit d) [ "minutes"; "hours"; "days"; "weeks" ].
Proof.
  induction patterns as [|pattern rest IH]; intros Hall H; [discriminate|].
  inversion Hall as [|? ? Hp Hrest]; subst.
  destruct pattern as [units u|re v u]; cbn [extractDurationLoop] in H.
  - destruct (matchCounted units text) as [group1|]; [|auto].
    destruct (Num.Qltb 0 (parseInt group1)) eqn:E; [|auto].
    inversion H; subst d. cbn. split; [apply Qltb_lt; exact E|exact Hp].
  - destruct (RegExp.test re text); [|auto].
    inversion H; subst d. cbn. exact Hp.
Qed.

Lemma durationPatterns_sound :
  List.Forall (fun pattern =>
                 match pattern with
                 | Counted _ u => In u [ "minutes"; "hours"; "days"; "weeks" ]
                 | Phrase _ v u => 0 < v /\ In u [ "minutes"; "hours"; "days"; "weeks" ]
                 end) durationPatterns.
Proof.
  unfold durationPatterns.
  repeat (apply List.Forall_cons; [cbn; try split; try reflexivity; tauto|]).
  apply List.Forall_nil.
Qed.

(** a run of digits followed by something that is not a digit *)
Lemma digitsRun_append (ds rest : string) :
  digitsRun ds = (ds, EmptyString) ->
  match rest with String c _ => JS.isDigit c = false | EmptyString => True end ->
  digitsRun (ds ++ rest) = (ds, rest).
Proof.
  intros Hds Hrest. induction ds as [|c ds IH].
  - destruct rest as [|c r]; [reflexivity|].
    change ("" ++ String c r) with (String c r). cbn [digitsRun].
    rewrite Hrest. reflexivity.
  - rewrite append_cons. cbn [digitsRun] in *.
    destruct (JS.isDigit c); [|discriminate].
    destruct (digitsRun ds) as [d r] eqn:E. inversion Hds; subst.
    rewrite IH by reflexivity. reflexivity.
Qed.

Lemma toLowerCase_digits (ds : string) :
  digitsRun ds = (ds, EmptyString) -> JS.toLowerCase ds = ds.
Proof.
  induction ds as [|c ds IH]; [reflexivity|]. cbn [digitsRun JS.toLowerCase].
  destruct (JS.isDigit c) eqn:Ed; [|discriminate].
  destruct (digitsRun ds) as [d r] eqn:E. intros H. inversion H; subst.
  rewrite IH by reflexivity. f_equal.
  unfold JS.toLowerChar, JS.isUpper, JS.isDigit in *.
  apply andb_true_iff in Ed. destruct Ed as [_ Ed]. apply Nat.leb_le in Ed.
  destruct (65 <=? JS.code c)%nat eqn:E65; [|reflexivity].
  apply Nat.leb_le in E65. lia.
Qed.

(** the first group of [/(\d+)\s*(u1|u2)s?/i] on a number followed by
    a text without digits *)
Lemma matchCounted_number (units : list string) (ds rest : string) :
  digitsRun ds = (ds, EmptyString) ->
  ds <> EmptyString ->
  match rest with String c _ => JS.isDigit c = false | EmptyString => True end ->
  matchCounted units rest = None ->
  matchCounted units (ds ++ rest)
  = if List.existsb (fun u => JS.startsWith (JS.toLowerCase (JS.trimStart rest))
                                            (JS.toLowerCase u)) units
    then Some ds else None.
Proof.
  intros Hds Hne Hrest Hnone.
  destruct (List.existsb _ units) eqn:Ex.
  - destruct ds as [|c ds]; [congruence|].
    assert (Hc : JS.isDigit c = true).
    { cbn [digitsRun] in Hds. destruct (JS.isDigit c); [reflexivity|discriminate]. }
    pose proof (digitsRun_append (String c ds) rest Hds Hrest) as Hrun.
    rewrite append_cons in *. cbn [matchCounted]. rewrite Hc, Hrun, Ex. reflexivity.
  - clear Hne. induction ds as [|c ds IH]; [exact Hnone|].
    assert (Hc : JS.isDigit c = true).
    { cbn [digitsRun] in Hds. destruct (JS.isDigit c); [reflexivity|discriminate]. }
    assert (Hds' : digitsRun ds = (ds, EmptyString)).
    { cbn [digitsRun] in Hds. rewrite Hc in Hds.
      destruct (digitsRun ds) as [d r]. inversion Hds; subst. reflexivity. }
    pose proof (digitsRun_append (String c ds) rest Hds Hrest) as Hrun.
    rewrite append_cons in *. cbn [matchCounted]. rewrite Hc, Hrun, Ex.
    apply IH, Hds'.
Qed.

End Durations.

(** X19 (durations). A duration that [extractDuration] returns has a
    positive value and one of the units minutes, hours, days and weeks.
    A positive number written in digits and followed by a blank and one
    of these four words is read as that number of that unit; the number
    is at most 2^53 - 1, the largest that [parseInt] reads exactly. *)
Theorem extracted_duration_sound (text : string) :
  match NLProcessorImpl.extractDuration text with
  | Some d =>
      (0 < d_value d)%Q /\ In (d_unit d) [ "minutes"; "hours"; "days"; "weeks" ]
  | None => True
  end
  /\ (forall digits unit_,
         NLProcessorImpl.digitsRun digits = (digits, EmptyString) ->
         (0 < NLProcessorImpl.parseInt digits <= 9007199254740991)%Q ->
         In unit_ [ "minutes"; "hours"; "days"; "weeks" ] ->
         NLProcessorImpl.extractDuration (digits ++ " " ++ unit_)
         = Some {| d_value := NLProcessorImpl.parseInt digits; d_unit := unit_ |}).
Proof.
  split.
  - destruct (NLProcessorImpl.extractDuration text) as [d|] eqn:E; [|exact I].
    exact (extractDurationLoop_sound _ _ d durationPatterns_sound E).
  - intros digits unit_ Hds [Hpos _] Hunit.
    assert (Hne : digits <> EmptyString).
    { intros ->. vm_compute in Hpos. discriminate. }
    apply Qltb_lt in Hpos.
    unfold NLProcessorImpl.extractDuration. cbv zeta.
    rewrite toLowerCase_append, (toLowerCase_digits digits Hds).
    unfold NLProcessorImpl.durationPatterns.
    destruct Hunit as [<-|[<-|[<-|[<-|[]]]]];
      match goal with
      | |- context [JS.toLowerCase ?x] =>
          let y := eval vm_compute in (JS.toLowerCase x) in
          change (JS.toLowerCase x) with y
      end;
      cbn [NLProcessorImpl.extractDurationLoop];
      repeat match goal with
             | |- context [NLProcessorImpl.matchCounted ?units (digits ++ ?rest)] =>
                 rewrite (matchCounted_number units digits rest Hds Hne eq_refl eq_refl);
                 let b := eval vm_compute in
                            (List.existsb
                               (fun u => JS.startsWith (JS.toLowerCase (JS.trimStart rest))
                                                       (JS.toLowerCase u)) units) in
                 change (List.existsb
                           (fun u => JS.startsWith (JS.toLowerCase (JS.trimStart rest))
                                                   (JS.toLowerCase u)) units) with b;
                 cbv iota
             end;
      rewrite ?Hpos; reflexivity.
Qed.

Lemma extracted_duration_sound_witness :
  NLProcessorImpl.extractDuration ("12" ++ " " ++ "hours")
  = Some {| d_value := NLProcessorImpl.parseInt "12"; d_unit := "hours" |}.
Proof.
  refine (proj2 (extracted_duration_sound "") "12" "hours" _ _ _).
  - reflexivity.
  - split; [reflexivity|apply Qle_bool_iff; reflexivity].
  - right. left. reflexivity.
Defined.

Section KeywordTable.
Import NLProcessorImpl.

Lemma mapSet_find {A} (key : string) (value : A) (entries : list (string * A)) :
  List.find (fun '(k, _) => String.eqb k key) (mapSet key value entries)
  = Some (match List.find (fun '(k, _) => String.eqb k key) entries with
          | Some (k, _) => k
          | None => key
          end, value).
Proof.
  induction entries as [|[k v] rest IH]; cbn.
  - rewrite String.eqb_refl. reflexivity.
  - destruct (String.eqb k key) eqn:E; cbn; rewrite E; [reflexivity|exact IH].
Qed.

Lemma mapSet_find_other {A} (key other : string) (value : A)
      (entries : list (string * A)) :
  other <> key ->
  List.find (fun '(k, _) => String.eqb k other) (mapSet key value entries)
  = List.find (fun '(k, _) => String.eqb k other) entries.
Proof.
  intros Hne. induction entries as [|[k v] rest IH]; cbn.
  - destruct (String.eqb key other) eqn:E; [|reflexivity].
    apply String.eqb_eq in E. congruence.
  - destruct (String.eqb k key) eqn:E; cbn.
    + apply String.eqb_eq in E. subst k.
      destruct (String.eqb key other) eqn:E'; [|reflexivity].
      apply String.eqb_eq in E'. congruence.
    + destruct (String.eqb k other); [reflexivity|exact IH].
Qed.

Lemma mapSet_In {A} (key : string) (value : A) (entries : list (string * A)) :
  In (key, value) (mapSet key value entries).
Proof.
  induction entries as [|[k v] rest IH]; cbn; [auto|].
  destruct (String.eqb k key) eqn:E.
  - apply String.eqb_eq in E. subst k. left. reflexivity.
  - right. exact IH.
Qed.

End KeywordTable.

(** X20 (what is missing from a description). For a text without
    symptoms [getMissingInformation] answers the symptom description
    alone. Otherwise it lists, in this order, the location when no
    extracted symptom has a body part, the severity when the text has
    no severity word other than mild ones, and the duration when the
    text has none. The list is empty exactly when the analysis finds
    symptoms, body part, severity and duration, and it holds all three
    items exactly when the analysis calls the text ambiguous. *)
Theorem missing_information (this : NLProcessorImpl.t) (text : string) :
  let complexity := NLProcessorImpl.analyzeTextComplexity this text in
  let symptoms := NLProcessorImpl.extractSymptoms this text in
  let missing := NLProcessorImpl.getMissingInformation this text in
  (symptoms = [] -> missing = [ "symptom description" ])
  /\ (symptoms <> [] ->
      missing
      = ((if NLProcessorImpl.hasBodyPart complexity then [] else [ "location" ])
         ++ (if NLProcessorImpl.hasSeverity complexity then [] else [ "severity" ])
         ++ (if NLProcessorImpl.hasDuration complexity then [] else [ "duration" ]))%list)
  /\ (missing = []
      <-> NLProcessorImpl.hasSymptoms complexity
          && NLProcessorImpl.hasBodyPart complexity
          && NLProcessorImpl.hasSeverity complexity
          && NLProcessorImpl.hasDuration complexity = true)
  /\ (NLProcessorImpl.isAmbiguous complexity = true
      <-> missing = [ "location"; "severity"; "duration" ]).
Proof.
  intros complexity symptoms missing.
  assert (Hs : NLProcessorImpl.hasSymptoms complexity = (0 <? length symptoms)%nat)
    by reflexivity.
  assert (Hb : NLProcessorImpl.hasBodyPart complexity
               = List.existsb (fun s => match bodyPart s with
                                        | Some _ => true
                                        | None => false
                                        end) symptoms) by reflexivity.
  assert (Ha : NLProcessorImpl.isAmbiguous complexity
               = NLProcessorImpl.hasSymptoms complexity
                 && (negb (NLProcessorImpl.hasBodyPart complexity)
                     && negb (NLProcessorImpl.hasSeverity complexity)
                     && negb (NLProcessorImpl.hasDuration complexity))) by reflexivity.
  unfold missing, NLProcessorImpl.getMissingInformation. clear missing. cbv zeta.
  change (NLProcessorImpl.analyzeTextComplexity this text) with complexity.
  change (NLProcessorImpl.extractSymptoms this text) with symptoms.
  clearbody complexity symptoms.
  rewrite Ha, Hs. clear Ha.
  destruct symptoms as [|first rest].
  - cbn [length Nat.ltb Nat.leb Nat.eqb negb orb andb].
    split; [reflexivity|]. split; [congruence|].
    split; split; discriminate.
  - cbn [length Nat.eqb].
    change (0 <? S (length rest))%nat with true. cbn [negb orb andb List.app].
    assert (Hfirst : NLProcessorImpl.hasBodyPart complexity = false ->
                     bodyPart first = None).
    { rewrite Hb. cbn [List.existsb]. destruct (bodyPart first); [discriminate|reflexivity]. }
    destruct (NLProcessorImpl.hasBodyPart complexity) eqn:E1.
    + cbn [negb andb].
      destruct (NLProcessorImpl.hasSeverity complexity),
        (NLProcessorImpl.hasDuration complexity); cbn;
        (split; [discriminate|]); (split; [reflexivity|]);
        split; split; congruence.
    + rewrite (Hfirst eq_refl). cbn [negb andb].
      destruct (NLProcessorImpl.hasSeverity complexity),
        (NLProcessorImpl.hasDuration complexity); cbn;
        (split; [discriminate|]); (split; [reflexivity|]);
        split; split; congruence.
Qed.

(** X21 (added keywords are recognised). After [addSymptomKeywords],
    the keywords of the symptom are the former ones followed by the new
    ones and the keywords of other symptoms are as before; a text whose
    normalized form contains one of the new keywords yields the symptom
    and is recognised as containing symptom keywords. *)
Theorem added_symptom_keywords_recognised
        (this : NLProcessorImpl.t) (name : string) (keywords : list string) :
  let added := NLProcessorImpl.addSymptomKeywords this name keywords in
  NLProcessorImpl.keywordsOf added name
  = (NLProcessorImpl.keywordsOf this name ++ keywords)%list
  /\ (forall other, other <> name ->
                    NLProcessorImpl.keywordsOf added other
                    = NLProcessorImpl.keywordsOf this other)
  /\ (forall text keyword,
         In keyword keywords ->
         JS.includes (JS.trim (JS.toLowerCase text)) keyword = true ->
         In name (List.map symptom (NLProcessorImpl.extractSymptoms added text))
         /\ NLProcessorImpl.containsSymptomKeywords added (JS.trim (JS.toLowerCase text))
            = true).
Proof.
  intros added. split; [|split].
  - unfold NLProcessorImpl.keywordsOf at 1. unfold added, NLProcessorImpl.addSymptomKeywords.
    cbn [NLProcessorImpl.symptomKeywords]. rewrite mapSet_find. reflexivity.
  - intros other Hne. unfold NLProcessorImpl.keywordsOf at 1.
    unfold added, NLProcessorImpl.addSymptomKeywords.
    cbn [NLProcessorImpl.symptomKeywords]. rewrite mapSet_find_other by exact Hne.
    reflexivity.
  - intros text keyword Hk Hinc.
    assert (Hin : In (name, (NLProcessorImpl.keywordsOf this name ++ keywords)%list)
                     (NLProcessorImpl.symptomKeywords added)).
    { unfold added, NLProcessorImpl.addSymptomKeywords.
      cbn [NLProcessorImpl.symptomKeywords]. apply mapSet_In. }
    assert (Hhit : List.existsb
                     (fun keyword0 => JS.includes (JS.trim (JS.toLowerCase text)) keyword0)
                     (NLProcessorImpl.keywordsOf this name ++ keywords)%list = true).
    { apply List.existsb_exists. exists keyword. split; [|exact Hinc].
      apply List.in_or_app. right. exact Hk. }
    split.
    + exact (extractSymptoms_complete added text name _ Hin Hhit).
    + apply containsSymptomKeywords_iff. eauto.
Qed.

Lemma added_symptom_keywords_recognised_witness :
  In "rash"
     (List.map symptom
        (NLProcessorImpl.extractSymptoms
           (NLProcessorImpl.addSymptomKeywords NLProcessorImpl.new "rash"
              [ "rash"; "itchy skin" ])
           "My arm has ITCHY skin")).
Proof.
  refine (proj1 (proj2 (proj2 (added_symptom_keywords_recognised
                                 NLProcessorImpl.new "rash" [ "rash"; "itchy skin" ]))
                   "My arm has ITCHY skin" "itchy skin" _ _)).
  - right. left. reflexivity.
  - vm_compute. reflexivity.
Defined.

(** ** Clarification and follow-up questions *)

Section AmbiguityMore.
Import AmbiguityDetectorImpl.
Local Open Scope Q_scope.

Variable this : t.

Lemma getAmbiguityScore_bounds (text : string) (symptoms : list SymptomEntity) :
  0 <= getAmbiguityScore this text symptoms <= 1.
Proof.
  unfold getAmbiguityScore. cbv zeta.
  split; [|eapply Qle_trans; [apply Q.le_min_r|apply Qle_bool_iff; reflexivity]].
  apply Q.min_glb; [|apply Qle_bool_iff; reflexivity].
  destruct (length symptoms =? 0)%nat,
    (Num.ltNaN (averageConfidence symptoms) 0.5),
    (negb (NLProcessorImpl.hasBodyPart
             (NLProcessorImpl.analyzeTextComplexity (nlProcessor this) text))),
    (negb (NLProcessorImpl.hasSeverity
             (NLProcessorImpl.analyzeTextComplexity (nlProcessor this) text))),
    (negb (NLProcessorImpl.hasDuration
             (NLProcessorImpl.analyzeTextComplexity (nlProcessor this) text))),
    (JS.splitSpaceLength (JS.trim text) <? 3)%nat,
    (List.existsb _ uncertaintyMarkers); lra.
Qed.

Lemma getAmbiguityScore_no_symptoms (text : string) :
  0.8 <= getAmbiguityScore this text [].
Proof.
  unfold getAmbiguityScore. cbv zeta.
  change (length (@nil SymptomEntity) =? 0)%nat with true.
  change (Num.ltNaN (averageConfidence []) 0.5) with false. cbv iota.
  apply Q.min_glb; [|apply Qle_bool_iff; reflexivity].
  destruct (negb (NLProcessorImpl.hasBodyPart
                    (NLProcessorImpl.analyzeTextComplexity (nlProcessor this) text))),
    (negb (NLProcessorImpl.hasSeverity
             (NLProcessorImpl.analyzeTextComplexity (nlProcessor this) text))),
    (negb (NLProcessorImpl.hasDuration
             (NLProcessorImpl.analyzeTextComplexity (nlProcessor this) text))),
    (JS.splitSpaceLength (JS.trim text) <? 3)%nat,
    (List.existsb _ uncertaintyMarkers); lra.
Qed.

(** a short text without severity word and without duration is
    ambiguous, whatever the symptoms are *)
Lemma short_plain_text_ambiguous (text : string) (symptoms : list SymptomEntity) :
  (JS.splitSpaceLength (JS.trim text) <? 3)%nat = true ->
  NLProcessorImpl.hasSeverity
    (NLProcessorImpl.analyzeTextComplexity (nlProcessor this) text) = false ->
  NLProcessorImpl.hasDuration
    (NLProcessorImpl.analyzeTextComplexity (nlProcessor this) text) = false ->
  isAmbiguous this text symptoms = true.
Proof.
  intros Hshort Hsev Hdur. unfold isAmbiguous. apply Qltb_lt.
  unfold getAmbiguityScore. cbv zeta. rewrite Hshort, Hsev, Hdur. cbn [negb].
  apply Q.min_glb_lt; [|reflexivity].
  destruct (length symptoms =? 0)%nat,
    (Num.ltNaN (averageConfidence symptoms) 0.5),
    (negb (NLProcessorImpl.hasBodyPart
             (NLProcessorImpl.analyzeTextComplexity (nlProcessor this) text))),
    (List.existsb _ uncertaintyMarkers); lra.
Qed.

Lemma pushWhen_length (test : bool) (question : option string)
      (questions : option (list string)) (qs : list string) :
  pushWhen test question questions = Some qs ->
  exists qs0, questions = Some qs0
              /\ (qs = qs0 \/ exists q, qs = (qs0 ++ [ q ])%list).
Proof.
  unfold pushWhen. destruct questions as [qs0|]; [|discriminate].
  destruct test.
  - destruct question as [q|]; [|discriminate].
    intros H. inversion H. exists qs0. split; [reflexivity|]. right. eauto.
  - intros H. inversion H. exists qs0. auto.
Qed.

(** with a template list that is not empty and a random number in
    [0, 1) a question is produced *)
Lemma getQuestion_some (templates : list (string * list string))
      (category : string) (random : Q) (symptom_ : string) :
  templatesOf templates category <> [] ->
  0 <= random < 1 ->
  exists template,
    In template (templatesOf templates category)
    /\ getQuestion templates category random symptom_
       = Some (JS.replaceFirst template "{symptom}" symptom_).
Proof.
  intros Hne [Hlo Hhi]. unfold getQuestion. cbv zeta.
  set (l := templatesOf templates category) in *.
  assert (Hlen : 0 < Num.lengthQ l) by (apply lengthQ_pos; exact Hne).
  assert (H0 : (0 <= Qfloor (random * Num.lengthQ l))%Z).
  { change 0%Z with (Qfloor 0). apply Qfloor_resp_le. nra. }
  assert (H1 : (Qfloor (random * Num.lengthQ l) < Z.of_nat (length l))%Z).
  { rewrite Zlt_Qlt. pose proof (Qfloor_le (random * Num.lengthQ l)) as Hf.
    unfold Num.lengthQ in *. nra. }
  destruct (Qfloor (random * Num.lengthQ l) <? 0)%Z eqn:E; [apply Z.ltb_lt in E; lia|].
  destruct (List.nth_error l (Z.to_nat (Qfloor (random * Num.lengthQ l)))) as [template|]
    eqn:En.
  - exists template. split; [eapply List.nth_error_In; eauto|reflexivity].
  - apply List.nth_error_None in En. lia.
Qed.

End AmbiguityMore.

(** X22 (the ambiguity score). The score lies between 0 and 1. Without
    symptoms it is at least 0.8, so the input is ambiguous. A text of
    fewer than three words that has no severity word and no duration is
    ambiguous whatever the symptoms and their confidences are. *)
Theorem ambiguity_score_range
        (this : AmbiguityDetectorImpl.t) (text : string) (symptoms : list SymptomEntity) :
  (0 <= AmbiguityDetectorImpl.getAmbiguityScore this text symptoms <= 1)%Q
  /\ (0.8 <= AmbiguityDetectorImpl.getAmbiguityScore this text [])%Q
  /\ AmbiguityDetectorImpl.isAmbiguous this text [] = true
  /\ ((JS.splitSpaceLength (JS.trim text) <? 3)%nat = true ->
      NLProcessorImpl.hasSeverity
        (NLProcessorImpl.analyzeTextComplexity
           (AmbiguityDetectorImpl.nlProcessor this) text) = false ->
      NLProcessorImpl.hasDuration
        (NLProcessorImpl.analyzeTextComplexity
           (AmbiguityDetectorImpl.nlProcessor this) text) = false ->
      AmbiguityDetectorImpl.isAmbiguous this text symptoms = true).
Proof.
  split; [apply getAmbiguityScore_bounds|].
  split; [apply getAmbiguityScore_no_symptoms|].
  split; [|apply short_plain_text_ambiguous].
  unfold AmbiguityDetectorImpl.isAmbiguous. apply Qltb_lt.
  pose proof (getAmbiguityScore_no_symptoms this text). lra.
Qed.

Lemma ambiguity_score_range_witness :
  AmbiguityDetectorImpl.isAmbiguous (AmbiguityDetectorImpl.new NLProcessorImpl.new)
    "headache" [ Sample.severeHeadache ] = true.
Proof.
  refine (proj2 (proj2 (proj2 (ambiguity_score_range
                                 (AmbiguityDetectorImpl.new NLProcessorImpl.new)
                                 "headache" [ Sample.severeHeadache ]))) _ _ _);
    vm_compute; reflexivity.
Defined.

Section Questions.
Import AmbiguityDetectorImpl.
Local Open Scope Q_scope.

Lemma firstn_2_length {A} (l : list A) : (length (List.firstn 2 l) <= 2)%nat.
Proof. rewrite List.length_firstn. lia. Qed.

Lemma generateClarificationQuestions_length (this : t)
      (templates : list (string * list string)) (random1 random2 random3 random4 : Q)
      (text : string) (symptoms : list SymptomEntity) (qs : list string) :
  generateClarificationQuestions this templates random1 random2 random3 random4
    text symptoms = Some qs ->
  (length qs <= 2)%nat.
Proof.
  unfold generateClarificationQuestions. cbv zeta.
  destruct symptoms as [|mainSymptom rest].
  - intros H. inversion H. cbn. lia.
  - destruct (negb (NLProcessorImpl.hasSymptoms _)).
    + intros H. inversion H. cbn. lia.
    + destruct (pushWhen _ _ _) as [l|]; cbn; [|discriminate].
      intros H. inversion H. apply firstn_2_length.
Qed.

(** the open question is the only one when there is nothing to ask
    about *)
Lemma generateClarificationQuestions_open (this : t)
      (templates : list (string * list string)) (random1 random2 random3 random4 : Q)
      (text : string) (symptoms : list SymptomEntity) :
  symptoms = []
  \/ NLProcessorImpl.hasSymptoms
       (NLProcessorImpl.analyzeTextComplexity (nlProcessor this) text) = false ->
  generateClarificationQuestions this templates random1 random2 random3 random4
    text symptoms
  = Some [ "Could you describe what you're feeling or experiencing?" ].
Proof.
  unfold generateClarificationQuestions. cbv zeta.
  intros [->|H]; [reflexivity|]. rewrite H. destruct symptoms; reflexivity.
Qed.

Lemma pushWhen_some (test : bool) (question : option string)
      (questions : option (list string)) :
  is_Some question -> is_Some questions -> is_Some (pushWhen test question questions).
Proof.
  intros [q ->] [qs ->]. unfold pushWhen. destruct test; eauto.
Qed.

Lemma generateClarificationQuestions_some (this : t)
      (templates : list (string * list string)) (random1 random2 random3 random4 : Q)
      (text : string) (symptoms : list SymptomEntity) :
  (forall category,
      In category [ "bodyPart"; "severity"; "duration"; "specificity" ] ->
      templatesOf templates category <> []) ->
  0 <= random1 < 1 -> 0 <= random2 < 1 -> 0 <= random3 < 1 -> 0 <= random4 < 1 ->
  is_Some (generateClarificationQuestions this templates random1 random2 random3 random4
             text symptoms).
Proof.
  intros Ht H1 H2 H3 H4. unfold generateClarificationQuestions. cbv zeta.
  destruct symptoms as [|mainSymptom rest]; [eauto|].
  destruct (negb (NLProcessorImpl.hasSymptoms _)); [eauto|].
  apply fmap_is_Some.
  assert (Hq : forall category random,
             In category [ "bodyPart"; "severity"; "duration"; "specificity" ] ->
             0 <= random < 1 ->
             is_Some (getQuestion templates category random (symptom mainSymptom))).
  { intros category random Hc Hr.
    destruct (getQuestion_some templates category random (symptom mainSymptom)
                (Ht category Hc) Hr) as (template & _ & ->). eauto. }
  repeat apply pushWhen_some; eauto.
  - apply Hq; [cbn; tauto|exact H4].
  - apply Hq; [cbn; tauto|exact H3].
  - apply Hq; [cbn; tauto|exact H2].
  - apply Hq; [cbn; tauto|exact H1].
Qed.

Lemma setOf_In (x : string) (l : list string) :
  In x (SafetyGuardianImpl.setOf l) <-> In x l.
Proof.
  induction l as [|y l IH]; [tauto|]. cbn [SafetyGuardianImpl.setOf].
  split.
  - intros [->|H]; [left; reflexivity|]. apply List.filter_In in H. right. tauto.
  - intros [->|H]; [left; reflexivity|].
    destruct (String.eqb x y) eqn:E.
    + apply String.eqb_eq in E. left. congruence.
    + right. apply List.filter_In. rewrite E. tauto.
Qed.

Lemma setOf_NoDup (l : list string) : NoDup (SafetyGuardianImpl.setOf l).
Proof.
  induction l as [|y l IH]; [apply NoDup_nil_2|]. cbn [SafetyGuardianImpl.setOf].
  apply NoDup_cons_2.
  - intros H. apply list_elem_of_In, List.filter_In in H. destruct H as [_ H].
    rewrite String.eqb_refl in H. discriminate.
  - apply NoDup_ListNoDup. apply List.NoDup_filter. apply NoDup_ListNoDup. exact IH.
Qed.

Lemma firstn_NoDup (n : nat) (l : list string) : NoDup l -> NoDup (List.firstn n l).
Proof.
  intros H. apply NoDup_ListNoDup. apply NoDup_ListNoDup in H.
  rewrite <- (List.firstn_skipn n l) in H. apply List.NoDup_app_remove_r in H. exact H.
Qed.

End Questions.

(** X23 (clarification questions). [generateClarificationQuestions]
    returns at most two questions. Without symptoms, or for a text in
    which the analysis finds no symptom, it returns the one open
    question. It fails only when a template list is empty or a random
    number is outside [0, 1): with the templates of the constructor
    and random numbers in that range it always returns. *)
Theorem clarification_questions_bounded
        (this : AmbiguityDetectorImpl.t) (templates : list (string * list string))
        (random1 random2 random3 random4 : Q)
        (text : string) (symptoms : list SymptomEntity) :
  match AmbiguityDetectorImpl.generateClarificationQuestions this templates
          random1 random2 random3 random4 text symptoms with
  | Some questions => (length questions <= 2)%nat
  | None => True
  end
  /\ (symptoms = []
      \/ NLProcessorImpl.hasSymptoms
           (NLProcessorImpl.analyzeTextComplexity
              (AmbiguityDetectorImpl.nlProcessor this) text) = false ->
      AmbiguityDetectorImpl.generateClarificationQuestions this templates
        random1 random2 random3 random4 text symptoms
      = Some [ "Could you describe what you're feeling or experiencing?" ])
  /\ ((0 <= random1 < 1)%Q -> (0 <= random2 < 1)%Q ->
      (0 <= random3 < 1)%Q -> (0 <= random4 < 1)%Q ->
      is_Some (AmbiguityDetectorImpl.generateClarificationQuestions this
                 AmbiguityDetectorImpl.initializeClarificationTemplates
                 random1 random2 random3 random4 text symptoms)).
Proof.
  split; [|split].
  - destruct (AmbiguityDetectorImpl.generateClarificationQuestions _ _ _ _ _ _ _ _)
      as [qs|] eqn:E; [|exact I].
    exact (generateClarificationQuestions_length _ _ _ _ _ _ _ _ _ E).
  - apply generateClarificationQuestions_open.
  - apply generateClarificationQuestions_some.
    intros category [<-|[<-|[<-|[<-|[]]]]]; discriminate.
Qed.

Lemma clarification_questions_bounded_witness :
  is_Some (AmbiguityDetectorImpl.generateClarificationQuestions
             (AmbiguityDetectorImpl.new NLProcessorImpl.new)
             AmbiguityDetectorImpl.initializeClarificationTemplates
             0 0.5 0.9 0.3 "cough" [ Sample.mildCough ]).
Proof.
  refine (proj2 (proj2 (clarification_questions_bounded
                          (AmbiguityDetectorImpl.new NLProcessorImpl.new) []
                          0 0.5 0.9 0.3 "cough" [ Sample.mildCough ])) _ _ _ _);
    split; vm_compute; congruence.
Defined.

(** X24 (when a follow-up question is asked). [shouldAskFollowUp] is
    false once five questions have been asked and false for an
    emergency. Below five questions and without an emergency it is
    true when there are no symptoms, and true when the name of the
    first symptom has fewer than three words and contains no severity
    word and no duration, whatever has been learnt about the symptoms;
    this is so for every symptom name of the built-in table except
    "shortness of breath", and for "general discomfort". In
    [analyzeConversationState], [canProceed] is the negation of
    [needsMoreInfo], and the suggested action is to ask a follow-up
    question exactly when [shouldAskFollowUp] is true. *)
Theorem follow_up_policy (this : ConversationManagerImpl.t) (context : SessionContext) :
  ((MAX_FOLLOW_UP_QUESTIONS <= questionsAsked context)%nat ->
   ConversationManagerImpl.shouldAskFollowUp this context = false)
  /\ (riskLevel context = Some RiskLevel.EMERGENCY ->
      ConversationManagerImpl.shouldAskFollowUp this context = false)
  /\ ((questionsAsked context < MAX_FOLLOW_UP_QUESTIONS)%nat ->
      riskLevel context <> Some RiskLevel.EMERGENCY ->
      match sc_symptoms context with
      | [] => ConversationManagerImpl.shouldAskFollowUp this context = true
      | mainSymptom :: _ =>
          let analysis :=
            NLProcessorImpl.analyzeTextComplexity
              (AmbiguityDetectorImpl.nlProcessor
                 (ConversationManagerImpl.ambiguityDetector this)) (symptom mainSymptom) in
          ((JS.splitSpaceLength (JS.trim (symptom mainSymptom)) <? 3)%nat = true ->
           NLProcessorImpl.hasSeverity analysis = false ->
           NLProcessorImpl.hasDuration analysis = false ->
           ConversationManagerImpl.shouldAskFollowUp this context = true)
          /\ (this = ConversationManagerImpl.new NLProcessorImpl.new ->
              In (symptom mainSymptom)
                 [ "headache"; "fever"; "cough"; "stomach pain"; "nausea"; "dizziness";
                   "fatigue"; "sore throat"; "runny nose"; "general discomfort" ] ->
              ConversationManagerImpl.shouldAskFollowUp this context = true)
      end)
  /\ ConversationManagerImpl.canProceed
       (ConversationManagerImpl.analyzeConversationState this context)
     = negb (ConversationManagerImpl.needsMoreInfo
               (ConversationManagerImpl.analyzeConversationState this context))
  /\ (ConversationManagerImpl.suggestedAction
        (ConversationManagerImpl.analyzeConversationState this context) = "ask_follow_up"
      <-> ConversationManagerImpl.shouldAskFollowUp this context = true).
Proof.
  assert (Hbudget : (MAX_FOLLOW_UP_QUESTIONS <= questionsAsked context)%nat ->
                    ConversationManagerImpl.shouldAskFollowUp this context = false).
  { intros H. unfold ConversationManagerImpl.shouldAskFollowUp.
    apply Nat.leb_le in H. rewrite H. reflexivity. }
  assert (Hemergency : riskLevel context = Some RiskLevel.EMERGENCY ->
                       ConversationManagerImpl.shouldAskFollowUp this context = false).
  { intros H. unfold ConversationManagerImpl.shouldAskFollowUp. rewrite H.
    destruct (_ <=? _)%nat; reflexivity. }
  split; [exact Hbudget|]. split; [exact Hemergency|]. split; [|split].
  - intros Hlt Hne.
    assert (Hopen : ConversationManagerImpl.shouldAskFollowUp this context
                    = match sc_symptoms context with
                      | [] => true
                      | mainSymptom :: _ =>
                          AmbiguityDetectorImpl.isAmbiguous
                            (ConversationManagerImpl.ambiguityDetector this)
                            (symptom mainSymptom) (sc_symptoms context)
                      end).
    { unfold ConversationManagerImpl.shouldAskFollowUp.
      apply Nat.leb_gt in Hlt. rewrite Hlt.
      destruct (riskLevel context) as [[]|]; try reflexivity. congruence. }
    rewrite Hopen. destruct (sc_symptoms context) as [|mainSymptom rest]; [reflexivity|].
    cbv zeta. split.
    + apply short_plain_text_ambiguous.
    + intros -> Hname. apply short_plain_text_ambiguous;
        destruct Hname as [<-|[<-|[<-|[<-|[<-|[<-|[<-|[<-|[<-|[<-|[]]]]]]]]]]];
        vm_compute; reflexivity.
  - unfold ConversationManagerImpl.analyzeConversationState.
    cbn [ConversationManagerImpl.canProceed ConversationManagerImpl.needsMoreInfo].
    destruct (MAX_FOLLOW_UP_QUESTIONS <=? questionsAsked context)%nat eqn:E.
    + apply Nat.leb_le in E. rewrite (Hbudget E). reflexivity.
    + apply orb_false_r.
  - unfold ConversationManagerImpl.analyzeConversationState.
    cbn [ConversationManagerImpl.suggestedAction].
    destruct (riskLevel context) as [[]|] eqn:Er;
      try (rewrite (Hemergency eq_refl); split; discriminate);
      (destruct (MAX_FOLLOW_UP_QUESTIONS <=? questionsAsked context)%nat eqn:E;
       [apply Nat.leb_le in E; rewrite (Hbudget E); cbn; split; discriminate|]);
      rewrite orb_false_r;
      destruct (ConversationManagerImpl.shouldAskFollowUp this context); cbn;
      split; congruence.
Qed.

Lemma follow_up_policy_witness :
  ConversationManagerImpl.shouldAskFollowUp
    (ConversationManagerImpl.new NLProcessorImpl.new)
    {| sc_symptoms := [ Sample.severeHeadache ]; questionsAsked := 4;
       riskLevel := Some RiskLevel.MODERATE; sessionDuration := 60 |} = true
  /\ ConversationManagerImpl.shouldAskFollowUp
       (ConversationManagerImpl.new NLProcessorImpl.new)
       {| sc_symptoms := [ Sample.severeHeadache ]; questionsAsked := 5;
          riskLevel := Some RiskLevel.MODERATE; sessionDuration := 60 |} = false.
Proof.
  split.
  - refine (proj2 (proj1 (proj2 (proj2 (follow_up_policy
                                          (ConversationManagerImpl.new NLProcessorImpl.new)
                                          {| sc_symptoms := [ Sample.severeHeadache ];
                                             questionsAsked := 4;
                                             riskLevel := Some RiskLevel.MODERATE;
                                             sessionDuration := 60 |}))) _ _) eq_refl _).
    + unfold MAX_FOLLOW_UP_QUESTIONS. cbn. lia.
    + discriminate.
    + cbn. tauto.
  - refine (proj1 (follow_up_policy (ConversationManagerImpl.new NLProcessorImpl.new)
                     {| sc_symptoms := [ Sample.severeHeadache ];
                        questionsAsked := 5;
                        riskLevel := Some RiskLevel.MODERATE;
                        sessionDuration := 60 |}) _).
    unfold MAX_FOLLOW_UP_QUESTIONS. cbn. lia.
Defined.

(** X25 (follow-up questions). [generateFollowUpQuestions] returns at
    most two questions and never the same question twice; without
    symptoms it returns one question that asks for a description; with
    the templates of the constructor and random numbers in [0, 1) it
    always returns. *)
Theorem follow_up_questions_bounded
        (this : ConversationManagerImpl.t) (random1 random2 random3 random4 : Q)
        (symptoms : list SymptomEntity) :
  match ConversationManagerImpl.generateFollowUpQuestions this
          random1 random2 random3 random4 symptoms with
  | Some questions => (length questions <= 2)%nat /\ NoDup questions
  | None => True
  end
  /\ ConversationManagerImpl.generateFollowUpQuestions this
       random1 random2 random3 random4 []
     = Some [ "Could you please describe what you're feeling or experiencing?" ]
  /\ ((0 <= random1 < 1)%Q -> (0 <= random2 < 1)%Q ->
      (0 <= random3 < 1)%Q -> (0 <= random4 < 1)%Q ->
      is_Some (ConversationManagerImpl.generateFollowUpQuestions
                 (ConversationManagerImpl.new NLProcessorImpl.new)
                 random1 random2 random3 random4 symptoms)).
Proof.
  split; [|split; [reflexivity|]].
  - unfold ConversationManagerImpl.generateFollowUpQuestions.
    destruct symptoms as [|mainSymptom rest].
    + split; [cbn; lia|apply NoDup_singleton].
    + destruct (AmbiguityDetectorImpl.generateClarificationQuestions _ _ _ _ _ _ _ _);
        [|exact I].
      cbv zeta. split; [apply firstn_2_length|apply firstn_NoDup, setOf_NoDup].
  - intros H1 H2 H3 H4. unfold ConversationManagerImpl.generateFollowUpQuestions.
    destruct symptoms as [|mainSymptom rest]; [eauto|].
    assert (Hq : is_Some
                   (AmbiguityDetectorImpl.generateClarificationQuestions
                      (ConversationManagerImpl.ambiguityDetector
                         (ConversationManagerImpl.new NLProcessorImpl.new))
                      (ConversationManagerImpl.detectorTemplates
                         (ConversationManagerImpl.new NLProcessorImpl.new))
                      random1 random2 random3 random4 (symptom mainSymptom)
                      (mainSymptom :: rest))).
    { apply generateClarificationQuestions_some; try assumption.
      intros category [<-|[<-|[<-|[<-|[]]]]]; discriminate. }
    destruct Hq as [qs ->]. eauto.
Qed.

Lemma follow_up_questions_bounded_witness :
  is_Some (ConversationManagerImpl.generateFollowUpQuestions
             (ConversationManagerImpl.new NLProcessorImpl.new)
             0 0.5 0.9 0.3 [ Sample.mildCough; Sample.mildFever ]).
Proof.
  refine (proj2 (proj2 (follow_up_questions_bounded
                          (ConversationManagerImpl.new NLProcessorImpl.new)
                          0 0.5 0.9 0.3 [ Sample.mildCough; Sample.mildFever ]))
            _ _ _ _);
    split; vm_compute; congruence.
Defined.

(** ** Intent detection with context *)

Section Alternation.
Import RegExp.

Lemma matchesPrefix_unfold (r : regex) (s : string) :
  matchesPrefix r s
  = if nullable r then true
    else if isNever r then false
    else match s with
         | EmptyString => false
         | String c rest => matchesPrefix (deriv c r) rest
         end.
Proof. destruct s; reflexivity. Qed.

Lemma matchesPrefix_alternatives (s : string) :
  forall a b,
    matchesPrefix (Alt a b) s = matchesPrefix a s || matchesPrefix b s
    /\ matchesPrefix (mkAlt a b) s = matchesPrefix a s || matchesPrefix b s.
Proof.
  induction s as [|c rest IH]; intros a b.
  - assert (HA : matchesPrefix (Alt a b) "" = matchesPrefix a "" || matchesPrefix b "").
    { rewrite !matchesPrefix_unfold. cbn [nullable isNever].
      destruct (nullable a), (nullable b), (isNever a), (isNever b); reflexivity. }
    split; [exact HA|].
    destruct a; try exact HA;
      destruct b; try exact HA; cbn [mkAlt];
      rewrite ?matchesPrefix_Never, ?orb_false_r; reflexivity.
  - assert (HA : matchesPrefix (Alt a b) (String c rest)
                 = matchesPrefix a (String c rest) || matchesPrefix b (String c rest)).
    { rewrite (matchesPrefix_unfold (Alt a b)), (matchesPrefix_unfold a),
        (matchesPrefix_unfold b).
      cbn [nullable isNever deriv].
      destruct (nullable a) eqn:Na; [reflexivity|].
      destruct (nullable b) eqn:Nb; [cbn; apply eq_sym, orb_true_r|].
      cbn [orb]. rewrite (proj2 (IH (deriv c a) (deriv c b))).
      destruct a; cbn [isNever deriv]; rewrite ?matchesPrefix_Never;
        destruct b; cbn [isNever deriv]; rewrite ?matchesPrefix_Never, ?orb_false_r;
        reflexivity. }
    split; [exact HA|].
    destruct a; try exact HA;
      destruct b; try exact HA; cbn [mkAlt];
      rewrite ?matchesPrefix_Never, ?orb_false_r; reflexivity.
Qed.

Lemma matchesPrefix_alts (rs : list regex) (s : string) :
  matchesPrefix (alts rs) s = List.existsb (fun r => matchesPrefix r s) rs.
Proof.
  induction rs as [|r rest IH]; [apply matchesPrefix_Never|].
  destruct rest as [|r' rest'].
  - cbn. rewrite orb_false_r. reflexivity.
  - change (alts (r :: r' :: rest')) with (Alt r (alts (r' :: rest'))).
    rewrite (proj1 (matchesPrefix_alternatives s r (alts (r' :: rest')))), IH.
    reflexivity.
Qed.

Lemma test_unfold (r : regex) (s : string) :
  test r s
  = matchesPrefix r s
    || match s with EmptyString => false | String _ rest => test r rest end.
Proof.
  destruct s; cbn [test]; destruct (matchesPrefix r _); reflexivity.
Qed.

Lemma existsb_orb {A} (f g : A -> bool) (l : list A) :
  List.existsb (fun x => f x || g x) l = List.existsb f l || List.existsb g l.
Proof.
  induction l as [|x l IH]; [reflexivity|]. cbn. rewrite IH.
  destruct (f x), (g x), (List.existsb f l), (List.existsb g l); reflexivity.
Qed.

Lemma existsb_pointwise {A} (f g : A -> bool) (l : list A) :
  (forall x, f x = g x) -> List.existsb f l = List.existsb g l.
Proof.
  intros H. induction l as [|x l IH]; [reflexivity|]. cbn. rewrite H, IH. reflexivity.
Qed.

Lemma test_alts (rs : list regex) (s : string) :
  test (alts rs) s = List.existsb (fun r => test r s) rs.
Proof.
  induction s as [|c rest IH].
  - rewrite test_unfold, matchesPrefix_alts, orb_false_r.
    apply existsb_pointwise. intros r. rewrite test_unfold, orb_false_r. reflexivity.
  - rewrite test_unfold, matchesPrefix_alts, IH, <- existsb_orb.
    apply existsb_pointwise. intros r. rewrite (test_unfold r (String c rest)). reflexivity.
Qed.

(** [/(k1|k2|...)/i] matches a text that contains one of the phrases *)
Lemma test_oneOf (ks : list string) (s : string) :
  test (oneOf ks) s = List.existsb (JS.includesCI s) ks.
Proof.
  unfold oneOf. rewrite test_alts. induction ks as [|k ks IH]; [reflexivity|].
  cbn [List.map List.existsb]. rewrite test_lit, IH. reflexivity.
Qed.

(** [/^(k1|k2|...)/i] matches a text that starts with one of the phrases *)
Lemma matchesPrefix_oneOf (ks : list string) (s : string) :
  matchesPrefix (oneOf ks) s
  = List.existsb (fun k => JS.startsWith (JS.toLowerCase s) (JS.toLowerCase k)) ks.
Proof.
  unfold oneOf. rewrite matchesPrefix_alts. induction ks as [|k ks IH]; [reflexivity|].
  cbn [List.map List.existsb]. rewrite matchesPrefix_lit, IH. reflexivity.
Qed.

End Alternation.

Section ContextIntent.
Import IntentDetectorImpl.

Lemma isAnsweringQuestion_phrases (text : string) :
  isAnsweringQuestion text
  = List.existsb (fun k => JS.startsWith (JS.toLowerCase text) (JS.toLowerCase k))
      [ "yes"; "no"; "maybe"; "i think"; "probably";
        "it's"; "it is"; "the pain is"; "it feels";
        "since"; "for"; "about"; "around";
        "mild"; "moderate"; "severe"; "bad"; "terrible" ].
Proof.
  unfold isAnsweringQuestion, answerPatterns. cbn [List.existsb].
  rewrite !matchesPrefix_oneOf. cbn [List.existsb].
  rewrite !orb_false_r, !orb_assoc. reflexivity.
Qed.

Lemma isConfirmationResponse_phrases (text : string) :
  isConfirmationResponse text
  = List.existsb (JS.includesCI text)
      [ "yes"; "yeah"; "correct"; "right"; "exactly";
        "no"; "not really"; "that's not right";
        "can you repeat"; "what do you mean"; "i don't understand" ].
Proof.
  unfold isConfirmationResponse, RegExp.anyTest, confirmationPatterns. cbn [List.existsb].
  rewrite !test_oneOf. cbn [List.existsb].
  rewrite !orb_false_r, !orb_assoc. reflexivity.
Qed.

Lemma isSeekingHelp_phrases (text : string) :
  isSeekingHelp text
  = List.existsb (JS.includesCI text)
      [ "what should i do"; "what do you recommend"; "help me";
        "is this serious"; "should i be worried"; "do i need";
        "what could this be"; "what might cause" ].
Proof.
  unfold isSeekingHelp, RegExp.anyTest, helpPatterns. cbn [List.existsb].
  rewrite !test_oneOf. cbn [List.existsb].
  rewrite !orb_false_r, !orb_assoc. reflexivity.
Qed.

End ContextIntent.

(** X26 (the intent refined by the context). [detectIntent] with a
    conversation context keeps that context as its history. The intent
    is describe_symptoms when a message of the context contains a
    question mark and the normalized text starts with one of the
    eighteen answer openers; otherwise ask_clarification when the text
    contains one of the eleven confirmation phrases; otherwise
    request_help when it contains one of the eight help phrases;
    otherwise the intent of the language processor. So with a context
    without question mark every text that contains "no" or "yes"
    anywhere, inside a word too, is a request for clarification. *)
Theorem refined_intent_priority
        (this : IntentDetectorImpl.t) (text : string) (context : list string) :
  let normalizedText := JS.trim (JS.toLowerCase text) in
  IntentDetectorImpl.contextHistory
    (fst (IntentDetectorImpl.detectIntent this text (Some context))) = context
  /\ snd (IntentDetectorImpl.detectIntent this text (Some context))
     = (if List.existsb (fun msg => JS.includes msg "?") context
           && List.existsb
                (fun k => JS.startsWith (JS.toLowerCase normalizedText) (JS.toLowerCase k))
                [ "yes"; "no"; "maybe"; "i think"; "probably";
                  "it's"; "it is"; "the pain is"; "it feels";
                  "since"; "for"; "about"; "around";
                  "mild"; "moderate"; "severe"; "bad"; "terrible" ]
        then UserIntent.DESCRIBE_SYMPTOMS
        else if List.existsb (JS.includesCI normalizedText)
                  [ "yes"; "yeah"; "correct"; "right"; "exactly";
                    "no"; "not really"; "that's not right";
                    "can you repeat"; "what do you mean"; "i don't understand" ]
        then UserIntent.ASK_CLARIFICATION
        else if List.existsb (JS.includesCI normalizedText)
                  [ "what should i do"; "what do you recommend"; "help me";
                    "is this serious"; "should i be worried"; "do i need";
                    "what could this be"; "what might cause" ]
        then UserIntent.REQUEST_HELP
        else NLProcessorImpl.detectIntent (IntentDetectorImpl.nlProcessor this) text)
  /\ ((forall msg, In msg context -> JS.includes msg "?" = false) ->
      (JS.includes normalizedText "no" || JS.includes normalizedText "yes") = true ->
      snd (IntentDetectorImpl.detectIntent this text (Some context))
      = UserIntent.ASK_CLARIFICATION).
Proof.
  intros normalizedText.
  assert (Hintent :
            snd (IntentDetectorImpl.detectIntent this text (Some context))
            = (if List.existsb (fun msg => JS.includes msg "?") context
                  && IntentDetectorImpl.isAnsweringQuestion normalizedText
               then UserIntent.DESCRIBE_SYMPTOMS
               else if IntentDetectorImpl.isConfirmationResponse normalizedText
               then UserIntent.ASK_CLARIFICATION
               else if IntentDetectorImpl.isSeekingHelp normalizedText
               then UserIntent.REQUEST_HELP
               else NLProcessorImpl.detectIntent (IntentDetectorImpl.nlProcessor this) text))
    by reflexivity.
  split; [reflexivity|]. split.
  - rewrite Hintent, isAnsweringQuestion_phrases, isConfirmationResponse_phrases,
      isSeekingHelp_phrases. reflexivity.
  - intros Hctx Hword. rewrite Hintent.
    assert (Hq : List.existsb (fun msg => JS.includes msg "?") context = false).
    { apply not_true_is_false. intros H. apply List.existsb_exists in H.
      destruct H as (msg & Hin & Hinc). rewrite (Hctx msg Hin) in Hinc. discriminate. }
    rewrite Hq. cbn [andb].
    assert (Hc : IntentDetectorImpl.isConfirmationResponse normalizedText = true).
    { rewrite isConfirmationResponse_phrases. apply List.existsb_exists.
      apply orb_true_iff in Hword. destruct Hword as [H|H].
      - exists "no". split; [cbn; tauto|]. exact (includes_toLowerCase _ _ H).
      - exists "yes". split; [cbn; tauto|]. exact (includes_toLowerCase _ _ H). }
    rewrite Hc. reflexivity.
Qed.

Lemma refined_intent_priority_witness :
  snd (IntentDetectorImpl.detectIntent (IntentDetectorImpl.new NLProcessorImpl.new)
         "I have a runny nose" (Some [ "Session started" ]))
  = UserIntent.ASK_CLARIFICATION
  /\ NLProcessorImpl.detectIntent NLProcessorImpl.new "I have a runny nose"
     = UserIntent.DESCRIBE_SYMPTOMS.
Proof.
  split.
  - refine (proj2 (proj2 (refined_intent_priority
                            (IntentDetectorImpl.new NLProcessorImpl.new)
                            "I have a runny nose" [ "Session started" ])) _ _).
    + intros msg [<-|[]]. vm_compute. reflexivity.
    + vm_compute. reflexivity.
  - vm_compute. reflexivity.
Defined.

(** X27 (the context window). After [updateContext] the history ends
    with the new message, is the end of the former history followed by
    the message, and has at most five entries, however long the history
    was; [clearContext] empties it. *)
Theorem context_window (this : IntentDetectorImpl.t) (message : string) :
  let history :=
    IntentDetectorImpl.getContext (IntentDetectorImpl.updateContext this message) in
  (exists dropped,
      (IntentDetectorImpl.contextHistory this ++ [ message ])%list
      = (dropped ++ history)%list)
  /\ (exists before, history = (before ++ [ message ])%list)
  /\ length history = Nat.min (S (length (IntentDetectorImpl.contextHistory this))) 5
  /\ IntentDetectorImpl.getContext
       (IntentDetectorImpl.clearContext (IntentDetectorImpl.updateContext this message))
     = [].
Proof.
  intros history. unfold history, IntentDetectorImpl.getContext,
    IntentDetectorImpl.updateContext, JS.lastn.
  cbn [IntentDetectorImpl.contextHistory].
  set (h := IntentDetectorImpl.contextHistory this).
  assert (Hlen : length (h ++ [ message ])%list = S (length h))
    by (rewrite List.length_app; cbn; lia).
  rewrite Hlen.
  destruct (5 <? S (length h))%nat eqn:E.
  - apply Nat.ltb_lt in E. split; [|split; [|split]].
    + exists (List.firstn (S (length h) - 5) (h ++ [ message ])%list).
      symmetry. apply List.firstn_skipn.
    + rewrite List.skipn_app.
      assert (S (length h) - 5 - length h = 0)%nat as -> by lia.
      cbn [List.skipn]. eauto.
    + rewrite List.length_skipn, Hlen. lia.
    + reflexivity.
  - apply Nat.ltb_ge in E. split; [|split; [|split]].
    + exists []. reflexivity.
    + eauto.
    + rewrite Hlen. lia.
    + reflexivity.
Qed.

(** ** The response that is spoken *)

Section Prefixes.

Lemma append_assoc (a b c : string) : (a ++ b) ++ c = a ++ (b ++ c).
Proof.
  induction a as [|x a IH]; [reflexivity|]. rewrite !append_cons, IH. reflexivity.
Qed.

Lemma append_nil_l (a : string) : "" ++ a = a.
Proof. reflexivity. Qed.

Lemma clash_startsWith (a b rest : string) :
  Scan.clash a b = true -> JS.startsWith (a ++ rest) b = false.
Proof.
  revert b. induction a as [|x a IH]; intros b H; [discriminate|].
  destruct b as [|y b]; [discriminate|]. cbn [Scan.clash] in H.
  rewrite append_cons. apply not_true_is_false. intros Hs.
  apply startsWith_cons in Hs. destruct Hs as [-> Hs].
  rewrite Ascii.eqb_refl in H. rewrite (IH b H) in Hs. discriminate.
Qed.

Lemma untouchedBy_go (k by_ s : string) :
  Scan.untouchedBy k s = true ->
  forall fuel rest,
    (String.length s <= fuel)%nat ->
    JS.replaceAllCI_go fuel (s ++ rest) k by_
    = s ++ JS.replaceAllCI_go (fuel - String.length s) rest k by_.
Proof.
  induction s as [|c s IH]; intros H fuel rest Hfuel.
  - rewrite append_nil_l. cbn [String.length]. rewrite Nat.sub_0_r. reflexivity.
  - cbn [Scan.untouchedBy] in H. apply andb_true_iff in H. destruct H as [Hc Hs].
    destruct fuel as [|fuel]; [cbn in Hfuel; lia|].
    rewrite append_cons. cbn [JS.replaceAllCI_go].
    rewrite <- append_cons, toLowerCase_append, (clash_startsWith _ _ _ Hc).
    rewrite append_cons. f_equal.
    rewrite (IH Hs fuel rest) by (cbn in Hfuel; lia). reflexivity.
Qed.

Lemma replaceAllCI_prefix (k by_ s rest : string) :
  Scan.untouchedBy k s = true ->
  exists rest', JS.replaceAllCI (s ++ rest) k by_ = s ++ rest'.
Proof.
  intros H. unfold JS.replaceAllCI. destruct k as [|x k]; [eauto|].
  rewrite (untouchedBy_go _ by_ s H) by (rewrite length_append; lia). eauto.
Qed.

Lemma wordRun_split (s : string) :
  s = fst (JS.wordRun s) ++ snd (JS.wordRun s).
Proof.
  induction s as [|c s IH]; [reflexivity|]. cbn [JS.wordRun].
  destruct (JS.isWord c); [|reflexivity].
  destruct (JS.wordRun s) as [w rest]. cbn [fst snd] in *.
  rewrite append_cons. f_equal. exact IH.
Qed.

Lemma wordRun_append (s rest : string) (w : string) (d : ascii) (r : string) :
  JS.wordRun s = (w, String d r) ->
  JS.wordRun (s ++ rest) = (w, String d r ++ rest).
Proof.
  revert w. induction s as [|c s IH]; intros w H; [discriminate|].
  rewrite append_cons. cbn [JS.wordRun] in *.
  destruct (JS.isWord c).
  - destruct (JS.wordRun s) as [w' r'] eqn:E. inversion H; subst.
    rewrite (IH w' eq_refl). reflexivity.
  - inversion H; subst. rewrite <- append_cons. reflexivity.
Qed.

Lemma wordsKept_go (accepts : string -> bool) (by_ : string) (fuel : nat) :
  forall s,
    Scan.wordsKept fuel accepts s = true ->
    forall fuel2 rest,
      (String.length (s ++ rest) <= fuel2)%nat ->
      exists fuel3,
        (String.length rest <= fuel3)%nat
        /\ JS.replaceWords_go fuel2 accepts (s ++ rest) by_
           = s ++ JS.replaceWords_go fuel3 accepts rest by_.
Proof.
  induction fuel as [|fuel IH]; intros s H fuel2 rest Hfuel; [discriminate|].
  destruct s as [|c s].
  - exists fuel2. split; [exact Hfuel|reflexivity].
  - cbn [Scan.wordsKept] in H. rewrite append_cons in *.
    destruct fuel2 as [|fuel2]; [cbn in Hfuel; lia|].
    cbn [JS.replaceWords_go]. destruct (JS.isWord c) eqn:Ec.
    + destruct (JS.wordRun (String c s)) as [w r] eqn:Er.
      apply andb_true_iff in H. destruct H as [H Hk].
      apply andb_true_iff in H. destruct H as [Ha Hr].
      destruct r as [|d r]; [discriminate|].
      pose proof (wordRun_split (String c s)) as Hsplit. rewrite Er in Hsplit.
      cbn [fst snd] in Hsplit.
      assert (Hw : (1 <= String.length w)%nat).
      { cbn [JS.wordRun] in Er. rewrite Ec in Er.
        destruct (JS.wordRun s) as [w' r']. inversion Er. cbn. lia. }
      rewrite <- append_cons, (wordRun_append _ rest w d r Er).
      apply negb_true_iff in Ha. rewrite Ha.
      destruct (IH (String d r) Hk fuel2 rest) as (fuel3 & Hf3 & Heq).
      { rewrite <- append_cons, Hsplit, append_assoc, length_append in Hfuel.
        cbn [String.length] in Hfuel. lia. }
      exists fuel3. split; [exact Hf3|].
      rewrite Heq, Hsplit, append_assoc. reflexivity.
    + destruct (IH s H fuel2 rest) as (fuel3 & Hf3 & Heq);
        [cbn [String.length] in Hfuel; lia|].
      exists fuel3. split; [exact Hf3|]. rewrite Heq. reflexivity.
Qed.

Lemma replaceWords_prefix (accepts : string -> bool) (by_ s rest : string) :
  Scan.wordsKept (String.length s) accepts s = true ->
  exists rest', JS.replaceWords accepts (s ++ rest) by_ = s ++ rest'.
Proof.
  intros H. unfold JS.replaceWords.
  destruct (wordsKept_go accepts by_ _ s H (String.length (s ++ rest)) rest (le_n _))
    as (fuel3 & _ & ->).
  eauto.
Qed.

Lemma fold_left_prefix {A} (f : string -> A -> string) (l : list A) (s : string) :
  (forall x rest, In x l -> exists rest', f (s ++ rest) x = s ++ rest') ->
  forall rest, exists rest', List.fold_left f l (s ++ rest) = s ++ rest'.
Proof.
  induction l as [|x l IH]; intros H rest; [eauto|].
  cbn [List.fold_left]. destruct (H x rest (or_introl eq_refl)) as (rest1 & ->).
  apply IH. intros y rest2 Hy. apply H. right. exact Hy.
Qed.

(** a text whose beginning no replacement touches keeps that beginning
    through [filterProhibitedContent] *)
Lemma filterProhibitedContent_prefix (s rest : string) :
  List.forallb (fun '(k, _) => Scan.untouchedBy k s) SafetyGuardianImpl.replacements
  && List.forallb (fun accepts => Scan.wordsKept (String.length s) accepts s)
                  SafetyGuardianImpl.medicationPatterns = true ->
  exists rest', SafetyGuardianImpl.filterProhibitedContent (s ++ rest) = s ++ rest'.
Proof.
  intros H. apply andb_true_iff in H. destruct H as [H1 H2].
  unfold SafetyGuardianImpl.filterProhibitedContent. cbv zeta.
  destruct (fold_left_prefix
              (fun acc '(prohibited, replacement) =>
                 JS.replaceAllCI acc prohibited replacement)
              SafetyGuardianImpl.replacements s) with (rest := rest) as (rest1 & ->).
  { intros [k by_] r Hin. apply replaceAllCI_prefix.
    exact (proj1 (List.forallb_forall _ _) H1 (k, by_) Hin). }
  apply fold_left_prefix. intros accepts r Hin. apply replaceWords_prefix.
  exact (proj1 (List.forallb_forall _ _) H2 accepts Hin).
Qed.

End Prefixes.

Section Spoken.
Import ResponseGeneratorImpl.

Lemma confidenceLevel_cases (a : RiskAssessment) :
  confidenceLevel a = "high" \/ confidenceLevel a = "moderate" \/ confidenceLevel a = "low".
Proof.
  unfold confidenceLevel.
  destruct (Num.Qltb 0.8 (ra_confidence a)); [auto|].
  destruct (Num.Qltb 0.5 (ra_confidence a)); auto.
Qed.

(** the response begins with the summary and a blank *)
Lemma generateResponse_shape (this : t) (random : Q) (a : RiskAssessment) :
  exists rest,
    generateResponse this random a = (generateAssessmentSummary a ++ " ") ++ rest.
Proof.
  unfold generateResponse. cbv zeta. rewrite append_nil_l.
  destruct (level a); rewrite append_assoc; eauto.
Qed.

(** the summary holds a prohibited term, and no replacement of
    [filterProhibitedContent] reaches into it *)
Lemma summary_kept (a : RiskAssessment) :
  let summary := generateAssessmentSummary a ++ " " in
  (List.forallb (fun '(k, _) => Scan.untouchedBy k summary)
                SafetyGuardianImpl.replacements
   && List.forallb (fun accepts => Scan.wordsKept (String.length summary) accepts summary)
                   SafetyGuardianImpl.medicationPatterns = true)
  /\ (JS.includes (JS.toLowerCase summary) "condition"
      || JS.includes (JS.toLowerCase summary) "heal") = true.
Proof.
  unfold generateAssessmentSummary.
  destruct (confidenceLevel_cases a) as [->|[->| ->]];
    destruct (level a); vm_compute; split; reflexivity.
Qed.

End Spoken.

(** X28 (the generated response is never the one that is returned).
    For a guardian whose prohibited terms include "condition" and
    "heal", as those of the constructor do, the text that
    [generateResponse] builds for an assessment never passes
    [validateResponse]: its summary sentence holds one of these terms
    and no replacement of [filterProhibitedContent] reaches it. So
    [generateSafeResponse] answers with the fallback text of the
    assessment's level, whatever the templates, the recommendations
    and the random choices are. *)
Theorem generated_response_is_replaced
        (guardian : SafetyGuardianImpl.t) (generator : ResponseGeneratorImpl.t)
        (random random1 random2 : Q) (assessment : RiskAssessment) :
  In "condition" (SafetyGuardianImpl.prohibitedTerms guardian) ->
  In "heal" (SafetyGuardianImpl.prohibitedTerms guardian) ->
  let response := ResponseGeneratorImpl.generateResponse generator random assessment in
  SafetyGuardianImpl.isValid
    (SafetyGuardianImpl.validateResponse guardian
       (SafetyGuardianImpl.addMedicalDisclaimer random1
          (SafetyGuardianImpl.filterProhibitedContent response))) = false
  /\ SafetyGuardianImpl.generateSafeResponse guardian random1 random2 response assessment
     = SafetyGuardianImpl.addMedicalDisclaimer random2
         (SafetyGuardianImpl.fallbackTemplate (level assessment)).
Proof.
  intros Hcondition Hheal response.
  destruct (generateResponse_shape generator random assessment) as (rest & Hshape).
  destruct (summary_kept assessment) as [Hkept Hterm]. cbv zeta in Hkept, Hterm.
  destruct (filterProhibitedContent_prefix _ rest Hkept) as (rest1 & Hfilter).
  assert (Hadd : exists rest2,
             SafetyGuardianImpl.addMedicalDisclaimer random1
               (SafetyGuardianImpl.filterProhibitedContent response)
             = (ResponseGeneratorImpl.generateAssessmentSummary assessment ++ " ") ++ rest2).
  { unfold response. rewrite Hshape, Hfilter.
    unfold SafetyGuardianImpl.addMedicalDisclaimer. cbv zeta.
    destruct (SafetyGuardianImpl.hasDisclaimerFragment _); [eauto|].
    rewrite append_assoc. eauto. }
  destruct Hadd as (rest2 & Hadd).
  assert (Hviol : exists term,
             In term (SafetyGuardianImpl.prohibitedTerms guardian)
             /\ JS.includes
                  (JS.toLowerCase
                     (SafetyGuardianImpl.addMedicalDisclaimer random1
                        (SafetyGuardianImpl.filterProhibitedContent response)))
                  (JS.toLowerCase term) = true).
  { rewrite Hadd, toLowerCase_append.
    apply orb_true_iff in Hterm. destruct Hterm as [H|H].
    - exists "condition". split; [exact Hcondition|]. apply includes_append_l. exact H.
    - exists "heal". split; [exact Hheal|]. apply includes_append_l. exact H. }
  assert (Hinvalid : SafetyGuardianImpl.isValid
                       (SafetyGuardianImpl.validateResponse guardian
                          (SafetyGuardianImpl.addMedicalDisclaimer random1
                             (SafetyGuardianImpl.filterProhibitedContent response)))
                     = false).
  { destruct Hviol as (term & Hin & Hinc).
    rewrite validateResponse_isValid, violations_eq.
    assert (Hv : In ("Contains prohibited medical term: " ++ term)
                    (SafetyGuardianImpl.termViolations guardian
                       (JS.toLowerCase
                          (SafetyGuardianImpl.addMedicalDisclaimer random1
                             (SafetyGuardianImpl.filterProhibitedContent response)))))
      by (apply termViolations_In; eauto).
    destruct (SafetyGuardianImpl.termViolations guardian _); [destruct Hv|reflexivity]. }
  split; [exact Hinvalid|].
  unfold SafetyGuardianImpl.generateSafeResponse. cbv zeta. fold response.
  rewrite Hinvalid. reflexivity.
Qed.

Lemma generated_response_is_replaced_witness :
  SafetyGuardianImpl.generateSafeResponse SafetyGuardianImpl.new 0 0
    (ResponseGeneratorImpl.generateResponse ResponseGeneratorImpl.new 0
       Sample.emergencyAssessment)
    Sample.emergencyAssessment
  = SafetyGuardianImpl.addMedicalDisclaimer 0
      (SafetyGuardianImpl.fallbackTemplate RiskLevel.EMERGENCY).
Proof.
  refine (proj2 (generated_response_is_replaced SafetyGuardianImpl.new
                   ResponseGeneratorImpl.new 0 0 0 Sample.emergencyAssessment _ _));
    vm_compute; tauto.
Defined.

(** ** The detailed analysis and the length of the dialogue *)

Section Detailed.
Import RiskClassifierImpl.
Local Open Scope Q_scope.

Variable this : t.

Lemma filter_head_find {A} (f : A -> bool) (l : list A) :
  List.head (List.filter f l) = List.find f l.
Proof.
  induction l as [|x l IH]; [reflexivity|]. cbn. destruct (f x); [reflexivity|exact IH].
Qed.

(** the first emergency flag is the keyword that the scan finds *)
Lemma emergencyFlags_head (symptoms : list SymptomEntity) :
  List.head (emergencyFlags (getDetailedRiskAnalysis this symptoms))
  = emergencyKeywordScan this symptoms.
Proof.
  unfold getDetailedRiskAnalysis. cbn [emergencyFlags].
  induction symptoms as [|s rest IH]; [reflexivity|].
  cbn [List.flat_map emergencyKeywordScan]. unfold emergencyKeywordIn.
  rewrite <- filter_head_find.
  destruct (List.filter _ (emergencyKeywords this)) as [|k ks]; [exact IH|reflexivity].
Qed.

Lemma matchedRules_nil (symptoms : list SymptomEntity) (rules : list RiskRule) :
  List.flat_map (matchedRule symptoms) rules = []
  <-> forall rule score,
      In rule rules -> calculateRuleMatch symptoms rule = Some score -> score <= 0.5.
Proof.
  induction rules as [|rule rules IH].
  - split; [intros _ ? ? []|reflexivity].
  - cbn [List.flat_map]. split.
    + intros H. apply List.app_eq_nil in H. destruct H as [H1 H2].
      intros rule' score [<-|Hin] E.
      * unfold matchedRule in H1. rewrite E in H1.
        destruct (Num.Qltb 0.5 score) eqn:Eq; [discriminate|].
        apply Qltb_ge. exact Eq.
      * exact (proj1 IH H2 rule' score Hin E).
    + intros H.
      assert (H1 : matchedRule symptoms rule = []).
      { unfold matchedRule.
        destruct (calculateRuleMatch symptoms rule) as [score|] eqn:E; [|reflexivity].
        pose proof (H rule score (or_introl eq_refl) E) as Hle.
        apply Qltb_ge in Hle. rewrite Hle. reflexivity. }
      rewrite H1. apply IH. intros rule' score Hin. apply H. right. exact Hin.
Qed.

End Detailed.

(** X29 (the detailed analysis agrees with the assessment). The
    assessment in [getDetailedRiskAnalysis] is that of [classifyRisk].
    When there are emergency flags, the assessment is the keyword
    emergency of confidence 0.95 and its reasoning names the first
    flag. There are no matched rules exactly when the rule stage
    applies no rule, and there are never more matched rules than
    rules. *)
Theorem detailed_analysis_agrees
        (this : RiskClassifierImpl.t) (symptoms : list SymptomEntity) :
  let analysis := RiskClassifierImpl.getDetailedRiskAnalysis this symptoms in
  RiskClassifierImpl.assessment analysis = RiskClassifierImpl.classifyRisk this symptoms
  /\ (forall flag flags,
         RiskClassifierImpl.emergencyFlags analysis = flag :: flags ->
         RiskClassifierImpl.classifyRisk this symptoms
         = {| level := RiskLevel.EMERGENCY;
              ra_confidence := 0.95%Q;
              reasoning := [ "Emergency keyword detected: " ++ flag ];
              recommendations := [ "Contact emergency services immediately";
                                   "Do not delay seeking medical attention" ] |})
  /\ (RiskClassifierImpl.matchedRules analysis = []
      <-> RiskClassifierImpl.applyRiskRules this symptoms = None)
  /\ (length (RiskClassifierImpl.matchedRules analysis)
      <= length (RiskClassifierImpl.riskRules this))%nat.
Proof.
  intros analysis. split; [reflexivity|]. split; [|split].
  - intros flag flags Hflags.
    pose proof (emergencyFlags_head this symptoms) as Hhead.
    fold analysis in Hhead. rewrite Hflags in Hhead. cbn [List.head] in Hhead.
    exact (emergencyKeywordScan_classify this symptoms flag (eq_sym Hhead)).
  - unfold analysis, RiskClassifierImpl.getDetailedRiskAnalysis.
    cbn [RiskClassifierImpl.matchedRules]. rewrite matchedRules_nil.
    unfold RiskClassifierImpl.applyRiskRules, RiskClassifierImpl.bestMatchOf.
    destruct (bestMatch_fold symptoms (RiskClassifierImpl.riskRules this) None I)
      as (Hw & _ & Hcov & Hfrom).
    destruct (List.fold_left (RiskClassifierImpl.bestMatchStep symptoms)
                             (RiskClassifierImpl.riskRules this) None)
      as [[rule m]|] eqn:E.
    + split; [|discriminate]. intros Hall. exfalso.
      destruct Hfrom as [?|(rule' & m' & Hin & Heq)]; [discriminate|].
      inversion Heq; subst rule' m'. destruct Hw as [Hscore Hgt].
      pose proof (Hall rule m Hin Hscore). lra.
    + split; [reflexivity|]. intros _ rule score Hin Hscore.
      exact (Hcov rule score Hin Hscore).
  - unfold analysis, RiskClassifierImpl.getDetailedRiskAnalysis.
    cbn [RiskClassifierImpl.matchedRules].
    induction (RiskClassifierImpl.riskRules this) as [|rule rules IH]; [cbn; lia|].
    cbn [List.flat_map]. rewrite List.length_app. cbn [length].
    assert (length (RiskClassifierImpl.matchedRule symptoms rule) <= 1)%nat.
    { unfold RiskClassifierImpl.matchedRule.
      destruct (RiskClassifierImpl.calculateRuleMatch symptoms rule) as [score|];
        [destruct (Num.Qltb 0.5 score)|]; cbn; lia. }
    lia.
Qed.

Section Dialogue.
Import SessionControllerImpl.

(** the history after a series of conversation turns *)
Lemma addConversationTurns_live (turns : list ConversationTurn) :
  forall (st : State) (sessionId : string) ref session,
    getSession st sessionId = Some (ref, session) ->
    exists session',
      getSession (List.fold_left (fun st turn => fst (addConversationTurn sessionId turn st))
                                 turns st) sessionId
      = Some (ref, session')
      /\ conversationHistory session' = (conversationHistory session ++ turns)%list
      /\ hs_symptoms session' = hs_symptoms session
      /\ riskAssessment session' = riskAssessment session
      /\ startTime session' = startTime session.
Proof.
  induction turns as [|turn turns IH]; intros st sessionId ref session E.
  - exists session. rewrite List.app_nil_r. auto.
  - cbn [List.fold_left].
    destruct (addConversationTurn_live st sessionId turn ref session E) as [_ E1].
    destruct (IH _ sessionId ref _ E1) as (session' & E2 & Hh & Hs & Hr & Ht).
    exists session'. split; [exact E2|].
    cbn [conversationHistory hs_symptoms riskAssessment startTime] in *.
    rewrite Hh, <- List.app_assoc. auto.
Qed.

End Dialogue.

(** X30 (the questioning ends). When follow-up questions are recorded
    in a live session as turns of type [clarification_question], the
    number of questions that [getSessionContext] reports grows by their
    number; once it reaches [MAX_FOLLOW_UP_QUESTIONS],
    [shouldAskFollowUp] on that context is false, for every
    conversation manager and whatever the symptoms are. *)
Theorem questioning_ends
        (st : SessionControllerImpl.State) (sessionId : string) (later : Z)
        (ref : nat) (session : HealthSession) (questions : list ConversationTurn)
        (manager : ConversationManagerImpl.t) :
  SessionControllerImpl.getSession st sessionId = Some (ref, session) ->
  (forall turn, In turn questions -> turnType turn = clarification_question) ->
  let asked :=
    length (List.filter SessionControllerImpl.isClarificationQuestion
                        (conversationHistory session)) in
  let st' :=
    List.fold_left
      (fun st turn => fst (SessionControllerImpl.addConversationTurn sessionId turn st))
      questions st in
  exists context,
    snd (SessionControllerImpl.getSessionContext sessionId later st')
    = SessionControllerImpl.Return context
    /\ questionsAsked context = (asked + length questions)%nat
    /\ sc_symptoms context = hs_symptoms session
    /\ ((MAX_FOLLOW_UP_QUESTIONS <= asked + length questions)%nat ->
        ConversationManagerImpl.shouldAskFollowUp manager context = false).
Proof.
  intros E Hq asked st'.
  destruct (addConversationTurns_live questions st sessionId ref session E)
    as (session' & E' & Hh & Hs & Hr & Ht).
  fold st' in E'.
  unfold SessionControllerImpl.getSessionContext. rewrite E'. cbn [snd].
  eexists. split; [reflexivity|].
  cbn [questionsAsked sc_symptoms].
  assert (Hcount : length (List.filter SessionControllerImpl.isClarificationQuestion
                                       (conversationHistory session'))
                   = (asked + length questions)%nat).
  { rewrite Hh, List.filter_app, List.length_app. unfold asked. f_equal.
    clear -Hq. induction questions as [|turn questions IH]; [reflexivity|].
    cbn [List.filter]. unfold SessionControllerImpl.isClarificationQuestion at 1.
    rewrite (Hq turn (or_introl eq_refl)). cbn [length]. f_equal.
    apply IH. intros t Ht. apply Hq. right. exact Ht. }
  split; [exact Hcount|]. split; [exact Hs|].
  intros Hmax. unfold ConversationManagerImpl.shouldAskFollowUp.
  cbn [questionsAsked]. rewrite Hcount.
  apply Nat.leb_le in Hmax. rewrite Hmax. reflexivity.
Qed.

Lemma questioning_ends_witness :
  exists context,
    snd (SessionControllerImpl.getSessionContext "session-1" 9000
           (List.fold_left
              (fun st turn =>
                 fst (SessionControllerImpl.addConversationTurn "session-1" turn st))
              (List.repeat {| timestamp := 3000; turnType := clarification_question;
                              content := "How long have you had this cough?";
                              processedSymptoms := None |} 5)
              Sample.liveState))
    = SessionControllerImpl.Return context
    /\ questionsAsked context = 5%nat.
Proof.
  destruct (questioning_ends Sample.liveState "session-1" 9000 0
              {| hs_id := "session-1"; startTime := 1000; endTime := None;
                 hs_symptoms := [ Sample.mildCough ];
                 riskAssessment := None;
                 conversationHistory :=
                   [ {| timestamp := 1000; turnType := system_response;
                        content := "Session started"; processedSymptoms := None |};
                     {| timestamp := 2000; turnType := user_input;
                        content := "Added symptoms: cough";
                        processedSymptoms := Some [ Sample.mildCough ] |} ];
                 status := SessionStatus.ACTIVE |}
              (List.repeat {| timestamp := 3000; turnType := clarification_question;
                              content := "How long have you had this cough?";
                              processedSymptoms := None |} 5)
              (ConversationManagerImpl.new NLProcessorImpl.new))
    as (context & Hc & Hn & _).
  - vm_compute. reflexivity.
  - intros turn Hin. apply List.repeat_spec in Hin. subst turn. reflexivity.
  - exists context. split; [exact Hc|exact Hn].
Defined.
